(** * Saved-objects repository: a shallow embedding

    The development follows [SavedObjectsRepository] (the saved-object
    persistence layer): every repository method becomes a computation in a
    small state-and-exception monad whose state carries the document store
    and the trace of the store requests issued so far.  The collaborators
    the repository is constructed with (type registry, serializer, migrator,
    version codec, search-DSL builder and the store client) are fields of one
    record, [Deps], over which all definitions and theorems are stated. *)

From Stdlib Require Import ZArith Ascii String List Bool Lia.
From stdpp Require Import base list option strings numbers pretty.
Import ListNotations.

Set Default Proof Using "Type".
Local Open Scope string_scope.

(** ** JavaScript values *)

(** Dynamically typed payloads (attribute bags, counter-field arguments,
    cursors) are kept as JavaScript values. *)
#[local] Unset Elimination Schemes.
Inductive JsValue : Type :=
| JUndefined
| JNull
| JBool (b : bool)
| JNum (n : Z)
| JStr (s : string)
| JArr (elems : list JsValue)
| JObj (fields : list (string * JsValue)).
#[local] Set Elimination Schemes.

(** [o.key]: the first binding wins in this representation. *)
Fixpoint js_field (fields : list (string * JsValue)) (key : string) : JsValue :=
  match fields with
  | [] => JUndefined
  | (k, v) :: rest => if String.eqb k key then v else js_field rest key
  end.

Definition js_get (v : JsValue) (key : string) : JsValue :=
  match v with
  | JObj fields => js_field fields key
  | _ => JUndefined
  end.

(** [typeof v === 'string'] *)
Definition js_is_string (v : JsValue) : bool :=
  match v with JStr _ => true | _ => false end.

(** lodash [isObject]: objects and arrays, not [null] and not primitives. *)
Definition isObject (v : JsValue) : bool :=
  match v with JObj _ | JArr _ => true | _ => false end.

(** The double-quote character, for the message texts. *)
Definition dq : string := String (Ascii.ascii_of_nat 34) EmptyString.

(** Truthiness of a string and of an optional string. *)
Definition truthy (s : string) : bool := negb (String.eqb s EmptyString).

Definition truthy_opt (o : option string) : bool :=
  match o with Some s => truthy s | None => false end.

(** [cond && { key: value }] inside an object spread: the key is present
    only when the optional string is truthy. *)
Definition spread_str (o : option string) : option string :=
  if truthy_opt o then o else None.

Definition includes (l : list string) (x : string) : bool :=
  existsb (String.eqb x) l.

(** ** Errors *)

Inductive ErrorKind : Type :=
| UnsupportedType
| NotFound
| Conflict
| BadRequest
| InternalError.

(** The decorated errors built by [SavedObjectsErrorHelpers], plain
    JavaScript [Error]/[TypeError] values, and the (already decorated)
    errors thrown by the repository's store client. *)
Inductive DecoratedError : Type :=
| UnsupportedTypeError (type : string)
| GenericNotFoundError (type id : option string)
| ConflictError (type id : string) (reason : option string)
| BadRequestError (message : string)
| PlainError (message : string)
| StoreError (kind : ErrorKind) (message : string).

Definition error_kind (e : DecoratedError) : ErrorKind :=
  match e with
  | UnsupportedTypeError _ => UnsupportedType
  | GenericNotFoundError _ _ => NotFound
  | ConflictError _ _ _ => Conflict
  | BadRequestError _ => BadRequest
  | PlainError _ => InternalError
  | StoreError k _ => k
  end.

Definition ErrorKind_eqb (a b : ErrorKind) : bool :=
  match a, b with
  | UnsupportedType, UnsupportedType | NotFound, NotFound
  | Conflict, Conflict | BadRequest, BadRequest
  | InternalError, InternalError => true
  | _, _ => false
  end.

(** [SavedObjectsErrorHelpers.isNotFoundError] *)
Definition isNotFoundError (e : DecoratedError) : bool :=
  ErrorKind_eqb (error_kind e) NotFound.

(** [errorContent(error)] is [error.output.payload]; a bulk slot may add
    [metadata: { isNotOverwritable: true }] to it. *)
Record ErrorPayload : Type := mkPayload {
  ep_error : DecoratedError;
  ep_isNotOverwritable : bool
}.

Definition errorContent (e : DecoratedError) : ErrorPayload :=
  mkPayload e false.

(** ** Documents *)

Record SavedObjectReference : Type := mkRef {
  ref_name : string;
  ref_type : string;
  ref_id : string
}.

Record LegacyUrlAlias : Type := mkAlias {
  targetId : string;
  disabled : option bool
}.

(** [SavedObjectsRawDocSource]: the attribute bag lives under the key
    named after the type; a legacy-URL-alias document carries its alias
    record under the alias type. *)
Record RawSource : Type := mkSource {
  src_type : string;
  src_namespace : option string;
  src_namespaces : option (list string);
  src_originId : option string;
  src_attributes : JsValue;
  src_references : option (list SavedObjectReference);
  src_updated_at : option string;
  src_migrationVersion : option JsValue;
  src_alias : option LegacyUrlAlias
}.

Record RawDoc : Type := mkRaw {
  _id : string;
  _source : RawSource;
  _seq_no : option Z;
  _primary_term : option Z
}.

(** The document handed to the migrator and the serializer. *)
Record SanitizedDoc : Type := mkDoc {
  sd_id : string;
  sd_type : string;
  sd_namespace : option string;
  sd_namespaces : option (list string);
  sd_originId : option string;
  sd_attributes : JsValue;
  sd_migrationVersion : option JsValue;
  sd_updated_at : option string;
  sd_references : option (list SavedObjectReference)
}.

(** The object returned to callers.  [so_namespace] only exists between
    [rawToSavedObject] and the [omit] of [_rawToSavedObject]. *)
Record SavedObject : Type := mkSO {
  so_id : string;
  so_type : string;
  so_namespace : option string;
  so_namespaces : option (list string);
  so_originId : option string;
  so_updated_at : option string;
  so_version : option string;
  so_attributes : JsValue;
  so_references : option (list SavedObjectReference)
}.

(** ** Store requests *)

Inductive Refresh : Type :=
| RefreshWaitFor
| RefreshBool (b : bool).

Definition DEFAULT_REFRESH_SETTING : Refresh := RefreshWaitFor.

(** The [if_seq_no] / [if_primary_term] pair of a conditional write; the
    empty object is [no_if_match]. *)
Record IfMatch : Type := mkIf {
  if_seq_no : option Z;
  if_primary_term : option Z
}.

Definition no_if_match : IfMatch := mkIf None None.

Record GetParams : Type := mkGet {
  gp_id : string;
  gp_index : string
}.

Record MgetDoc : Type := mkMgetDoc {
  md_id : string;
  md_index : string;
  md_source : option (list string)
}.

Record IndexParams : Type := mkIndex {
  ip_id : string;
  ip_index : string;
  ip_refresh : Refresh;
  ip_body : RawSource;
  ip_if : IfMatch;
  ip_require_alias : bool
}.

Record PartialDoc : Type := mkPartial {
  pd_type : string;
  pd_attributes : JsValue;
  pd_updated_at : string;
  pd_references : option (list SavedObjectReference)
}.

Inductive Script : Type :=
| ScriptResolveAlias (alias_type time : string)
| ScriptIncrementCounters (counts : list JsValue)
    (counterFieldNames : list string) (time type : string)
| ScriptDeleteByNamespace (namespace : string)
| ScriptRemoveReferences (type id : string).

Inductive UpdateBody : Type :=
| UpdateDoc (doc : PartialDoc) (upsert : option RawSource)
| UpdateScript (script : Script) (upsert : option RawSource).

Record UpdateParams : Type := mkUpdate {
  up_id : string;
  up_index : string;
  up_if : IfMatch;
  up_refresh : Refresh;
  up_body : UpdateBody;
  up_require_alias : bool;
  up_ignore404 : bool
}.

Record BulkHeader : Type := mkHeader {
  bh_id : string;
  bh_index : string;
  bh_if : IfMatch
}.

(** One bulk operation stands for the two entries the source pushes on the
    request body: the action line and its document. *)
Inductive BulkOp : Type :=
| BulkIndex (h : BulkHeader) (source : RawSource)
| BulkCreate (h : BulkHeader) (source : RawSource)
| BulkUpdate (h : BulkHeader) (doc : PartialDoc).

Record BulkParams : Type := mkBulk {
  bp_refresh : Refresh;
  bp_require_alias : bool;
  bp_body : list BulkOp
}.

Record DeleteParams : Type := mkDelete {
  dp_id : string;
  dp_index : string;
  dp_if : IfMatch;
  dp_refresh : Refresh
}.

(** The options handed to [getSearchDsl]. *)
Record SearchDslArgs : Type := mkDslArgs {
  dsl_search : option string;
  dsl_defaultSearchOperator : string;
  dsl_searchFields : option JsValue;
  dsl_rootSearchFields : option JsValue;
  dsl_pit : option JsValue;
  dsl_type : list string;
  dsl_searchAfter : option (list JsValue);
  dsl_sortField : option string;
  dsl_sortOrder : option string;
  dsl_namespaces : option (list string);
  dsl_typeToNamespacesMap : option (list (string * option (list string)));
  dsl_hasReference : option JsValue;
  dsl_hasReferenceOperator : option string;
  dsl_kueryNode : option JsValue
}.

Record SearchBody : Type := mkSearchBody {
  sb_size : Z;
  sb_seq_no_primary_term : bool;
  sb_from : Z;
  sb_source : option (list string);
  sb_aggs : option JsValue;
  sb_dsl : JsValue
}.

(** [esOptions] of [find]. *)
Record SearchParams : Type := mkSearch {
  sp_index : option (list string);
  sp_from : option Z;
  sp_source : option (list string);
  sp_preference : option string;
  sp_rest_total_hits_as_int : bool;
  sp_size : Z;
  sp_body : SearchBody
}.

Record UpdateByQueryParams : Type := mkUBQ {
  ubq_index : list string;
  ubq_refresh : option bool;
  ubq_script : Script;
  ubq_conflicts : string;
  ubq_dsl : JsValue
}.

(** ** Store responses *)

Record GetResponse : Type := mkGetResp {
  get_statusCode : Z;
  get_found : bool;
  get_doc : RawDoc
}.

Record MgetHit : Type := mkHit {
  hit_found : bool;
  hit_doc : RawDoc
}.

Record MgetResponse : Type := mkMgetResp {
  mget_statusCode : Z;
  mget_docs : list MgetHit
}.

(** The body of an index / create / update response; [wr_get] is
    [body.get] when the request asked for the source back. *)
Record GetInfo : Type := mkGetInfo {
  gi_found : option bool;
  gi_source : RawSource
}.

Record WriteResponse : Type := mkWriteResp {
  wr_statusCode : Z;
  wr_seq_no : option Z;
  wr_primary_term : option Z;
  wr_get : option GetInfo
}.

Record BulkItemError : Type := mkItemError {
  bie_type : string;
  bie_reason : string;
  bie_index : option string
}.

(** [Object.values(item)[0]]: the response of one bulk operation. *)
Record BulkItem : Type := mkItem {
  bi_status : Z;
  bi_error : option BulkItemError;
  bi_seq_no : option Z;
  bi_primary_term : option Z;
  bi_get : option GetInfo
}.

Record BulkResponse : Type := mkBulkResp {
  bulk_items : list BulkItem
}.

Record DeleteResponse : Type := mkDeleteResp {
  del_statusCode : Z;
  del_result : option string;
  del_error_type : option string
}.

Record SearchHit : Type := mkSearchHit {
  sh_doc : RawDoc;
  sh_score : JsValue;
  sh_sort : JsValue
}.

Record SearchResponse : Type := mkSearchResp {
  search_statusCode : Z;
  search_total : Z;
  search_hits : list SearchHit;
  search_aggregations : option JsValue;
  search_pit_id : option string
}.

Record UpdateByQueryResponse : Type := mkUBQResp {
  ubq_failures : option (list JsValue);
  ubq_updated : option Z
}.

(** The trace of store requests. *)
Inductive EsCall : Type :=
| CallGet (p : GetParams)
| CallMget (docs : list MgetDoc)
| CallIndex (p : IndexParams)
| CallCreate (p : IndexParams)
| CallUpdate (p : UpdateParams)
| CallBulk (p : BulkParams)
| CallDelete (p : DeleteParams)
| CallSearch (p : SearchParams)
| CallUpdateByQuery (p : UpdateByQueryParams).

(** A write is any request that can change a stored document. *)
Definition is_write (c : EsCall) : bool :=
  match c with
  | CallGet _ | CallMget _ | CallSearch _ => false
  | _ => true
  end.

(** ** Outcomes *)

Inductive Outcome (A : Type) : Type :=
| Ok (a : A)
| Throw (e : DecoratedError).
Arguments Ok {A} a.
Arguments Throw {A} e.

Definition is_ok {A} (o : Outcome A) : bool :=
  match o with Ok _ => true | Throw _ => false end.

Definition throws_kind {A} (o : Outcome A) (k : ErrorKind) : Prop :=
  exists e, o = Throw e /\ error_kind e = k.

(** ** Collaborators *)

(** [ISavedObjectTypeRegistry] *)
Record Registry : Type := mkRegistry {
  isSingleNamespace : string -> bool;
  isMultiNamespace : string -> bool;
  isNamespaceAgnostic : string -> bool;
  isShareable : string -> bool;
  getIndex : string -> option string;
  getAllTypes : list string
}.

(** [SavedObjectsSerializer] *)
Record Serializer : Type := mkSerializer {
  generateRawId : option string -> string -> string -> string;
  generateRawLegacyUrlAliasId : string -> string -> string -> string;
  savedObjectToRaw : SanitizedDoc -> RawDoc;
  rawToSavedObject : RawDoc -> SavedObject
}.

(** [IKibanaMigrator].  The migrator performs double duty and validates
    the documents prior to returning them: [migrateDocument] throws on a
    document it refuses. *)
Record Migrator : Type := mkMigrator {
  migrateDocument : SanitizedDoc -> Outcome SanitizedDoc;
  enableV2 : bool;
  kibanaVersion : string
}.

(** [RepositoryEsClient]: every method answers from the current store and
    yields the next one.  Requests are issued with [ignore: [404]] where the
    source says so, so a 404 is a response; any other failure is thrown,
    already decorated by the client wrapper. *)
Record RepositoryEsClient (S : Type) : Type := mkClient {
  es_get : GetParams -> S -> Outcome GetResponse * S;
  es_mget : list MgetDoc -> S -> Outcome MgetResponse * S;
  es_index : IndexParams -> S -> Outcome WriteResponse * S;
  es_create : IndexParams -> S -> Outcome WriteResponse * S;
  es_update : UpdateParams -> S -> Outcome WriteResponse * S;
  es_bulk : BulkParams -> S -> Outcome BulkResponse * S;
  es_delete : DeleteParams -> S -> Outcome DeleteResponse * S;
  es_search : SearchParams -> S -> Outcome SearchResponse * S;
  es_updateByQuery :
    UpdateByQueryParams -> S -> Outcome UpdateByQueryResponse * S
}.
Arguments es_get {S} _ _ _.
Arguments es_mget {S} _ _ _.
Arguments es_index {S} _ _ _.
Arguments es_create {S} _ _ _.
Arguments es_update {S} _ _ _.
Arguments es_bulk {S} _ _ _.
Arguments es_delete {S} _ _ _.
Arguments es_search {S} _ _ _.
Arguments es_updateByQuery {S} _ _ _.

(** The outcome of [validateConvertFilterToKueryNode]. *)
Inductive FilterResult : Type :=
| FilterNode (node : JsValue)
| FilterKQLSyntaxError (message : string)
| FilterError (e : DecoratedError).

Record FindResponse : Type := mkFindResp {
  fr_aggregations : option JsValue;
  fr_page : Z;
  fr_per_page : Z;
  fr_total : Z;
  fr_saved_objects : list (SavedObject * JsValue * JsValue);
  fr_pit_id : option string
}.

(** Functions and constants the repository imports from modules that are
    not part of the sources at hand; they are parameters of the model. *)
Record Imports : Type := mkImports {
  (* internal_utils *)
  rawDocExistsInNamespace_util : Registry -> RawDoc -> option string -> bool;
  getSavedObjectFromSource : Registry -> string -> string -> RawDoc -> SavedObject;
  (* version *)
  decodeRequestVersion : string -> Z * Z;
  encodeVersion : option Z -> option Z -> string;
  encodeHitVersion : option Z -> option Z -> string;
  (* included_fields, search_dsl, filter_utils, aggregations *)
  includedFields : option JsValue -> option JsValue -> option (list string);
  getSearchDsl : SearchDslArgs -> JsValue;
  validateConvertFilterToKueryNode : list string -> JsValue -> FilterResult;
  validateAndConvertAggregations : list string -> JsValue -> string + JsValue;
  (* utils *)
  generateId : nat -> string;
  createEmptyFindResponse : option Z -> option Z -> FindResponse;
  (* core_usage_data *)
  CORE_USAGE_STATS_TYPE : string;
  CORE_USAGE_STATS_ID : string;
  STATS_EXACT_MATCH : string;
  STATS_ALIAS_MATCH : string;
  STATS_CONFLICT : string;
  STATS_NOT_FOUND : string;
  STATS_TOTAL : string;
  (* object_types *)
  LEGACY_URL_ALIAS_TYPE : string
}.

(** [SavedObjectsRepositoryOptions] together with the imports. *)
Record Deps (S : Type) : Type := mkDeps {
  _index : string;
  _registry : Registry;
  _serializer : Serializer;
  _migrator : Migrator;
  _allowedTypes : list string;
  client : RepositoryEsClient S;
  imports : Imports
}.
Arguments _index {S} _.
Arguments _registry {S} _.
Arguments _serializer {S} _.
Arguments _migrator {S} _.
Arguments _allowedTypes {S} _.
Arguments client {S} _.
Arguments imports {S} _.

(** ** The world and the repository monad *)

(** The store, the requests issued so far, the clock reading of this call
    and the number of identifiers generated so far. *)
Record World (S : Type) : Type := mkWorld {
  w_store : S;
  w_log : list EsCall;
  w_time : string;
  w_fresh : nat
}.
Arguments mkWorld {S} _ _ _ _.
Arguments w_store {S} _.
Arguments w_log {S} _.
Arguments w_time {S} _.
Arguments w_fresh {S} _.

Definition Repo (S A : Type) : Type := World S -> Outcome A * World S.

Definition ret {S A} (a : A) : Repo S A := fun w => (Ok a, w).

Definition throw {S A} (e : DecoratedError) : Repo S A := fun w => (Throw e, w).

Definition lift {S A} (o : Outcome A) : Repo S A := fun w => (o, w).

Definition bind {S A B} (m : Repo S A) (k : A -> Repo S B) : Repo S B :=
  fun w =>
    match m w with
    | (Ok a, w') => k a w'
    | (Throw e, w') => (Throw e, w')
    end.

(** [try { m } catch (e) { h e }] and [m.catch(h)] *)
Definition try_catch {S A} (m : Repo S A) (h : DecoratedError -> Repo S A)
  : Repo S A :=
  fun w =>
    match m w with
    | (Ok a, w') => (Ok a, w')
    | (Throw e, w') => h e w'
    end.

Notation "'do' x <- c ; k" := (bind c (fun x => k))
  (at level 10, x name, c at level 100, k at level 200).
Notation "'run' c ; k" := (bind c (fun _ => k))
  (at level 10, c at level 100, k at level 200).

(** Issue a request: the client answers from the store, the request is
    appended to the trace. *)
Definition issue {S A} (c : EsCall) (op : S -> Outcome A * S) : Repo S A :=
  fun w =>
    let '(r, s') := op (w_store w) in
    (r, mkWorld s' (w_log w ++ [c])%list (w_time w) (w_fresh w)).

(** ** Constants and pure helpers of the module *)

(** Modelled from the spec: [ALL_NAMESPACES_STRING], [FIND_DEFAULT_PAGE]
    and [FIND_DEFAULT_PER_PAGE] are imported from the repository's utils
    module, which is not among the sources; the error texts of the source
    name the wildcard ("namespace" cannot be "*") and the documentation of
    [find] gives [page=1] and [perPage=20]. *)
Definition ALL_NAMESPACES_STRING : string := "*".
Definition FIND_DEFAULT_PAGE : Z := 1.
Definition FIND_DEFAULT_PER_PAGE : Z := 20.

(** Modelled from the spec: [SavedObjectsUtils.namespaceStringToId] and
    [SavedObjectsUtils.namespaceIdToString] (utils module, not among the
    sources).  Glossary: the "default" namespace is represented as
    absent/undefined internally, and [normalizeNamespace] is documented as
    allowing 'default' to be used interchangeably with undefined. *)
Definition namespaceStringToId (namespace : string) : option string :=
  if String.eqb namespace "default" then None else Some namespace.

Definition namespaceIdToString (namespace : option string) : string :=
  match namespace with Some n => n | None => "default" end.

(** Modelled from the spec: [getExpectedVersionProperties] (internal utils,
    not among the sources).  Section 4.3: a write that accepts a version
    translates it into the store-level if-match precondition; glossary,
    Preflight: the preflight read supplies the current version otherwise. *)
Definition getExpectedVersionProperties (I : Imports)
    (version : option string) (document : option RawDoc) : IfMatch :=
  if truthy_opt version then
    let '(s, t) := decodeRequestVersion I (default EmptyString version) in
    mkIf (Some s) (Some t)
  else
    match document with
    | Some d => mkIf (_seq_no d) (_primary_term d)
    | None => no_if_match
    end.

(** Modelled from the spec: [getBulkOperationError] (internal utils, not
    among the sources).  Section 7: a rejected precondition surfaces as
    Conflict, an absent object or index as NotFound, and any other reported
    status is escalated as an unclassified error. *)
Definition getBulkOperationError (type id : string) (rawResponse : BulkItem)
  : option ErrorPayload :=
  match bi_error rawResponse with
  | None => None
  | Some err =>
      if Z.eqb (bi_status rawResponse) 404 then
        Some (errorContent (GenericNotFoundError (Some type) (Some id)))
      else if Z.eqb (bi_status rawResponse) 409 then
        Some (errorContent (ConflictError type id None))
      else
        Some (errorContent (StoreError InternalError (bie_reason err)))
  end.

Fixpoint unique_from (seen array : list string) : list string :=
  match array with
  | [] => []
  | x :: rest =>
      if includes seen x then unique_from seen rest
      else x :: unique_from (x :: seen) rest
  end.

(** [[...new Set(array)]] *)
Definition unique (array : list string) : list string := unique_from [] array.

(** [a || b] on a possibly undefined string. *)
Definition or_else (a : option string) (b : string) : string :=
  match a with
  | Some s => if truthy s then s else b
  | None => b
  end.

Definition isFoundGetResponse (r : GetResponse) : bool := get_found r.

(** Ensure that a namespace is always in its namespace ID representation. *)
Definition normalizeNamespace (namespace : option string)
  : Outcome (option string) :=
  match namespace with
  | None => Ok None
  | Some n =>
      if String.eqb n ALL_NAMESPACES_STRING then
        Throw (BadRequestError (dq ++ "options.namespace" ++ dq ++ " cannot be " ++ dq ++ "*" ++ dq))
      else Ok (namespaceStringToId n)
  end.

(** Returns the namespaces of a saved object: those of the preflight
    document when there is one, else the current namespace. *)
Definition getSavedObjectNamespaces (namespace : option string)
    (document : option RawDoc) : option (list string) :=
  match document with
  | Some d => src_namespaces (_source d)
  | None => Some [namespaceIdToString namespace]
  end.

(** [array.map] whose callback updates variables of the enclosing function
    (a [counter++], a [params.push(...)]): the variables are threaded through
    as an accumulator. *)
Fixpoint map_accum {A B C} (f : C -> A -> C * B) (c : C) (l : list A)
  : C * list B :=
  match l with
  | [] => (c, [])
  | x :: rest =>
      let '(c1, y) := f c x in
      let '(c2, ys) := map_accum f c1 rest in
      (c2, y :: ys)
  end.

(** Truthiness of a JavaScript value. *)
Definition js_truthy (v : JsValue) : bool :=
  match v with
  | JUndefined | JNull | JBool false => false
  | JNum n => negb (Z.eqb n 0)
  | JStr s => truthy s
  | _ => true
  end.

Definition js_truthy_opt (o : option JsValue) : bool :=
  match o with Some v => js_truthy v | None => false end.

Definition is_array (v : JsValue) : bool :=
  match v with JArr _ => true | _ => false end.

(** [array.map] whose callback may throw. *)
Fixpoint map_outcome {A B} (f : A -> Outcome B) (l : list A)
  : Outcome (list B) :=
  match l with
  | [] => Ok []
  | x :: rest =>
      match f x with
      | Throw e => Throw e
      | Ok y =>
          match map_outcome f rest with
          | Throw e => Throw e
          | Ok ys => Ok (y :: ys)
          end
      end
  end.

(** [array.map] whose callback updates variables of the enclosing function
    and may throw: the first throw ends the loop. *)
Fixpoint map_accum_outcome {A B C} (f : C -> A -> Outcome (C * B)) (c : C)
    (l : list A) : Outcome (C * list B) :=
  match l with
  | [] => Ok (c, [])
  | x :: rest =>
      match f c x with
      | Throw e => Throw e
      | Ok (c1, y) =>
          match map_accum_outcome f c1 rest with
          | Throw e => Throw e
          | Ok (c2, ys) => Ok (c2, y :: ys)
          end
      end
  end.

(** ** The repository *)

Module Repository.

(** Option bags of the public methods. *)
Record CreateOptions : Type := mkCreateOptions {
  co_id : option string;
  co_migrationVersion : option JsValue;
  co_overwrite : option bool;
  co_references : option (list SavedObjectReference);
  co_refresh : option Refresh;
  co_originId : option string;
  co_initialNamespaces : option (list string);
  co_version : option string;
  co_namespace : option string
}.

Record BaseOptions : Type := mkBaseOptions {
  bo_namespace : option string
}.

Record DeleteOptions : Type := mkDeleteOptions {
  do_refresh : option Refresh;
  do_force : option bool;
  do_namespace : option string
}.

Record UpdateOptions : Type := mkUpdateOptions {
  uo_version : option string;
  uo_references : option (list SavedObjectReference);
  uo_upsert : option JsValue;
  uo_refresh : option Refresh;
  uo_namespace : option string
}.

Record IncrementCounterOptions : Type := mkIncrementCounterOptions {
  ico_initialize : option bool;
  ico_migrationVersion : option JsValue;
  ico_refresh : option Refresh;
  ico_upsertAttributes : option (list (string * JsValue));
  ico_namespace : option string
}.

Definition no_increment_options : IncrementCounterOptions :=
  mkIncrementCounterOptions None None None None None.

Record RemoveReferencesToOptions : Type := mkRemoveReferencesToOptions {
  rro_namespace : option string;
  rro_refresh : option bool
}.

(** [SavedObjectsUpdateResponse] and the object built by
    [incrementCounterInternal] share the caller-facing shape. *)
Record ResolveResponse : Type := mkResolveResponse {
  saved_object : SavedObject;
  outcome : string;
  aliasTargetId : option string
}.

(** The tagged union of the bulk algorithms. *)
Record BulkError : Type := mkBulkError {
  be_id : option string;
  be_type : string;
  be_error : ErrorPayload
}.

Inductive Either (R : Type) : Type :=
| Left (error : BulkError)
| Right (value : R).
Arguments Left {R} error.
Arguments Right {R} value.

Definition isLeft {R} (either : Either R) : bool :=
  match either with Left _ => true | Right _ => false end.

Definition isRight {R} (either : Either R) : bool :=
  match either with Left _ => false | Right _ => true end.

(** [xs.filter(isRight)] followed by a projection of [value]. *)
Fixpoint rights {R} (l : list (Either R)) : list R :=
  match l with
  | [] => []
  | Left _ :: rest => rights rest
  | Right v :: rest => v :: rights rest
  end.

(** One slot of a bulk result: the saved object or an
    [{ id, type, error }] record. *)
Inductive BulkSlot : Type :=
| SlotObject (object : SavedObject)
| SlotError (error : BulkError).

Record BulkGetObject : Type := mkBulkGetObject {
  bg_type : string;
  bg_id : string;
  bg_fields : option JsValue
}.

Record BulkGetRight : Type := mkBulkGetRight {
  bgr_type : string;
  bgr_id : string;
  bgr_fields : option JsValue;
  bgr_esRequestIndex : nat
}.

Record BulkCreateObject : Type := mkBulkCreateObject {
  bc_type : string;
  bc_id : option string;
  bc_attributes : JsValue;
  bc_references : option (list SavedObjectReference);
  bc_migrationVersion : option JsValue;
  bc_originId : option string;
  bc_initialNamespaces : option (list string);
  bc_version : option string
}.

Inductive BulkMethod : Type := MethodIndex | MethodCreate.

(** [bcr_id] is [object.id] after the assignment of a generated id. *)
Record BulkCreateRight : Type := mkBulkCreateRight {
  bcr_method : BulkMethod;
  bcr_object : BulkCreateObject;
  bcr_id : string;
  bcr_esRequestIndex : option nat
}.

Record BulkCreateExpected : Type := mkBulkCreateExpected {
  bce_esRequestIndex : nat;
  bce_requestedId : string;
  bce_rawMigratedDoc : RawDoc
}.

Record BulkUpdateObject : Type := mkBulkUpdateObject {
  bu_type : string;
  bu_id : string;
  bu_attributes : JsValue;
  bu_references : option (list SavedObjectReference);
  bu_version : option string;
  bu_namespace : option string
}.

Record BulkUpdateOptions : Type := mkBulkUpdateOptions {
  buo_refresh : option Refresh;
  buo_namespace : option string
}.

Record BulkUpdateRight : Type := mkBulkUpdateRight {
  bur_type : string;
  bur_id : string;
  bur_version : option string;
  bur_documentToSave : PartialDoc;
  bur_objectNamespace : option string;
  bur_esRequestIndex : option nat
}.

Record BulkUpdateExpected : Type := mkBulkUpdateExpected {
  bue_type : string;
  bue_id : string;
  bue_namespaces : option (list string);
  bue_esRequestIndex : nat;
  bue_documentToSave : PartialDoc
}.

(** A counter field: a field name, or a [{ fieldName, incrementBy }]
    record whose [incrementBy] may be left undefined. *)
Inductive CounterField : Type :=
| FieldName (name : string)
| FieldConfig (fieldName : string) (incrementBy : JsValue).

Inductive TypeArg : Type :=
| TypeString (type : string)
| TypeArray (types : list string).

Record FindOptions : Type := mkFindOptions {
  fo_search : option string;
  fo_defaultSearchOperator : option string;
  fo_searchFields : option JsValue;
  fo_rootSearchFields : option JsValue;
  fo_hasReference : option JsValue;
  fo_hasReferenceOperator : option string;
  fo_page : option Z;
  fo_perPage : option Z;
  fo_pit : option JsValue;
  fo_searchAfter : option (list JsValue);
  fo_sortField : option string;
  fo_sortOrder : option string;
  fo_fields : option JsValue;
  fo_namespaces : option (list string);
  fo_type : option TypeArg;
  fo_typeToNamespacesMap : option (list (string * option (list string)));
  fo_filter : option JsValue;
  fo_preference : option string;
  fo_aggs : option JsValue
}.

Section WithDeps.

Context {S : Type}.
Variable D : Deps S.

Let registry := _registry D.
Let I := imports D.

Definition _getCurrentTime : Repo S string := fun w => (Ok (w_time w), w).

(** [SavedObjectsUtils.generateId()] *)
Definition fresh_id : Repo S string :=
  fun w =>
    (Ok (generateId I (w_fresh w)),
     mkWorld (w_store w) (w_log w) (w_time w) (Datatypes.S (w_fresh w))).

(** Returns index specified by the given type or the default index. *)
Definition getIndexForType (type : string) : string :=
  if enableV2 (_migrator D) then
    or_else (getIndex registry type) (_index D) ++ "_"
      ++ kibanaVersion (_migrator D)
  else or_else (getIndex registry type) (_index D).

Definition getIndicesForTypes (types : list string) : list string :=
  unique (map getIndexForType types).

Definition _rawToSavedObject (raw : RawDoc) : SavedObject :=
  let savedObject := rawToSavedObject (_serializer D) raw in
  let namespaces :=
    if isSingleNamespace registry (so_type savedObject) then
      Some [namespaceIdToString (so_namespace savedObject)]
    else so_namespaces savedObject in
  mkSO (so_id savedObject) (so_type savedObject) None namespaces
    (so_originId savedObject) (so_updated_at savedObject)
    (so_version savedObject) (so_attributes savedObject)
    (so_references savedObject).

Definition rawDocExistsInNamespace (raw : RawDoc) (namespace : option string)
  : bool :=
  rawDocExistsInNamespace_util I registry raw namespace.

Definition allowed (type : string) : bool := includes (_allowedTypes D) type.

Definition client_get (p : GetParams) : Repo S GetResponse :=
  issue (CallGet p) (es_get (client D) p).

Definition client_mget (docs : list MgetDoc) : Repo S MgetResponse :=
  issue (CallMget docs) (es_mget (client D) docs).

Definition client_index (p : IndexParams) : Repo S WriteResponse :=
  issue (CallIndex p) (es_index (client D) p).

Definition client_create (p : IndexParams) : Repo S WriteResponse :=
  issue (CallCreate p) (es_create (client D) p).

Definition client_update (p : UpdateParams) : Repo S WriteResponse :=
  issue (CallUpdate p) (es_update (client D) p).

Definition client_bulk (p : BulkParams) : Repo S BulkResponse :=
  issue (CallBulk p) (es_bulk (client D) p).

Definition client_delete (p : DeleteParams) : Repo S DeleteResponse :=
  issue (CallDelete p) (es_delete (client D) p).

Definition client_search (p : SearchParams) : Repo S SearchResponse :=
  issue (CallSearch p) (es_search (client D) p).

Definition client_updateByQuery (p : UpdateByQueryParams)
  : Repo S UpdateByQueryResponse :=
  issue (CallUpdateByQuery p) (es_updateByQuery (client D) p).

Definition validateInitialNamespaces (type : string)
    (initialNamespaces : option (list string)) : Outcome unit :=
  match initialNamespaces with
  | None => Ok tt
  | Some ns =>
      if isNamespaceAgnostic registry type then
        Throw (BadRequestError
          (dq ++ "initialNamespaces" ++ dq
           ++ " cannot be used on space-agnostic types"))
      else if Nat.eqb (length ns) 0 then
        Throw (BadRequestError
          (dq ++ "initialNamespaces" ++ dq
           ++ " must be a non-empty array of strings"))
      else if negb (isShareable registry type)
              && (Nat.ltb 1 (length ns) || includes ns ALL_NAMESPACES_STRING)
      then
        Throw (BadRequestError
          (dq ++ "initialNamespaces" ++ dq
           ++ " can only specify a single space when used with space-isolated types"))
      else Ok tt
  end.

Definition non_multi_namespace_error (type : string) : DecoratedError :=
  PlainError
    ("Cannot make preflight get request for non-multi-namespace type '"
     ++ type ++ "'.").

(** Pre-flight check to get a multi-namespace saved object's included
    namespaces. *)
Definition preflightGetNamespaces (type id : string)
    (namespace : option string) : Repo S (option (list string)) :=
  if negb (isMultiNamespace registry type) then
    throw (non_multi_namespace_error type)
  else
    do r <- client_get
        (mkGet (generateRawId (_serializer D) None type id)
           (getIndexForType type));
    let indexFound := negb (Z.eqb (get_statusCode r) 404) in
    if indexFound && isFoundGetResponse r then
      if negb (rawDocExistsInNamespace (get_doc r) namespace) then
        throw (ConflictError type id None)
      else ret (getSavedObjectNamespaces namespace (Some (get_doc r)))
    else ret (getSavedObjectNamespaces namespace None).

(** Pre-flight check for a multi-namespace saved object's namespaces. *)
Definition preflightCheckIncludesNamespace (type id : string)
    (namespace : option string) : Repo S RawDoc :=
  if negb (isMultiNamespace registry type) then
    throw (non_multi_namespace_error type)
  else
    let rawId := generateRawId (_serializer D) None type id in
    do r <- client_get (mkGet rawId (getIndexForType type));
    let indexFound := negb (Z.eqb (get_statusCode r) 404) in
    if negb indexFound || negb (isFoundGetResponse r)
       || negb (rawDocExistsInNamespace (get_doc r) namespace)
    then throw (GenericNotFoundError (Some type) (Some id))
    else ret (get_doc r).

(** Persists an object. *)
Definition create (type : string) (attributes : JsValue)
    (options : CreateOptions) : Repo S SavedObject :=
  do id <- match co_id options with
           | Some i => ret i
           | None => fresh_id
           end;
  let overwrite := default false (co_overwrite options) in
  let references := default [] (co_references options) in
  let refresh := default DEFAULT_REFRESH_SETTING (co_refresh options) in
  let initialNamespaces := co_initialNamespaces options in
  let version := co_version options in
  do namespace <- lift (normalizeNamespace (co_namespace options));
  run lift (validateInitialNamespaces type initialNamespaces);
  if negb (allowed type) then throw (UnsupportedTypeError type)
  else
    do time <- _getCurrentTime;
    do nss <-
      (if isSingleNamespace registry type then
         ret (match initialNamespaces with
              | Some ins => nth_error ins 0
              | None => namespace
              end, None)
       else if isMultiNamespace registry type then
         if truthy id && overwrite then
           do existingNamespaces <- preflightGetNamespaces type id namespace;
           ret (None,
                match initialNamespaces with
                | Some ins => Some ins
                | None => existingNamespaces
                end)
         else
           ret (None,
                match initialNamespaces with
                | Some ins => Some ins
                | None => getSavedObjectNamespaces namespace None
                end)
       else ret (None, None));
    let '(savedObjectNamespace, savedObjectNamespaces) := nss in
    do migrated <- lift (migrateDocument (_migrator D)
      (mkDoc id type (spread_str savedObjectNamespace) savedObjectNamespaces
         (co_originId options) attributes (co_migrationVersion options)
         (Some time) (Some references)));
    let raw := savedObjectToRaw (_serializer D) migrated in
    let requestParams :=
      mkIndex (_id raw) (getIndexForType type) refresh (_source raw)
        (if overwrite && truthy_opt version then
           let '(s, t) := decodeRequestVersion I (default EmptyString version) in
           mkIf (Some s) (Some t)
         else no_if_match)
        true in
    do body <- (if truthy id && overwrite then client_index requestParams
                else client_create requestParams);
    ret (_rawToSavedObject
           (mkRaw (_id raw) (_source raw) (wr_seq_no body)
              (wr_primary_term body))).

(** Gets a single object. *)
Definition get (type id : string) (options : BaseOptions)
  : Repo S SavedObject :=
  if negb (allowed type) then
    throw (GenericNotFoundError (Some type) (Some id))
  else
    do namespace <- lift (normalizeNamespace (bo_namespace options));
    do r <- client_get
        (mkGet (generateRawId (_serializer D) namespace type id)
           (getIndexForType type));
    let indexNotFound := Z.eqb (get_statusCode r) 404 in
    if negb (isFoundGetResponse r) || indexNotFound
       || negb (rawDocExistsInNamespace (get_doc r) namespace)
    then throw (GenericNotFoundError (Some type) (Some id))
    else ret (getSavedObjectFromSource I registry type id (get_doc r)).

(** Deletes an object. *)
Definition delete (type id : string) (options : DeleteOptions)
  : Repo S unit :=
  if negb (allowed type) then
    throw (GenericNotFoundError (Some type) (Some id))
  else
    let refresh := default DEFAULT_REFRESH_SETTING (do_refresh options) in
    let force := default false (do_force options) in
    do namespace <- lift (normalizeNamespace (do_namespace options));
    let rawId := generateRawId (_serializer D) namespace type id in
    do preflightResult <-
      (if isMultiNamespace registry type then
         do pre <- preflightCheckIncludesNamespace type id namespace;
         let existingNamespaces :=
           default [] (getSavedObjectNamespaces None (Some pre)) in
         if negb force
            && (Nat.ltb 1 (length existingNamespaces)
                || includes existingNamespaces ALL_NAMESPACES_STRING)
         then
           throw (BadRequestError
             "Unable to delete saved object that exists in multiple namespaces, use the `force` option to delete it anyway")
         else ret (Some pre)
       else ret None);
    do r <- client_delete
        (mkDelete rawId (getIndexForType type)
           (getExpectedVersionProperties I None preflightResult) refresh);
    if match del_result r with
       | Some res => String.eqb res "deleted"
       | None => false
       end
    then ret tt
    else
      let deleteDocNotFound :=
        match del_result r with
        | Some res => String.eqb res "not_found"
        | None => false
        end in
      let deleteIndexNotFound :=
        match del_error_type r with
        | Some t => String.eqb t "index_not_found_exception"
        | None => false
        end in
      if deleteDocNotFound || deleteIndexNotFound then
        throw (GenericNotFoundError (Some type) (Some id))
      else
        (* the message of the source goes on with the JSON text of the
           type, the id and the response *)
        throw (PlainError "Unexpected Elasticsearch DELETE response").

(** Updates an object. *)
Definition update (type id : string) (attributes : JsValue)
    (options : UpdateOptions) : Repo S SavedObject :=
  if negb (allowed type) then
    throw (GenericNotFoundError (Some type) (Some id))
  else
    let version := uo_version options in
    let references := uo_references options in
    let refresh := default DEFAULT_REFRESH_SETTING (uo_refresh options) in
    do namespace <- lift (normalizeNamespace (uo_namespace options));
    do preflightResult <-
      (if isMultiNamespace registry type then
         do pre <- preflightCheckIncludesNamespace type id namespace;
         ret (Some pre)
       else ret None);
    do time <- _getCurrentTime;
    do rawUpsert <-
      match uo_upsert options with
      | None => ret None
      | Some upsert =>
          do nss <-
            (if isSingleNamespace registry type && truthy_opt namespace then
               ret (namespace, None)
             else if isMultiNamespace registry type then
               do nss <- preflightGetNamespaces type id namespace;
               ret (None, nss)
             else ret (None, None));
          let '(savedObjectNamespace, savedObjectNamespaces) := nss in
          do migrated <- lift (migrateDocument (_migrator D)
            (mkDoc id type (spread_str savedObjectNamespace)
               savedObjectNamespaces None upsert None (Some time) None));
          ret (Some (savedObjectToRaw (_serializer D) migrated))
      end;
    let doc := mkPartial type attributes time references in
    do body <- try_catch
      (client_update
         (mkUpdate (generateRawId (_serializer D) namespace type id)
            (getIndexForType type)
            (getExpectedVersionProperties I version preflightResult)
            refresh
            (UpdateDoc doc (option_map _source rawUpsert))
            true false))
      (fun err =>
         if isNotFoundError err then
           throw (GenericNotFoundError (Some type) (Some id))
         else throw err);
    let source := option_map gi_source (wr_get body) in
    let originId :=
      match source with Some s => src_originId s | None => None end in
    let namespaces :=
      if negb (isNamespaceAgnostic registry type) then
        match source with
        | Some s =>
            match src_namespaces s with
            | Some l => l
            | None => [namespaceIdToString (src_namespace s)]
            end
        | None => [namespaceIdToString None]
        end
      else [] in
    ret (mkSO id type None (Some namespaces) (spread_str originId)
           (Some time)
           (Some (encodeHitVersion I (wr_seq_no body) (wr_primary_term body)))
           attributes references).

(** *** Bulk operations *)

Definition left_error {R} (id : option string) (type : string)
    (e : ErrorPayload) : Either R :=
  Left (mkBulkError id type e).

(** Returns an array of objects by id. *)
Definition bulkGet_validate (counter : nat) (object : BulkGetObject)
  : nat * Either BulkGetRight :=
  let type := bg_type object in
  let id := bg_id object in
  if negb (allowed type) then
    (counter,
     left_error (Some id) type (errorContent (UnsupportedTypeError type)))
  else
    (Datatypes.S counter,
     Right (mkBulkGetRight type id (bg_fields object) counter)).

Definition bulkGet_expected (objects : list BulkGetObject)
  : nat * list (Either BulkGetRight) :=
  map_accum bulkGet_validate 0 objects.

Definition bulkGet_docs (namespace : option string)
    (expected : list (Either BulkGetRight)) : list MgetDoc :=
  map (fun v =>
         mkMgetDoc
           (generateRawId (_serializer D) namespace (bgr_type v) (bgr_id v))
           (getIndexForType (bgr_type v))
           (includedFields I (Some (JStr (bgr_type v))) (bgr_fields v)))
      (rights expected).

Definition bulkGet_slot (namespace : option string)
    (bulkGetResponse : option MgetResponse) (e : Either BulkGetRight)
  : BulkSlot :=
  match e with
  | Left err => SlotError err
  | Right v =>
      let doc :=
        match bulkGetResponse with
        | Some r => mget_docs r !! bgr_esRequestIndex v
        | None => None
        end in
      match doc with
      | Some hit =>
          if negb (hit_found hit)
             || negb (rawDocExistsInNamespace (hit_doc hit) namespace)
          then
            SlotError (mkBulkError (Some (bgr_id v)) (bgr_type v)
              (errorContent
                 (GenericNotFoundError (Some (bgr_type v)) (Some (bgr_id v)))))
          else
            SlotObject
              (getSavedObjectFromSource I registry (bgr_type v) (bgr_id v)
                 (hit_doc hit))
      | None =>
          SlotError (mkBulkError (Some (bgr_id v)) (bgr_type v)
            (errorContent
               (GenericNotFoundError (Some (bgr_type v)) (Some (bgr_id v)))))
      end
  end.

Definition bulkGet (objects : list BulkGetObject) (options : BaseOptions)
  : Repo S (list BulkSlot) :=
  do namespace <- lift (normalizeNamespace (bo_namespace options));
  if Nat.eqb (length objects) 0 then ret []
  else
    let expectedBulkGetResults := snd (bulkGet_expected objects) in
    let bulkGetDocs := bulkGet_docs namespace expectedBulkGetResults in
    do bulkGetResponse <-
      (if negb (Nat.eqb (length bulkGetDocs) 0) then
         do r <- client_mget bulkGetDocs; ret (Some r)
       else ret None);
    ret (map (bulkGet_slot namespace bulkGetResponse) expectedBulkGetResults).

(** Check what conflicts will result when creating a given array of saved
    objects. *)
Definition checkConflicts (objects : list BulkGetObject)
    (options : BaseOptions) : Repo S (list BulkError) :=
  if Nat.eqb (length objects) 0 then ret []
  else
    do namespace <- lift (normalizeNamespace (bo_namespace options));
    let expectedBulkGetResults := snd (bulkGet_expected objects) in
    let bulkGetDocs :=
      map (fun v =>
             mkMgetDoc
               (generateRawId (_serializer D) namespace (bgr_type v) (bgr_id v))
               (getIndexForType (bgr_type v))
               (Some ["type"; "namespaces"]))
          (rights expectedBulkGetResults) in
    do bulkGetResponse <-
      (if negb (Nat.eqb (length bulkGetDocs) 0) then
         do r <- client_mget bulkGetDocs; ret (Some r)
       else ret None);
    ret (flat_map
           (fun e =>
              match e with
              | Left err => [err]
              | Right v =>
                  let doc :=
                    match bulkGetResponse with
                    | Some r => mget_docs r !! bgr_esRequestIndex v
                    | None => None
                    end in
                  match doc with
                  | Some hit =>
                      if hit_found hit then
                        [mkBulkError (Some (bgr_id v)) (bgr_type v)
                           (mkPayload
                              (ConflictError (bgr_type v) (bgr_id v) None)
                              (negb (rawDocExistsInNamespace (hit_doc hit)
                                       namespace)))]
                      else []
                  | None => []
                  end
              end)
           expectedBulkGetResults).

(** Creates multiple documents at once. *)
Definition bulkCreate_validate (overwrite : bool) (acc : nat * nat)
    (object : BulkCreateObject) : (nat * nat) * Either BulkCreateRight :=
  let '(counter, fresh) := acc in
  let type := bc_type object in
  let id := bc_id object in
  let error :=
    if negb (allowed type) then Some (UnsupportedTypeError type)
    else
      match validateInitialNamespaces type (bc_initialNamespaces object) with
      | Throw e => Some e
      | Ok _ => None
      end in
  match error with
  | Some e => ((counter, fresh), left_error id type (errorContent e))
  | None =>
      let method :=
        if truthy_opt id && overwrite then MethodIndex else MethodCreate in
      let requiresNamespacesCheck :=
        truthy_opt id && isMultiNamespace registry type in
      let '(object_id, fresh') :=
        match id with
        | Some i => (i, fresh)
        | None => (generateId I fresh, Datatypes.S fresh)
        end in
      if requiresNamespacesCheck then
        ((Datatypes.S counter, fresh'),
         Right (mkBulkCreateRight method object object_id (Some counter)))
      else
        ((counter, fresh'),
         Right (mkBulkCreateRight method object object_id None))
  end.

Definition bulkCreate_expected (overwrite : bool) (fresh : nat)
    (objects : list BulkCreateObject)
  : (nat * nat) * list (Either BulkCreateRight) :=
  map_accum (bulkCreate_validate overwrite) (0, fresh) objects.

Definition bulkCreate_docs (namespace : option string)
    (expected : list (Either BulkCreateRight)) : list MgetDoc :=
  map (fun v =>
         mkMgetDoc
           (generateRawId (_serializer D) namespace
              (bc_type (bcr_object v)) (bcr_id v))
           (getIndexForType (bc_type (bcr_object v)))
           (Some ["type"; "namespaces"]))
      (filter (fun v => bool_decide (is_Some (bcr_esRequestIndex v)))
         (rights expected)).

Definition bulkCreate_step (overwrite : bool) (namespace : option string)
    (time : string) (bulkGetResponse : option MgetResponse)
    (acc : nat * list BulkOp) (e : Either BulkCreateRight)
  : Outcome ((nat * list BulkOp) * Either BulkCreateExpected) :=
  match e with
  | Left err => Ok (acc, Left err)
  | Right v =>
      let object := bcr_object v in
      let type := bc_type object in
      let id := bcr_id v in
      let initialNamespaces := bc_initialNamespaces object in
      let version := bc_version object in
      let decision :=
        match bcr_esRequestIndex v with
        | Some esRequestIndex =>
            let indexFound :=
              match bulkGetResponse with
              | Some r => negb (Z.eqb (mget_statusCode r) 404)
              | None => true
              end in
            let actualResult :=
              if indexFound then
                match bulkGetResponse with
                | Some r => mget_docs r !! esRequestIndex
                | None => None
                end
              else None in
            let docFound :=
              indexFound
              && match actualResult with
                 | Some hit => hit_found hit
                 | None => false
                 end in
            if docFound
               && negb (match actualResult with
                        | Some hit =>
                            rawDocExistsInNamespace (hit_doc hit) namespace
                        | None => true
                        end)
            then
              inl (mkBulkError (Some id) type
                     (mkPayload (ConflictError type id None) true))
            else
              inr (None,
                   match initialNamespaces with
                   | Some ins => Some ins
                   | None =>
                       getSavedObjectNamespaces namespace
                         (if docFound then option_map hit_doc actualResult
                          else None)
                   end,
                   getExpectedVersionProperties I version
                     (option_map hit_doc actualResult))
        | None =>
            inr (if isSingleNamespace registry type then
                   match initialNamespaces with
                   | Some ins => nth_error ins 0
                   | None => namespace
                   end
                 else None,
                 if isSingleNamespace registry type then None
                 else if isMultiNamespace registry type then
                   match initialNamespaces with
                   | Some ins => Some ins
                   | None => getSavedObjectNamespaces namespace None
                   end
                 else None,
                 getExpectedVersionProperties I version None)
        end in
      match decision with
      | inl err => Ok (acc, Left err)
      | inr (savedObjectNamespace, savedObjectNamespaces, versionProperties) =>
          let '(bulkRequestIndexCounter, bulkCreateParams) := acc in
          match migrateDocument (_migrator D)
                  (mkDoc id type (spread_str savedObjectNamespace)
                     savedObjectNamespaces (bc_originId object)
                     (bc_attributes object) (bc_migrationVersion object)
                     (Some time)
                     (Some (default [] (bc_references object)))) with
          | Throw e => Throw e
          | Ok migrated =>
              let rawMigratedDoc := savedObjectToRaw (_serializer D) migrated in
              let header :=
                mkHeader (_id rawMigratedDoc) (getIndexForType type)
                  (if overwrite then versionProperties else no_if_match) in
              let op :=
                match bcr_method v with
                | MethodIndex => BulkIndex header (_source rawMigratedDoc)
                | MethodCreate => BulkCreate header (_source rawMigratedDoc)
                end in
              Ok ((Datatypes.S bulkRequestIndexCounter,
                   (bulkCreateParams ++ [op])%list),
                  Right (mkBulkCreateExpected bulkRequestIndexCounter id
                           rawMigratedDoc))
          end
      end
  end.

(** A missing item makes the source read a property of [undefined]. *)
Definition undefined_response : DecoratedError :=
  PlainError "TypeError: Cannot read property of undefined".

Definition bulkCreate_slot (bulkResponse : option BulkResponse)
    (e : Either BulkCreateExpected) : Outcome BulkSlot :=
  match e with
  | Left err => Ok (SlotError err)
  | Right v =>
      let rawMigratedDoc := bce_rawMigratedDoc v in
      let rawResponse :=
        match bulkResponse with
        | Some r => bulk_items r !! bce_esRequestIndex v
        | None => None
        end in
      match rawResponse with
      | None => Throw undefined_response
      | Some rawResponse =>
          match getBulkOperationError (src_type (_source rawMigratedDoc))
                  (bce_requestedId v) rawResponse with
          | Some error =>
              Ok (SlotError
                    (mkBulkError (Some (bce_requestedId v))
                       (src_type (_source rawMigratedDoc)) error))
          | None =>
              Ok (SlotObject
                    (_rawToSavedObject
                       (mkRaw (_id rawMigratedDoc) (_source rawMigratedDoc)
                          (bi_seq_no rawResponse)
                          (bi_primary_term rawResponse))))
          end
      end
  end.

(** The batched write and the zipping of its items back onto the slots. *)
Definition bulkCreate_write (refresh : Refresh) (bulkCreateParams : list BulkOp)
    (expectedBulkResults : list (Either BulkCreateExpected))
  : Repo S (list BulkSlot) :=
  do bulkResponse <-
    (if negb (Nat.eqb (length bulkCreateParams) 0) then
       do r <- client_bulk (mkBulk refresh true bulkCreateParams);
       ret (Some r)
     else ret None);
  lift (map_outcome (bulkCreate_slot bulkResponse) expectedBulkResults).

Definition bulkCreate (objects : list BulkCreateObject)
    (options : CreateOptions) : Repo S (list BulkSlot) :=
  let overwrite := default false (co_overwrite options) in
  let refresh := default DEFAULT_REFRESH_SETTING (co_refresh options) in
  do namespace <- lift (normalizeNamespace (co_namespace options));
  do time <- _getCurrentTime;
  do expectedResults <-
    (fun w =>
       let '((_, fresh'), expected) :=
         bulkCreate_expected overwrite (w_fresh w) objects in
       (Ok expected, mkWorld (w_store w) (w_log w) (w_time w) fresh'));
  let bulkGetDocs := bulkCreate_docs namespace expectedResults in
  do bulkGetResponse <-
    (if negb (Nat.eqb (length bulkGetDocs) 0) then
       do r <- client_mget bulkGetDocs; ret (Some r)
     else ret None);
  do planned <-
    lift (map_accum_outcome
            (bulkCreate_step overwrite namespace time bulkGetResponse)
            (0, []) expectedResults);
  let '((_, bulkCreateParams), expectedBulkResults) := planned in
  bulkCreate_write refresh bulkCreateParams expectedBulkResults.

(** Updates multiple objects in bulk. *)
Definition bulkUpdate_validate (time : string) (counter : nat)
    (object : BulkUpdateObject) : nat * Either BulkUpdateRight :=
  let type := bu_type object in
  let id := bu_id object in
  if negb (allowed type) then
    (counter,
     left_error (Some id) type
       (errorContent (GenericNotFoundError (Some type) (Some id))))
  else
    let objectNamespace := bu_namespace object in
    if match objectNamespace with
       | Some n => String.eqb n ALL_NAMESPACES_STRING
       | None => false
       end
    then
      (counter,
       left_error (Some id) type
         (errorContent
            (BadRequestError
               (dq ++ "namespace" ++ dq ++ " cannot be " ++ dq ++ "*" ++ dq))))
    else
      let documentToSave :=
        mkPartial type (bu_attributes object) time (bu_references object) in
      let requiresNamespacesCheck := isMultiNamespace registry type in
      if requiresNamespacesCheck then
        (Datatypes.S counter,
         Right (mkBulkUpdateRight type id (bu_version object)
                  documentToSave objectNamespace (Some counter)))
      else
        (counter,
         Right (mkBulkUpdateRight type id (bu_version object)
                  documentToSave objectNamespace None)).

Definition bulkUpdate_expected (time : string)
    (objects : list BulkUpdateObject) : nat * list (Either BulkUpdateRight) :=
  map_accum (bulkUpdate_validate time) 0 objects.

Definition getNamespaceId (namespace : option string)
    (objectNamespace : option string) : option string :=
  match objectNamespace with
  | Some n => namespaceStringToId n
  | None => namespace
  end.

Definition getNamespaceString (namespace : option string)
    (objectNamespace : option string) : string :=
  match objectNamespace with
  | Some n => n
  | None => namespaceIdToString namespace
  end.

Definition bulkUpdate_docs (namespace : option string)
    (expected : list (Either BulkUpdateRight)) : list MgetDoc :=
  map (fun v =>
         mkMgetDoc
           (generateRawId (_serializer D)
              (getNamespaceId namespace (bur_objectNamespace v))
              (bur_type v) (bur_id v))
           (getIndexForType (bur_type v))
           (Some ["type"; "namespaces"]))
      (filter (fun v => bool_decide (is_Some (bur_esRequestIndex v)))
         (rights expected)).

Definition bulkUpdate_step (namespace : option string)
    (bulkGetResponse : option MgetResponse)
    (acc : nat * list BulkOp) (e : Either BulkUpdateRight)
  : (nat * list BulkOp) * Either BulkUpdateExpected :=
  match e with
  | Left err => (acc, Left err)
  | Right v =>
      let type := bur_type v in
      let id := bur_id v in
      let version := bur_version v in
      let objectNamespace := bur_objectNamespace v in
      let not_found :=
        mkBulkError (Some id) type
          (errorContent (GenericNotFoundError (Some type) (Some id))) in
      let decision :=
        match bur_esRequestIndex v with
        | Some esRequestIndex =>
            let indexFound :=
              match bulkGetResponse with
              | Some r => negb (Z.eqb (mget_statusCode r) 404)
              | None => true
              end in
            let actualResult :=
              if indexFound then
                match bulkGetResponse with
                | Some r => mget_docs r !! esRequestIndex
                | None => None
                end
              else None in
            match actualResult with
            | Some hit =>
                if negb (indexFound && hit_found hit)
                   || negb (rawDocExistsInNamespace (hit_doc hit)
                              (getNamespaceId namespace objectNamespace))
                then inl not_found
                else
                  inr (Some
                         match src_namespaces (_source (hit_doc hit)) with
                         | Some l => l
                         | None =>
                             [namespaceIdToString
                                (src_namespace (_source (hit_doc hit)))]
                         end,
                       getExpectedVersionProperties I version
                         (Some (hit_doc hit)))
            | None => inl not_found
            end
        | None =>
            inr (if isSingleNamespace registry type then
                   Some [getNamespaceString namespace objectNamespace]
                 else None,
                 getExpectedVersionProperties I version None)
        end in
      match decision with
      | inl err => (acc, Left err)
      | inr (namespaces, versionProperties) =>
          let '(bulkUpdateRequestIndexCounter, bulkUpdateParams) := acc in
          let op :=
            BulkUpdate
              (mkHeader
                 (generateRawId (_serializer D)
                    (getNamespaceId namespace objectNamespace) type id)
                 (getIndexForType type) versionProperties)
              (bur_documentToSave v) in
          ((Datatypes.S bulkUpdateRequestIndexCounter, (bulkUpdateParams ++ [op])%list),
           Right (mkBulkUpdateExpected type id namespaces
                    bulkUpdateRequestIndexCounter (bur_documentToSave v)))
      end
  end.

Definition bulkUpdate_slot (bulkUpdateResponse : option BulkResponse)
    (e : Either BulkUpdateExpected) : Outcome BulkSlot :=
  match e with
  | Left err => Ok (SlotError err)
  | Right v =>
      let type := bue_type v in
      let id := bue_id v in
      let rawResponse :=
        match bulkUpdateResponse with
        | Some r => bulk_items r !! bue_esRequestIndex v
        | None => None
        end in
      match rawResponse with
      | None => Throw undefined_response
      | Some rawResponse =>
          match getBulkOperationError type id rawResponse with
          | Some error => Ok (SlotError (mkBulkError (Some id) type error))
          | None =>
              match bi_get rawResponse with
              | None => Throw undefined_response
              | Some g =>
                  let documentToSave := bue_documentToSave v in
                  Ok (SlotObject
                        (mkSO id type None (bue_namespaces v)
                           (spread_str (src_originId (gi_source g)))
                           (Some (pd_updated_at documentToSave))
                           (Some (encodeVersion I (bi_seq_no rawResponse)
                                    (bi_primary_term rawResponse)))
                           (pd_attributes documentToSave)
                           (pd_references documentToSave)))
              end
          end
      end
  end.

(** The batched write and the zipping of its items back onto the slots. *)
Definition bulkUpdate_write (refresh : Refresh) (bulkUpdateParams : list BulkOp)
    (expectedBulkUpdateResults : list (Either BulkUpdateExpected))
  : Repo S (list BulkSlot) :=
  do bulkUpdateResponse <-
    (if negb (Nat.eqb (length bulkUpdateParams) 0) then
       do r <- client_bulk (mkBulk refresh true bulkUpdateParams);
       ret (Some r)
     else ret None);
  lift (map_outcome (bulkUpdate_slot bulkUpdateResponse)
          expectedBulkUpdateResults).

Definition bulkUpdate (objects : list BulkUpdateObject)
    (options : BulkUpdateOptions) : Repo S (list BulkSlot) :=
  do time <- _getCurrentTime;
  do namespace <- lift (normalizeNamespace (buo_namespace options));
  let expectedBulkGetResults := snd (bulkUpdate_expected time objects) in
  let bulkGetDocs := bulkUpdate_docs namespace expectedBulkGetResults in
  do bulkGetResponse <-
    (if negb (Nat.eqb (length bulkGetDocs) 0) then
       do r <- client_mget bulkGetDocs; ret (Some r)
     else ret None);
  let '((_, bulkUpdateParams), expectedBulkUpdateResults) :=
    map_accum (bulkUpdate_step namespace bulkGetResponse) (0, [])
      expectedBulkGetResults in
  let refresh := default DEFAULT_REFRESH_SETTING (buo_refresh options) in
  bulkUpdate_write refresh bulkUpdateParams expectedBulkUpdateResults.

(** *** incrementCounter *)

Definition normalizeCounterField (initialize : bool)
    (counterField : CounterField) : string * JsValue :=
  match counterField with
  | FieldName name => (name, JNum (if initialize then 0 else 1))
  | FieldConfig fieldName incrementBy =>
      let incrementBy :=
        match incrementBy with JUndefined => JNum 1 | v => v end in
      (fieldName, if initialize then JNum 0 else incrementBy)
  end.

(** incrementCounter function that is used internally and bypasses
    validation checks. *)
Definition incrementCounterInternal (type id : string)
    (counterFields : list CounterField) (options : IncrementCounterOptions)
  : Repo S SavedObject :=
  let refresh := default DEFAULT_REFRESH_SETTING (ico_refresh options) in
  let initialize := default false (ico_initialize options) in
  let normalizedCounterFields :=
    map (normalizeCounterField initialize) counterFields in
  do namespace <- lift (normalizeNamespace (ico_namespace options));
  do time <- _getCurrentTime;
  do nss <-
    (if isSingleNamespace registry type && truthy_opt namespace then
       ret (namespace, None)
     else if isMultiNamespace registry type then
       do nss <- preflightGetNamespaces type id namespace;
       ret (None, nss)
     else ret (None, None));
  let '(savedObjectNamespace, savedObjectNamespaces) := nss in
  do migrated <- lift (migrateDocument (_migrator D)
    (mkDoc id type (spread_str savedObjectNamespace) savedObjectNamespaces
       None
       (JObj (rev normalizedCounterFields
              ++ default [] (ico_upsertAttributes options))%list)
       (ico_migrationVersion options) (Some time) None));
  let raw := savedObjectToRaw (_serializer D) migrated in
  do body <- client_update
      (mkUpdate (_id raw) (getIndexForType type) no_if_match refresh
         (UpdateScript
            (ScriptIncrementCounters
               (map snd normalizedCounterFields)
               (map fst normalizedCounterFields)
               time type)
            (Some (_source raw)))
         true false);
  let source := option_map gi_source (wr_get body) in
  let originId :=
    match source with Some s => src_originId s | None => None end in
  ret (mkSO id type None savedObjectNamespaces (spread_str originId)
         (Some time)
         (Some (encodeHitVersion I (wr_seq_no body) (wr_primary_term body)))
         (match source with
          | Some s => src_attributes s
          | None => JUndefined
          end)
         (Some (match source with
                | Some s => default [] (src_references s)
                | None => []
                end))).

Definition isCounterField (field : JsValue) : bool :=
  js_is_string field
  || (isObject field && js_is_string (js_get field "fieldName")).

Definition isArrayOfCounterFields (counterFields : JsValue) : bool :=
  match counterFields with
  | JArr fields => forallb isCounterField fields
  | _ => false
  end.

(** The typed view of a validated counter-field argument. *)
Definition toCounterField (field : JsValue) : CounterField :=
  match field with
  | JStr name => FieldName name
  | _ =>
      FieldConfig
        (match js_get field "fieldName" with
         | JStr name => name
         | _ => EmptyString
         end)
        (js_get field "incrementBy")
  end.

Definition toCounterFields (counterFields : JsValue) : list CounterField :=
  match counterFields with
  | JArr fields => map toCounterField fields
  | _ => []
  end.

(** Increments all the specified counter fields (by one by default). *)
Definition incrementCounter (type : JsValue) (id : string)
    (counterFields : JsValue) (options : option IncrementCounterOptions)
  : Repo S SavedObject :=
  match type with
  | JStr type =>
      if negb (isArrayOfCounterFields counterFields) then
        throw (PlainError
          (dq ++ "counterFields" ++ dq
           ++ " argument must be of type Array<string | { incrementBy?: number; fieldName: string }>"))
      else if negb (allowed type) then throw (UnsupportedTypeError type)
      else
        incrementCounterInternal type id (toCounterFields counterFields)
          (default no_increment_options options)
  | _ =>
      throw (PlainError (dq ++ "type" ++ dq ++ " argument must be a string"))
  end.

(** *** resolve *)

Definition incrementResolveOutcomeStats (outcomeStatString : string)
  : Repo S unit :=
  try_catch
    (run incrementCounterInternal (CORE_USAGE_STATS_TYPE I)
           (CORE_USAGE_STATS_ID I)
           [FieldName outcomeStatString; FieldName (STATS_TOTAL I)]
           (mkIncrementCounterOptions None None (Some (RefreshBool false))
              None None);
     ret tt)
    (fun _ => ret tt).

Definition resolveExactMatch (type id : string) (options : BaseOptions)
  : Repo S ResolveResponse :=
  try_catch
    (do object <- get type id options;
     run incrementResolveOutcomeStats (STATS_EXACT_MATCH I);
     ret (mkResolveResponse object "exactMatch" None))
    (fun err =>
       if isNotFoundError err then
         run incrementResolveOutcomeStats (STATS_NOT_FOUND I);
         throw err
       else throw err).

(** The scripted update that retrieves the alias and, if it is not
    disabled, counts the resolution. *)
Definition resolve_aliasRequest (ns type id time : string) : UpdateParams :=
  mkUpdate (generateRawLegacyUrlAliasId (_serializer D) ns type id)
    (getIndexForType (LEGACY_URL_ALIAS_TYPE I))
    no_if_match (RefreshBool false)
    (UpdateScript (ScriptResolveAlias (LEGACY_URL_ALIAS_TYPE I) time) None)
    false true.

(** No legacy URL alias exists, or one exists but it is disabled. *)
Definition resolve_aliasUnusable (aliasResponse : WriteResponse) : bool :=
  Z.eqb (wr_statusCode aliasResponse) 404
  || match wr_get aliasResponse with
     | Some g => match gi_found g with Some false => true | _ => false end
     | None => false
     end
  || match wr_get aliasResponse with
     | Some g =>
         match src_alias (gi_source g) with
         | Some a => match disabled a with Some true => true | _ => false end
         | None => false
         end
     | None => false
     end.

(** The exact id first, the alias target second. *)
Definition resolve_bulkGetDocs (namespace : option string)
    (type id target : string) : list MgetDoc :=
  [mkMgetDoc (generateRawId (_serializer D) namespace type id)
     (getIndexForType type) None;
   mkMgetDoc (generateRawId (_serializer D) namespace type target)
     (getIndexForType type) None].

(** Resolves a single object, using any legacy URL alias if it exists. *)
Definition resolve (type id : string) (options : BaseOptions)
  : Repo S ResolveResponse :=
  if negb (allowed type) then
    throw (GenericNotFoundError (Some type) (Some id))
  else
    do namespace <- lift (normalizeNamespace (bo_namespace options));
    match namespace with
    | None => resolveExactMatch type id options
    | Some ns =>
        do time <- _getCurrentTime;
        do aliasResponse <- client_update (resolve_aliasRequest ns type id time);
        if resolve_aliasUnusable aliasResponse
        then resolveExactMatch type id options
        else
          match option_map gi_source (wr_get aliasResponse) with
          | Some source =>
              match src_alias source with
              | Some legacyUrlAlias =>
                  do bulkGetResponse <- client_mget
                      (resolve_bulkGetDocs namespace type id
                         (targetId legacyUrlAlias));
                  match mget_docs bulkGetResponse !! 0,
                        mget_docs bulkGetResponse !! 1 with
                  | Some exactMatchDoc, Some aliasMatchDoc =>
                      let foundExactMatch :=
                        hit_found exactMatchDoc
                        && rawDocExistsInNamespace (hit_doc exactMatchDoc)
                             namespace in
                      let foundAliasMatch :=
                        hit_found aliasMatchDoc
                        && rawDocExistsInNamespace (hit_doc aliasMatchDoc)
                             namespace in
                      let '(result, outcomeStatString) :=
                        if foundExactMatch && foundAliasMatch then
                          (Some (mkResolveResponse
                                   (getSavedObjectFromSource I registry type id
                                      (hit_doc exactMatchDoc))
                                   "conflict" (Some (targetId legacyUrlAlias))),
                           STATS_CONFLICT I)
                        else if foundExactMatch then
                          (Some (mkResolveResponse
                                   (getSavedObjectFromSource I registry type id
                                      (hit_doc exactMatchDoc))
                                   "exactMatch" None),
                           STATS_EXACT_MATCH I)
                        else if foundAliasMatch then
                          (Some (mkResolveResponse
                                   (getSavedObjectFromSource I registry type
                                      (targetId legacyUrlAlias)
                                      (hit_doc aliasMatchDoc))
                                   "aliasMatch"
                                   (Some (targetId legacyUrlAlias))),
                           STATS_ALIAS_MATCH I)
                        else (None, STATS_NOT_FOUND I) in
                      run incrementResolveOutcomeStats outcomeStatString;
                      match result with
                      | Some r => ret r
                      | None =>
                          throw (GenericNotFoundError (Some type) (Some id))
                      end
                  | _, _ => throw undefined_response
                  end
              | None => throw undefined_response
              end
          | None => throw undefined_response
          end
    end.

(** *** find *)

Definition type_absent (type : option TypeArg) : bool :=
  match type with
  | None => true
  | Some (TypeString s) => negb (truthy s)
  | Some (TypeArray _) => false
  end.

Definition is_some {A} (o : option A) : bool :=
  match o with Some _ => true | None => false end.

(** The precondition checks at the head of [find]. *)
Definition find_preconditions (options : FindOptions) : Outcome unit :=
  let type := fo_type options in
  let typeToNamespacesMap := fo_typeToNamespacesMap options in
  let namespaces := fo_namespaces options in
  if type_absent type && negb (is_some typeToNamespacesMap) then
    Throw (BadRequestError
      "options.type must be a string or an array of strings")
  else if match namespaces with
          | Some l => Nat.eqb (length l) 0
          | None => false
          end && negb (is_some typeToNamespacesMap) then
    Throw (BadRequestError "options.namespaces cannot be an empty array")
  else if negb (type_absent type) && is_some typeToNamespacesMap then
    Throw (BadRequestError
      "options.type must be an empty string when options.typeToNamespacesMap is used")
  else if match namespaces with
          | None => true
          | Some l => negb (Nat.eqb (length l) 0)
          end && is_some typeToNamespacesMap then
    Throw (BadRequestError
      "options.namespaces must be an empty array when options.typeToNamespacesMap is used")
  else if truthy_opt (fo_preference options) && is_some (fo_pit options) then
    Throw (BadRequestError
      "options.preference must be excluded when options.pit is used")
  else Ok tt.

Definition type_as_value (type : option TypeArg) : option JsValue :=
  match type with
  | None => None
  | Some (TypeString s) => Some (JStr s)
  | Some (TypeArray l) => Some (JArr (map JStr l))
  end.

(** [esOptions]: the store query of [find].  [page] and [perPage] are
    integers here; the source multiplies JavaScript numbers, which gives
    the same offset as long as it stays below 2^53. *)
Definition find_esOptions (options : FindOptions) (allowedTypes : list string)
    (kueryNode aggsObject : option JsValue) : SearchParams :=
  let page := default FIND_DEFAULT_PAGE (fo_page options) in
  let perPage := default FIND_DEFAULT_PER_PAGE (fo_perPage options) in
  let pit := fo_pit options in
  let searchAfter := fo_searchAfter options in
  let source := includedFields I (type_as_value (fo_type options))
                  (fo_fields options) in
  mkSearch
    (if is_some pit then None else Some (getIndicesForTypes allowedTypes))
    (if is_some searchAfter then None else Some (perPage * (page - 1))%Z)
    source
    (fo_preference options)
    true
    perPage
    (mkSearchBody perPage true (perPage * (page - 1))%Z source aggsObject
       (getSearchDsl I
          (mkDslArgs (fo_search options)
             (default "OR" (fo_defaultSearchOperator options))
             (fo_searchFields options) (fo_rootSearchFields options)
             pit allowedTypes searchAfter (fo_sortField options)
             (fo_sortOrder options) (fo_namespaces options)
             (fo_typeToNamespacesMap options) (fo_hasReference options)
             (fo_hasReferenceOperator options) kueryNode))).

Definition find (options : FindOptions) : Repo S FindResponse :=
  let page := default FIND_DEFAULT_PAGE (fo_page options) in
  let perPage := default FIND_DEFAULT_PER_PAGE (fo_perPage options) in
  run lift (find_preconditions options);
  let types :=
    match fo_type options with
    | Some (TypeArray l) => l
    | Some (TypeString s) =>
        if truthy s then [s]
        else map fst (default [] (fo_typeToNamespacesMap options))
    | None => map fst (default [] (fo_typeToNamespacesMap options))
    end in
  let allowedTypes := filter (fun t => Is_true (allowed t)) types in
  if Nat.eqb (length allowedTypes) 0 then
    ret (createEmptyFindResponse I (fo_page options) (fo_perPage options))
  else if js_truthy_opt (fo_searchFields options)
          && negb (is_array (default JUndefined (fo_searchFields options)))
  then throw (BadRequestError "options.searchFields must be an array")
  else if js_truthy_opt (fo_fields options)
          && negb (is_array (default JUndefined (fo_fields options)))
  then throw (BadRequestError "options.fields must be an array")
  else
    do kueryNode <-
      (if js_truthy_opt (fo_filter options) then
         match validateConvertFilterToKueryNode I allowedTypes
                 (default JUndefined (fo_filter options)) with
         | FilterNode node => ret (Some node)
         | FilterKQLSyntaxError message =>
             throw (BadRequestError ("KQLSyntaxError: " ++ message))
         | FilterError e => throw e
         end
       else ret None);
    do aggsObject <-
      (if js_truthy_opt (fo_aggs options) then
         match validateAndConvertAggregations I allowedTypes
                 (default JUndefined (fo_aggs options)) with
         | inr aggs => ret (Some aggs)
         | inl message =>
             throw (BadRequestError ("Invalid aggregation: " ++ message))
         end
       else ret None);
    let esOptions := find_esOptions options allowedTypes kueryNode aggsObject in
    do r <- client_search esOptions;
    if Z.eqb (search_statusCode r) 404 then
      ret (mkFindResp None page perPage 0 [] None)
    else
      ret (mkFindResp (search_aggregations r) page perPage (search_total r)
             (map (fun hit =>
                     (_rawToSavedObject (sh_doc hit), sh_score hit, sh_sort hit))
                  (search_hits r))
             (search_pit_id r)).

(** *** removeReferencesTo *)

(** Updates all objects containing a reference to the given [{type, id}]
    tuple to remove the said reference. *)
Definition removeReferencesTo (type id : string)
    (options : RemoveReferencesToOptions) : Repo S (option Z) :=
  let namespace := rro_namespace options in
  let refresh := default true (rro_refresh options) in
  let allTypes := getAllTypes registry in
  let targetIndices := getIndicesForTypes allTypes in
  do body <- client_updateByQuery
      (mkUBQ targetIndices (Some refresh) (ScriptRemoveReferences type id)
         "proceed"
         (getSearchDsl I
            (mkDslArgs None EmptyString None None None allTypes None None None
               (if truthy_opt namespace
                then Some [default EmptyString namespace] else None)
               None
               (Some (JObj [("type", JStr type); ("id", JStr id)]))
               None None)));
  match ubq_failures body with
  | Some (f :: fs) =>
      throw (ConflictError type id
               (Some (pretty (length (f :: fs))
                      ++ " references could not be removed")))
  | _ => ret (ubq_updated body)
  end.

End WithDeps.
End Repository.

(** ** A reference store

    An in-memory document store with sequence numbers and primary terms,
    answering the requests of [RepositoryEsClient] the way the search engine
    does for the features the repository relies on: conditional writes,
    create-if-absent, partial updates with upsert, scripted counters and
    ordered bulk execution.  It is the instance at which the theorems below
    are exercised. *)

Module MemStore.

(** Documents are kept by index and id. *)
Definition Store : Type := list (string * string * RawDoc).

Definition same_key (index id : string) (entry : string * string * RawDoc)
  : bool :=
  String.eqb (fst (fst entry)) index && String.eqb (snd (fst entry)) id.

Fixpoint stored (st : Store) (index id : string) : option RawDoc :=
  match st with
  | [] => None
  | entry :: rest =>
      if same_key index id entry then Some (snd entry)
      else stored rest index id
  end.

Fixpoint store (st : Store) (index id : string) (d : RawDoc) : Store :=
  match st with
  | [] => [(index, id, d)]
  | entry :: rest =>
      if same_key index id entry then (index, id, d) :: rest
      else entry :: store rest index id d
  end.

Fixpoint remove (st : Store) (index id : string) : Store :=
  match st with
  | [] => []
  | entry :: rest =>
      if same_key index id entry then remove rest index id
      else entry :: remove rest index id
  end.

Definition empty_source : RawSource :=
  mkSource EmptyString None None None JUndefined None None None None.

Definition absent (id : string) : RawDoc := mkRaw id empty_source None None.

(** A conditional write goes through when no condition is given or when
    the stored document carries exactly the required pair. *)
Definition admits (cond : IfMatch) (old : option RawDoc) : bool :=
  match if_seq_no cond, if_primary_term cond with
  | None, None => true
  | s, t =>
      match old with
      | Some d => bool_decide (_seq_no d = s) && bool_decide (_primary_term d = t)
      | None => false
      end
  end.

Definition next_seq_no (old : option RawDoc) : Z :=
  match old with
  | Some d => (default 0 (_seq_no d) + 1)%Z
  | None => 0%Z
  end.

Definition put (st : Store) (index id : string) (source : RawSource)
  : Store * RawDoc :=
  let d := mkRaw id source (Some (next_seq_no (stored st index id))) (Some 1%Z) in
  (store st index id d, d).

Definition conflict : DecoratedError :=
  StoreError Conflict "version_conflict_engine_exception".

Definition missing : DecoratedError :=
  StoreError NotFound "document_missing_exception".

Definition get (p : GetParams) (st : Store) : Outcome GetResponse * Store :=
  match stored st (gp_index p) (gp_id p) with
  | Some d => (Ok (mkGetResp 200 true d), st)
  | None => (Ok (mkGetResp 404 false (absent (gp_id p))), st)
  end.

Definition hit (st : Store) (d : MgetDoc) : MgetHit :=
  match stored st (md_index d) (md_id d) with
  | Some doc => mkHit true doc
  | None => mkHit false (absent (md_id d))
  end.

Definition mget (docs : list MgetDoc) (st : Store)
  : Outcome MgetResponse * Store :=
  (Ok (mkMgetResp 200 (map (hit st) docs)), st).

Definition written (d : RawDoc) : WriteResponse :=
  mkWriteResp 200 (_seq_no d) (_primary_term d) None.

Definition index (p : IndexParams) (st : Store)
  : Outcome WriteResponse * Store :=
  if admits (ip_if p) (stored st (ip_index p) (ip_id p)) then
    let '(st', d) := put st (ip_index p) (ip_id p) (ip_body p) in
    (Ok (written d), st')
  else (Throw conflict, st).

Definition create (p : IndexParams) (st : Store)
  : Outcome WriteResponse * Store :=
  match stored st (ip_index p) (ip_id p) with
  | Some _ => (Throw conflict, st)
  | None =>
      let '(st', d) := put st (ip_index p) (ip_id p) (ip_body p) in
      (Ok (written d), st')
  end.

Definition js_add (a b : JsValue) : JsValue :=
  match a, b with
  | JNum x, JNum y => JNum (x + y)
  | _, _ => b
  end.

Fixpoint set_field (fields : list (string * JsValue)) (key : string)
    (v : JsValue) : list (string * JsValue) :=
  match fields with
  | [] => [(key, v)]
  | (k, old) :: rest =>
      if String.eqb k key then (k, v) :: rest
      else (k, old) :: set_field rest key v
  end.

Fixpoint count_up (attrs : list (string * JsValue))
    (names : list string) (counts : list JsValue) : list (string * JsValue) :=
  match names, counts with
  | name :: names', count :: counts' =>
      let now :=
        match js_field attrs name with
        | JUndefined | JNull => count
        | old => js_add old count
        end in
      count_up (set_field attrs name now) names' counts'
  | _, _ => attrs
  end.

Definition with_attributes (s : RawSource) (attrs : JsValue)
    (updated_at : option string)
    (references : option (list SavedObjectReference)) : RawSource :=
  mkSource (src_type s) (src_namespace s) (src_namespaces s) (src_originId s)
    attrs
    (match references with Some r => Some r | None => src_references s end)
    updated_at (src_migrationVersion s) (src_alias s).

Definition apply_script (script : Script) (s : RawSource) : RawSource :=
  match script with
  | ScriptIncrementCounters counts names time _ =>
      with_attributes s
        (JObj (count_up
                 (match src_attributes s with JObj f => f | _ => [] end)
                 names counts))
        (Some time) None
  | _ => s
  end.

Definition apply_update (body : UpdateBody) (s : RawSource) : RawSource :=
  match body with
  | UpdateDoc doc _ =>
      with_attributes s (pd_attributes doc) (Some (pd_updated_at doc))
        (pd_references doc)
  | UpdateScript script _ => apply_script script s
  end.

Definition upsert_of (body : UpdateBody) : option RawSource :=
  match body with
  | UpdateDoc _ u => u
  | UpdateScript _ u => u
  end.

Definition updated (d : RawDoc) : WriteResponse :=
  mkWriteResp 200 (_seq_no d) (_primary_term d)
    (Some (mkGetInfo (Some true) (_source d))).

Definition update (p : UpdateParams) (st : Store)
  : Outcome WriteResponse * Store :=
  match stored st (up_index p) (up_id p) with
  | Some old =>
      if admits (up_if p) (Some old) then
        let '(st', d) :=
          put st (up_index p) (up_id p) (apply_update (up_body p) (_source old)) in
        (Ok (updated d), st')
      else (Throw conflict, st)
  | None =>
      match upsert_of (up_body p) with
      | Some source =>
          let '(st', d) := put st (up_index p) (up_id p) source in
          (Ok (updated d), st')
      | None =>
          if up_ignore404 p then (Ok (mkWriteResp 404 None None None), st)
          else (Throw missing, st)
      end
  end.

Definition header_of (op : BulkOp) : BulkHeader :=
  match op with
  | BulkIndex h _ | BulkCreate h _ | BulkUpdate h _ => h
  end.

Definition rejected (status : Z) (type : string) : BulkItem :=
  mkItem status (Some (mkItemError type type None)) None None None.

Definition accepted (d : RawDoc) : BulkItem :=
  mkItem 200 None (_seq_no d) (_primary_term d)
    (Some (mkGetInfo (Some true) (_source d))).

Definition bulk_op (op : BulkOp) (st : Store) : BulkItem * Store :=
  let h := header_of op in
  let old := stored st (bh_index h) (bh_id h) in
  match op with
  | BulkIndex _ source =>
      if admits (bh_if h) old then
        let '(st', d) := put st (bh_index h) (bh_id h) source in
        (accepted d, st')
      else (rejected 409 "version_conflict_engine_exception", st)
  | BulkCreate _ source =>
      match old with
      | Some _ => (rejected 409 "version_conflict_engine_exception", st)
      | None =>
          let '(st', d) := put st (bh_index h) (bh_id h) source in
          (accepted d, st')
      end
  | BulkUpdate _ doc =>
      match old with
      | None => (rejected 404 "document_missing_exception", st)
      | Some o =>
          if admits (bh_if h) old then
            let '(st', d) :=
              put st (bh_index h) (bh_id h)
                (apply_update (UpdateDoc doc None) (_source o)) in
            (accepted d, st')
          else (rejected 409 "version_conflict_engine_exception", st)
      end
  end.

Fixpoint bulk_ops (ops : list BulkOp) (st : Store) : list BulkItem * Store :=
  match ops with
  | [] => ([], st)
  | op :: rest =>
      let '(item, st1) := bulk_op op st in
      let '(items, st2) := bulk_ops rest st1 in
      (item :: items, st2)
  end.

Definition bulk (p : BulkParams) (st : Store)
  : Outcome BulkResponse * Store :=
  let '(items, st') := bulk_ops (bp_body p) st in
  (Ok (mkBulkResp items), st').

Definition delete (p : DeleteParams) (st : Store)
  : Outcome DeleteResponse * Store :=
  match stored st (dp_index p) (dp_id p) with
  | None => (Ok (mkDeleteResp 404 (Some "not_found") None), st)
  | Some old =>
      if admits (dp_if p) (Some old) then
        (Ok (mkDeleteResp 200 (Some "deleted") None),
         remove st (dp_index p) (dp_id p))
      else (Throw conflict, st)
  end.

(** Queries are answered with no hits: the theorems only look at the
    request of a search. *)
Definition search (p : SearchParams) (st : Store)
  : Outcome SearchResponse * Store :=
  (Ok (mkSearchResp 200 0 [] None None), st).

Definition updateByQuery (p : UpdateByQueryParams) (st : Store)
  : Outcome UpdateByQueryResponse * Store :=
  (Ok (mkUBQResp None (Some 0%Z)), st).

Definition es : RepositoryEsClient Store :=
  mkClient Store get mget index create update bulk delete search updateByQuery.

End MemStore.

(** ** A reference configuration

    A registry with one type of each namespace class, the serializer's
    raw-id scheme (namespace prefix for single-namespace types only), a
    migrator that only validates and a toy version codec, wired to the
    reference store. *)

Module Kibana.

Definition registry : Registry :=
  mkRegistry
    (fun t => String.eqb t "dashboard")
    (fun t => String.eqb t "tag")
    (fun t => String.eqb t "config" || String.eqb t "core-usage-stats")
    (fun t => String.eqb t "tag")
    (fun _ => None)
    ["dashboard"; "tag"; "config"; "core-usage-stats"; "legacy-url-alias";
     "secret"].

Definition generateRawId (namespace : option string) (type id : string)
  : string :=
  match namespace with
  | Some n =>
      if truthy n && isSingleNamespace registry type
      then n ++ ":" ++ type ++ ":" ++ id
      else type ++ ":" ++ id
  | None => type ++ ":" ++ id
  end.

Definition savedObjectToRaw (d : SanitizedDoc) : RawDoc :=
  mkRaw (generateRawId (sd_namespace d) (sd_type d) (sd_id d))
    (mkSource (sd_type d) (sd_namespace d) (sd_namespaces d) (sd_originId d)
       (sd_attributes d) (sd_references d) (sd_updated_at d)
       (sd_migrationVersion d) None)
    None None.

Fixpoint unary (c : Ascii.ascii) (n : nat) : string :=
  match n with
  | O => EmptyString
  | Datatypes.S m => String c (unary c m)
  end.

Fixpoint count_char (c : Ascii.ascii) (s : string) : nat :=
  match s with
  | EmptyString => O
  | String a rest =>
      if Ascii.eqb a c then Datatypes.S (count_char c rest)
      else count_char c rest
  end.

(** A toy codec: sequence number and primary term in unary. *)
Definition encodeVersion (seq_no primary_term : option Z) : string :=
  unary "s"%char (Z.to_nat (default 0%Z seq_no))
  ++ unary "t"%char (Z.to_nat (default 0%Z primary_term)).

Definition decodeRequestVersion (version : string) : Z * Z :=
  (Z.of_nat (count_char "s"%char version),
   Z.of_nat (count_char "t"%char version)).

Fixpoint drop_prefix (prefix s : string) : string :=
  match prefix, s with
  | String a p', String b s' =>
      if Ascii.eqb a b then drop_prefix p' s' else String b s'
  | _, _ => s
  end.

Definition rawToSavedObject (raw : RawDoc) : SavedObject :=
  let s := _source raw in
  let prefix :=
    match src_namespace s with
    | Some n =>
        if truthy n && isSingleNamespace registry (src_type s)
        then n ++ ":" ++ src_type s ++ ":"
        else src_type s ++ ":"
    | None => src_type s ++ ":"
    end in
  mkSO (drop_prefix prefix (_id raw)) (src_type s) (src_namespace s)
    (src_namespaces s) (src_originId s) (src_updated_at s)
    (Some (encodeVersion (_seq_no raw) (_primary_term raw)))
    (src_attributes s) (src_references s).

Definition serializer : Serializer :=
  mkSerializer generateRawId
    (fun namespace type id =>
       "legacy-url-alias:" ++ namespace ++ ":" ++ type ++ ":" ++ id)
    savedObjectToRaw rawToSavedObject.

(** The migrator leaves a document as it is, and refuses one whose
    [migrationVersion] is not an object. *)
Definition migrateDocument (d : SanitizedDoc) : Outcome SanitizedDoc :=
  match sd_migrationVersion d with
  | None | Some (JObj _) => Ok d
  | Some _ =>
      Throw (BadRequestError "Document has an invalid migrationVersion")
  end.

Definition migrator : Migrator := mkMigrator migrateDocument false "7.14.0".

Definition rawDocExistsInNamespace (r : Registry) (raw : RawDoc)
    (namespace : option string) : bool :=
  if negb (isMultiNamespace r (src_type (_source raw))) then true
  else
    match src_namespaces (_source raw) with
    | Some namespaces =>
        includes namespaces (namespaceIdToString namespace)
        || includes namespaces ALL_NAMESPACES_STRING
    | None => false
    end.

Definition getSavedObjectFromSource (r : Registry) (type id : string)
    (doc : RawDoc) : SavedObject :=
  let s := _source doc in
  mkSO id type None
    (Some (if negb (isNamespaceAgnostic r type) then
             match src_namespaces s with
             | Some l => l
             | None => [namespaceIdToString (src_namespace s)]
             end
           else []))
    (spread_str (src_originId s)) (spread_str (src_updated_at s))
    (Some (encodeVersion (_seq_no doc) (_primary_term doc)))
    (src_attributes s)
    (Some (default [] (src_references s))).

Definition kibana_imports : Imports :=
  mkImports rawDocExistsInNamespace getSavedObjectFromSource
    decodeRequestVersion encodeVersion encodeVersion
    (fun _ _ => None)
    (fun args =>
       JObj [("search_after",
              match dsl_searchAfter args with
              | Some l => JArr l
              | None => JUndefined
              end)])
    (fun _ node => FilterNode node)
    (fun _ aggs => inr aggs)
    (fun n => "generated-" ++ unary "i"%char n)
    (fun page perPage =>
       mkFindResp None (default FIND_DEFAULT_PAGE page)
         (default FIND_DEFAULT_PER_PAGE perPage) 0 [] None)
    "core-usage-stats" "core-usage-stats"
    "savedObjectsRepository.resolvedOutcome.exactMatch"
    "savedObjectsRepository.resolvedOutcome.aliasMatch"
    "savedObjectsRepository.resolvedOutcome.conflict"
    "savedObjectsRepository.resolvedOutcome.notFound"
    "savedObjectsRepository.resolvedOutcome.total"
    "legacy-url-alias".

(** The repository of the reference configuration: every registered type
    but the hidden "secret" is allowed. *)
Definition deps : Deps MemStore.Store :=
  mkDeps MemStore.Store ".kibana" registry serializer migrator
    ["dashboard"; "tag"; "config"; "core-usage-stats"; "legacy-url-alias"]
    MemStore.es kibana_imports.

Definition world (st : MemStore.Store) : World MemStore.Store :=
  mkWorld st [] "2021-06-01T00:00:00.000Z" 0.

(** A store in which the dashboard "old" of space "space1" has been
    renamed to "new", with a legacy alias left behind. *)
Definition alias_doc : RawDoc :=
  mkRaw "legacy-url-alias:space1:dashboard:old"
    (mkSource "legacy-url-alias" None None None JUndefined None None None
       (Some (mkAlias "new" None)))
    (Some 0%Z) (Some 1%Z).

Definition new_doc : RawDoc :=
  mkRaw "space1:dashboard:new"
    (mkSource "dashboard" (Some "space1") None None
       (JObj [("title", JStr "Sales")]) None None None None)
    (Some 3%Z) (Some 1%Z).

Definition sales_doc : RawDoc :=
  mkRaw "dashboard:d1"
    (mkSource "dashboard" None None None (JObj [("title", JStr "Sales")])
       None None None None)
    (Some 5%Z) (Some 1%Z).

Definition sales : MemStore.Store := [(".kibana", _id sales_doc, sales_doc)].

(** A store with the tag "t1", shared between the spaces "a" and "b". *)
Definition tag_doc : RawDoc :=
  mkRaw "tag:t1"
    (mkSource "tag" None (Some ["a"; "b"]) None
       (JObj [("name", JStr "urgent")]) None None None None)
    (Some 7%Z) (Some 1%Z).

Definition shared : MemStore.Store := [(".kibana", _id tag_doc, tag_doc)].

Definition renamed : MemStore.Store :=
  [(".kibana", _id alias_doc, alias_doc); (".kibana", _id new_doc, new_doc)].

End Kibana.

(** * Properties *)

Import Repository.

(** The statements of the specification that the theorems compare the code
    with. *)

(** A call is rejected before the store is involved: it throws an error of
    the given kind, and neither the store nor the trace of requests has
    changed. *)
Definition rejected_up_front {S A} (k : ErrorKind)
    (r : Outcome A * World S) (w : World S) : Prop :=
  throws_kind (fst r) k
  /\ w_store (snd r) = w_store w
  /\ w_log (snd r) = w_log w.

(** [type] counts as supplied when it is a non-empty string or an array. *)
Definition type_supplied (o : FindOptions) : Prop :=
  type_absent (fo_type o) = false.

(** The five precondition violations of [find]. *)
Inductive find_violation (o : FindOptions) : Prop :=
| neither_type_nor_map :
    ~ type_supplied o -> fo_typeToNamespacesMap o = None -> find_violation o
| both_type_and_map :
    type_supplied o -> is_Some (fo_typeToNamespacesMap o) -> find_violation o
| namespaces_with_map :
    forall n ns, fo_namespaces o = Some (n :: ns) ->
    is_Some (fo_typeToNamespacesMap o) -> find_violation o
| empty_namespaces_without_map :
    fo_namespaces o = Some [] -> fo_typeToNamespacesMap o = None ->
    find_violation o
| preference_with_pit :
    forall p, fo_preference o = Some p -> p <> EmptyString ->
    is_Some (fo_pit o) -> find_violation o.

(** A well-formed counter-field argument: an array whose entries are
    strings or records with a string [fieldName]. *)
Definition counter_field_ok (field : JsValue) : Prop :=
  (exists name, field = JStr name)
  \/ (exists fields name,
        field = JObj fields /\ js_field fields "fieldName" = JStr name).

Definition counter_fields_ok (counterFields : JsValue) : Prop :=
  exists fields, counterFields = JArr fields /\ Forall counter_field_ok fields.

(** The delta the specification assigns to a counter field. *)
Definition spec_delta (initialize : bool) (field : CounterField) : JsValue :=
  if initialize then JNum 0
  else
    match field with
    | FieldName _ => JNum 1
    | FieldConfig _ JUndefined => JNum 1
    | FieldConfig _ incrementBy => incrementBy
    end.

Definition field_name (field : CounterField) : string :=
  match field with
  | FieldName name => name
  | FieldConfig fieldName _ => fieldName
  end.

(** The script the counters are incremented with. *)
Definition counter_script (type : string) (fields : list CounterField)
    (initialize : bool) (time : string) : Script :=
  ScriptIncrementCounters (map (spec_delta initialize) fields)
    (map field_name fields) time type.

(** *** What the store shows to [resolve] *)

Section ResolveSpec.

Context {S : Type}.
Variable D : Deps S.

(** The world after some requests have been answered. *)
Definition after (w : World S) (st : S) (calls : list EsCall) : World S :=
  mkWorld st (w_log w ++ calls)%list (w_time w) (w_fresh w).

(** The document of a get response, when it exists in the namespace. *)
Definition direct_of_get (namespace : option string) (r : GetResponse)
  : option RawDoc :=
  if get_found r && negb (Z.eqb (get_statusCode r) 404)
     && rawDocExistsInNamespace D (get_doc r) namespace
  then Some (get_doc r) else None.

(** The document of a multi-get hit, when it exists in the namespace. *)
Definition doc_of_hit (namespace : option string) (h : MgetHit)
  : option RawDoc :=
  if hit_found h && rawDocExistsInNamespace D (hit_doc h) namespace
  then Some (hit_doc h) else None.

Definition exact_get (namespace : option string) (type id : string)
  : GetParams :=
  mkGet (generateRawId (_serializer D) namespace type id)
    (getIndexForType D type).

(** [store_shows type id options w direct target w']: answering the
    requests of [resolve type id options] from world [w], the store shows
    [direct], the document with the given id if it exists in the namespace,
    and [target], the target id and document of a legacy alias that is not
    disabled, if that document exists in the namespace; [w'] is the world
    once these answers are in. *)
Inductive store_shows (type id : string) (options : BaseOptions)
    (w : World S)
  : option RawDoc -> option (string * RawDoc) -> World S -> Prop :=
| shows_default_namespace (r : GetResponse) (st : S) :
    normalizeNamespace (bo_namespace options) = Ok None ->
    es_get (client D) (exact_get None type id) (w_store w) = (Ok r, st) ->
    store_shows type id options w (direct_of_get None r) None
      (after w st [CallGet (exact_get None type id)])
| shows_without_alias (ns : string) (a : WriteResponse) (r : GetResponse)
    (st1 st2 : S) :
    normalizeNamespace (bo_namespace options) = Ok (Some ns) ->
    es_update (client D) (resolve_aliasRequest D ns type id (w_time w))
      (w_store w) = (Ok a, st1) ->
    resolve_aliasUnusable a = true ->
    es_get (client D) (exact_get (Some ns) type id) st1 = (Ok r, st2) ->
    store_shows type id options w (direct_of_get (Some ns) r) None
      (after w st2
         [CallUpdate (resolve_aliasRequest D ns type id (w_time w));
          CallGet (exact_get (Some ns) type id)])
| shows_with_alias (ns : string) (a : WriteResponse) (g : GetInfo)
    (alias : LegacyUrlAlias) (m : MgetResponse) (exact target : MgetHit)
    (st1 st2 : S) :
    normalizeNamespace (bo_namespace options) = Ok (Some ns) ->
    es_update (client D) (resolve_aliasRequest D ns type id (w_time w))
      (w_store w) = (Ok a, st1) ->
    resolve_aliasUnusable a = false ->
    wr_get a = Some g ->
    src_alias (gi_source g) = Some alias ->
    es_mget (client D)
      (resolve_bulkGetDocs D (Some ns) type id (targetId alias)) st1
    = (Ok m, st2) ->
    mget_docs m !! 0 = Some exact ->
    mget_docs m !! 1 = Some target ->
    store_shows type id options w (doc_of_hit (Some ns) exact)
      (option_map (pair (targetId alias)) (doc_of_hit (Some ns) target))
      (after w st2
         [CallUpdate (resolve_aliasRequest D ns type id (w_time w));
          CallMget (resolve_bulkGetDocs D (Some ns) type id (targetId alias))]).

(** The outcome classification of the specification. *)
Definition spec_resolve (type id : string) (direct : option RawDoc)
    (target : option (string * RawDoc)) : Outcome ResolveResponse :=
  match direct, target with
  | Some d, None =>
      Ok (mkResolveResponse
            (getSavedObjectFromSource (imports D) (_registry D) type id d)
            "exactMatch" None)
  | None, Some (t, d) =>
      Ok (mkResolveResponse
            (getSavedObjectFromSource (imports D) (_registry D) type t d)
            "aliasMatch" (Some t))
  | Some d, Some (t, _) =>
      Ok (mkResolveResponse
            (getSavedObjectFromSource (imports D) (_registry D) type id d)
            "conflict" (Some t))
  | None, None => Throw (GenericNotFoundError (Some type) (Some id))
  end.

(** The counter that belongs to an outcome. *)
Definition outcome_stat (direct : option RawDoc)
    (target : option (string * RawDoc)) : string :=
  match direct, target with
  | Some _, None => STATS_EXACT_MATCH (imports D)
  | None, Some _ => STATS_ALIAS_MATCH (imports D)
  | Some _, Some _ => STATS_CONFLICT (imports D)
  | None, None => STATS_NOT_FOUND (imports D)
  end.

End ResolveSpec.

(** *** Bulk results *)

(** The result of a bulk call with one more slot put at position [n]. *)
Definition insert_slot {S} (n : nat) (slot : BulkSlot)
    (r : Outcome (list BulkSlot) * World S) : Outcome (list BulkSlot) * World S :=
  match r with
  | (Ok slots, w) => (Ok (take n slots ++ slot :: drop n slots)%list, w)
  | (Throw e, w) => (Throw e, w)
  end.

Definition error_slot (id : option string) (type : string)
    (e : DecoratedError) : BulkSlot :=
  SlotError (mkBulkError id type (errorContent e)).

(** The store answers every batched read, and every batched write with one
    item per operation; the item of an update that went through carries the
    source that the request asked to have returned. *)
Definition store_answers {S} (cl : RepositoryEsClient S) : Prop :=
  (forall docs st, exists r st', es_mget cl docs st = (Ok r, st'))
  /\ (forall p st, exists r st',
         es_bulk cl p st = (Ok r, st')
         /\ length (bulk_items r) = length (bp_body p)
         /\ forall k h doc item,
              bp_body p !! k = Some (BulkUpdate h doc) ->
              bulk_items r !! k = Some item ->
              bi_error item = None -> is_Some (bi_get item)).

(** The bulk methods, object by object.  Section 4.4 of the specification
    describes them as two phases whose per-item results are zipped back to
    the original input order; here that is said without request indices:
    the batch is walked once, in input order, and an object that takes
    part in a batched request consumes the next answer of that request,
    while an object that has failed before consumes none. *)

Section BulkSpec.

Context {S : Type}.
Variable D : Deps S.

(** A batched read is sent unless there is nothing to read. *)
Definition batch_read (docs : list MgetDoc) : Repo S (option MgetResponse) :=
  match docs with
  | [] => ret None
  | _ :: _ => do r <- client_mget D docs; ret (Some r)
  end.

(** A batched write is sent unless there is nothing to write; it answers
    with one item per operation. *)
Definition batch_write (refresh : Refresh) (ops : list BulkOp)
  : Repo S (list BulkItem) :=
  match ops with
  | [] => ret []
  | _ :: _ =>
      do r <- client_bulk D (mkBulk refresh true ops); ret (bulk_items r)
  end.

(** The answers of a batched read as [bulkGet] takes them ... *)
Definition hits (response : option MgetResponse) : list MgetHit :=
  match response with
  | Some r => mget_docs r
  | None => []
  end.

(** ... and as the preflight of a batch of writes takes them: a missing
    index answers for no document. *)
Definition preflight_hits (response : option MgetResponse) : list MgetHit :=
  match response with
  | Some r => if Z.eqb (mget_statusCode r) 404 then [] else mget_docs r
  | None => []
  end.

(** The items of the answer to a batched write; none when nothing was
    written. *)
Definition items_of (response : option BulkResponse) : list BulkItem :=
  match response with
  | Some r => bulk_items r
  | None => []
  end.

(** An object of a batch of writes after its preflight: it has its slot
    already, or it goes into the batched write. *)
Inductive Planned (W : Type) : Type :=
| Settled (slot : BulkSlot)
| Write (op : BulkOp) (written : W).
Arguments Settled {W} slot.
Arguments Write {W} op written.

Fixpoint plan_ops {W} (plan : list (Planned W)) : list BulkOp :=
  match plan with
  | [] => []
  | Settled _ :: rest => plan_ops rest
  | Write op _ :: rest => op :: plan_ops rest
  end.

(** The slots of a planned batch: a written object takes the next item of
    the answer. *)
Fixpoint zip_items {W} (result : W -> BulkItem -> Outcome BulkSlot)
    (plan : list (Planned W)) (items : list BulkItem)
  : Outcome (list BulkSlot) :=
  match plan with
  | [] => Ok []
  | Settled slot :: rest =>
      match zip_items result rest items with
      | Ok slots => Ok (slot :: slots)
      | Throw e => Throw e
      end
  | Write _ written :: rest =>
      match head items with
      | None => Throw undefined_response
      | Some item =>
          match result written item with
          | Throw e => Throw e
          | Ok slot =>
              match zip_items result rest (tail items) with
              | Ok slots => Ok (slot :: slots)
              | Throw e => Throw e
              end
          end
      end
  end.

(** *** bulkGet *)

Definition get_request (namespace : option string) (object : BulkGetObject)
  : MgetDoc :=
  mkMgetDoc
    (generateRawId (_serializer D) namespace (bg_type object) (bg_id object))
    (getIndexForType D (bg_type object))
    (includedFields (imports D) (Some (JStr (bg_type object)))
       (bg_fields object)).

(** The slot of an object of an allowed type: the saved object, when its
    document was found and exists in the namespace. *)
Definition get_result (namespace : option string) (object : BulkGetObject)
    (answer : option MgetHit) : BulkSlot :=
  match answer with
  | Some hit =>
      if hit_found hit && rawDocExistsInNamespace D (hit_doc hit) namespace
      then
        SlotObject
          (getSavedObjectFromSource (imports D) (_registry D)
             (bg_type object) (bg_id object) (hit_doc hit))
      else
        error_slot (Some (bg_id object)) (bg_type object)
          (GenericNotFoundError (Some (bg_type object))
             (Some (bg_id object)))
  | None =>
      error_slot (Some (bg_id object)) (bg_type object)
        (GenericNotFoundError (Some (bg_type object)) (Some (bg_id object)))
  end.

Fixpoint get_results (namespace : option string)
    (objects : list BulkGetObject) (answers : list MgetHit)
  : list BulkSlot :=
  match objects with
  | [] => []
  | object :: rest =>
      if allowed D (bg_type object) then
        get_result namespace object (head answers)
        :: get_results namespace rest (tail answers)
      else
        error_slot (Some (bg_id object)) (bg_type object)
          (UnsupportedTypeError (bg_type object))
        :: get_results namespace rest answers
  end.

Definition spec_bulkGet (objects : list BulkGetObject)
    (namespace : option string) : Repo S (list BulkSlot) :=
  do response <-
    batch_read
      (map (get_request namespace)
         (List.filter (fun object => allowed D (bg_type object)) objects));
  ret (get_results namespace objects (hits response)).

(** *** bulkUpdate *)

(** Why an object is refused before any request. *)
Definition update_rejection (object : BulkUpdateObject)
  : option DecoratedError :=
  if negb (allowed D (bu_type object)) then
    Some (GenericNotFoundError (Some (bu_type object)) (Some (bu_id object)))
  else
    match bu_namespace object with
    | Some n =>
        if String.eqb n ALL_NAMESPACES_STRING then
          Some (BadRequestError
                  (dq ++ "namespace" ++ dq ++ " cannot be " ++ dq ++ "*"
                   ++ dq))
        else None
    | None => None
    end.

(** The objects whose stored document is read first. *)
Definition update_probed (object : BulkUpdateObject) : bool :=
  match update_rejection object with
  | Some _ => false
  | None => isMultiNamespace (_registry D) (bu_type object)
  end.

Definition update_probe (namespace : option string)
    (object : BulkUpdateObject) : MgetDoc :=
  mkMgetDoc
    (generateRawId (_serializer D)
       (getNamespaceId namespace (bu_namespace object))
       (bu_type object) (bu_id object))
    (getIndexForType D (bu_type object))
    (Some ["type"; "namespaces"]).

(** The update operation of an object that passed validation, with the
    namespaces to report for it; nothing when its stored document was to
    be read and is not there, or not in the namespace. *)
Definition update_operation (namespace : option string) (time : string)
    (object : BulkUpdateObject) (answer : option MgetHit)
  : option (BulkOp * option (list string)) :=
  let type := bu_type object in
  let target := getNamespaceId namespace (bu_namespace object) in
  let operation versionProperties :=
    BulkUpdate
      (mkHeader (generateRawId (_serializer D) target type (bu_id object))
         (getIndexForType D type) versionProperties)
      (mkPartial type (bu_attributes object) time (bu_references object)) in
  if isMultiNamespace (_registry D) type then
    match answer with
    | Some hit =>
        if hit_found hit && rawDocExistsInNamespace D (hit_doc hit) target
        then
          Some
            (operation
               (getExpectedVersionProperties (imports D) (bu_version object)
                  (Some (hit_doc hit))),
             Some
               match src_namespaces (_source (hit_doc hit)) with
               | Some namespaces => namespaces
               | None =>
                   [namespaceIdToString
                      (src_namespace (_source (hit_doc hit)))]
               end)
        else None
    | None => None
    end
  else
    Some
      (operation
         (getExpectedVersionProperties (imports D) (bu_version object) None),
       if isSingleNamespace (_registry D) type
       then Some [getNamespaceString namespace (bu_namespace object)]
       else None).

Fixpoint update_plan (namespace : option string) (time : string)
    (objects : list BulkUpdateObject) (answers : list MgetHit)
  : list (Planned (BulkUpdateObject * option (list string))) :=
  match objects with
  | [] => []
  | object :: rest =>
      match update_rejection object with
      | Some e =>
          Settled (error_slot (Some (bu_id object)) (bu_type object) e)
          :: update_plan namespace time rest answers
      | None =>
          let answers' :=
            if isMultiNamespace (_registry D) (bu_type object)
            then tail answers else answers in
          match update_operation namespace time object (head answers) with
          | Some (op, namespaces) =>
              Write op (object, namespaces)
              :: update_plan namespace time rest answers'
          | None =>
              Settled
                (error_slot (Some (bu_id object)) (bu_type object)
                   (GenericNotFoundError (Some (bu_type object))
                      (Some (bu_id object))))
              :: update_plan namespace time rest answers'
          end
      end
  end.

(** The slot of an updated object: the error of its item, or the object as
    the caller gave it, with the version of the item. *)
Definition update_result (time : string)
    (written : BulkUpdateObject * option (list string)) (item : BulkItem)
  : Outcome BulkSlot :=
  let '(object, namespaces) := written in
  match getBulkOperationError (bu_type object) (bu_id object) item with
  | Some error =>
      Ok (SlotError (mkBulkError (Some (bu_id object)) (bu_type object) error))
  | None =>
      match bi_get item with
      | None => Throw undefined_response
      | Some g =>
          Ok (SlotObject
                (mkSO (bu_id object) (bu_type object) None namespaces
                   (spread_str (src_originId (gi_source g))) (Some time)
                   (Some (encodeVersion (imports D) (bi_seq_no item)
                            (bi_primary_term item)))
                   (bu_attributes object) (bu_references object)))
      end
  end.

Definition spec_bulkUpdate (objects : list BulkUpdateObject)
    (options : BulkUpdateOptions) (namespace : option string)
  : Repo S (list BulkSlot) :=
  do time <- _getCurrentTime;
  do response <-
    batch_read
      (map (update_probe namespace) (List.filter update_probed objects));
  let plan := update_plan namespace time objects (preflight_hits response) in
  do items <-
    batch_write (default DEFAULT_REFRESH_SETTING (buo_refresh options))
      (plan_ops plan);
  lift (zip_items (update_result time) plan items).

(** *** bulkCreate *)

Definition create_rejection (object : BulkCreateObject)
  : option DecoratedError :=
  if negb (allowed D (bc_type object)) then
    Some (UnsupportedTypeError (bc_type object))
  else
    match validateInitialNamespaces D (bc_type object)
            (bc_initialNamespaces object) with
    | Throw e => Some e
    | Ok _ => None
    end.

(** The objects that are given an id by the repository. *)
Definition create_unnamed (object : BulkCreateObject) : bool :=
  match create_rejection object, bc_id object with
  | None, None => true
  | _, _ => false
  end.

(** The objects whose stored document is read first. *)
Definition create_probed (object : BulkCreateObject) : bool :=
  match create_rejection object with
  | Some _ => false
  | None =>
      truthy_opt (bc_id object) && isMultiNamespace (_registry D) (bc_type object)
  end.

Definition create_probe (namespace : option string)
    (object : BulkCreateObject) : MgetDoc :=
  mkMgetDoc
    (generateRawId (_serializer D) namespace (bc_type object)
       (default EmptyString (bc_id object)))
    (getIndexForType D (bc_type object))
    (Some ["type"; "namespaces"]).

(** The document of an object that passed validation, as it is handed to
    the migrator, and the precondition of its write; or the Conflict of an
    object whose stored document is not in the namespace. *)
Definition create_draft (namespace : option string) (time : string)
    (object : BulkCreateObject) (id : string) (answer : option MgetHit)
  : BulkError + (SanitizedDoc * IfMatch) :=
  let type := bc_type object in
  let draft savedObjectNamespace savedObjectNamespaces :=
    mkDoc id type (spread_str savedObjectNamespace) savedObjectNamespaces
      (bc_originId object) (bc_attributes object)
      (bc_migrationVersion object) (Some time)
      (Some (default [] (bc_references object))) in
  if create_probed object then
    let found :=
      match answer with
      | Some hit => if hit_found hit then Some (hit_doc hit) else None
      | None => None
      end in
    match found with
    | Some doc =>
        if rawDocExistsInNamespace D doc namespace then
          inr (draft None
                 (match bc_initialNamespaces object with
                  | Some namespaces => Some namespaces
                  | None => getSavedObjectNamespaces namespace (Some doc)
                  end),
               getExpectedVersionProperties (imports D) (bc_version object)
                 (Some doc))
        else
          inl (mkBulkError (Some id) type
                 (mkPayload (ConflictError type id None) true))
    | None =>
        inr (draft None
               (match bc_initialNamespaces object with
                | Some namespaces => Some namespaces
                | None => getSavedObjectNamespaces namespace None
                end),
             getExpectedVersionProperties (imports D) (bc_version object)
               (option_map hit_doc answer))
    end
  else if isSingleNamespace (_registry D) type then
    inr (draft
           (match bc_initialNamespaces object with
            | Some namespaces => nth_error namespaces 0
            | None => namespace
            end)
           None,
         getExpectedVersionProperties (imports D) (bc_version object) None)
  else if isMultiNamespace (_registry D) type then
    inr (draft None
           (match bc_initialNamespaces object with
            | Some namespaces => Some namespaces
            | None => getSavedObjectNamespaces namespace None
            end),
         getExpectedVersionProperties (imports D) (bc_version object) None)
  else
    inr (draft None None,
         getExpectedVersionProperties (imports D) (bc_version object) None).

(** The plan of a batch: a document that the migrator refuses ends it. *)
Fixpoint create_plan (overwrite : bool) (namespace : option string)
    (time : string) (objects : list BulkCreateObject) (fresh : nat)
    (answers : list MgetHit)
  : Outcome (list (Planned (string * RawDoc))) :=
  match objects with
  | [] => Ok []
  | object :: rest =>
      match create_rejection object with
      | Some e =>
          match create_plan overwrite namespace time rest fresh answers with
          | Ok plan =>
              Ok (Settled (error_slot (bc_id object) (bc_type object) e)
                  :: plan)
          | Throw e' => Throw e'
          end
      | None =>
          let id := default (generateId (imports D) fresh) (bc_id object) in
          let fresh' :=
            match bc_id object with
            | Some _ => fresh
            | None => Datatypes.S fresh
            end in
          let answers' :=
            if create_probed object then tail answers else answers in
          match create_draft namespace time object id (head answers) with
          | inl err =>
              match create_plan overwrite namespace time rest fresh'
                      answers' with
              | Ok plan => Ok (Settled (SlotError err) :: plan)
              | Throw e' => Throw e'
              end
          | inr (draft, versionProperties) =>
              match migrateDocument (_migrator D) draft with
              | Throw e => Throw e
              | Ok migrated =>
                  let raw := savedObjectToRaw (_serializer D) migrated in
                  let header :=
                    mkHeader (_id raw) (getIndexForType D (bc_type object))
                      (if overwrite then versionProperties
                       else no_if_match) in
                  let op :=
                    if truthy_opt (bc_id object) && overwrite
                    then BulkIndex header (_source raw)
                    else BulkCreate header (_source raw) in
                  match create_plan overwrite namespace time rest fresh'
                          answers' with
                  | Ok plan => Ok (Write op (id, raw) :: plan)
                  | Throw e' => Throw e'
                  end
              end
          end
      end
  end.

(** The slot of a written object: the error of its item, or the migrated
    document with the version of the item. *)
Definition create_result (written : string * RawDoc) (item : BulkItem)
  : Outcome BulkSlot :=
  let '(id, raw) := written in
  match getBulkOperationError (src_type (_source raw)) id item with
  | Some error =>
      Ok (SlotError (mkBulkError (Some id) (src_type (_source raw)) error))
  | None =>
      Ok (SlotObject
            (_rawToSavedObject D
               (mkRaw (_id raw) (_source raw) (bi_seq_no item)
                  (bi_primary_term item))))
  end.

(** The identifiers of a batch are generated up front. *)
Definition take_ids (n : nat) : Repo S nat :=
  fun w =>
    (Ok (w_fresh w),
     mkWorld (w_store w) (w_log w) (w_time w) (n + w_fresh w)).

Definition spec_bulkCreate (objects : list BulkCreateObject)
    (options : CreateOptions) (namespace : option string)
  : Repo S (list BulkSlot) :=
  let overwrite := default false (co_overwrite options) in
  do time <- _getCurrentTime;
  do fresh <- take_ids (length (List.filter create_unnamed objects));
  do response <-
    batch_read
      (map (create_probe namespace) (List.filter create_probed objects));
  do plan <-
    lift (create_plan overwrite namespace time objects fresh
            (preflight_hits response));
  do items <-
    batch_write (default DEFAULT_REFRESH_SETTING (co_refresh options))
      (plan_ops plan);
  lift (zip_items create_result plan items).

(** The migrator accepts whatever [bulkCreate] may build for an object. *)
Definition migrator_accepts (time : string) (object : BulkCreateObject)
  : Prop :=
  forall id namespace namespaces,
    is_ok (migrateDocument (_migrator D)
             (mkDoc id (bc_type object) namespace namespaces
                (bc_originId object) (bc_attributes object)
                (bc_migrationVersion object) (Some time)
                (Some (default [] (bc_references object))))) = true.

End BulkSpec.

Section SlotSpec.

Context {S : Type}.
Variable D : Deps S.

(** *** The slot of an object *)

(** What the slot of an object of [bulkGet] holds: the error record of a
    type that is not allowed, or what [get_result] makes of an answer of
    the store. *)
Definition get_slot (namespace : option string) (object : BulkGetObject)
    (slot : BulkSlot) : Prop :=
  if allowed D (bg_type object) then
    exists answer, slot = get_result D namespace object answer
  else
    slot = error_slot (Some (bg_id object)) (bg_type object)
             (UnsupportedTypeError (bg_type object)).

(** What the slot of an object of [bulkUpdate] holds: the error record of
    its rejection or of its missing document, or what [update_result] makes
    of an item of the store's answer. *)
Definition update_slot (namespace : option string) (time : string)
    (object : BulkUpdateObject) (slot : BulkSlot) : Prop :=
  match update_rejection D object with
  | Some e => slot = error_slot (Some (bu_id object)) (bu_type object) e
  | None =>
      exists answer,
        match update_operation D namespace time object answer with
        | Some (_, namespaces) =>
            exists item,
              update_result D time (object, namespaces) item = Ok slot
        | None =>
            slot = error_slot (Some (bu_id object)) (bu_type object)
                     (GenericNotFoundError (Some (bu_type object))
                        (Some (bu_id object)))
        end
  end.

(** What the slot of an object of [bulkCreate] holds: the error record of
    its rejection or of its conflict, or what [create_result] makes of the
    migrated document and an item of the store's answer. *)
Definition create_slot (namespace : option string) (time : string)
    (object : BulkCreateObject) (slot : BulkSlot) : Prop :=
  match create_rejection D object with
  | Some e => slot = error_slot (bc_id object) (bc_type object) e
  | None =>
      exists id answer,
        (forall given, bc_id object = Some given -> id = given)
        /\ match create_draft D namespace time object id answer with
           | inl err => slot = SlotError err
           | inr (draft, _) =>
               exists migrated item,
                 migrateDocument (_migrator D) draft = Ok migrated
                 /\ create_result D
                      (id, savedObjectToRaw (_serializer D) migrated) item
                    = Ok slot
           end
  end.

End SlotSpec.

(** The error of [normalizeNamespace]. *)
Definition wildcard_namespace_error : DecoratedError :=
  BadRequestError
    (dq ++ "options.namespace" ++ dq ++ " cannot be " ++ dq ++ "*" ++ dq).

(** The document the preflight read found, when there is one. *)
Definition existing (r : GetResponse) : bool :=
  get_found r && negb (Z.eqb (get_statusCode r) 404).

(** *** Versions *)

(** The document that the store shows under an index and id. *)
Definition current {S} (cl : RepositoryEsClient S) (st : S)
    (index id : string) : option RawDoc :=
  match fst (es_get cl (mkGet id index) st) with
  | Ok r => if existing r then Some (get_doc r) else None
  | Throw _ => None
  end.

(** The if-match precondition that stands for a version string. *)
Definition if_match_of (I : Imports) (version : string) : IfMatch :=
  let '(s, t) := decodeRequestVersion I version in mkIf (Some s) (Some t).

(** A precondition is stale when the stored document carries another
    sequence number or primary term than the one it asks for. *)
Definition stale {S} (cl : RepositoryEsClient S) (st : S)
    (index id : string) (cond : IfMatch) : bool :=
  match current cl st index id, if_seq_no cond, if_primary_term cond with
  | Some d, Some s, Some t =>
      negb (bool_decide (_seq_no d = Some s)
            && bool_decide (_primary_term d = Some t))
  | _, _, _ => false
  end.

Definition op_header (op : BulkOp) : BulkHeader :=
  match op with
  | BulkIndex h _ | BulkCreate h _ | BulkUpdate h _ => h
  end.

(** The document an operation of a batch writes to. *)
Definition op_target (op : BulkOp) : string * string :=
  (bh_index (op_header op), bh_id (op_header op)).

(** The migrator's verdict on a document, serialized when it is accepted. *)
Definition migrated_raw {S} (D : Deps S) (doc : SanitizedDoc)
  : Outcome RawDoc :=
  match migrateDocument (_migrator D) doc with
  | Ok migrated => Ok (savedObjectToRaw (_serializer D) migrated)
  | Throw e => Throw e
  end.

(** The document that [create] hands to the migrator when the object is to
    carry the given namespace list. *)
Definition create_document {S} (D : Deps S) (type id : string)
    (attributes : JsValue) (options : CreateOptions)
    (namespace : option string) (time : string)
    (namespaces : option (list string)) : SanitizedDoc :=
  mkDoc id type
    (spread_str
       (if isSingleNamespace (_registry D) type then
          match co_initialNamespaces options with
          | Some ins => nth_error ins 0
          | None => namespace
          end
        else None))
    namespaces (co_originId options) attributes
    (co_migrationVersion options) (Some time)
    (Some (default [] (co_references options))).

(** The read that [create] with [overwrite] starts with for a type of
    the multi-namespace class. *)
Definition preflight_reads {S} (D : Deps S) (type id : string)
  : list EsCall :=
  if negb (isSingleNamespace (_registry D) type)
     && isMultiNamespace (_registry D) type
  then [CallGet
          (mkGet (generateRawId (_serializer D) None type id)
             (getIndexForType D type))]
  else [].

(** The raw document that [create] writes for it, unless the migrator
    refuses the document. *)
Definition create_target {S} (D : Deps S) (type id : string)
    (attributes : JsValue) (options : CreateOptions)
    (namespace : option string) (time : string)
    (namespaces : option (list string)) : Outcome RawDoc :=
  migrated_raw D
    (create_document D type id attributes options namespace time namespaces).

(** The document that [incrementCounter] hands to the migrator: the
    counter fields at their deltas, over the upsert attributes. *)
Definition counter_document {S} (D : Deps S) (type id : string)
    (fields : list CounterField) (options : IncrementCounterOptions)
    (namespace : option string) (time : string)
    (namespaces : option (list string)) : SanitizedDoc :=
  mkDoc id type
    (spread_str
       (if isSingleNamespace (_registry D) type && truthy_opt namespace
        then namespace else None))
    namespaces None
    (JObj (rev (map (normalizeCounterField
                       (default false (ico_initialize options))) fields)
           ++ default [] (ico_upsertAttributes options))%list)
    (ico_migrationVersion options) (Some time) None.

(** The counter document of a resolution outcome: the outcome's counter
    and the total, each at 1. *)
Definition stats_document {S} (D : Deps S) (stat time : string)
  : SanitizedDoc :=
  counter_document D (CORE_USAGE_STATS_TYPE (imports D))
    (CORE_USAGE_STATS_ID (imports D))
    [FieldName stat; FieldName (STATS_TOTAL (imports D))]
    (mkIncrementCounterOptions None None (Some (RefreshBool false)) None None)
    None time None.

(** The document that [bulkUpdate] writes to for an object. *)
Definition update_target {S} (D : Deps S) (namespace : option string)
    (object : BulkUpdateObject) : string * string :=
  (getIndexForType D (bu_type object),
   generateRawId (_serializer D)
     (getNamespaceId namespace (bu_namespace object))
     (bu_type object) (bu_id object)).

(** Modelled from the spec: the store's side of optimistic concurrency
    (the search engine and the client wrapper that decorates its errors,
    not among the sources).  Section 4.3: the store's rejection of a stale
    precondition surfaces as Conflict; section 8: a write against a
    document whose current version differs fails with Conflict and leaves
    the stored document unchanged; section 7: inside a batch the rejection
    is reported in the item of the operation.  Reads answer from the store
    and leave it alone. *)
Definition enforces_if_match {S} (cl : RepositoryEsClient S) : Prop :=
  (forall p st, exists r, es_get cl p st = (Ok r, st))
  /\ (forall docs st, exists r,
         es_mget cl docs st = (Ok r, st)
         /\ mget_statusCode r <> 404%Z
         /\ forall j d doc,
              docs !! j = Some d ->
              current cl st (md_index d) (md_id d) = Some doc ->
              mget_docs r !! j = Some (mkHit true doc))
  /\ (forall p st,
         stale cl st (ip_index p) (ip_id p) (ip_if p) = true ->
         exists e, es_index cl p st = (Throw e, st) /\ error_kind e = Conflict)
  /\ (forall p st,
         stale cl st (up_index p) (up_id p) (up_if p) = true ->
         exists e, es_update cl p st = (Throw e, st) /\ error_kind e = Conflict)
  /\ (forall p st r st' j op,
         es_bulk cl p st = (Ok r, st') ->
         bp_body p !! j = Some op ->
         stale cl st (fst (op_target op)) (snd (op_target op))
           (bh_if (op_header op)) = true ->
         (forall j' op', j' <> j -> bp_body p !! j' = Some op' ->
            op_target op' <> op_target op) ->
         (exists item,
            bulk_items r !! j = Some item
            /\ bi_status item = 409%Z /\ is_Some (bi_error item))
         /\ current cl st' (fst (op_target op)) (snd (op_target op))
            = current cl st (fst (op_target op)) (snd (op_target op))).

(** ** Housekeeping operations of the repository *)

Record DeleteByNamespaceOptions : Type := mkDeleteByNamespaceOptions {
  dbn_refresh : option bool
}.

Record OpenPointInTimeOptions : Type := mkOpenPointInTimeOptions {
  opo_keepAlive : option string;
  opo_preference : option string
}.

(** [esOptions] of [openPointInTimeForType]. *)
Record OpenPointInTimeParams : Type := mkOpenPointInTime {
  opit_index : list string;
  opit_keep_alive : string;
  opit_preference : option string
}.

Record OpenPointInTimeResponse : Type := mkOpenPointInTimeResp {
  opit_statusCode : Z;
  opit_id : string
}.

(** The point-in-time methods of [RepositoryEsClient]; the open request is
    sent with [ignore: [404]]. *)
Record PointInTimeClient (S : Type) : Type := mkPointInTimeClient {
  es_openPointInTime :
    OpenPointInTimeParams -> S -> Outcome OpenPointInTimeResponse * S;
  es_closePointInTime : string -> S -> Outcome JsValue * S
}.
Arguments es_openPointInTime {S} _ _ _.
Arguments es_closePointInTime {S} _ _ _.

Section Housekeeping.

Context {S : Type}.
Variable D : Deps S.

(** [Object.keys(getRootPropertiesObjects(this._mappings))]: the types
    that the index mappings declare. *)
Variable mappingTypes : list string.

Variable pointInTime : PointInTimeClient S.

(** Deletes all objects from the provided namespace. *)
Definition deleteByNamespace (namespace : string)
    (options : DeleteByNamespaceOptions) : Repo S UpdateByQueryResponse :=
  if negb (truthy namespace) || String.eqb namespace "*" then
    throw (PlainError
      "namespace is required, and must be a string that is not equal to '*'")
  else
    let allTypes := mappingTypes in
    let typesToUpdate :=
      List.filter (fun type => negb (isNamespaceAgnostic (_registry D) type))
        allTypes in
    do body <- client_updateByQuery D
        (mkUBQ (getIndicesForTypes D typesToUpdate) (dbn_refresh options)
           (ScriptDeleteByNamespace namespace) "proceed"
           (getSearchDsl (imports D)
              (mkDslArgs None EmptyString None None None typesToUpdate None
                 None None
                 (if truthy namespace then Some [namespace] else None)
                 None None None None)));
    ret body.

(** The client's point-in-time requests change nothing the request log
    keeps track of: they go straight to the store. *)
Definition client_openPointInTime (p : OpenPointInTimeParams)
  : Repo S OpenPointInTimeResponse :=
  fun w =>
    let '(r, s') := es_openPointInTime pointInTime p (w_store w) in
    (r, mkWorld s' (w_log w) (w_time w) (w_fresh w)).

Definition client_closePointInTime (id : string) : Repo S JsValue :=
  fun w =>
    let '(r, s') := es_closePointInTime pointInTime id (w_store w) in
    (r, mkWorld s' (w_log w) (w_time w) (w_fresh w)).

(** Opens a Point In Time (PIT) against the indices for the specified
    Saved Object types. *)
Definition openPointInTimeForType (type : TypeArg)
    (options : OpenPointInTimeOptions) : Repo S string :=
  let keepAlive := default "5m" (opo_keepAlive options) in
  let preference := opo_preference options in
  let types :=
    match type with
    | TypeArray l => l
    | TypeString t => [t]
    end in
  let allowedTypes := List.filter (allowed D) types in
  if Nat.eqb (length allowedTypes) 0 then
    throw (GenericNotFoundError None None)
  else
    let esOptions :=
      mkOpenPointInTime (getIndicesForTypes D allowedTypes) keepAlive
        (spread_str preference) in
    do r <- client_openPointInTime esOptions;
    if Z.eqb (opit_statusCode r) 404 then
      throw (GenericNotFoundError None None)
    else ret (opit_id r).

(** Closes a Point In Time (PIT) by ID. *)
Definition closePointInTime (id : string) : Repo S JsValue :=
  do body <- client_closePointInTime id;
  ret body.

End Housekeeping.

(** ** Reasoning about the monad *)


(** Case analysis on an innermost scrutinee of the goal. *)
Ltac case_inner :=
  match goal with
  | |- context [match ?c with _ => _ end] =>
      lazymatch c with
      | context [match _ with _ => _ end] => fail
      | _ => destruct c; simpl
      end
  end.

Ltac unfold_repo :=
  unfold bind, ret, throw, lift, try_catch, issue, _getCurrentTime in *.

Lemma truthy_nonempty (s : string) : truthy s = true <-> s <> EmptyString.
Proof.
  unfold truthy. destruct (String.eqb_spec s EmptyString); simpl; split;
    intros; congruence.
Qed.

Lemma includes_In (l : list string) (x : string) :
  includes l x = true <-> In x l.
Proof.
  unfold includes. rewrite existsb_exists. split.
  - intros (y & Hy & Heq). apply String.eqb_eq in Heq. now subst.
  - intros H. exists x. split; [assumption | apply String.eqb_refl].
Qed.

Lemma normalizeNamespace_wildcard :
  normalizeNamespace (Some "*") =
  Throw (BadRequestError
           (dq ++ "options.namespace" ++ dq ++ " cannot be " ++ dq ++ "*" ++ dq)).
Proof. reflexivity. Qed.

Lemma normalizeNamespace_ok (namespace : option string) :
  namespace <> Some "*" ->
  exists n, normalizeNamespace namespace = Ok n.
Proof.
  intros H. destruct namespace as [n|]; simpl; [|eauto].
  destruct (String.eqb_spec n ALL_NAMESPACES_STRING) as [->|_]; [|eauto].
  now contradiction H.
Qed.

Section Claims.

Context {S : Type}.
Variable D : Deps S.

(** ** find *)

Lemma find_preconditions_violation (o : FindOptions) :
  find_violation o ->
  exists message, find_preconditions o = Throw (BadRequestError message).
Proof.
  unfold find_preconditions, type_supplied.
  intros [Hty Hmap | Hty Hmap | n ns Hns Hmap | Hns Hmap | p Hp Hne Hpit].
  - rewrite Hmap. destruct (type_absent (fo_type o)) eqn:E; [|contradiction].
    simpl. eauto.
  - destruct Hmap as [m ->]. rewrite Hty. simpl.
    destruct (fo_namespaces o) as [[|? ?]|]; simpl; eauto.
  - destruct Hmap as [m ->]. rewrite Hns. simpl.
    destruct (type_absent (fo_type o)); simpl; eauto.
  - rewrite Hmap, Hns. simpl.
    destruct (type_absent (fo_type o)); simpl; eauto.
  - destruct Hpit as [pit Hpit]. rewrite Hp, Hpit. simpl.
    apply truthy_nonempty in Hne. rewrite Hne. simpl.
    repeat match goal with
           | |- context [if ?c then _ else _] => destruct c; eauto
           end.
Qed.

(** C5.  A [find] call whose options neglect a precondition (neither [type]
    nor [typeToNamespacesMap]; both; a non-empty [namespaces] list together
    with [typeToNamespacesMap]; an empty [namespaces] array without
    [typeToNamespacesMap]; a preference together with a point-in-time
    token) throws a BadRequest error and leaves the world as it was: no
    store query has been issued. *)
Theorem find_rejects_bad_options (o : FindOptions) (w : World S) :
  find_violation o ->
  exists message,
    find D o w = (Throw (BadRequestError message), w)
    /\ error_kind (BadRequestError message) = BadRequest.
Proof.
  intros Hv. destruct (find_preconditions_violation o Hv) as [message Hm].
  exists message. split; [|reflexivity].
  unfold find. unfold_repo. now rewrite Hm.
Qed.

End Claims.

(** C5, at the reference configuration: a preference together with a
    point-in-time token. *)
Lemma find_rejects_bad_options_witness :
  exists message,
    find Kibana.deps
      (mkFindOptions None None None None None None None None
         (Some (JObj [("id", JStr "pit-1")])) None None None None None
         (Some (TypeString "dashboard")) None None (Some "_local") None)
      (Kibana.world [])
    = (Throw (BadRequestError message), Kibana.world [])
    /\ error_kind (BadRequestError message) = BadRequest.
Proof.
  apply (find_rejects_bad_options Kibana.deps).
  apply preference_with_pit with (p := "_local"); simpl;
    [reflexivity | discriminate | eauto].
Defined.

(** ** Lists threaded through the bulk algorithms *)

Section Threading.

Context {A B C : Type}.
Variable f : C -> A -> C * B.

Lemma map_accum_length (c : C) (l : list A) :
  length (snd (map_accum f c l)) = length l.
Proof.
  revert c. induction l as [|x l IH]; intros c; simpl; [reflexivity|].
  destruct (f c x) as [c1 y]. specialize (IH c1).
  destruct (map_accum f c1 l) as [c2 ys]. simpl in *. now rewrite IH.
Qed.

(** Slot [i] of the result is the image of input [i], computed with the
    variables as the items before it left them. *)
Lemma map_accum_lookup (c : C) (l : list A) (i : nat) (x : A) :
  l !! i = Some x ->
  snd (map_accum f c l) !! i
  = Some (snd (f (fst (map_accum f c (take i l))) x)).
Proof.
  revert c i. induction l as [|a l IH]; intros c i Hx; [discriminate|].
  destruct i as [|i]; simpl in *.
  - inversion Hx; subst. destruct (f c x) as [c1 y].
    now destruct (map_accum f c1 l).
  - destruct (f c a) as [c1 y]. specialize (IH c1 i Hx).
    destruct (map_accum f c1 l) as [c2 ys].
    destruct (map_accum f c1 (take i l)) as [c3 zs]. simpl in *. exact IH.
Qed.

(** An item that leaves the variables alone can be put anywhere: the other
    items are processed as without it. *)
Lemma map_accum_insert (c : C) (l1 l2 : list A) (x : A) (y : B) :
  (forall c', f c' x = (c', y)) ->
  map_accum f c (l1 ++ x :: l2)%list
  = (fst (map_accum f c (l1 ++ l2)%list),
     (take (length l1) (snd (map_accum f c (l1 ++ l2)%list))
      ++ y :: drop (length l1) (snd (map_accum f c (l1 ++ l2)%list)))%list).
Proof.
  intros Hx. revert c. induction l1 as [|a l1 IH]; intros c; simpl.
  - rewrite Hx. now destruct (map_accum f c l2).
  - destruct (f c a) as [c1 b]. rewrite IH.
    now destruct (map_accum f c1 (l1 ++ l2)%list).
Qed.

End Threading.

Lemma rights_app {R} (l1 l2 : list (Either R)) :
  rights (l1 ++ l2)%list = (rights l1 ++ rights l2)%list.
Proof.
  induction l1 as [|[e|v] l1 IH]; simpl; [reflexivity | exact IH |].
  now rewrite IH.
Qed.

Lemma rights_insert_left {R} (n : nat) (l : list (Either R)) (e : BulkError) :
  rights (take n l ++ Left e :: drop n l)%list = rights l.
Proof.
  rewrite rights_app. simpl. rewrite <- rights_app. now rewrite take_drop.
Qed.

Lemma map_outcome_insert {A B} (f : A -> Outcome B) (n : nat) (l : list A)
    (x : A) (y : B) :
  f x = Ok y ->
  map_outcome f (take n l ++ x :: drop n l)%list
  = match map_outcome f l with
    | Ok ys => Ok (take n ys ++ y :: drop n ys)%list
    | Throw e => Throw e
    end.
Proof.
  intros Hx. revert n. induction l as [|a l IH]; intros n.
  - destruct n; simpl; now rewrite Hx.
  - destruct n as [|n]; simpl.
    + rewrite Hx. destruct (f a); [|reflexivity].
      now destruct (map_outcome f l).
    + destruct (f a) as [b|e]; [|reflexivity]. rewrite IH.
      now destruct (map_outcome f l).
Qed.

Lemma map_accum_outcome_insert {A B C} (f : C -> A -> Outcome (C * B))
    (c : C) (n : nat) (l : list A) (x : A) (y : B) :
  (forall c', f c' x = Ok (c', y)) ->
  map_accum_outcome f c (take n l ++ x :: drop n l)%list
  = match map_accum_outcome f c l with
    | Ok (c', ys) => Ok (c', (take n ys ++ y :: drop n ys)%list)
    | Throw e => Throw e
    end.
Proof.
  intros Hx. revert c n. induction l as [|a l IH]; intros c n.
  - destruct n; simpl; now rewrite Hx.
  - destruct n as [|n]; simpl.
    + rewrite Hx. simpl. destruct (f c a) as [[c1 b]|e]; [|reflexivity].
      now destruct (map_accum_outcome f c1 l) as [[c2 ys]|e].
    + destruct (f c a) as [[c1 b]|e]; [|reflexivity]. rewrite IH.
      now destruct (map_accum_outcome f c1 l) as [[c2 ys]|e].
Qed.

Lemma map_outcome_Forall2 {A B} (f : A -> Outcome B) (l : list A)
    (ys : list B) :
  map_outcome f l = Ok ys -> Forall2 (fun x y => f x = Ok y) l ys.
Proof.
  revert ys. induction l as [|a l IH]; intros ys; simpl.
  - intros H. inversion H. constructor.
  - destruct (f a) as [b|e] eqn:E; [|discriminate].
    destruct (map_outcome f l) as [zs|e]; [|discriminate].
    intros H. inversion H; subst. constructor; auto.
Qed.

Lemma map_outcome_total {A B} (f : A -> Outcome B) (l : list A) :
  (forall x, In x l -> exists y, f x = Ok y) ->
  exists ys, map_outcome f l = Ok ys.
Proof.
  induction l as [|a l IH]; intros H; simpl; [eauto|].
  destruct (H a (or_introl eq_refl)) as [b ->].
  destruct IH as [ys ->]; [intros x Hx; apply H; now right|]. eauto.
Qed.

Lemma map_accum_Forall2 {A B C X} (f : C -> A -> C * B) (R : X -> A -> Prop)
    (Q : X -> B -> Prop) :
  (forall c x a, R x a -> Q x (snd (f c a))) ->
  forall c xs l, Forall2 R xs l -> Forall2 Q xs (snd (map_accum f c l)).
Proof.
  intros H c xs l HR. revert c.
  induction HR as [|x a xs l Hxa HR IH]; intros c; simpl; [constructor|].
  pose proof (H c x a Hxa) as Hq. destruct (f c a) as [c1 y].
  specialize (IH c1). destruct (map_accum f c1 l) as [c2 ys].
  simpl in *. now constructor.
Qed.

Lemma Forall2_same {A} (l : list A) : Forall2 eq l l.
Proof. induction l; constructor; auto. Qed.

Lemma Forall2_In_right {X A} (R : X -> A -> Prop) (xs : list X) (l : list A)
    (a : A) :
  Forall2 R xs l -> In a l -> exists x, R x a.
Proof.
  intros HR. induction HR as [|x b xs l Hxb HR IH]; intros Hin;
    [destruct Hin|].
  destruct Hin as [->|Hin]; eauto.
Qed.

(** ** find: pagination *)

Section FindPagination.

Context {S : Type}.
Variable D : Deps S.

Lemma find_offset_without_cursor (o : FindOptions) (types : list string)
    (kueryNode aggsObject : option JsValue) :
  fo_searchAfter o = None ->
  sp_from (find_esOptions D o types kueryNode aggsObject)
  = Some (default FIND_DEFAULT_PER_PAGE (fo_perPage o)
          * (default FIND_DEFAULT_PAGE (fo_page o) - 1))%Z.
Proof. intros H. unfold find_esOptions. simpl. now rewrite H. Qed.

Lemma find_offset_with_cursor (o : FindOptions) (types : list string)
    (kueryNode aggsObject : option JsValue) (cursor : list JsValue) :
  fo_searchAfter o = Some cursor ->
  sp_from (find_esOptions D o types kueryNode aggsObject) = None
  /\ sb_from (sp_body (find_esOptions D o types kueryNode aggsObject))
     = (default FIND_DEFAULT_PER_PAGE (fo_perPage o)
        * (default FIND_DEFAULT_PAGE (fo_page o) - 1))%Z.
Proof. intros H. unfold find_esOptions. simpl. now rewrite H. Qed.

End FindPagination.

(** C4.  The second page of twenty, asked for together with a
    [searchAfter] cursor: the query that reaches the store has no top-level
    [from], but its body still skips [perPage * (page - 1) = 20] hits. *)
Theorem find_cursor_keeps_body_offset :
  exists p,
    w_log (snd (find Kibana.deps
                  (mkFindOptions None None None None None None
                     (Some 2%Z) (Some 20%Z) None (Some [JNum 1]) None None
                     None None (Some (TypeString "dashboard")) None None None
                     None)
                  (Kibana.world [])))
    = [CallSearch p]
    /\ sp_from p = None
    /\ sb_from (sp_body p) = 20%Z.
Proof. eexists. vm_compute. repeat split. Qed.

(** ** incrementCounter *)

Section Counters.

Context {S : Type}.
Variable D : Deps S.

Lemma isCounterField_spec (field : JsValue) :
  isCounterField field = true <-> counter_field_ok field.
Proof.
  unfold isCounterField, counter_field_ok. split.
  - destruct field as [| |b|n|s|elems|fields]; simpl; intros H;
      try discriminate.
    + left. eauto.
    + right. destruct (js_field fields "fieldName") eqn:E; simpl in H;
        try discriminate. eauto.
  - intros [[name ->] | (fields & name & -> & Hf)]; simpl; [reflexivity|].
    now rewrite Hf.
Qed.

Lemma isArrayOfCounterFields_spec (counterFields : JsValue) :
  isArrayOfCounterFields counterFields = true <-> counter_fields_ok counterFields.
Proof.
  unfold isArrayOfCounterFields, counter_fields_ok. split.
  - destruct counterFields; try discriminate. intros H. exists elems.
    split; [reflexivity|]. rewrite forallb_forall in H.
    apply List.Forall_forall. intros x Hx. apply isCounterField_spec. auto.
  - intros (fields & -> & Hf). apply forallb_forall. intros x Hx.
    apply isCounterField_spec. rewrite List.Forall_forall in Hf. auto.
Qed.

Lemma normalizeCounterField_spec (initialize : bool) (field : CounterField) :
  normalizeCounterField initialize field
  = (field_name field, spec_delta initialize field).
Proof.
  unfold normalizeCounterField, spec_delta.
  destruct field as [name | fieldName incrementBy], initialize; simpl;
    try reflexivity; now destruct incrementBy.
Qed.

Lemma preflightGetNamespaces_log (type id : string) (ns : option string)
    (w : World S) :
  exists calls,
    w_log (snd (preflightGetNamespaces D type id ns w)) = (w_log w ++ calls)%list
    /\ Forall (fun c => is_write c = false) calls
    /\ w_time (snd (preflightGetNamespaces D type id ns w)) = w_time w.
Proof.
  unfold preflightGetNamespaces.
  destruct (negb _).
  - exists []. simpl. rewrite app_nil_r. auto.
  - unfold client_get. unfold_repo.
    destruct (es_get _ _ _) as [[r|e] s'] eqn:E; simpl.
    + eexists [_]. repeat match goal with
        | |- context [if ?c then _ else _] => destruct c; simpl
        end; repeat split; auto.
    + eexists [_]. repeat split; auto.
Qed.

Lemma incrementCounterInternal_requests (type id : string)
    (fields : list CounterField) (options : IncrementCounterOptions)
    (w : World S) :
  exists calls,
    w_log (snd (incrementCounterInternal D type id fields options w))
    = (w_log w ++ calls)%list
    /\ forall p, In (CallUpdate p) calls ->
         exists upsert,
           up_body p =
           UpdateScript
             (counter_script type fields
                (default false (ico_initialize options)) (w_time w))
             upsert.
Proof.
  unfold incrementCounterInternal. unfold_repo.
  destruct (normalizeNamespace (ico_namespace options)) as [n|e]; simpl.
  2: { exists []. rewrite app_nil_r. split; [reflexivity|]. intros p []. }
  set (init := default false (ico_initialize options)).
  assert (Hm : map snd (map (normalizeCounterField init) fields)
               = map (spec_delta init) fields).
  { rewrite map_map. apply map_ext. intros f.
    now rewrite normalizeCounterField_spec. }
  assert (Hn : map fst (map (normalizeCounterField init) fields)
               = map field_name fields).
  { rewrite map_map. apply map_ext. intros f.
    now rewrite normalizeCounterField_spec. }
  destruct (isSingleNamespace (_registry D) type && truthy_opt n); simpl.
  - destruct (migrateDocument _ _) as [migrated|em]; simpl.
    2: { exists []. rewrite app_nil_r. split; [reflexivity|]. intros p []. }
    unfold client_update. unfold_repo.
    destruct (es_update _ _ _) as [[r|e] s']; simpl;
      (eexists [_]; split; [reflexivity|]);
      intros p [Hp|[]]; inversion Hp; subst; simpl;
      rewrite Hm, Hn; eauto.
  - destruct (isMultiNamespace (_registry D) type) eqn:Emulti; simpl.
    + destruct (preflightGetNamespaces_log type id n w)
        as (calls & Hlog & Hread & Htime).
      destruct (preflightGetNamespaces D type id n w) as [[nss|e] w1];
        simpl in *.
      * destruct (migrateDocument _ _) as [migrated|em]; simpl.
        2: { exists calls. split; [assumption|]. intros p Hp.
             rewrite List.Forall_forall in Hread. apply Hread in Hp.
             discriminate. }
        unfold client_update. unfold_repo.
        destruct (es_update _ _ _) as [[r|e] s']; simpl;
          (eexists (calls ++ [_])%list; rewrite Hlog, <- app_assoc;
           split; [reflexivity|]);
          intros p Hp; apply in_app_or in Hp;
          (destruct Hp as [Hp|[Hp|[]]];
           [ rewrite List.Forall_forall in Hread; apply Hread in Hp;
             discriminate
           | inversion Hp; subst; simpl; rewrite Hm, Hn; eauto ]).
      * exists calls. split; [assumption|]. intros p Hp.
        rewrite List.Forall_forall in Hread. apply Hread in Hp. discriminate.
    + destruct (migrateDocument _ _) as [migrated|em]; simpl.
      2: { exists []. rewrite app_nil_r. split; [reflexivity|]. intros p []. }
      unfold client_update. unfold_repo.
      destruct (es_update _ _ _) as [[r|e] s']; simpl;
        (eexists [_]; split; [reflexivity|]);
        intros p [Hp|[]]; inversion Hp; subst; simpl;
        rewrite Hm, Hn; eauto.
Qed.

Lemma incrementCounterInternal_issues (type id : string)
    (fields : list CounterField) (options : IncrementCounterOptions)
    (namespace : option string) (w : World S) :
  normalizeNamespace (ico_namespace options) = Ok namespace ->
  isMultiNamespace (_registry D) type = false ->
  match migrateDocument (_migrator D)
          (counter_document D type id fields options namespace (w_time w)
             None) with
  | Ok _ =>
      exists p upsert,
        w_log (snd (incrementCounterInternal D type id fields options w))
        = (w_log w ++ [CallUpdate p])%list
        /\ up_body p =
           UpdateScript
             (counter_script type fields
                (default false (ico_initialize options)) (w_time w))
             upsert
  | Throw _ =>
      w_log (snd (incrementCounterInternal D type id fields options w))
      = w_log w
  end.
Proof.
  intros Hns Hmulti.
  destruct (incrementCounterInternal_requests type id fields options w)
    as (calls & Hlog & Hcalls).
  revert Hlog Hcalls.
  unfold incrementCounterInternal, counter_document. unfold_repo.
  rewrite Hns. simpl. rewrite Hmulti.
  destruct (isSingleNamespace (_registry D) type && truthy_opt namespace);
    simpl;
    (destruct (migrateDocument _ _) as [migrated|em]; simpl;
     [|reflexivity]);
    unfold client_update; unfold_repo;
    destruct (es_update _ _ _) as [[r|e] s']; simpl;
    intros Hlog Hcalls; apply app_inv_head in Hlog; subst calls;
    (destruct (Hcalls _ (or_introl eq_refl)) as [upsert Hu];
     eexists _, upsert; split; [reflexivity | exact Hu]).
Qed.


End Counters.

(** ** resolve *)

Section Resolve.

Context {S : Type}.
Variable D : Deps S.

Lemma incrementResolveOutcomeStats_swallows (stat : string) (w : World S) :
  incrementResolveOutcomeStats D stat w
  = (Ok tt, snd (incrementResolveOutcomeStats D stat w)).
Proof.
  unfold incrementResolveOutcomeStats. unfold_repo.
  destruct (incrementCounterInternal D _ _ _ _ w) as [[o|e] w']; reflexivity.
Qed.

Lemma incrementResolveOutcomeStats_runs (stat : string) (w : World S) :
  exists w', incrementResolveOutcomeStats D stat w = (Ok tt, w').
Proof. eexists. apply incrementResolveOutcomeStats_swallows. Qed.

Ltac run_stats :=
  match goal with
  | |- context [incrementResolveOutcomeStats D ?s ?w] =>
      let w1 := fresh "w1" in
      let E := fresh "E" in
      destruct (incrementResolveOutcomeStats_runs s w) as [w1 E];
      rewrite E
  end.

Lemma incrementResolveOutcomeStats_failure (stat : string) (w w' : World S)
    (e : DecoratedError) :
  incrementCounterInternal D (CORE_USAGE_STATS_TYPE (imports D))
    (CORE_USAGE_STATS_ID (imports D))
    [FieldName stat; FieldName (STATS_TOTAL (imports D))]
    (mkIncrementCounterOptions None None (Some (RefreshBool false)) None None)
    w = (Throw e, w') ->
  incrementResolveOutcomeStats D stat w = (Ok tt, w').
Proof.
  intros H. unfold incrementResolveOutcomeStats. unfold_repo. now rewrite H.
Qed.

Lemma incrementResolveOutcomeStats_request (stat : string) (w : World S) :
  isMultiNamespace (_registry D) (CORE_USAGE_STATS_TYPE (imports D)) = false ->
  match migrateDocument (_migrator D) (stats_document D stat (w_time w)) with
  | Ok _ =>
      exists p upsert,
        w_log (snd (incrementResolveOutcomeStats D stat w))
        = (w_log w ++ [CallUpdate p])%list
        /\ up_body p =
           UpdateScript
             (counter_script (CORE_USAGE_STATS_TYPE (imports D))
                [FieldName stat; FieldName (STATS_TOTAL (imports D))]
                false (w_time w))
             upsert
  | Throw _ => w_log (snd (incrementResolveOutcomeStats D stat w)) = w_log w
  end.
Proof.
  intros Hmulti.
  pose proof (incrementCounterInternal_issues D
                (CORE_USAGE_STATS_TYPE (imports D))
                (CORE_USAGE_STATS_ID (imports D))
                [FieldName stat; FieldName (STATS_TOTAL (imports D))]
                (mkIncrementCounterOptions None None
                   (Some (RefreshBool false)) None None)
                None w eq_refl Hmulti) as Hissued.
  assert (Hlog : w_log (snd (incrementResolveOutcomeStats D stat w))
                 = w_log (snd (incrementCounterInternal D
                     (CORE_USAGE_STATS_TYPE (imports D))
                     (CORE_USAGE_STATS_ID (imports D))
                     [FieldName stat; FieldName (STATS_TOTAL (imports D))]
                     (mkIncrementCounterOptions None None
                        (Some (RefreshBool false)) None None) w))).
  { unfold incrementResolveOutcomeStats. unfold_repo.
    destruct (incrementCounterInternal D _ _ _ _ w) as [[o|e] w'];
      reflexivity. }
  unfold stats_document. rewrite Hlog. exact Hissued.
Qed.

Lemma resolveExactMatch_spec (type id : string) (options : BaseOptions)
    (w : World S) (ns : option string) (r : GetResponse) (st : S) :
  allowed D type = true ->
  normalizeNamespace (bo_namespace options) = Ok ns ->
  es_get (client D) (exact_get D ns type id) (w_store w) = (Ok r, st) ->
  resolveExactMatch D type id options w
  = (spec_resolve D type id (direct_of_get D ns r) None,
     snd (incrementResolveOutcomeStats D
            (outcome_stat D (direct_of_get D ns r) None)
            (after w st [CallGet (exact_get D ns type id)]))).
Proof.
  intros Hallowed Hns Hget.
  unfold resolveExactMatch, get, client_get. unfold_repo.
  rewrite Hallowed, Hns. simpl.
  unfold exact_get in Hget. rewrite Hget.
  unfold direct_of_get, after, exact_get, isFoundGetResponse.
  destruct (get_found r); simpl.
  - destruct (Z.eqb (get_statusCode r) 404); simpl.
    + run_stats. reflexivity.
    + destruct (rawDocExistsInNamespace D (get_doc r) ns); simpl;
        run_stats; reflexivity.
  - run_stats. reflexivity.
Qed.

Lemma resolve_characterisation (type id : string) (options : BaseOptions)
    (w w' : World S) (direct : option RawDoc)
    (target : option (string * RawDoc)) :
  allowed D type = true ->
  store_shows D type id options w direct target w' ->
  resolve D type id options w
  = (spec_resolve D type id direct target,
     snd (incrementResolveOutcomeStats D (outcome_stat D direct target) w')).
Proof.
  intros Hallowed Hshows. unfold resolve. rewrite Hallowed. simpl.
  destruct Hshows as
    [ r st Hns Hget
    | ns a r st1 st2 Hns Hupd Hun Hget
    | ns a g alias m exact target st1 st2 Hns Hupd Hus Hg Halias Hmget H0 H1 ].
  - unfold bind at 1. unfold lift. rewrite Hns.
    now apply resolveExactMatch_spec.
  - unfold bind at 1. unfold lift. rewrite Hns.
    unfold bind at 1. unfold _getCurrentTime.
    unfold bind at 1. unfold client_update, issue. rewrite Hupd, Hun.
    rewrite (resolveExactMatch_spec type id options _ (Some ns) r st2);
      try assumption.
    unfold after. simpl. now rewrite <- app_assoc.
  - unfold bind at 1. unfold lift. rewrite Hns.
    unfold bind at 1. unfold _getCurrentTime.
    unfold bind at 1. unfold client_update, issue. rewrite Hupd, Hus, Hg.
    simpl. rewrite Halias.
    unfold bind at 1. unfold client_mget, issue. simpl. rewrite Hmget, H0, H1.
    unfold doc_of_hit, after. simpl. rewrite <- app_assoc. simpl.
    destruct (hit_found exact
              && rawDocExistsInNamespace D (hit_doc exact) (Some ns));
      destruct (hit_found target
                && rawDocExistsInNamespace D (hit_doc target) (Some ns));
      simpl; unfold bind, ret, throw; run_stats; reflexivity.
Qed.


(** C8, as amended.  A call of [resolve] for a type that is not allowed
    throws NotFound at once: nothing is counted.  On an allowed type, whatever
    outcome [resolve] reaches once the store has answered its lookups, its
    last step is the counter update keyed by that outcome; the update never
    throws, a failure inside it is swallowed, and the result of [resolve] is
    the classification alone.  When the counter document needs no
    preflight, the step shows in the trace as one scripted update of the
    outcome's counter and the total, each by 1, unless the migrator
    refuses the counter document: then no request is made. *)
Theorem resolve_counts_every_outcome (type id : string)
    (options : BaseOptions) (w : World S) :
  (allowed D type = false ->
   resolve D type id options w
   = (Throw (GenericNotFoundError (Some type) (Some id)), w))
  /\ (allowed D type = true ->
      forall w' direct target,
        store_shows D type id options w direct target w' ->
        let stat := outcome_stat D direct target in
        snd (resolve D type id options w)
        = snd (incrementResolveOutcomeStats D stat w')
        /\ fst (incrementResolveOutcomeStats D stat w') = Ok tt
        /\ (forall e w'',
              incrementCounterInternal D (CORE_USAGE_STATS_TYPE (imports D))
                (CORE_USAGE_STATS_ID (imports D))
                [FieldName stat; FieldName (STATS_TOTAL (imports D))]
                (mkIncrementCounterOptions None None
                   (Some (RefreshBool false)) None None)
                w' = (Throw e, w'') ->
              resolve D type id options w
              = (spec_resolve D type id direct target, w''))
        /\ fst (resolve D type id options w)
           = spec_resolve D type id direct target
        /\ (isMultiNamespace (_registry D)
              (CORE_USAGE_STATS_TYPE (imports D)) = false ->
            match migrateDocument (_migrator D)
                    (stats_document D stat (w_time w')) with
            | Ok _ =>
                exists p upsert,
                  w_log (snd (resolve D type id options w))
                  = (w_log w' ++ [CallUpdate p])%list
                  /\ up_body p =
                     UpdateScript
                       (counter_script (CORE_USAGE_STATS_TYPE (imports D))
                          [FieldName stat; FieldName (STATS_TOTAL (imports D))]
                          false (w_time w'))
                       upsert
            | Throw _ => w_log (snd (resolve D type id options w)) = w_log w'
            end)).
Proof.
  split.
  - intros Hallowed. unfold resolve. now rewrite Hallowed.
  - intros Hallowed w' direct target Hshows stat.
    pose proof (resolve_characterisation _ _ _ _ _ _ _ Hallowed Hshows) as H.
    fold stat in H. rewrite H. simpl. repeat split.
    + now rewrite incrementResolveOutcomeStats_swallows.
    + intros e w'' Hfail.
      now rewrite (incrementResolveOutcomeStats_failure _ _ _ _ Hfail).
    + apply incrementResolveOutcomeStats_request.
Qed.

End Resolve.


(** The same resolution, evaluated. *)
Example resolve_through_alias :
  exists object,
    fst (resolve Kibana.deps "dashboard" "old" (mkBaseOptions (Some "space1"))
           (Kibana.world Kibana.renamed))
    = Ok (mkResolveResponse object "aliasMatch" (Some "new"))
    /\ so_id object = "new".
Proof. eexists. vm_compute. split; reflexivity. Qed.

(** C8, at the reference store: an exact match in the default namespace
    is counted by one scripted update of the usage counters. *)
Lemma resolve_counts_every_outcome_witness :
  let w := Kibana.world Kibana.sales in
  let request := exact_get Kibana.deps None "dashboard" "d1" in
  exists p upsert,
    w_log (snd (resolve Kibana.deps "dashboard" "d1" (mkBaseOptions None) w))
    = [CallGet request; CallUpdate p]
    /\ up_body p =
       UpdateScript
         (ScriptIncrementCounters [JNum 1; JNum 1]
            ["savedObjectsRepository.resolvedOutcome.exactMatch";
             "savedObjectsRepository.resolvedOutcome.total"]
            (w_time w) "core-usage-stats")
         upsert.
Proof.
  intros w request.
  destruct (proj2 (resolve_counts_every_outcome Kibana.deps "dashboard" "d1"
                     (mkBaseOptions None) w)
              eq_refl
              (after w Kibana.sales [CallGet request])
              (direct_of_get Kibana.deps None
                 (mkGetResp 200 true Kibana.sales_doc))
              None)
    as (_ & _ & _ & _ & H).
  - apply (shows_default_namespace Kibana.deps "dashboard" "d1"
             (mkBaseOptions None) w (mkGetResp 200 true Kibana.sales_doc)
             Kibana.sales); reflexivity.
  - destruct (H eq_refl) as (p & upsert & Hlog & Hbody).
    exists p, upsert. split; [exact Hlog | exact Hbody].
Defined.

(** C8 as stated fails for a type that is not allowed: the resolution of
    an object of the hidden type "secret" ends in NotFound, one of the
    outcomes the claim names, and no request is made: nothing is
    counted. *)
Lemma resolve_counts_every_outcome_counterexample :
  throws_kind
    (fst (resolve Kibana.deps "secret" "s1" (mkBaseOptions None)
            (Kibana.world Kibana.sales)))
    NotFound
  /\ w_log (snd (resolve Kibana.deps "secret" "s1" (mkBaseOptions None)
                   (Kibana.world Kibana.sales)))
     = [].
Proof. split; [eexists; split; reflexivity | reflexivity]. Qed.


(** ** Bulk operations: a failing item and its siblings *)

Section BulkIsolation.

Context {S : Type}.
Variable D : Deps S.

(** Items that fail validation. *)

Lemma bulkGet_validate_disallowed (counter : nat) (object : BulkGetObject) :
  allowed D (bg_type object) = false ->
  bulkGet_validate D counter object
  = (counter,
     Left (mkBulkError (Some (bg_id object)) (bg_type object)
             (errorContent (UnsupportedTypeError (bg_type object))))).
Proof. intros H. unfold bulkGet_validate. now rewrite H. Qed.

Lemma bulkCreate_validate_disallowed (overwrite : bool) (acc : nat * nat)
    (object : BulkCreateObject) :
  allowed D (bc_type object) = false ->
  bulkCreate_validate D overwrite acc object
  = (acc,
     Left (mkBulkError (bc_id object) (bc_type object)
             (errorContent (UnsupportedTypeError (bc_type object))))).
Proof.
  intros H. unfold bulkCreate_validate. destruct acc. now rewrite H.
Qed.

Lemma bulkUpdate_validate_disallowed (time : string) (counter : nat)
    (object : BulkUpdateObject) :
  allowed D (bu_type object) = false ->
  bulkUpdate_validate D time counter object
  = (counter,
     Left (mkBulkError (Some (bu_id object)) (bu_type object)
             (errorContent
                (GenericNotFoundError (Some (bu_type object))
                   (Some (bu_id object)))))).
Proof. intros H. unfold bulkUpdate_validate. now rewrite H. Qed.

Lemma bulkUpdate_validate_wildcard (time : string) (counter : nat)
    (object : BulkUpdateObject) :
  allowed D (bu_type object) = true ->
  bu_namespace object = Some "*" ->
  bulkUpdate_validate D time counter object
  = (counter,
     Left (mkBulkError (Some (bu_id object)) (bu_type object)
             (errorContent
                (BadRequestError
                   (dq ++ "namespace" ++ dq ++ " cannot be " ++ dq ++ "*"
                    ++ dq))))).
Proof. intros H Hns. unfold bulkUpdate_validate. now rewrite H, Hns. Qed.

(** bulkGet *)

Lemma bulkGet_docs_insert (namespace : option string) (n : nat)
    (e : list (Either BulkGetRight)) (err : BulkError) :
  bulkGet_docs D namespace (take n e ++ Left err :: drop n e)%list
  = bulkGet_docs D namespace e.
Proof. unfold bulkGet_docs. now rewrite rights_insert_left. Qed.

Lemma bulkGet_isolates (l1 l2 : list BulkGetObject) (bad : BulkGetObject)
    (err : BulkError) (options : BaseOptions) (w : World S) :
  (forall counter, bulkGet_validate D counter bad = (counter, Left err)) ->
  bulkGet D (l1 ++ bad :: l2)%list options w
  = insert_slot (length l1) (SlotError err)
      (bulkGet D (l1 ++ l2)%list options w).
Proof.
  intros Hbad. unfold bulkGet. unfold_repo.
  destruct (normalizeNamespace (bo_namespace options)) as [ns|e];
    [|reflexivity].
  unfold bulkGet_expected.
  rewrite map_accum_insert with (y := Left err) by exact Hbad. simpl.
  rewrite bulkGet_docs_insert.
  replace (Nat.eqb (length (l1 ++ bad :: l2)%list) 0) with false
    by (rewrite length_app; simpl; symmetry; apply Nat.eqb_neq; lia).
  destruct (Nat.eqb (length (l1 ++ l2)%list) 0) eqn:Elen.
  - apply Nat.eqb_eq in Elen. apply length_zero_iff_nil in Elen.
    apply app_eq_nil in Elen. destruct Elen as [-> ->]. reflexivity.
  - set (e := snd (map_accum (bulkGet_validate D) 0 (l1 ++ l2)%list)).
    destruct (negb (Nat.eqb (length (bulkGet_docs D ns e)) 0)).
    + unfold client_mget. unfold_repo.
      destruct (es_mget _ _ _) as [[r|e0] s']; simpl; [|reflexivity].
      now rewrite map_app, firstn_map, skipn_map.
    + simpl. now rewrite map_app, firstn_map, skipn_map.
Qed.

(** bulkUpdate *)

Lemma bulkUpdate_docs_insert (namespace : option string) (n : nat)
    (e : list (Either BulkUpdateRight)) (err : BulkError) :
  bulkUpdate_docs D namespace (take n e ++ Left err :: drop n e)%list
  = bulkUpdate_docs D namespace e.
Proof. unfold bulkUpdate_docs. now rewrite rights_insert_left. Qed.

Lemma bulkUpdate_write_insert (refresh : Refresh) (params : list BulkOp)
    (results : list (Either BulkUpdateExpected)) (n : nat) (err : BulkError)
    (w : World S) :
  bulkUpdate_write D refresh params
    (take n results ++ Left err :: drop n results)%list w
  = insert_slot n (SlotError err) (bulkUpdate_write D refresh params results w).
Proof.
  unfold bulkUpdate_write. unfold_repo.
  destruct (negb (Nat.eqb (length params) 0)).
  - destruct (client_bulk D _ w) as [[a|e0] w'0]; [|reflexivity].
    rewrite map_outcome_insert with (y := SlotError err) by reflexivity.
    now destruct (map_outcome (bulkUpdate_slot D (Some a)) results).
  - rewrite map_outcome_insert with (y := SlotError err) by reflexivity.
    now destruct (map_outcome (bulkUpdate_slot D None) results).
Qed.

Lemma bulkUpdate_isolates (l1 l2 : list BulkUpdateObject)
    (bad : BulkUpdateObject) (err : BulkError)
    (options : BulkUpdateOptions) (w : World S) :
  (forall time counter,
     bulkUpdate_validate D time counter bad = (counter, Left err)) ->
  bulkUpdate D (l1 ++ bad :: l2)%list options w
  = insert_slot (length l1) (SlotError err)
      (bulkUpdate D (l1 ++ l2)%list options w).
Proof.
  intros Hbad. unfold bulkUpdate. unfold_repo.
  destruct (normalizeNamespace (buo_namespace options)) as [ns|e];
    [|reflexivity].
  unfold bulkUpdate_expected.
  rewrite map_accum_insert with (y := Left err) by apply Hbad. simpl.
  rewrite bulkUpdate_docs_insert.
  set (e := snd (map_accum (bulkUpdate_validate D (w_time w)) 0
                   (l1 ++ l2)%list)).
  assert (Hn : length (take (length l1) e) = length l1).
  { rewrite length_take. unfold e.
    rewrite map_accum_length, length_app. lia. }
  assert (Hstep : forall resp,
    map_accum (bulkUpdate_step D ns resp) (0, [])
      (take (length l1) e ++ Left err :: drop (length l1) e)%list
    = (fst (map_accum (bulkUpdate_step D ns resp) (0, []) e),
       (take (length l1)
          (snd (map_accum (bulkUpdate_step D ns resp) (0, []) e))
        ++ Left err
        :: drop (length l1)
             (snd (map_accum (bulkUpdate_step D ns resp) (0, []) e)))%list)).
  { intros resp.
    rewrite map_accum_insert with (y := Left err) by (intros c; reflexivity).
    now rewrite take_drop, Hn. }
  destruct (negb (Nat.eqb (length (bulkUpdate_docs D ns e)) 0)).
  - unfold client_mget. unfold_repo.
    destruct (es_mget _ _ _) as [[r|e0] s']; simpl; [|reflexivity].
    rewrite Hstep.
    destruct (map_accum (bulkUpdate_step D ns (Some r)) (0, []) e)
      as [[k params] results]. simpl.
    apply bulkUpdate_write_insert.
  - simpl. rewrite Hstep.
    destruct (map_accum (bulkUpdate_step D ns None) (0, []) e)
      as [[k params] results]. simpl.
    apply bulkUpdate_write_insert.
Qed.

(** bulkCreate *)

Lemma bulkCreate_docs_insert (namespace : option string) (n : nat)
    (e : list (Either BulkCreateRight)) (err : BulkError) :
  bulkCreate_docs D namespace (take n e ++ Left err :: drop n e)%list
  = bulkCreate_docs D namespace e.
Proof. unfold bulkCreate_docs. now rewrite rights_insert_left. Qed.

Lemma bulkCreate_write_insert (refresh : Refresh) (params : list BulkOp)
    (results : list (Either BulkCreateExpected)) (n : nat) (err : BulkError)
    (w : World S) :
  bulkCreate_write D refresh params
    (take n results ++ Left err :: drop n results)%list w
  = insert_slot n (SlotError err) (bulkCreate_write D refresh params results w).
Proof.
  unfold bulkCreate_write. unfold_repo.
  destruct (negb (Nat.eqb (length params) 0)).
  - destruct (client_bulk D _ w) as [[a|e0] w'0]; [|reflexivity].
    rewrite map_outcome_insert with (y := SlotError err) by reflexivity.
    now destruct (map_outcome (bulkCreate_slot D (Some a)) results).
  - rewrite map_outcome_insert with (y := SlotError err) by reflexivity.
    now destruct (map_outcome (bulkCreate_slot D None) results).
Qed.

Lemma bulkCreate_isolates (l1 l2 : list BulkCreateObject)
    (bad : BulkCreateObject) (err : BulkError) (options : CreateOptions)
    (w : World S) :
  (forall overwrite acc,
     bulkCreate_validate D overwrite acc bad = (acc, Left err)) ->
  bulkCreate D (l1 ++ bad :: l2)%list options w
  = insert_slot (length l1) (SlotError err)
      (bulkCreate D (l1 ++ l2)%list options w).
Proof.
  intros Hbad. unfold bulkCreate. unfold_repo.
  destruct (normalizeNamespace (co_namespace options)) as [ns|e];
    [|reflexivity].
  set (overwrite := default false (co_overwrite options)).
  unfold bulkCreate_expected.
  rewrite map_accum_insert with (y := Left err) by apply Hbad.
  assert (Hlen : length (snd (map_accum (bulkCreate_validate D overwrite)
                                (0, w_fresh w) (l1 ++ l2)%list))
                 = length (l1 ++ l2)%list) by apply map_accum_length.
  destruct (map_accum (bulkCreate_validate D overwrite) (0, w_fresh w)
              (l1 ++ l2)%list) as [[k fresh'] e]. simpl in *.
  assert (Hn : length (take (length l1) e) = length l1).
  { rewrite length_take, Hlen, length_app. lia. }
  rewrite bulkCreate_docs_insert.
  assert (Hstep : forall resp,
    map_accum_outcome (bulkCreate_step D overwrite ns (w_time w) resp) (0, [])
      (take (length l1) e ++ Left err :: drop (length l1) e)%list
    = match map_accum_outcome
              (bulkCreate_step D overwrite ns (w_time w) resp) (0, []) e with
      | Ok (acc, results) =>
          Ok (acc,
              (take (length l1) results
               ++ Left err :: drop (length l1) results)%list)
      | Throw e0 => Throw e0
      end).
  { intros resp. now apply map_accum_outcome_insert. }
  destruct (negb (Nat.eqb (length (bulkCreate_docs D ns e)) 0)).
  - unfold client_mget. unfold_repo. simpl.
    destruct (es_mget _ _ _) as [[r|e0] s']; simpl; [|reflexivity].
    rewrite Hstep.
    destruct (map_accum_outcome
                (bulkCreate_step D overwrite ns (w_time w) (Some r))
                (0, []) e) as [[[k' params] results]|e0]; simpl;
      [|reflexivity].
    apply bulkCreate_write_insert.
  - simpl. rewrite Hstep.
    destruct (map_accum_outcome
                (bulkCreate_step D overwrite ns (w_time w) None)
                (0, []) e) as [[[k' params] results]|e0]; simpl;
      [|reflexivity].
    apply bulkCreate_write_insert.
Qed.

End BulkIsolation.

(** ** bulkUpdate: every written object has its item *)

Section BulkSlots.

Context {S : Type}.
Variable D : Deps S.

Lemma bulkUpdate_step_acc (ns : option string) (resp : option MgetResponse)
    (acc : nat * list BulkOp) (e : Either BulkUpdateRight) :
  match snd (bulkUpdate_step D ns resp acc e) with
  | Left _ => fst (bulkUpdate_step D ns resp acc e) = acc
  | Right x =>
      bue_esRequestIndex x = fst acc
      /\ exists h,
           fst (bulkUpdate_step D ns resp acc e)
           = (Datatypes.S (fst acc),
              (snd acc ++ [BulkUpdate h (bue_documentToSave x)])%list)
  end.
Proof.
  destruct e as [err|v]; simpl; [reflexivity|].
  destruct acc as [k params].
  repeat case_inner; eauto.
Qed.

Lemma bulkUpdate_step_indices (ns : option string)
    (resp : option MgetResponse) (l : list (Either BulkUpdateRight))
    (acc : nat * list BulkOp) :
  fst acc = length (snd acc) ->
  fst (fst (map_accum (bulkUpdate_step D ns resp) acc l))
  = length (snd (fst (map_accum (bulkUpdate_step D ns resp) acc l)))
  /\ (exists ext,
        snd (fst (map_accum (bulkUpdate_step D ns resp) acc l))
        = (snd acc ++ ext)%list)
  /\ forall x,
       In (Right x) (snd (map_accum (bulkUpdate_step D ns resp) acc l)) ->
       exists h,
         snd (fst (map_accum (bulkUpdate_step D ns resp) acc l))
           !! bue_esRequestIndex x
         = Some (BulkUpdate h (bue_documentToSave x)).
Proof.
  revert acc. induction l as [|e l IH]; intros acc Hacc; simpl.
  - split; [assumption|]. split; [exists []; now rewrite app_nil_r|].
    intros x [].
  - pose proof (bulkUpdate_step_acc ns resp acc e) as Hstep.
    destruct (bulkUpdate_step D ns resp acc e) as [acc1 y]. simpl in Hstep.
    assert (Hacc1 : fst acc1 = length (snd acc1)).
    { destruct y as [err|x]; [now subst|].
      destruct Hstep as (_ & h & ->). simpl. rewrite length_app. simpl. lia. }
    destruct (IH acc1 Hacc1) as (Hlen & (ext & Hext) & Hidx).
    destruct (map_accum (bulkUpdate_step D ns resp) acc1 l) as [acc2 ys].
    simpl in *. split; [assumption|]. split.
    + destruct y as [err|x]; [subst; eauto|].
      destruct Hstep as (_ & h & ->). simpl in Hext.
      rewrite Hext, <- app_assoc. eauto.
    + intros x [Hx|Hx]; [|now apply Hidx].
      subst y. destruct Hstep as (Hk & h & ->). simpl in Hext.
      exists h. rewrite Hext, Hk, Hacc, <- app_assoc.
      rewrite lookup_app_r by lia. now rewrite Nat.sub_diag.
Qed.

Lemma getBulkOperationError_none (type id : string) (item : BulkItem) :
  getBulkOperationError type id item = None -> bi_error item = None.
Proof.
  unfold getBulkOperationError. destruct (bi_error item); [|reflexivity].
  repeat match goal with
         | |- context [if ?c then _ else _] => destruct c
         end; discriminate.
Qed.

Lemma bulkUpdate_write_returns (refresh : Refresh) (params : list BulkOp)
    (results : list (Either BulkUpdateExpected)) (w : World S) :
  store_answers (client D) ->
  (forall x, In (Right x) results ->
     exists h,
       params !! bue_esRequestIndex x
       = Some (BulkUpdate h (bue_documentToSave x))) ->
  exists slots w',
    bulkUpdate_write D refresh params results w = (Ok slots, w')
    /\ Forall2 (fun e slot => bulkUpdate_slot D
                                (match params with
                                 | [] => None
                                 | _ =>
                                     match es_bulk (client D)
                                             (mkBulk refresh true params)
                                             (w_store w) with
                                     | (Ok r, _) => Some r
                                     | _ => None
                                     end
                                 end) e = Ok slot) results slots.
Proof.
  intros [_ Hbulk] Hidx. unfold bulkUpdate_write. unfold_repo.
  destruct params as [|op params]; simpl.
  - destruct (map_outcome_total (bulkUpdate_slot D None) results) as [ys Hys].
    { intros [err|x] Hin; simpl; [eauto|].
      destruct (Hidx x Hin) as [h Hh]. discriminate. }
    rewrite Hys. eexists _, _. split; [reflexivity|].
    now apply map_outcome_Forall2.
  - unfold client_bulk. unfold_repo.
    destruct (Hbulk (mkBulk refresh true (op :: params)) (w_store w))
      as (r & st' & Hr & Hlen & Hget).
    rewrite Hr. simpl in *.
    destruct (map_outcome_total (bulkUpdate_slot D (Some r)) results)
      as [ys Hys].
    { intros [err|x] Hin; simpl; [eauto|].
      destruct (Hidx x Hin) as [h Hh].
      destruct (bulk_items r !! bue_esRequestIndex x) as [item|] eqn:Eitem.
      - destruct (getBulkOperationError _ _ item) eqn:Eerr; [eauto|].
        apply getBulkOperationError_none in Eerr.
        destruct (Hget _ _ _ _ Hh Eitem Eerr) as [g ->]. eauto.
      - apply lookup_ge_None in Eitem. apply lookup_lt_Some in Hh.
        simpl in Hh. lia. }
    rewrite Hys. eexists _, _. split; [reflexivity|].
    now apply map_outcome_Forall2.
Qed.

End BulkSlots.

(** ** Disallowed types and the wildcard namespace *)

Section Guards.

Context {S : Type}.
Variable D : Deps S.

Lemma get_disallowed (type id : string) (options : BaseOptions) (w : World S) :
  allowed D type = false ->
  get D type id options w
  = (Throw (GenericNotFoundError (Some type) (Some id)), w).
Proof. intros H. unfold get. now rewrite H. Qed.

Lemma delete_disallowed (type id : string) (options : DeleteOptions)
    (w : World S) :
  allowed D type = false ->
  delete D type id options w
  = (Throw (GenericNotFoundError (Some type) (Some id)), w).
Proof. intros H. unfold delete. now rewrite H. Qed.

Lemma update_disallowed (type id : string) (attributes : JsValue)
    (options : UpdateOptions) (w : World S) :
  allowed D type = false ->
  update D type id attributes options w
  = (Throw (GenericNotFoundError (Some type) (Some id)), w).
Proof. intros H. unfold update. now rewrite H. Qed.

Lemma resolve_disallowed (type id : string) (options : BaseOptions)
    (w : World S) :
  allowed D type = false ->
  resolve D type id options w
  = (Throw (GenericNotFoundError (Some type) (Some id)), w).
Proof. intros H. unfold resolve. now rewrite H. Qed.

Lemma create_disallowed (type : string) (attributes : JsValue)
    (options : CreateOptions) (w : World S) :
  allowed D type = false ->
  co_namespace options <> Some "*" ->
  validateInitialNamespaces D type (co_initialNamespaces options) = Ok tt ->
  fst (create D type attributes options w) = Throw (UnsupportedTypeError type)
  /\ w_store (snd (create D type attributes options w)) = w_store w
  /\ w_log (snd (create D type attributes options w)) = w_log w.
Proof.
  intros H Hns Hini. unfold create. unfold_repo.
  destruct (normalizeNamespace_ok _ Hns) as [ns Hn].
  destruct (co_id options); unfold fresh_id; simpl;
    rewrite Hn, Hini, H; simpl; auto.
Qed.

Lemma incrementCounter_disallowed (type id : string) (counterFields : JsValue)
    (options : option IncrementCounterOptions) (w : World S) :
  allowed D type = false ->
  counter_fields_ok counterFields ->
  incrementCounter D (JStr type) id counterFields options w
  = (Throw (UnsupportedTypeError type), w).
Proof.
  intros H Hok. unfold incrementCounter.
  apply isArrayOfCounterFields_spec in Hok. now rewrite Hok, H.
Qed.

Lemma map_accum_In {A B C} (f : C -> A -> C * B) (x : A) (y : B) :
  (forall c, snd (f c x) = y) ->
  forall c l, In x l -> In y (snd (map_accum f c l)).
Proof.
  intros H c l. revert c. induction l as [|a l IH]; intros c Hin;
    [destruct Hin|].
  simpl. pose proof (H c) as Hc. destruct (f c a) as [c1 b] eqn:E.
  specialize (IH c1). destruct (map_accum f c1 l) as [c2 ys]. simpl in *.
  destruct Hin as [->|Hin]; [left|right; auto].
  rewrite E in Hc. exact Hc.
Qed.

Lemma checkConflicts_disallowed (objects : list BulkGetObject)
    (object : BulkGetObject) (options : BaseOptions) (w : World S) :
  store_answers (client D) ->
  bo_namespace options <> Some "*" ->
  In object objects ->
  allowed D (bg_type object) = false ->
  exists errors w',
    checkConflicts D objects options w = (Ok errors, w')
    /\ In (mkBulkError (Some (bg_id object)) (bg_type object)
             (errorContent (UnsupportedTypeError (bg_type object))))
         errors.
Proof.
  intros [Hmget _] Hns Hin Hbad. unfold checkConflicts. unfold_repo.
  destruct objects as [|o objects]; [destruct Hin|].
  change (Nat.eqb (length (o :: objects)) 0) with false. cbv iota beta.
  destruct (normalizeNamespace_ok _ Hns) as [ns ->].
  set (expected := snd (bulkGet_expected D (o :: objects))).
  assert (Hleft : In (Left (mkBulkError (Some (bg_id object)) (bg_type object)
                             (errorContent
                                (UnsupportedTypeError (bg_type object)))))
                    expected).
  { unfold expected, bulkGet_expected.
    apply map_accum_In with (x := object); [|assumption].
    intros c. now rewrite bulkGet_validate_disallowed. }
  destruct (negb (Nat.eqb (length _) 0)).
  - unfold client_mget. unfold_repo. cbv beta.
    match goal with
    | |- context [es_mget (client D) ?docs (w_store w)] =>
        destruct (Hmget docs (w_store w)) as (r & st' & ->)
    end.
    eexists _, _. split; [reflexivity|].
    apply in_flat_map. eexists. split; [exact Hleft|]. now left.
  - eexists _, _. split; [reflexivity|].
    apply in_flat_map. eexists. split; [exact Hleft|]. now left.
Qed.

(** C10.  A type outside the allowed set is answered NotFound by [get],
    [delete], [update] and [resolve] and by the slot of [bulkUpdate], and
    UnsupportedType by [create], by the slot of [bulkCreate], by the error
    list of [checkConflicts] and by [incrementCounter]; the single-object
    calls throw without a store request, the bulk calls go on with the
    other objects.  ([create], [incrementCounter] and [checkConflicts] are
    taken with their other arguments valid.) *)
Theorem disallowed_type_error_kinds (type id : string) (w : World S) :
  allowed D type = false ->
  (forall options,
     get D type id options w
     = (Throw (GenericNotFoundError (Some type) (Some id)), w))
  /\ (forall options,
        delete D type id options w
        = (Throw (GenericNotFoundError (Some type) (Some id)), w))
  /\ (forall attributes options,
        update D type id attributes options w
        = (Throw (GenericNotFoundError (Some type) (Some id)), w))
  /\ (forall options,
        resolve D type id options w
        = (Throw (GenericNotFoundError (Some type) (Some id)), w))
  /\ (forall l1 l2 object options,
        bu_type object = type -> bu_id object = id ->
        bulkUpdate D (l1 ++ object :: l2)%list options w
        = insert_slot (length l1)
            (error_slot (Some id) type
               (GenericNotFoundError (Some type) (Some id)))
            (bulkUpdate D (l1 ++ l2)%list options w))
  /\ (forall attributes options,
        co_namespace options <> Some "*" ->
        validateInitialNamespaces D type (co_initialNamespaces options)
        = Ok tt ->
        fst (create D type attributes options w)
        = Throw (UnsupportedTypeError type)
        /\ w_store (snd (create D type attributes options w)) = w_store w
        /\ w_log (snd (create D type attributes options w)) = w_log w)
  /\ (forall l1 l2 object options,
        bc_type object = type ->
        bulkCreate D (l1 ++ object :: l2)%list options w
        = insert_slot (length l1)
            (error_slot (bc_id object) type (UnsupportedTypeError type))
            (bulkCreate D (l1 ++ l2)%list options w))
  /\ (forall objects object options,
        store_answers (client D) ->
        bo_namespace options <> Some "*" ->
        In object objects -> bg_type object = type -> bg_id object = id ->
        exists errors w',
          checkConflicts D objects options w = (Ok errors, w')
          /\ In (mkBulkError (Some id) type
                   (errorContent (UnsupportedTypeError type)))
               errors)
  /\ (forall counterFields options,
        counter_fields_ok counterFields ->
        incrementCounter D (JStr type) id counterFields options w
        = (Throw (UnsupportedTypeError type), w)).
Proof.
  intros H. repeat split.
  - intros. now apply get_disallowed.
  - intros. now apply delete_disallowed.
  - intros. now apply update_disallowed.
  - intros. now apply resolve_disallowed.
  - intros l1 l2 object options Hty Hid. subst.
    apply bulkUpdate_isolates. intros time counter.
    now apply bulkUpdate_validate_disallowed.
  - now apply create_disallowed.
  - now apply create_disallowed.
  - now apply create_disallowed.
  - intros l1 l2 object options Hty. subst.
    apply bulkCreate_isolates. intros overwrite acc.
    now apply bulkCreate_validate_disallowed.
  - intros objects object options Hstore Hns Hin Hty Hid. subst.
    now apply checkConflicts_disallowed.
  - intros. now apply incrementCounter_disallowed.
Qed.

End Guards.

(** ** The wildcard namespace *)

Section Wildcard.

Context {S : Type}.
Variable D : Deps S.

Lemma incrementCounterInternal_wildcard (type id : string)
    (fields : list CounterField) (options : IncrementCounterOptions)
    (w : World S) :
  ico_namespace options = Some "*" ->
  incrementCounterInternal D type id fields options w
  = (Throw wildcard_namespace_error, w).
Proof.
  intros H. unfold incrementCounterInternal. unfold_repo. now rewrite H.
Qed.

(** C9, as amended.  The namespace option ["*"] makes [create],
    [bulkCreate], [bulkGet] and [bulkUpdate] throw BadRequest before any
    store request, [checkConflicts] when it is given objects, [get],
    [delete], [update] and [resolve] when the type is allowed, and
    [incrementCounter] when its arguments are well-formed and the type is
    allowed; in [bulkUpdate] an object of an allowed type whose own
    namespace is ["*"] gets a BadRequest slot while the others go on; and
    ["default"] is normalized to the undefined namespace. *)
Theorem wildcard_namespace_rejected (w : World S) :
  (forall type attributes options,
     co_namespace options = Some "*" ->
     fst (create D type attributes options w) = Throw wildcard_namespace_error
     /\ w_store (snd (create D type attributes options w)) = w_store w
     /\ w_log (snd (create D type attributes options w)) = w_log w)
  /\ (forall objects options,
        co_namespace options = Some "*" ->
        bulkCreate D objects options w = (Throw wildcard_namespace_error, w))
  /\ (forall objects options,
        bo_namespace options = Some "*" ->
        bulkGet D objects options w = (Throw wildcard_namespace_error, w))
  /\ (forall objects options,
        buo_namespace options = Some "*" ->
        bulkUpdate D objects options w = (Throw wildcard_namespace_error, w))
  /\ (forall objects options,
        bo_namespace options = Some "*" -> objects <> [] ->
        checkConflicts D objects options w
        = (Throw wildcard_namespace_error, w))
  /\ (forall type id options,
        bo_namespace options = Some "*" -> allowed D type = true ->
        get D type id options w = (Throw wildcard_namespace_error, w)
        /\ resolve D type id options w = (Throw wildcard_namespace_error, w))
  /\ (forall type id options,
        do_namespace options = Some "*" -> allowed D type = true ->
        delete D type id options w = (Throw wildcard_namespace_error, w))
  /\ (forall type id attributes options,
        uo_namespace options = Some "*" -> allowed D type = true ->
        update D type id attributes options w
        = (Throw wildcard_namespace_error, w))
  /\ (forall type id counterFields options,
        ico_namespace options = Some "*" -> allowed D type = true ->
        counter_fields_ok counterFields ->
        incrementCounter D (JStr type) id counterFields (Some options) w
        = (Throw wildcard_namespace_error, w))
  /\ (forall l1 l2 object options,
        allowed D (bu_type object) = true ->
        bu_namespace object = Some "*" ->
        bulkUpdate D (l1 ++ object :: l2)%list options w
        = insert_slot (length l1)
            (error_slot (Some (bu_id object)) (bu_type object)
               (BadRequestError
                  (dq ++ "namespace" ++ dq ++ " cannot be " ++ dq ++ "*"
                   ++ dq)))
            (bulkUpdate D (l1 ++ l2)%list options w))
  /\ normalizeNamespace (Some "default") = Ok None.
Proof.
  repeat split.
  - unfold create. unfold_repo. rewrite H.
    destruct (co_id options); reflexivity.
  - unfold create. unfold_repo. rewrite H.
    destruct (co_id options); reflexivity.
  - unfold create. unfold_repo. rewrite H.
    destruct (co_id options); reflexivity.
  - intros objects options H. unfold bulkCreate. unfold_repo. now rewrite H.
  - intros objects options H. unfold bulkGet. unfold_repo. now rewrite H.
  - intros objects options H. unfold bulkUpdate. unfold_repo. now rewrite H.
  - intros objects options H Hne. unfold checkConflicts. unfold_repo.
    destruct objects; [contradiction|]. simpl. now rewrite H.
  - unfold get. unfold_repo. now rewrite H0, H.
  - unfold resolve. unfold_repo. now rewrite H0, H.
  - intros type id options H Ha. unfold delete. unfold_repo.
    now rewrite Ha, H.
  - intros type id attributes options H Ha. unfold update. unfold_repo.
    now rewrite Ha, H.
  - intros type id counterFields options H Ha Hok. unfold incrementCounter.
    apply isArrayOfCounterFields_spec in Hok. rewrite Hok, Ha. simpl.
    now apply incrementCounterInternal_wildcard.
  - intros l1 l2 object options Ha Hns.
    apply bulkUpdate_isolates. intros time counter.
    now apply bulkUpdate_validate_wildcard.
Qed.

End Wildcard.

(** C9, as stated, fails: with namespace ["*"], [checkConflicts] of no
    objects returns normally, and [removeReferencesTo], which never
    normalizes its namespace, sends its query to the store. *)
Lemma wildcard_namespace_counterexample :
  checkConflicts Kibana.deps [] (mkBaseOptions (Some "*")) (Kibana.world [])
  = (Ok [], Kibana.world [])
  /\ exists p,
       fst (removeReferencesTo Kibana.deps "dashboard" "d1"
              (mkRemoveReferencesToOptions (Some "*") None) (Kibana.world []))
       = Ok (Some 0%Z)
       /\ w_log (snd (removeReferencesTo Kibana.deps "dashboard" "d1"
                        (mkRemoveReferencesToOptions (Some "*") None)
                        (Kibana.world [])))
          = [CallUpdateByQuery p].
Proof.
  split; [reflexivity|].
  eexists. split; vm_compute; reflexivity.
Qed.

(** C9, at the reference configuration: [get] of a dashboard in
    namespace ["*"]. *)
Lemma wildcard_namespace_rejected_witness :
  get Kibana.deps "dashboard" "d1" (mkBaseOptions (Some "*"))
    (Kibana.world Kibana.sales)
  = (Throw wildcard_namespace_error, Kibana.world Kibana.sales).
Proof.
  destruct (wildcard_namespace_rejected Kibana.deps (Kibana.world Kibana.sales))
    as (_ & _ & _ & _ & _ & Hget & _).
  apply (Hget "dashboard" "d1" (mkBaseOptions (Some "*"))); reflexivity.
Defined.

(** ** The reference store keeps the laws *)

Lemma memstore_bulk_op_update (h : BulkHeader) (doc : PartialDoc)
    (st : MemStore.Store) :
  bi_error (fst (MemStore.bulk_op (BulkUpdate h doc) st)) = None ->
  is_Some (bi_get (fst (MemStore.bulk_op (BulkUpdate h doc) st))).
Proof.
  unfold MemStore.bulk_op. simpl.
  destruct (MemStore.stored st (bh_index h) (bh_id h)); simpl;
    [|discriminate].
  destruct (MemStore.admits (bh_if h) (Some r)); simpl; [eauto|discriminate].
Qed.

Lemma memstore_bulk_ops_items (ops : list BulkOp) (st : MemStore.Store) :
  length (fst (MemStore.bulk_ops ops st)) = length ops
  /\ forall k h doc item,
       ops !! k = Some (BulkUpdate h doc) ->
       fst (MemStore.bulk_ops ops st) !! k = Some item ->
       bi_error item = None -> is_Some (bi_get item).
Proof.
  revert st. induction ops as [|op ops IH]; intros st; simpl.
  - split; [reflexivity|]. intros k h doc item Hk. discriminate.
  - destruct (MemStore.bulk_op op st) as [item1 st1] eqn:E1.
    destruct (IH st1) as [Hlen Hitems].
    destruct (MemStore.bulk_ops ops st1) as [items st2]. simpl in *.
    split; [now rewrite Hlen|].
    intros [|k] h doc item Hk Hitem Herr; simpl in *.
    + inversion Hk; subst. inversion Hitem; subst.
      pose proof (memstore_bulk_op_update h doc st) as Hup.
      rewrite E1 in Hup. now apply Hup.
    + eapply Hitems; eauto.
Qed.

Lemma memstore_answers : store_answers MemStore.es.
Proof.
  split.
  - intros docs st. eexists _, _. reflexivity.
  - intros p st. simpl. unfold MemStore.bulk.
    destruct (memstore_bulk_ops_items (bp_body p) st) as [Hlen Hitems].
    destruct (MemStore.bulk_ops (bp_body p) st) as [items st'].
    eexists _, _. split; [reflexivity|]. simpl in *. split; assumption.
Qed.

(** C10, at the reference configuration: the hidden type "secret". *)
Lemma disallowed_type_error_kinds_witness :
  get Kibana.deps "secret" "s1" (mkBaseOptions None) (Kibana.world Kibana.sales)
  = (Throw (GenericNotFoundError (Some "secret") (Some "s1")),
     Kibana.world Kibana.sales)
  /\ incrementCounter Kibana.deps (JStr "secret") "s1" (JArr [JStr "views"])
       None (Kibana.world Kibana.sales)
     = (Throw (UnsupportedTypeError "secret"), Kibana.world Kibana.sales)
  /\ bulkUpdate Kibana.deps
       [mkBulkUpdateObject "secret" "s1" (JObj []) None None None;
        mkBulkUpdateObject "dashboard" "d1" (JObj [("title", JStr "Costs")])
          None None None]
       (mkBulkUpdateOptions None None) (Kibana.world Kibana.sales)
     = insert_slot 0
         (error_slot (Some "s1") "secret"
            (GenericNotFoundError (Some "secret") (Some "s1")))
         (bulkUpdate Kibana.deps
            [mkBulkUpdateObject "dashboard" "d1"
               (JObj [("title", JStr "Costs")]) None None None]
            (mkBulkUpdateOptions None None) (Kibana.world Kibana.sales)).
Proof.
  destruct (disallowed_type_error_kinds Kibana.deps "secret" "s1"
              (Kibana.world Kibana.sales) eq_refl)
    as (Hget & _ & _ & _ & Hbulk & _ & _ & _ & Hinc).
  split; [apply Hget|]. split.
  - apply Hinc. exists [JStr "views"]. split; [reflexivity|].
    apply List.Forall_cons; [left; eauto | apply List.Forall_nil].
  - apply (Hbulk [] [mkBulkUpdateObject "dashboard" "d1"
                       (JObj [("title", JStr "Costs")]) None None None]);
      reflexivity.
Defined.

(** ** Preflight for multi-namespace types *)

Section UpdateRequests.

Context {S : Type}.
Variable D : Deps S.

Lemma preflightCheckIncludesNamespace_log (type id : string)
    (ns : option string) (w : World S) :
  exists calls,
    w_log (snd (preflightCheckIncludesNamespace D type id ns w))
    = (w_log w ++ calls)%list
    /\ Forall (fun c => is_write c = false) calls
    /\ w_time (snd (preflightCheckIncludesNamespace D type id ns w))
       = w_time w.
Proof.
  unfold preflightCheckIncludesNamespace.
  destruct (negb _).
  - exists []. simpl. rewrite app_nil_r. auto.
  - unfold client_get. unfold_repo.
    destruct (es_get _ _ _) as [[r|e] s'] eqn:E; simpl.
    + eexists [_]. destruct (_ || _); simpl; repeat split; auto.
    + eexists [_]. repeat split; auto.
Qed.

(** [update] sends a partial document: the attributes, the time stamp and
    the references, and nothing about namespaces. *)
Lemma update_requests (type id : string) (attributes : JsValue)
    (options : UpdateOptions) (w : World S) :
  exists calls,
    w_log (snd (update D type id attributes options w))
    = (w_log w ++ calls)%list
    /\ forall p, In (CallUpdate p) calls ->
         exists upsert,
           up_body p
           = UpdateDoc
               (mkPartial type attributes (w_time w) (uo_references options))
               upsert.
Proof.
  unfold update. unfold_repo.
  destruct (negb (allowed D type)); simpl.
  { exists []. rewrite app_nil_r. split; [reflexivity|]. intros p []. }
  destruct (normalizeNamespace (uo_namespace options)) as [ns|e]; simpl.
  2: { exists []. rewrite app_nil_r. split; [reflexivity|]. intros p []. }
  match goal with |- context [let (o, w') := ?m in _] =>
    assert (Hpre : exists calls,
      w_log (snd m) = (w_log w ++ calls)%list
      /\ Forall (fun c => is_write c = false) calls
      /\ w_time (snd m) = w_time w);
    [ | destruct Hpre as (calls0 & Hl0 & Hr0 & Ht0);
        destruct m as [[pre|e] w2]; simpl in Hl0, Ht0 |- * ]
  end.
  { destruct (isMultiNamespace (_registry D) type).
    - destruct (preflightCheckIncludesNamespace_log type id ns w)
        as (calls & Hl & Hr & Ht).
      destruct (preflightCheckIncludesNamespace D type id ns w)
        as [[a|e] w']; simpl in *; eauto.
    - exists []. simpl. rewrite app_nil_r. auto. }
  2: { exists calls0. split; [assumption|]. intros p Hp.
       rewrite List.Forall_forall in Hr0. apply Hr0 in Hp. discriminate. }
  match goal with |- context [let (o, w') := ?m in _] =>
    assert (Hups : exists calls,
      w_log (snd m) = (w_log w2 ++ calls)%list
      /\ Forall (fun c => is_write c = false) calls);
    [ | destruct Hups as (calls1 & Hl1 & Hr1);
        destruct m as [[rawUpsert|e] w3]; simpl in Hl1 |- * ]
  end.
  { destruct (uo_upsert options) as [upsert|].
    - destruct (isSingleNamespace (_registry D) type && truthy_opt ns).
      + destruct (migrateDocument _ _); exists []; simpl;
          rewrite app_nil_r; auto.
      + destruct (isMultiNamespace (_registry D) type).
        * destruct (preflightGetNamespaces_log D type id ns w2)
            as (calls & Hl & Hr & _).
          destruct (preflightGetNamespaces D type id ns w2) as [[a|e] w'];
            simpl in *; [destruct (migrateDocument _ _); simpl|]; eauto.
        * destruct (migrateDocument _ _); exists []; simpl;
            rewrite app_nil_r; auto.
    - exists []. simpl. rewrite app_nil_r. auto. }
  2: { exists (calls0 ++ calls1)%list. rewrite Hl1, Hl0, <- app_assoc.
       split; [reflexivity|]. intros p Hp. apply in_app_or in Hp.
       rewrite List.Forall_forall in Hr0, Hr1.
       destruct Hp as [Hp|Hp]; [apply Hr0 in Hp | apply Hr1 in Hp];
         discriminate. }
  unfold client_update. unfold_repo. rewrite Ht0.
  rewrite List.Forall_forall in Hr0, Hr1.
  assert (Hreads : forall c p, In (CallUpdate p) (calls0 ++ calls1 ++ [c]) ->
            c = CallUpdate p).
  { intros c p Hp. apply in_app_or in Hp.
    destruct Hp as [Hp|Hp]; [apply Hr0 in Hp; discriminate|].
    apply in_app_or in Hp.
    destruct Hp as [Hp|[Hp|[]]]; [apply Hr1 in Hp; discriminate|].
    assumption. }
  destruct (es_update _ _ _) as [[body|e] s']; simpl;
    [|destruct (isNotFoundError e); simpl];
    (eexists (calls0 ++ calls1 ++ [_])%list;
     rewrite Hl1, Hl0, <- !app_assoc; split; [reflexivity|];
     intros p Hp; apply Hreads in Hp; inversion Hp; subst; simpl; eauto).
Qed.

End UpdateRequests.

Section Preflight.

Context {S : Type}.
Variable D : Deps S.

Variables (type id : string) (namespace : option string).
Variables (r : GetResponse) (st : S) (w : World S).

Hypothesis Hallowed : allowed D type = true.
Hypothesis Hmulti : isMultiNamespace (_registry D) type = true.
Hypothesis Hsingle : isSingleNamespace (_registry D) type = false.
Hypothesis Hget :
  es_get (client D) (exact_get D None type id) (w_store w) = (Ok r, st).

Let w1 := after w st [CallGet (exact_get D None type id)].

Lemma preflightGetNamespaces_spec :
  preflightGetNamespaces D type id namespace w
  = (if existing r then
       if rawDocExistsInNamespace D (get_doc r) namespace
       then Ok (src_namespaces (_source (get_doc r)))
       else Throw (ConflictError type id None)
     else Ok (Some [namespaceIdToString namespace]),
     w1).
Proof using Hmulti Hget.
  unfold preflightGetNamespaces, client_get. unfold_repo.
  rewrite Hmulti. simpl. unfold exact_get in Hget. rewrite Hget.
  unfold existing, isFoundGetResponse. rewrite andb_comm.
  destruct (get_found r && negb (Z.eqb (get_statusCode r) 404)); simpl;
    [|reflexivity].
  now destruct (rawDocExistsInNamespace D (get_doc r) namespace).
Qed.

Lemma preflightCheckIncludesNamespace_spec :
  preflightCheckIncludesNamespace D type id namespace w
  = (if existing r && rawDocExistsInNamespace D (get_doc r) namespace
     then Ok (get_doc r)
     else Throw (GenericNotFoundError (Some type) (Some id)),
     w1).
Proof using Hmulti Hget.
  unfold preflightCheckIncludesNamespace, client_get. unfold_repo.
  rewrite Hmulti. simpl. unfold exact_get in Hget. rewrite Hget.
  unfold existing, isFoundGetResponse.
  destruct (get_found r), (Z.eqb (get_statusCode r) 404),
    (rawDocExistsInNamespace D (get_doc r) namespace); reflexivity.
Qed.

(** The document exists, but not in the target namespace. *)

Section Outside.

Hypothesis Hexists : existing r = true.
Hypothesis Houtside :
  rawDocExistsInNamespace D (get_doc r) namespace = false.

Lemma create_outside_namespace (attributes : JsValue)
    (options : CreateOptions) :
  co_id options = Some id -> truthy id = true ->
  co_overwrite options = Some true ->
  normalizeNamespace (co_namespace options) = Ok namespace ->
  validateInitialNamespaces D type (co_initialNamespaces options) = Ok tt ->
  create D type attributes options w
  = (Throw (ConflictError type id None), w1).
Proof using Hallowed Hmulti Hsingle Hget Hexists Houtside.
  intros Hid Htruthy Hover Hns Hini.
  unfold create. unfold_repo. rewrite Hid, Hover, Hns, Hini, Hallowed. simpl.
  rewrite Hsingle, Hmulti, Htruthy. simpl.
  rewrite preflightGetNamespaces_spec, Hexists, Houtside. reflexivity.
Qed.

Lemma incrementCounter_outside_namespace (counterFields : JsValue)
    (options : option IncrementCounterOptions) :
  counter_fields_ok counterFields ->
  normalizeNamespace (ico_namespace (default no_increment_options options))
  = Ok namespace ->
  incrementCounter D (JStr type) id counterFields options w
  = (Throw (ConflictError type id None), w1).
Proof using Hallowed Hmulti Hsingle Hget Hexists Houtside.
  intros Hok Hns. unfold incrementCounter.
  apply isArrayOfCounterFields_spec in Hok. rewrite Hok, Hallowed. simpl.
  unfold incrementCounterInternal. unfold_repo. rewrite Hns. simpl.
  rewrite Hsingle, Hmulti. simpl.
  rewrite preflightGetNamespaces_spec, Hexists, Houtside. reflexivity.
Qed.

Lemma update_outside_namespace (attributes : JsValue)
    (options : UpdateOptions) :
  normalizeNamespace (uo_namespace options) = Ok namespace ->
  update D type id attributes options w
  = (Throw (GenericNotFoundError (Some type) (Some id)), w1).
Proof using Hallowed Hmulti Hget Hexists Houtside.
  intros Hns. unfold update. unfold_repo. rewrite Hallowed, Hns. simpl.
  rewrite Hmulti. simpl.
  rewrite preflightCheckIncludesNamespace_spec, Houtside, andb_false_r.
  reflexivity.
Qed.

Lemma delete_outside_namespace (options : DeleteOptions) :
  normalizeNamespace (do_namespace options) = Ok namespace ->
  delete D type id options w
  = (Throw (GenericNotFoundError (Some type) (Some id)), w1).
Proof using Hallowed Hmulti Hget Hexists Houtside.
  intros Hns. unfold delete. unfold_repo. rewrite Hallowed, Hns. simpl.
  rewrite Hmulti. simpl.
  rewrite preflightCheckIncludesNamespace_spec, Houtside, andb_false_r.
  reflexivity.
Qed.

End Outside.

(** The document exists in the target namespace. *)

Section Inside.

Hypothesis Hexists : existing r = true.
Hypothesis Hinside : rawDocExistsInNamespace D (get_doc r) namespace = true.

Let existingNamespaces := src_namespaces (_source (get_doc r)).

Lemma create_keeps_namespaces (attributes : JsValue)
    (options : CreateOptions) :
  co_id options = Some id -> truthy id = true ->
  co_overwrite options = Some true ->
  normalizeNamespace (co_namespace options) = Ok namespace ->
  co_initialNamespaces options = None ->
  match migrated_raw D
          (mkDoc id type None existingNamespaces
             (co_originId options) attributes
             (co_migrationVersion options) (Some (w_time w))
             (Some (default [] (co_references options)))) with
  | Ok raw =>
      exists p,
        w_log (snd (create D type attributes options w))
        = (w_log w ++ [CallGet (exact_get D None type id); CallIndex p])%list
        /\ ip_body p = _source raw
  | Throw e => create D type attributes options w = (Throw e, w1)
  end.
Proof using Hallowed Hmulti Hsingle Hget Hexists Hinside.
  intros Hid Htruthy Hover Hns Hini.
  unfold create, migrated_raw. unfold_repo.
  rewrite Hid, Hover, Hns, Hini, Hallowed. simpl.
  rewrite Hsingle, Hmulti, Htruthy. simpl.
  rewrite preflightGetNamespaces_spec, Hexists, Hinside. simpl.
  destruct (migrateDocument _ _) as [migrated|em]; simpl; [|reflexivity].
  unfold client_index. unfold_repo.
  destruct (es_index _ _ _) as [[body|e] st']; simpl;
    rewrite <- app_assoc; eexists; split; reflexivity.
Qed.

Lemma incrementCounter_keeps_namespaces (fields : list CounterField)
    (options : IncrementCounterOptions) :
  normalizeNamespace (ico_namespace options) = Ok namespace ->
  match migrated_raw D
          (mkDoc id type None existingNamespaces None
             (JObj (rev (map (normalizeCounterField
                                (default false (ico_initialize options)))
                           fields)
                    ++ default [] (ico_upsertAttributes options))%list)
             (ico_migrationVersion options) (Some (w_time w)) None) with
  | Ok raw =>
      exists p script,
        w_log (snd (incrementCounterInternal D type id fields options w))
        = (w_log w ++ [CallGet (exact_get D None type id); CallUpdate p])%list
        /\ up_body p = UpdateScript script (Some (_source raw))
        /\ forall o,
             fst (incrementCounterInternal D type id fields options w)
             = Ok o ->
             so_namespaces o = existingNamespaces
  | Throw e =>
      incrementCounterInternal D type id fields options w = (Throw e, w1)
  end.
Proof using Hmulti Hsingle Hget Hexists Hinside.
  intros Hns. unfold incrementCounterInternal, migrated_raw. unfold_repo.
  rewrite Hns. simpl. rewrite Hsingle, Hmulti. simpl.
  rewrite preflightGetNamespaces_spec, Hexists, Hinside. simpl.
  destruct (migrateDocument _ _) as [migrated|em]; simpl; [|reflexivity].
  unfold client_update. unfold_repo.
  destruct (es_update _ _ _) as [[body|e] st']; simpl;
    rewrite <- app_assoc; eexists _, _;
    (split; [reflexivity|]); (split; [reflexivity|]); intros o Ho;
    inversion Ho; reflexivity.
Qed.

Lemma update_keeps_namespaces (attributes : JsValue)
    (options : UpdateOptions) :
  normalizeNamespace (uo_namespace options) = Ok namespace ->
  exists calls,
    w_log (snd (update D type id attributes options w))
    = (w_log w ++ CallGet (exact_get D None type id) :: calls)%list
    /\ forall p, In (CallUpdate p) calls ->
         exists upsert,
           up_body p
           = UpdateDoc
               (mkPartial type attributes (w_time w) (uo_references options))
               upsert.
Proof using Hallowed Hmulti Hget Hexists Hinside.
  intros Hns. unfold update. unfold_repo. rewrite Hallowed, Hns. simpl.
  rewrite Hmulti. simpl.
  rewrite preflightCheckIncludesNamespace_spec, Hexists, Hinside. simpl.
  match goal with |- context [let (o, w') := ?m in _] =>
    assert (Hups : exists calls,
      w_log (snd m) = (w_log w1 ++ calls)%list
      /\ Forall (fun c => is_write c = false) calls);
    [ | destruct Hups as (calls1 & Hl1 & Hr1);
        destruct m as [[rawUpsert|e] w3]; simpl in Hl1 |- * ]
  end.
  { destruct (uo_upsert options) as [upsert|].
    - destruct (isSingleNamespace (_registry D) type && truthy_opt namespace).
      + destruct (migrateDocument _ _); exists []; simpl;
          rewrite app_nil_r; auto.
      + destruct (preflightGetNamespaces_log D type id namespace w1)
          as (calls & Hl & Hr & _).
        destruct (preflightGetNamespaces D type id namespace w1)
          as [[a|e] w']; simpl in *;
          [destruct (migrateDocument _ _); simpl|]; eauto.
    - exists []. simpl. rewrite app_nil_r. auto. }
  2: { exists calls1. rewrite Hl1. simpl. rewrite <- app_assoc.
       split; [reflexivity|]. intros p Hp.
       rewrite List.Forall_forall in Hr1. apply Hr1 in Hp. discriminate. }
  unfold client_update. unfold_repo.
  rewrite List.Forall_forall in Hr1.
  assert (Hreads : forall c p, In (CallUpdate p) (calls1 ++ [c]) ->
            c = CallUpdate p).
  { intros c p Hp. apply in_app_or in Hp.
    destruct Hp as [Hp|[Hp|[]]]; [apply Hr1 in Hp; discriminate|].
    assumption. }
  destruct (es_update _ _ _) as [[body|e] s']; simpl;
    [|destruct (isNotFoundError e); simpl];
    (eexists (calls1 ++ [_])%list;
     rewrite Hl1; simpl; rewrite <- !app_assoc; split; [reflexivity|];
     intros p Hp; apply Hreads in Hp; inversion Hp; subst; simpl; eauto).
Qed.

Lemma delete_reads_first (options : DeleteOptions) :
  normalizeNamespace (do_namespace options) = Ok namespace ->
  exists calls,
    w_log (snd (delete D type id options w))
    = (w_log w ++ CallGet (exact_get D None type id) :: calls)%list.
Proof using Hallowed Hmulti Hget Hexists Hinside.
  intros Hns. unfold delete. unfold_repo. rewrite Hallowed, Hns. simpl.
  rewrite Hmulti. simpl.
  rewrite preflightCheckIncludesNamespace_spec, Hexists, Hinside. simpl.
  destruct (negb _ && _); simpl.
  { exists []. reflexivity. }
  unfold client_delete. unfold_repo.
  destruct (es_delete _ _ _) as [[body|e] s']; simpl.
  - eexists [_].
    repeat match goal with
      | |- context [if ?c then _ else _] => destruct c; simpl
      end; rewrite <- app_assoc; reflexivity.
  - eexists [_]. rewrite <- app_assoc. reflexivity.
Qed.

End Inside.

(** C6, as amended.  For a multi-namespace type whose document exists,
    create with overwrite, update, delete and incrementCounter start with
    a read of the stored document.  If the document is not in the target
    namespace, create and incrementCounter throw Conflict, update and
    delete throw NotFound, and the read is the only request sent.  If it
    is, create with overwrite, given no initial namespaces, and
    incrementCounter send the document built with the stored namespace
    list, as the migrator returns it (a document that the migrator refuses
    ends the call after the read), and update sends a partial document
    that does not touch the list. *)
Theorem multi_namespace_preflight :
  existing r = true ->
  (rawDocExistsInNamespace D (get_doc r) namespace = false ->
   (forall attributes options,
      co_id options = Some id -> truthy id = true ->
      co_overwrite options = Some true ->
      normalizeNamespace (co_namespace options) = Ok namespace ->
      validateInitialNamespaces D type (co_initialNamespaces options)
      = Ok tt ->
      create D type attributes options w
      = (Throw (ConflictError type id None), w1))
   /\ (forall counterFields options,
         counter_fields_ok counterFields ->
         normalizeNamespace
           (ico_namespace (default no_increment_options options))
         = Ok namespace ->
         incrementCounter D (JStr type) id counterFields options w
         = (Throw (ConflictError type id None), w1))
   /\ (forall attributes options,
         normalizeNamespace (uo_namespace options) = Ok namespace ->
         update D type id attributes options w
         = (Throw (GenericNotFoundError (Some type) (Some id)), w1))
   /\ (forall options,
         normalizeNamespace (do_namespace options) = Ok namespace ->
         delete D type id options w
         = (Throw (GenericNotFoundError (Some type) (Some id)), w1)))
  /\ (rawDocExistsInNamespace D (get_doc r) namespace = true ->
      (forall attributes options,
         co_id options = Some id -> truthy id = true ->
         co_overwrite options = Some true ->
         normalizeNamespace (co_namespace options) = Ok namespace ->
         co_initialNamespaces options = None ->
         match migrated_raw D
                 (mkDoc id type None
                    (src_namespaces (_source (get_doc r)))
                    (co_originId options) attributes
                    (co_migrationVersion options) (Some (w_time w))
                    (Some (default [] (co_references options)))) with
         | Ok raw =>
             exists p,
               w_log (snd (create D type attributes options w))
               = (w_log w
                  ++ [CallGet (exact_get D None type id); CallIndex p])%list
               /\ src_namespaces (ip_body p) = src_namespaces (_source raw)
         | Throw e => create D type attributes options w = (Throw e, w1)
         end)
      /\ (forall fields options,
            normalizeNamespace (ico_namespace options) = Ok namespace ->
            match migrated_raw D
                    (mkDoc id type None
                       (src_namespaces (_source (get_doc r))) None
                       (JObj
                          (rev (map (normalizeCounterField
                                       (default false
                                          (ico_initialize options)))
                                  fields)
                           ++ default [] (ico_upsertAttributes options))%list)
                       (ico_migrationVersion options)
                       (Some (w_time w)) None) with
            | Ok raw =>
                exists p script upsert,
                  w_log (snd (incrementCounterInternal D type id fields
                                options w))
                  = (w_log w
                     ++ [CallGet (exact_get D None type id);
                         CallUpdate p])%list
                  /\ up_body p = UpdateScript script (Some upsert)
                  /\ src_namespaces upsert = src_namespaces (_source raw)
                  /\ forall o,
                       fst (incrementCounterInternal D type id fields
                              options w)
                       = Ok o ->
                       so_namespaces o
                       = src_namespaces (_source (get_doc r))
            | Throw e =>
                incrementCounterInternal D type id fields options w
                = (Throw e, w1)
            end)
      /\ (forall attributes options,
            normalizeNamespace (uo_namespace options) = Ok namespace ->
            exists calls,
              w_log (snd (update D type id attributes options w))
              = (w_log w ++ CallGet (exact_get D None type id) :: calls)%list
              /\ forall p, In (CallUpdate p) calls ->
                   exists upsert,
                     up_body p
                     = UpdateDoc
                         (mkPartial type attributes (w_time w)
                            (uo_references options))
                         upsert)
      /\ (forall options,
            normalizeNamespace (do_namespace options) = Ok namespace ->
            exists calls,
              w_log (snd (delete D type id options w))
              = (w_log w ++ CallGet (exact_get D None type id) :: calls)%list)).
Proof using Hallowed Hmulti Hsingle Hget.
  intros Hexists. split; intros Hin.
  - repeat split; intros.
    + now apply create_outside_namespace.
    + now apply incrementCounter_outside_namespace.
    + now apply update_outside_namespace.
    + now apply delete_outside_namespace.
  - repeat split; intros.
    + pose proof (create_keeps_namespaces Hexists Hin attributes options)
        as Hkeeps.
      destruct (migrated_raw D _) as [raw|e]; [|auto].
      destruct Hkeeps as (p & Hlog & Hbody); auto.
      exists p. now rewrite Hbody.
    + pose proof (incrementCounter_keeps_namespaces Hexists Hin fields
                    options) as Hkeeps.
      destruct (migrated_raw D _) as [raw|e]; [|auto].
      destruct Hkeeps as (p & script & Hlog & Hbody & Hres); auto.
      exists p, script. eexists. repeat split; eauto.
    + now apply update_keeps_namespaces.
    + now apply delete_reads_first.
Qed.

End Preflight.

(** C6, as stated, fails: [create] with [overwrite] and initial namespaces
    ["c"], of the tag "t1" that is shared between "a" and "b", reads the
    stored namespaces and then writes the document with the namespaces
    ["c"] alone. *)
Lemma multi_namespace_preflight_counterexample :
  let options :=
    mkCreateOptions (Some "t1") None (Some true) None None None (Some ["c"])
      None (Some "a") in
  let result :=
    create Kibana.deps "tag" (JObj [("name", JStr "later")]) options
      (Kibana.world Kibana.shared) in
  option_map (fun d => src_namespaces (_source d))
    (MemStore.stored Kibana.shared ".kibana" "tag:t1")
  = Some (Some ["a"; "b"])
  /\ option_map so_namespaces
       (match fst result with Ok o => Some o | Throw _ => None end)
     = Some (Some ["c"])
  /\ option_map (fun d => src_namespaces (_source d))
       (MemStore.stored (w_store (snd result)) ".kibana" "tag:t1")
     = Some (Some ["c"]).
Proof.
  vm_compute. repeat split.
Qed.

(** C6, at the reference configuration: the tag "t1" is shared between
    "a" and "b"; an update from "c" is refused after the read, and an
    overwrite from "a" sends the namespaces "a" and "b". *)
Lemma multi_namespace_preflight_witness :
  update Kibana.deps "tag" "t1" (JObj [("name", JStr "later")])
    (mkUpdateOptions None None None None (Some "c"))
    (Kibana.world Kibana.shared)
  = (Throw (GenericNotFoundError (Some "tag") (Some "t1")),
     after (Kibana.world Kibana.shared) Kibana.shared
       [CallGet (exact_get Kibana.deps None "tag" "t1")])
  /\ exists p,
       w_log (snd (create Kibana.deps "tag" (JObj [("name", JStr "later")])
                     (mkCreateOptions (Some "t1") None (Some true) None None
                        None None None (Some "a"))
                     (Kibana.world Kibana.shared)))
       = [CallGet (exact_get Kibana.deps None "tag" "t1"); CallIndex p]
       /\ src_namespaces (ip_body p) = Some ["a"; "b"].
Proof.
  split.
  - refine (proj1 (proj2 (proj2 (proj1
      (multi_namespace_preflight Kibana.deps "tag" "t1" (Some "c")
         (mkGetResp 200 true Kibana.tag_doc) Kibana.shared
         (Kibana.world Kibana.shared) _ _ _ _ _) _))) _ _ _);
      reflexivity.
  - destruct (proj1 (proj2
      (multi_namespace_preflight Kibana.deps "tag" "t1" (Some "a")
         (mkGetResp 200 true Kibana.tag_doc) Kibana.shared
         (Kibana.world Kibana.shared) eq_refl eq_refl eq_refl eq_refl
         eq_refl) eq_refl)
      (JObj [("name", JStr "later")])
      (mkCreateOptions (Some "t1") None (Some true) None None None None None
         (Some "a")) eq_refl eq_refl eq_refl eq_refl eq_refl)
      as (p & Hlog & Hbody).
    exists p. split; [exact Hlog | exact Hbody].
Defined.

(** ** Bulk results *)

Lemma head_drop_lookup {A} (l : list A) (c : nat) : head (drop c l) = l !! c.
Proof. now rewrite head_lookup, lookup_drop, Nat.add_0_r. Qed.

Lemma tail_drop {A} (l : list A) (c : nat) :
  tail (drop c l) = drop (Datatypes.S c) l.
Proof.
  revert l. induction c as [|c IH]; intros [|a l]; simpl; try reflexivity.
  apply IH.
Qed.

Section BulkRefinement.

Context {S : Type}.
Variable D : Deps S.

(** bulkGet *)

Lemma bulkGet_slots_spec (namespace : option string)
    (response : option MgetResponse) (objects : list BulkGetObject)
    (c : nat) :
  map (bulkGet_slot D namespace response)
    (snd (map_accum (bulkGet_validate D) c objects))
  = get_results D namespace objects (drop c (hits response))
  /\ bulkGet_docs D namespace (snd (map_accum (bulkGet_validate D) c objects))
     = map (get_request D namespace)
         (List.filter (fun object => allowed D (bg_type object)) objects).
Proof.
  revert c. induction objects as [|o objects IH]; intros c; [now split|].
  simpl. unfold bulkGet_validate at 1 3.
  destruct (allowed D (bg_type o)) eqn:Ea; simpl.
  - destruct (IH (Datatypes.S c)) as [IHs IHd].
    destruct (map_accum (bulkGet_validate D) (Datatypes.S c) objects)
      as [c' es]. simpl in *. split.
    + rewrite head_drop_lookup, tail_drop, <- IHs. f_equal.
      unfold get_result, hits.
      destruct response as [r|]; simpl.
      * destruct (mget_docs r !! c) as [hit|]; [|reflexivity].
        now destruct (hit_found hit),
          (rawDocExistsInNamespace D (hit_doc hit) namespace).
      * try rewrite lookup_nil; reflexivity.
    + unfold bulkGet_docs in *. simpl. now rewrite IHd.
  - destruct (IH c) as [IHs IHd].
    destruct (map_accum (bulkGet_validate D) c objects) as [c' es].
    simpl in *. split; [now rewrite IHs|exact IHd].
Qed.

Lemma bulkGet_refines (objects : list BulkGetObject) (options : BaseOptions)
    (namespace : option string) (w : World S) :
  normalizeNamespace (bo_namespace options) = Ok namespace ->
  bulkGet D objects options w = spec_bulkGet D objects namespace w.
Proof.
  intros Hns. unfold bulkGet, spec_bulkGet, batch_read. unfold_repo.
  rewrite Hns. simpl.
  destruct objects as [|o objects]; [reflexivity|].
  change (Nat.eqb (length (o :: objects)) 0) with false. cbv iota.
  unfold bulkGet_expected.
  destruct (bulkGet_slots_spec namespace None (o :: objects) 0) as [Hnone Hd].
  rewrite Hd.
  destruct (map (get_request D namespace) _) as [|d docs] eqn:Edocs;
    cbn [length Nat.eqb negb].
  - now rewrite Hnone.
  - unfold client_mget, issue.
    destruct (es_mget _ _ _) as [[r|e] st]; [|reflexivity].
    now rewrite (proj1 (bulkGet_slots_spec namespace (Some r) (o :: objects)
                          0)).
Qed.

End BulkRefinement.

Lemma map_accum_cons {A B C} (f : C -> A -> C * B) (c : C) (x : A)
    (l : list A) :
  map_accum f c (x :: l)
  = (fst (map_accum f (fst (f c x)) l),
     snd (f c x) :: snd (map_accum f (fst (f c x)) l)).
Proof.
  simpl. destruct (f c x) as [c1 y]. simpl.
  now destruct (map_accum f c1 l).
Qed.

Section BulkUpdateRefinement.

Context {S : Type}.
Variable D : Deps S.

Lemma bulkUpdate_validate_spec (time : string) (c : nat)
    (o : BulkUpdateObject) :
  bulkUpdate_validate D time c o
  = match update_rejection D o with
    | Some e =>
        (c, Left (mkBulkError (Some (bu_id o)) (bu_type o) (errorContent e)))
    | None =>
        (if isMultiNamespace (_registry D) (bu_type o)
         then Datatypes.S c else c,
         Right
           (mkBulkUpdateRight (bu_type o) (bu_id o) (bu_version o)
              (mkPartial (bu_type o) (bu_attributes o) time
                 (bu_references o))
              (bu_namespace o)
              (if isMultiNamespace (_registry D) (bu_type o)
               then Some c else None)))
    end.
Proof.
  unfold bulkUpdate_validate, update_rejection, left_error.
  destruct (allowed D (bu_type o)); simpl; [|reflexivity].
  destruct (bu_namespace o) as [n|]; simpl.
  - destruct (String.eqb n ALL_NAMESPACES_STRING); [reflexivity|].
    now destruct (isMultiNamespace (_registry D) (bu_type o)).
  - now destruct (isMultiNamespace (_registry D) (bu_type o)).
Qed.

Lemma bulkUpdate_step_spec (namespace : option string) (time : string)
    (response : option MgetResponse) (o : BulkUpdateObject) (c k : nat)
    (params : list BulkOp) :
  bulkUpdate_step D namespace response (k, params)
    (Right
       (mkBulkUpdateRight (bu_type o) (bu_id o) (bu_version o)
          (mkPartial (bu_type o) (bu_attributes o) time (bu_references o))
          (bu_namespace o)
          (if isMultiNamespace (_registry D) (bu_type o)
           then Some c else None)))
  = match update_operation D namespace time o
            (head (drop c (preflight_hits response))) with
    | Some (op, namespaces) =>
        ((Datatypes.S k, (params ++ [op])%list),
         Right
           (mkBulkUpdateExpected (bu_type o) (bu_id o) namespaces k
              (mkPartial (bu_type o) (bu_attributes o) time
                 (bu_references o))))
    | None =>
        ((k, params),
         Left
           (mkBulkError (Some (bu_id o)) (bu_type o)
              (errorContent
                 (GenericNotFoundError (Some (bu_type o))
                    (Some (bu_id o))))))
    end.
Proof.
  unfold bulkUpdate_step, update_operation. simpl.
  destruct (isMultiNamespace (_registry D) (bu_type o)); simpl.
  - rewrite head_drop_lookup. unfold preflight_hits.
    destruct response as [r|]; simpl; [|reflexivity].
    destruct (Z.eqb (mget_statusCode r) 404); simpl; [reflexivity|].
    destruct (mget_docs r !! c) as [hit|]; [|reflexivity].
    destruct (hit_found hit); simpl; [|reflexivity].
    now destruct (rawDocExistsInNamespace D (hit_doc hit) _).
  - reflexivity.
Qed.

Lemma bulkUpdate_slot_spec (time : string) (written : option BulkResponse)
    (o : BulkUpdateObject) (namespaces : option (list string)) (k : nat) :
  bulkUpdate_slot D written
    (Right
       (mkBulkUpdateExpected (bu_type o) (bu_id o) namespaces k
          (mkPartial (bu_type o) (bu_attributes o) time (bu_references o))))
  = match head (drop k (items_of written)) with
    | Some item => update_result D time (o, namespaces) item
    | None => Throw undefined_response
    end.
Proof.
  unfold bulkUpdate_slot, update_result, items_of. simpl.
  rewrite head_drop_lookup.
  destruct written as [r|]; simpl; [|reflexivity].
  destruct (bulk_items r !! k) as [item|]; reflexivity.
Qed.

Lemma bulkUpdate_plan_spec (namespace : option string) (time : string)
    (response : option MgetResponse) (written : option BulkResponse)
    (objects : list BulkUpdateObject) (c : nat) (acc : nat * list BulkOp) :
  let es := snd (map_accum (bulkUpdate_validate D time) c objects) in
  let planned := map_accum (bulkUpdate_step D namespace response) acc es in
  let plan :=
    update_plan D namespace time objects (drop c (preflight_hits response)) in
  bulkUpdate_docs D namespace es
  = map (update_probe D namespace) (List.filter (update_probed D) objects)
  /\ snd (fst planned) = (snd acc ++ plan_ops plan)%list
  /\ map_outcome (bulkUpdate_slot D written) (snd planned)
     = zip_items (update_result D time) plan
         (drop (fst acc) (items_of written)).
Proof.
  revert c acc. induction objects as [|o objects IH]; intros c acc.
  { simpl. rewrite app_nil_r. auto. }
  cbn zeta. rewrite map_accum_cons, bulkUpdate_validate_spec.
  cbn [update_plan List.filter]. unfold update_probed at 1.
  destruct (update_rejection D o) as [e|] eqn:Erej; cbn [fst snd].
  - (* refused *)
    rewrite map_accum_cons. cbn [bulkUpdate_step fst snd].
    destruct (IH c acc) as (IHd & IHp & IHs). cbn zeta in IHd, IHp, IHs.
    split; [exact IHd|]. split; [exact IHp|].
    cbn [map_outcome bulkUpdate_slot zip_items plan_ops]. rewrite IHs.
    reflexivity.
  - destruct acc as [k params].
    rewrite map_accum_cons, bulkUpdate_step_spec.
    set (c1 := if isMultiNamespace (_registry D) (bu_type o)
               then Datatypes.S c else c).
    assert (Hanswers :
      (if isMultiNamespace (_registry D) (bu_type o)
       then tail (drop c (preflight_hits response))
       else drop c (preflight_hits response))
      = drop c1 (preflight_hits response)).
    { unfold c1.
      destruct (isMultiNamespace _ _); [apply tail_drop|reflexivity]. }
    rewrite Hanswers.
    assert (Hdocs : forall es,
      bulkUpdate_docs D namespace
        (Right
           (mkBulkUpdateRight (bu_type o) (bu_id o) (bu_version o)
              (mkPartial (bu_type o) (bu_attributes o) time
                 (bu_references o))
              (bu_namespace o)
              (if isMultiNamespace (_registry D) (bu_type o)
               then Some c else None)) :: es)
      = ((if isMultiNamespace (_registry D) (bu_type o)
          then [update_probe D namespace o] else [])
         ++ bulkUpdate_docs D namespace es)%list).
    { intros es. unfold bulkUpdate_docs. cbn [rights].
      destruct (isMultiNamespace _ _); rewrite filter_cons;
        destruct (decide _) as [Hd|Hd]; try reflexivity.
      - exfalso. apply Hd. apply bool_decide_pack. simpl. eauto.
      - exfalso. apply bool_decide_unpack in Hd.
        destruct Hd as [x Hx]. discriminate. }
    rewrite Hdocs.
    destruct (update_operation D namespace time o
                (head (drop c (preflight_hits response))))
      as [[op namespaces]|]; cbn [fst snd].
    + destruct (IH c1 (Datatypes.S k, (params ++ [op])%list))
        as (IHd & IHp & IHs). cbn zeta in IHd, IHp, IHs.
      split; [|split].
      * rewrite IHd. now destruct (isMultiNamespace _ _).
      * rewrite IHp. cbn [fst snd plan_ops]. now rewrite <- app_assoc.
      * cbn [map_outcome zip_items plan_ops].
        rewrite bulkUpdate_slot_spec, IHs. cbn [fst].
        rewrite tail_drop.
        destruct (head (drop k (items_of written))) as [item|]; reflexivity.
    + destruct (IH c1 (k, params)) as (IHd & IHp & IHs).
      cbn zeta in IHd, IHp, IHs.
      split; [|split].
      * rewrite IHd. now destruct (isMultiNamespace _ _).
      * exact IHp.
      * cbn [map_outcome bulkUpdate_slot zip_items plan_ops]. rewrite IHs.
        reflexivity.
Qed.

End BulkUpdateRefinement.

Section BulkUpdateRefines.

Context {S : Type}.
Variable D : Deps S.

Lemma bulkUpdate_write_spec (namespace : option string) (time : string)
    (response : option MgetResponse) (refresh : Refresh)
    (objects : list BulkUpdateObject) (w : World S) :
  (let '(_, bulkUpdateParams, expectedBulkUpdateResults) :=
     map_accum (bulkUpdate_step D namespace response) (0, [])
       (snd (map_accum (bulkUpdate_validate D time) 0 objects)) in
   bulkUpdate_write D refresh bulkUpdateParams expectedBulkUpdateResults) w
  = bind
      (batch_write D refresh
         (plan_ops
            (update_plan D namespace time objects (preflight_hits response))))
      (fun items =>
         lift (zip_items (update_result D time)
                 (update_plan D namespace time objects
                    (preflight_hits response))
                 items))
      w.
Proof.
  pose proof (fun written =>
    bulkUpdate_plan_spec D namespace time response written objects 0 (0, []))
    as Hplan.
  cbn zeta in Hplan. cbn [fst snd drop app] in Hplan.
  destruct (map_accum (bulkUpdate_step D namespace response) (0, [])
              (snd (map_accum (bulkUpdate_validate D time) 0 objects)))
    as [[k params] results].
  cbn [fst snd] in Hplan.
  destruct (Hplan None) as (_ & Hparams & Hnone). subst params.
  unfold bulkUpdate_write, batch_write. unfold_repo.
  destruct (plan_ops _) as [|op ops]; cbn [length Nat.eqb negb].
  - now rewrite Hnone.
  - unfold client_bulk, issue.
    destruct (es_bulk _ _ _) as [[r|e] st]; [|reflexivity].
    destruct (Hplan (Some r)) as (_ & _ & Hsome). now rewrite Hsome.
Qed.

Lemma bulkUpdate_refines (objects : list BulkUpdateObject)
    (options : BulkUpdateOptions) (namespace : option string) (w : World S) :
  normalizeNamespace (buo_namespace options) = Ok namespace ->
  bulkUpdate D objects options w
  = spec_bulkUpdate D objects options namespace w.
Proof.
  intros Hns. unfold bulkUpdate, spec_bulkUpdate, batch_read. unfold_repo.
  rewrite Hns. unfold bulkUpdate_expected.
  rewrite (proj1 (bulkUpdate_plan_spec D namespace (w_time w) None None
                    objects 0 (0, []))).
  destruct (map (update_probe D namespace) _) as [|d docs];
    cbn [length Nat.eqb negb].
  - rewrite bulkUpdate_write_spec. reflexivity.
  - unfold client_mget, issue.
    destruct (es_mget _ _ _) as [[r|e] st]; [|reflexivity].
    rewrite bulkUpdate_write_spec. reflexivity.
Qed.

End BulkUpdateRefines.

Section BulkCreateRefinement.

Context {S : Type}.
Variable D : Deps S.

Lemma create_probed_valid (o : BulkCreateObject) :
  create_rejection D o = None ->
  create_probed D o
  = truthy_opt (bc_id o) && isMultiNamespace (_registry D) (bc_type o).
Proof. intros H. unfold create_probed. now rewrite H. Qed.

Lemma bulkCreate_validate_spec (overwrite : bool) (c fresh : nat)
    (o : BulkCreateObject) :
  bulkCreate_validate D overwrite (c, fresh) o
  = match create_rejection D o with
    | Some e =>
        ((c, fresh),
         Left (mkBulkError (bc_id o) (bc_type o) (errorContent e)))
    | None =>
        ((if create_probed D o then Datatypes.S c else c,
          match bc_id o with
          | Some _ => fresh
          | None => Datatypes.S fresh
          end),
         Right
           (mkBulkCreateRight
              (if truthy_opt (bc_id o) && overwrite
               then MethodIndex else MethodCreate)
              o (default (generateId (imports D) fresh) (bc_id o))
              (if create_probed D o then Some c else None)))
    end.
Proof.
  unfold bulkCreate_validate, create_probed, create_rejection, left_error.
  destruct (allowed D (bc_type o)); simpl; [|reflexivity].
  destruct (validateInitialNamespaces D (bc_type o) (bc_initialNamespaces o));
    [|reflexivity].
  destruct (bc_id o) as [i|]; simpl.
  - now destruct (truthy i && isMultiNamespace (_registry D) (bc_type o)).
  - reflexivity.
Qed.

Lemma bulkCreate_step_spec (overwrite : bool) (namespace : option string)
    (time : string) (response : option MgetResponse) (o : BulkCreateObject)
    (id : string) (c k : nat) (params : list BulkOp) :
  create_rejection D o = None ->
  bulkCreate_step D overwrite namespace time response (k, params)
    (Right
       (mkBulkCreateRight
          (if truthy_opt (bc_id o) && overwrite
           then MethodIndex else MethodCreate)
          o id (if create_probed D o then Some c else None)))
  = match create_draft D namespace time o id
            (head (drop c (preflight_hits response))) with
    | inl err => Ok ((k, params), Left err)
    | inr (draft, versionProperties) =>
        match migrateDocument (_migrator D) draft with
        | Throw e => Throw e
        | Ok migrated =>
            let raw := savedObjectToRaw (_serializer D) migrated in
            let header :=
              mkHeader (_id raw) (getIndexForType D (bc_type o))
                (if overwrite then versionProperties else no_if_match) in
            Ok ((Datatypes.S k,
                 (params
                  ++ [if truthy_opt (bc_id o) && overwrite
                      then BulkIndex header (_source raw)
                      else BulkCreate header (_source raw)])%list),
                Right (mkBulkCreateExpected k id raw))
        end
    end.
Proof.
  intros Hvalid. unfold bulkCreate_step, create_draft.
  cbn [bcr_object bcr_id bcr_esRequestIndex bcr_method].
  destruct (create_probed D o) eqn:Ep.
  - rewrite head_drop_lookup. unfold preflight_hits.
    assert (Hlookup :
      (if match response with
          | Some r => negb (Z.eqb (mget_statusCode r) 404)
          | None => true
          end
       then match response with
            | Some r => mget_docs r !! c
            | None => None
            end
       else None)
      = match response with
        | Some r =>
            if Z.eqb (mget_statusCode r) 404 then [] else mget_docs r
        | None => []
        end !! c).
    { destruct response as [r|]; [|reflexivity].
      now destruct (Z.eqb (mget_statusCode r) 404). }
    rewrite Hlookup.
    assert (Hfound :
      forall hit : MgetHit,
        match response with
        | Some r =>
            if Z.eqb (mget_statusCode r) 404 then [] else mget_docs r
        | None => []
        end !! c = Some hit ->
        match response with
        | Some r => negb (Z.eqb (mget_statusCode r) 404)
        | None => true
        end = true).
    { intros hit. destruct response as [r|]; [|reflexivity].
      destruct (Z.eqb (mget_statusCode r) 404); [discriminate|reflexivity]. }
    destruct (match response with
              | Some r =>
                  if Z.eqb (mget_statusCode r) 404 then [] else mget_docs r
              | None => []
              end !! c) as [hit|] eqn:Ehit.
    + rewrite (Hfound hit eq_refl). cbn [andb option_map].
      destruct (hit_found hit); cbn [andb negb].
      * destruct (rawDocExistsInNamespace D (hit_doc hit) namespace);
          cbn [negb]; [|reflexivity].
        destruct (migrateDocument _ _) as [migrated|em]; [|reflexivity].
        now destruct (truthy_opt (bc_id o) && overwrite).
      * destruct (migrateDocument _ _) as [migrated|em]; [|reflexivity].
        now destruct (truthy_opt (bc_id o) && overwrite).
    + clear Hlookup Hfound.
      destruct (match response with
                | Some r => negb (Z.eqb (mget_statusCode r) 404)
                | None => true
                end); cbn [andb option_map];
        (destruct (migrateDocument _ _) as [migrated|em]; [|reflexivity]);
        now destruct (truthy_opt (bc_id o) && overwrite).
  - destruct (isSingleNamespace (_registry D) (bc_type o));
      [|destruct (isMultiNamespace (_registry D) (bc_type o))];
      (destruct (migrateDocument _ _) as [migrated|em]; [|reflexivity]);
      now destruct (truthy_opt (bc_id o) && overwrite).
Qed.

Lemma bulkCreate_slot_spec (written : option BulkResponse) (id : string)
    (raw : RawDoc) (k : nat) :
  bulkCreate_slot D written (Right (mkBulkCreateExpected k id raw))
  = match head (drop k (items_of written)) with
    | Some item => create_result D (id, raw) item
    | None => Throw undefined_response
    end.
Proof.
  unfold bulkCreate_slot, create_result, items_of. simpl.
  rewrite head_drop_lookup.
  destruct written as [r|]; simpl; [|reflexivity].
  destruct (bulk_items r !! k) as [item|]; [|reflexivity].
  now destruct (getBulkOperationError _ _ item).
Qed.

End BulkCreateRefinement.

Section BulkCreatePlan.

Context {S : Type}.
Variable D : Deps S.

Lemma map_accum_outcome_cons {A B C} (f : C -> A -> Outcome (C * B)) (c : C)
    (x : A) (l : list A) :
  map_accum_outcome f c (x :: l)
  = match f c x with
    | Throw e => Throw e
    | Ok (c1, y) =>
        match map_accum_outcome f c1 l with
        | Throw e => Throw e
        | Ok (c2, ys) => Ok (c2, y :: ys)
        end
    end.
Proof. reflexivity. Qed.

Lemma bulkCreate_plan_spec (overwrite : bool) (namespace : option string)
    (time : string) (response : option MgetResponse)
    (objects : list BulkCreateObject) (c fresh : nat)
    (acc : nat * list BulkOp) :
  let validated :=
    map_accum (bulkCreate_validate D overwrite) (c, fresh) objects in
  let plan :=
    create_plan D overwrite namespace time objects fresh
      (drop c (preflight_hits response)) in
  bulkCreate_docs D namespace (snd validated)
  = map (create_probe D namespace) (List.filter (create_probed D) objects)
  /\ snd (fst validated)
     = length (List.filter (create_unnamed D) objects) + fresh
  /\ match map_accum_outcome
             (bulkCreate_step D overwrite namespace time response) acc
             (snd validated) with
     | Ok (acc', results) =>
         exists planned,
           plan = Ok planned
           /\ snd acc' = (snd acc ++ plan_ops planned)%list
           /\ forall written,
                map_outcome (bulkCreate_slot D written) results
                = zip_items (create_result D) planned
                    (drop (fst acc) (items_of written))
     | Throw e => plan = Throw e
     end.
Proof.
  revert c fresh acc.
  induction objects as [|o objects IH]; intros c fresh acc.
  { simpl. split; [reflexivity|]. split; [reflexivity|].
    exists []. rewrite app_nil_r. auto. }
  cbn zeta. rewrite map_accum_cons, bulkCreate_validate_spec.
  cbn [create_plan List.filter]. unfold create_unnamed at 1.
  destruct (create_rejection D o) as [e|] eqn:Erej; cbn [fst snd].
  - (* refused *)
    assert (Hp : create_probed D o = false)
      by (unfold create_probed; now rewrite Erej).
    rewrite Hp. rewrite map_accum_outcome_cons. cbn [bulkCreate_step].
    destruct (IH c fresh acc) as (IHd & IHf & IHp). cbn zeta in IHd, IHf, IHp.
    split; [exact IHd|]. split; [exact IHf|].
    destruct (map_accum_outcome _ acc _) as [[acc' results]|e'].
    + destruct IHp as (planned & Hplan & Hops & Hslots).
      rewrite Hplan. eexists. split; [reflexivity|].
      split; [exact Hops|]. intros written.
      cbn [map_outcome bulkCreate_slot zip_items]. now rewrite Hslots.
    + now rewrite IHp.
  - destruct acc as [k params].
    set (id := default (generateId (imports D) fresh) (bc_id o)).
    set (fresh1 := match bc_id o with
                   | Some _ => fresh
                   | None => Datatypes.S fresh
                   end).
    set (c1 := if create_probed D o then Datatypes.S c else c).
    assert (Hanswers :
      (if create_probed D o
       then tail (drop c (preflight_hits response))
       else drop c (preflight_hits response))
      = drop c1 (preflight_hits response)).
    { unfold c1. destruct (create_probed D o); [apply tail_drop|reflexivity]. }
    rewrite Hanswers.
    assert (Hdocs : forall es,
      bulkCreate_docs D namespace
        (Right
           (mkBulkCreateRight
              (if truthy_opt (bc_id o) && overwrite
               then MethodIndex else MethodCreate)
              o id (if create_probed D o then Some c else None)) :: es)
      = ((if create_probed D o then [create_probe D namespace o] else [])
         ++ bulkCreate_docs D namespace es)%list).
    { intros es. unfold bulkCreate_docs. cbn [rights].
      destruct (create_probed D o) eqn:Ep; rewrite filter_cons;
        destruct (decide _) as [Hd|Hd]; try reflexivity.
      - cbn [map app bcr_object bcr_id]. unfold create_probe, id.
        rewrite (create_probed_valid D o Erej) in Ep.
        destruct (bc_id o); [reflexivity|discriminate].
      - exfalso. apply Hd. apply bool_decide_pack. simpl. eauto.
      - exfalso. apply bool_decide_unpack in Hd.
        destruct Hd as [x Hx]. discriminate. }
    rewrite Hdocs.
    assert (Hfresh :
      length
        (if match bc_id o with
            | Some _ => false
            | None => true
            end
         then o :: List.filter (create_unnamed D) objects
         else List.filter (create_unnamed D) objects) + fresh
      = length (List.filter (create_unnamed D) objects) + fresh1).
    { unfold fresh1. destruct (bc_id o); simpl; lia. }
    rewrite map_accum_outcome_cons.
    rewrite (bulkCreate_step_spec D overwrite namespace time response o id c k
               params Erej).
    destruct (create_draft D namespace time o id
                (head (drop c (preflight_hits response))))
      as [err|[draft versionProperties]].
    + destruct (IH c1 fresh1 (k, params)) as (IHd & IHf & IHp).
      cbn zeta in IHd, IHf, IHp.
      split; [|split].
      * rewrite IHd. now destruct (create_probed D o).
      * rewrite IHf. now rewrite Hfresh.
      * destruct (map_accum_outcome _ (k, params) _) as [[acc' results]|e'].
        -- destruct IHp as (planned & Hplan & Hops & Hslots).
           rewrite Hplan. eexists. split; [reflexivity|].
           split; [exact Hops|]. intros written.
           cbn [map_outcome bulkCreate_slot zip_items]. now rewrite Hslots.
        -- now rewrite IHp.
    + destruct (migrateDocument (_migrator D) draft) as [migrated|em].
      2:{ destruct (IH c1 fresh1 (k, params)) as (IHd & IHf & _).
          cbn zeta in IHd, IHf.
          split; [|split]; [| |reflexivity].
          - rewrite IHd. now destruct (create_probed D o).
          - rewrite IHf. now rewrite Hfresh. }
      lazy beta iota zeta.
      match goal with
      | |- context [map_accum_outcome _ (Datatypes.S k, ?ps) _] =>
          destruct (IH c1 fresh1 (Datatypes.S k, ps)) as (IHd & IHf & IHp)
      end.
      cbn zeta in IHd, IHf, IHp.
      split; [|split].
      * rewrite IHd. now destruct (create_probed D o).
      * rewrite IHf. now rewrite Hfresh.
      * destruct (map_accum_outcome _ (Datatypes.S k, _) _)
          as [[acc' results]|e'].
        -- destruct IHp as (planned & Hplan & Hops & Hslots).
           rewrite Hplan. eexists. split; [reflexivity|].
           split.
           { rewrite Hops. cbn [fst snd plan_ops]. now rewrite <- app_assoc. }
           intros written.
           cbn [map_outcome zip_items].
           rewrite bulkCreate_slot_spec, Hslots. cbn [fst].
           rewrite tail_drop.
           destruct (head (drop k (items_of written))) as [item|];
             [|reflexivity].
           now destruct (create_result D (id, _) item).
        -- now rewrite IHp.
Qed.

End BulkCreatePlan.

Section BulkCreateRefines.

Context {S : Type}.
Variable D : Deps S.

Lemma bulkCreate_write_spec (refresh : Refresh)
    (planned : list (Planned (string * RawDoc)))
    (results : list (Either BulkCreateExpected)) (w : World S) :
  (forall written,
     map_outcome (bulkCreate_slot D written) results
     = zip_items (create_result D) planned (items_of written)) ->
  bulkCreate_write D refresh (plan_ops planned) results w
  = bind (batch_write D refresh (plan_ops planned))
      (fun items => lift (zip_items (create_result D) planned items)) w.
Proof.
  intros Hslots. unfold bulkCreate_write, batch_write. unfold_repo.
  destruct (plan_ops planned) as [|op ops]; cbn [length Nat.eqb negb].
  - now rewrite Hslots.
  - unfold client_bulk, issue.
    destruct (es_bulk _ _ _) as [[r|e] st]; [|reflexivity].
    now rewrite Hslots.
Qed.

Lemma bulkCreate_planned_spec (overwrite : bool) (namespace : option string)
    (time : string) (response : option MgetResponse) (refresh : Refresh)
    (objects : list BulkCreateObject) (fresh : nat) (w : World S) :
  bind
    (lift (map_accum_outcome
             (bulkCreate_step D overwrite namespace time response) (0, [])
             (snd (map_accum (bulkCreate_validate D overwrite) (0, fresh)
                     objects))))
    (fun planned =>
       let '((_, bulkCreateParams), expectedBulkResults) := planned in
       bulkCreate_write D refresh bulkCreateParams expectedBulkResults) w
  = bind
      (lift (create_plan D overwrite namespace time objects fresh
               (preflight_hits response)))
      (fun plan =>
         bind (batch_write D refresh (plan_ops plan))
           (fun items => lift (zip_items (create_result D) plan items))) w.
Proof.
  pose proof (bulkCreate_plan_spec D overwrite namespace time response objects
                0 fresh (0, [])) as (_ & _ & Hplan).
  cbn zeta in Hplan. rewrite drop_0 in Hplan.
  cbn [fst snd app] in Hplan.
  unfold bind at 1 3, lift at 1 3.
  destruct (map_accum_outcome _ _ _) as [[[k params] results]|e].
  - destruct Hplan as (planned & Hplan & Hops & Hslots).
    rewrite Hplan. cbn [snd] in Hops. subst params.
    now apply bulkCreate_write_spec.
  - now rewrite Hplan.
Qed.

Lemma bulkCreate_refines (objects : list BulkCreateObject)
    (options : CreateOptions) (namespace : option string) (w : World S) :
  normalizeNamespace (co_namespace options) = Ok namespace ->
  bulkCreate D objects options w
  = spec_bulkCreate D objects options namespace w.
Proof.
  intros Hns. unfold bulkCreate, spec_bulkCreate, batch_read, take_ids.
  unfold bind at 1 2 3, lift at 1, _getCurrentTime at 1.
  rewrite Hns. unfold bulkCreate_expected.
  unfold bind at 5 6, _getCurrentTime.
  pose proof (bulkCreate_plan_spec D (default false (co_overwrite options))
                namespace (w_time w) None objects 0 (w_fresh w) (0, []))
    as (Hdocs & Hfresh & _).
  cbn zeta in Hdocs, Hfresh.
  pose proof (fun response refresh =>
    bulkCreate_planned_spec (default false (co_overwrite options)) namespace
      (w_time w) response refresh objects (w_fresh w)) as Hplanned.
  destruct (map_accum (bulkCreate_validate D _) (0, w_fresh w) objects)
    as [[c' fresh'] expected].
  cbn [fst snd] in Hdocs, Hfresh, Hplanned. subst fresh'. rewrite Hdocs.
  destruct (map (create_probe D namespace) _) as [|d docs];
    cbn [length Nat.eqb negb].
  - unfold bind at 1 3, ret. cbn [w_time]. apply Hplanned.
  - unfold bind at 1 2 4 5, ret, client_mget, issue. cbn [w_store w_log w_time].
    destruct (es_mget _ _ _) as [[r|e] st]; [|reflexivity].
    apply Hplanned.
Qed.

End BulkCreateRefines.

Section BulkSlotsSpec.

Context {S : Type}.
Variable D : Deps S.

Lemma batch_read_answers (docs : list MgetDoc) (w : World S) :
  store_answers (client D) ->
  exists response w', batch_read D docs w = (Ok response, w').
Proof.
  intros [Hmget _]. unfold batch_read. destruct docs as [|d docs].
  - now exists None, w.
  - unfold client_mget. unfold_repo.
    destruct (Hmget (d :: docs) (w_store w)) as (r & st' & Hr).
    rewrite Hr. eauto.
Qed.

Lemma batch_write_answers (refresh : Refresh) (ops : list BulkOp)
    (w : World S) :
  store_answers (client D) ->
  exists items w',
    batch_write D refresh ops w = (Ok items, w')
    /\ Forall2
         (fun op item =>
            (exists h doc, op = BulkUpdate h doc) ->
            bi_error item = None -> is_Some (bi_get item))
         ops items.
Proof.
  intros [_ Hbulk]. unfold batch_write. destruct ops as [|op ops].
  - exists [], w. split; [reflexivity|constructor].
  - unfold client_bulk. unfold_repo.
    destruct (Hbulk (mkBulk refresh true (op :: ops)) (w_store w))
      as (r & st' & Hr & Hlen & Hget).
    rewrite Hr. eexists _, _. split; [reflexivity|].
    apply Forall2_same_length_lookup. split; [now rewrite Hlen|].
    intros k x item Hx Hitem (h & doc & ->). eauto.
Qed.

(** bulkGet *)

Lemma get_results_slots (namespace : option string)
    (objects : list BulkGetObject) (answers : list MgetHit) :
  Forall2 (get_slot D namespace) objects
    (get_results D namespace objects answers).
Proof.
  revert answers. induction objects as [|o objects IH]; intros answers;
    cbn [get_results]; [constructor|].
  destruct (allowed D (bg_type o)) eqn:Ea; constructor; try apply IH;
    unfold get_slot; rewrite Ea; eauto.
Qed.

Lemma spec_bulkGet_returns (objects : list BulkGetObject)
    (namespace : option string) (w : World S) :
  store_answers (client D) ->
  exists slots w',
    spec_bulkGet D objects namespace w = (Ok slots, w')
    /\ length slots = length objects
    /\ Forall2 (get_slot D namespace) objects slots.
Proof.
  intros Hstore. unfold spec_bulkGet. unfold bind at 1.
  destruct (batch_read_answers
              (map (get_request D namespace)
                 (List.filter (fun object => allowed D (bg_type object))
                    objects)) w Hstore)
    as (response & w' & ->).
  eexists _, _. split; [reflexivity|].
  pose proof (get_results_slots namespace objects (hits response)) as Hslots.
  split; [symmetry; eapply Forall2_length; exact Hslots|exact Hslots].
Qed.

(** bulkUpdate *)

Lemma update_operation_updates (namespace : option string) (time : string)
    (object : BulkUpdateObject) (answer : option MgetHit) (op : BulkOp)
    (namespaces : option (list string)) :
  update_operation D namespace time object answer = Some (op, namespaces) ->
  exists h doc, op = BulkUpdate h doc.
Proof.
  unfold update_operation.
  destruct (isMultiNamespace _ _).
  - destruct answer as [hit|]; [|discriminate].
    destruct (hit_found hit && _); [|discriminate].
    intros [= <- _]. eauto.
  - intros [= <- _]. eauto.
Qed.

Lemma update_plan_slots (namespace : option string) (time : string)
    (objects : list BulkUpdateObject) (answers : list MgetHit)
    (items : list BulkItem) :
  Forall2
    (fun op item =>
       (exists h doc, op = BulkUpdate h doc) ->
       bi_error item = None -> is_Some (bi_get item))
    (plan_ops (update_plan D namespace time objects answers)) items ->
  exists slots,
    zip_items (update_result D time)
      (update_plan D namespace time objects answers) items
    = Ok slots
    /\ Forall2 (update_slot D namespace time) objects slots.
Proof.
  revert answers items.
  induction objects as [|o objects IH]; intros answers items Hitems.
  { exists []. split; [reflexivity|constructor]. }
  revert Hitems. cbn [update_plan].
  destruct (update_rejection D o) as [e|] eqn:Erej.
  - cbn [plan_ops zip_items]. intros Hitems.
    destruct (IH _ _ Hitems) as (slots & -> & Hslots).
    eexists. split; [reflexivity|]. constructor; [|exact Hslots].
    unfold update_slot. now rewrite Erej.
  - destruct (update_operation D namespace time o (head answers))
      as [[op namespaces]|] eqn:Eop.
    + cbn [plan_ops zip_items]. intros Hitems.
      inversion Hitems as [|? item ? rest Hitem Hrest]; subst.
      cbn [head tail].
      assert (Hresult : exists slot,
        update_result D time (o, namespaces) item = Ok slot).
      { unfold update_result.
        destruct (getBulkOperationError _ _ item) eqn:Eerr; [eauto|].
        apply getBulkOperationError_none in Eerr.
        destruct (Hitem (update_operation_updates _ _ _ _ _ _ Eop) Eerr)
          as [g ->]. eauto. }
      destruct Hresult as [slot Hslot]. rewrite Hslot.
      destruct (IH _ _ Hrest) as (slots & -> & Hslots).
      eexists. split; [reflexivity|]. constructor; [|exact Hslots].
      unfold update_slot. rewrite Erej. exists (head answers).
      rewrite Eop. eauto.
    + cbn [plan_ops zip_items]. intros Hitems.
      destruct (IH _ _ Hitems) as (slots & -> & Hslots).
      eexists. split; [reflexivity|]. constructor; [|exact Hslots].
      unfold update_slot. rewrite Erej. exists (head answers).
      now rewrite Eop.
Qed.

Lemma spec_bulkUpdate_returns (objects : list BulkUpdateObject)
    (options : BulkUpdateOptions) (namespace : option string) (w : World S) :
  store_answers (client D) ->
  exists slots w',
    spec_bulkUpdate D objects options namespace w = (Ok slots, w')
    /\ length slots = length objects
    /\ Forall2 (update_slot D namespace (w_time w)) objects slots.
Proof.
  intros Hstore. unfold spec_bulkUpdate.
  unfold bind at 1, _getCurrentTime. unfold bind at 1.
  destruct (batch_read_answers
              (map (update_probe D namespace)
                 (List.filter (update_probed D) objects)) w Hstore)
    as (response & w1 & ->).
  cbn zeta. unfold bind at 1.
  destruct (batch_write_answers
              (default DEFAULT_REFRESH_SETTING (buo_refresh options))
              (plan_ops
                 (update_plan D namespace (w_time w) objects
                    (preflight_hits response))) w1 Hstore)
    as (items & w2 & -> & Hitems).
  destruct (update_plan_slots _ _ _ _ _ Hitems) as (slots & Hzip & Hslots).
  unfold lift. rewrite Hzip. eexists _, _. split; [reflexivity|].
  split; [symmetry; eapply Forall2_length; exact Hslots|exact Hslots].
Qed.

(** bulkCreate *)

Lemma create_draft_document (namespace : option string) (time : string)
    (object : BulkCreateObject) (id : string) (answer : option MgetHit)
    (draft : SanitizedDoc) (versionProperties : IfMatch) :
  create_draft D namespace time object id answer
  = inr (draft, versionProperties) ->
  exists savedObjectNamespace savedObjectNamespaces,
    draft
    = mkDoc id (bc_type object) savedObjectNamespace savedObjectNamespaces
        (bc_originId object) (bc_attributes object)
        (bc_migrationVersion object) (Some time)
        (Some (default [] (bc_references object))).
Proof.
  unfold create_draft.
  repeat match goal with
         | |- context [if ?c then _ else _] => destruct c
         | |- context [match ?x with Some _ => _ | None => _ end] =>
             destruct x
         end;
    intros [= <- _] || discriminate; eauto.
Qed.

Lemma create_plan_returns (overwrite : bool) (namespace : option string)
    (time : string) (objects : list BulkCreateObject) (fresh : nat)
    (answers : list MgetHit) :
  Forall (migrator_accepts D time) objects ->
  is_ok (create_plan D overwrite namespace time objects fresh answers) = true.
Proof.
  intros Haccepts. revert fresh answers.
  induction Haccepts as [|o objects Ho _ IH]; intros fresh answers;
    [reflexivity|].
  cbn [create_plan].
  destruct (create_rejection D o) as [e|].
  - specialize (IH fresh answers).
    now destruct (create_plan _ _ _ _ objects _ _).
  - cbn zeta.
    destruct (create_draft _ _ _ _ _ _) as [err|[draft vp]] eqn:Edraft.
    + match goal with
      | |- context [create_plan _ _ _ _ objects ?f ?a] =>
          specialize (IH f a); now destruct (create_plan _ _ _ _ objects f a)
      end.
    + destruct (create_draft_document _ _ _ _ _ _ _ Edraft)
        as (sns & snss & ->).
      specialize (Ho (default (generateId (imports D) fresh) (bc_id o))
                    sns snss).
      destruct (migrateDocument _ _) as [migrated|em]; [|discriminate].
      match goal with
      | |- context [create_plan _ _ _ _ objects ?f ?a] =>
          specialize (IH f a); now destruct (create_plan _ _ _ _ objects f a)
      end.
Qed.

Lemma create_plan_slots (overwrite : bool) (namespace : option string)
    (time : string) (objects : list BulkCreateObject) (fresh : nat)
    (answers : list MgetHit) (plan : list (Planned (string * RawDoc)))
    (items : list BulkItem) :
  create_plan D overwrite namespace time objects fresh answers = Ok plan ->
  length items = length (plan_ops plan) ->
  exists slots,
    zip_items (create_result D) plan items = Ok slots
    /\ Forall2 (create_slot D namespace time) objects slots.
Proof.
  revert fresh answers plan items.
  induction objects as [|o objects IH]; intros fresh answers plan items.
  { intros [= <-] _. exists []. split; [reflexivity|constructor]. }
  cbn [create_plan].
  destruct (create_rejection D o) as [e|] eqn:Erej.
  - destruct (create_plan _ _ _ _ objects _ _) as [rest|e'] eqn:Erest;
      [|discriminate].
    intros [= <-] Hlen. cbn [plan_ops zip_items] in *.
    destruct (IH _ _ _ _ Erest Hlen) as (slots & -> & Hslots).
    eexists. split; [reflexivity|]. constructor; [|exact Hslots].
    unfold create_slot. now rewrite Erej.
  - cbn zeta.
    assert (Hid : forall given,
      bc_id o = Some given ->
      default (generateId (imports D) fresh) (bc_id o) = given).
    { intros given ->. reflexivity. }
    destruct (create_draft _ _ _ _ _ _) as [err|[draft vp]] eqn:Edraft.
    + destruct (create_plan _ _ _ _ objects _ _) as [rest|e'] eqn:Erest;
        [|discriminate].
      intros [= <-] Hlen. cbn [plan_ops zip_items] in *.
      destruct (IH _ _ _ _ Erest Hlen) as (slots & -> & Hslots).
      eexists. split; [reflexivity|]. constructor; [|exact Hslots].
      unfold create_slot. rewrite Erej. eexists _, _. split; [exact Hid|].
      now rewrite Edraft.
    + destruct (migrateDocument _ _) as [migrated|em] eqn:Emig;
        [|discriminate].
      destruct (create_plan _ _ _ _ objects _ _) as [rest|e'] eqn:Erest;
        [|discriminate].
      intros [= <-] Hlen. cbn [plan_ops zip_items] in *.
      destruct items as [|item items]; [discriminate|].
      cbn [head tail]. injection Hlen as Hlen.
      assert (Hresult : exists slot,
        create_result D
          (default (generateId (imports D) fresh) (bc_id o),
           savedObjectToRaw (_serializer D) migrated) item = Ok slot).
      { unfold create_result.
        destruct (getBulkOperationError _ _ item); eauto. }
      destruct Hresult as [slot Hslot]. rewrite Hslot.
      destruct (IH _ _ _ _ Erest Hlen) as (slots & -> & Hslots).
      eexists. split; [reflexivity|]. constructor; [|exact Hslots].
      unfold create_slot. rewrite Erej. eexists _, _. split; [exact Hid|].
      rewrite Edraft. eauto.
Qed.

Lemma spec_bulkCreate_returns (objects : list BulkCreateObject)
    (options : CreateOptions) (namespace : option string) (w : World S) :
  store_answers (client D) ->
  Forall (migrator_accepts D (w_time w)) objects ->
  exists slots w',
    spec_bulkCreate D objects options namespace w = (Ok slots, w')
    /\ length slots = length objects
    /\ Forall2 (create_slot D namespace (w_time w)) objects slots.
Proof.
  intros Hstore Haccepts. unfold spec_bulkCreate. cbn zeta.
  unfold bind at 1, _getCurrentTime. unfold bind at 1, take_ids.
  unfold bind at 1.
  match goal with
  | |- context [batch_read D ?docs ?w0] =>
      destruct (batch_read_answers docs w0 Hstore) as (response & w1 & ->)
  end.
  unfold bind at 1, lift at 1.
  pose proof (create_plan_returns (default false (co_overwrite options))
                namespace (w_time w) objects (w_fresh w)
                (preflight_hits response) Haccepts) as Hplan.
  destruct (create_plan _ _ _ _ _ _ _) as [plan|e] eqn:Eplan;
    [|discriminate].
  unfold bind at 1.
  destruct (batch_write_answers
              (default DEFAULT_REFRESH_SETTING (co_refresh options))
              (plan_ops plan) w1 Hstore)
    as (items & w2 & -> & Hitems).
  assert (Hlen : length items = length (plan_ops plan))
    by (symmetry; eapply Forall2_length; exact Hitems).
  destruct (create_plan_slots _ _ _ _ _ _ _ items Eplan Hlen)
    as (slots & Hzip & Hslots).
  unfold lift. rewrite Hzip. eexists _, _. split; [reflexivity|].
  split; [symmetry; eapply Forall2_length; exact Hslots|exact Hslots].
Qed.

End BulkSlotsSpec.

Section BulkRefused.

Context {S : Type}.
Variable D : Deps S.

Lemma batch_read_reads (docs : list MgetDoc) (w : World S) :
  exists reads,
    w_log (snd (batch_read D docs w)) = (w_log w ++ reads)%list
    /\ Forall (fun c => is_write c = false) reads.
Proof.
  unfold batch_read. destruct docs as [|d docs].
  - exists []. split; [symmetry; apply app_nil_r|constructor].
  - exists [CallMget (d :: docs)]. unfold client_mget. unfold_repo.
    split; [|repeat constructor].
    now destruct (es_mget _ _ _) as [[r|e] st].
Qed.

Lemma spec_bulkCreate_refused (objects : list BulkCreateObject)
    (options : CreateOptions) (namespace : option string) (w : World S)
    (e : DecoratedError) :
  store_answers (client D) ->
  (forall answers,
     create_plan D (default false (co_overwrite options)) namespace (w_time w)
       objects (w_fresh w) answers
     = Throw e) ->
  exists w' reads,
    spec_bulkCreate D objects options namespace w = (Throw e, w')
    /\ w_log w' = (w_log w ++ reads)%list
    /\ Forall (fun c => is_write c = false) reads.
Proof.
  intros Hstore Hplan. unfold spec_bulkCreate. cbn zeta.
  unfold bind at 1, _getCurrentTime. unfold bind at 1, take_ids.
  unfold bind at 1.
  match goal with
  | |- context [batch_read D ?docs ?w0] =>
      destruct (batch_read_reads docs w0) as (reads & Hlog & Hreads);
      destruct (batch_read_answers D docs w0 Hstore) as (response & w1 & Hr)
  end.
  rewrite Hr in *. cbn [snd w_log] in Hlog.
  unfold bind at 1, lift at 1. rewrite Hplan.
  exists w1, reads. auto.
Qed.

End BulkRefused.

(** C2, as amended.  [bulkGet], [bulkCreate] and [bulkUpdate] do what their
    object-by-object descriptions [spec_bulkGet], [spec_bulkCreate] and
    [spec_bulkUpdate] do: the batch is walked in input order, one slot is
    made for every object, and an object that failed validation or
    preflight takes no answer of the store away from the others.  When the
    store answers the batched requests, [bulkGet] and [bulkUpdate] return
    one slot for every input object, in the order of the input, and the
    slot of an object is the saved object or the error record made for that
    object; so does [bulkCreate] when the migrator accepts the documents of
    the batch.  When the migrator refuses a document, [bulkCreate] as a
    whole throws the migrator's error and sends no write.  An object that
    fails validation, such as one of a type that is not allowed, only adds
    its error slot at its own position: the other slots, and the requests
    sent to the store, are those of the call without it. *)
Theorem bulk_results_follow_inputs {S : Type} (D : Deps S) (w : World S) :
  (forall objects options namespace,
     normalizeNamespace (bo_namespace options) = Ok namespace ->
     bulkGet D objects options w = spec_bulkGet D objects namespace w
     /\ (store_answers (client D) ->
         exists slots w',
           bulkGet D objects options w = (Ok slots, w')
           /\ length slots = length objects
           /\ Forall2 (get_slot D namespace) objects slots))
  /\ (forall objects options namespace,
        normalizeNamespace (co_namespace options) = Ok namespace ->
        bulkCreate D objects options w
        = spec_bulkCreate D objects options namespace w
        /\ (store_answers (client D) ->
            Forall (migrator_accepts D (w_time w)) objects ->
            exists slots w',
              bulkCreate D objects options w = (Ok slots, w')
              /\ length slots = length objects
              /\ Forall2 (create_slot D namespace (w_time w)) objects slots)
        /\ (store_answers (client D) ->
            forall e,
              (forall answers,
                 create_plan D (default false (co_overwrite options))
                   namespace (w_time w) objects (w_fresh w) answers
                 = Throw e) ->
              exists w' reads,
                bulkCreate D objects options w = (Throw e, w')
                /\ w_log w' = (w_log w ++ reads)%list
                /\ Forall (fun c => is_write c = false) reads))
  /\ (forall objects options namespace,
        normalizeNamespace (buo_namespace options) = Ok namespace ->
        bulkUpdate D objects options w
        = spec_bulkUpdate D objects options namespace w
        /\ (store_answers (client D) ->
            exists slots w',
              bulkUpdate D objects options w = (Ok slots, w')
              /\ length slots = length objects
              /\ Forall2 (update_slot D namespace (w_time w)) objects slots))
  /\ (forall l1 l2 bad err options,
        (forall counter,
           bulkGet_validate D counter bad = (counter, Left err)) ->
        bulkGet D (l1 ++ bad :: l2)%list options w
        = insert_slot (length l1) (SlotError err)
            (bulkGet D (l1 ++ l2)%list options w))
  /\ (forall l1 l2 bad err options,
        (forall overwrite acc,
           bulkCreate_validate D overwrite acc bad = (acc, Left err)) ->
        bulkCreate D (l1 ++ bad :: l2)%list options w
        = insert_slot (length l1) (SlotError err)
            (bulkCreate D (l1 ++ l2)%list options w))
  /\ (forall l1 l2 bad err options,
        (forall time counter,
           bulkUpdate_validate D time counter bad = (counter, Left err)) ->
        bulkUpdate D (l1 ++ bad :: l2)%list options w
        = insert_slot (length l1) (SlotError err)
            (bulkUpdate D (l1 ++ l2)%list options w)).
Proof.
  split; [|split; [|split; [|split; [|split]]]].
  - intros objects options namespace Hns.
    rewrite (bulkGet_refines D objects options namespace w Hns).
    split; [reflexivity|]. intros Hstore.
    now apply spec_bulkGet_returns.
  - intros objects options namespace Hns.
    rewrite (bulkCreate_refines D objects options namespace w Hns).
    split; [reflexivity|]. split.
    + intros Hstore Haccepts. now apply spec_bulkCreate_returns.
    + intros Hstore e Hplan. now apply spec_bulkCreate_refused.
  - intros objects options namespace Hns.
    rewrite (bulkUpdate_refines D objects options namespace w Hns).
    split; [reflexivity|]. intros Hstore.
    now apply spec_bulkUpdate_returns.
  - intros. now apply bulkGet_isolates.
  - intros. now apply bulkCreate_isolates.
  - intros. now apply bulkUpdate_isolates.
Qed.

(** C2 as first stated fails at the reference configuration: a dashboard
    alone is created, but in a batch with a dashboard whose
    [migrationVersion] the migrator refuses, the whole [bulkCreate] throws
    BadRequest, no slot is returned for either object and nothing is
    sent to the store. *)
Lemma bulk_results_follow_inputs_counterexample :
  (exists slot w',
     bulkCreate Kibana.deps
       [mkBulkCreateObject "dashboard" (Some "d2")
          (JObj [("title", JStr "Costs")]) None None None None None]
       (mkCreateOptions None None None None None None None None None)
       (Kibana.world Kibana.sales)
     = (Ok [SlotObject slot], w'))
  /\ throws_kind
       (fst (bulkCreate Kibana.deps
               [mkBulkCreateObject "dashboard" (Some "d2")
                  (JObj [("title", JStr "Costs")]) None None None None None;
                mkBulkCreateObject "dashboard" (Some "d3")
                  (JObj [("title", JStr "Stock")]) None
                  (Some (JStr "7.14.0")) None None None]
               (mkCreateOptions None None None None None None None None None)
               (Kibana.world Kibana.sales)))
       BadRequest
  /\ w_log
       (snd (bulkCreate Kibana.deps
               [mkBulkCreateObject "dashboard" (Some "d2")
                  (JObj [("title", JStr "Costs")]) None None None None None;
                mkBulkCreateObject "dashboard" (Some "d3")
                  (JObj [("title", JStr "Stock")]) None
                  (Some (JStr "7.14.0")) None None None]
               (mkCreateOptions None None None None None None None None None)
               (Kibana.world Kibana.sales)))
     = [].
Proof.
  split; [|split].
  - eexists _, _. vm_compute. reflexivity.
  - eexists. split; vm_compute; reflexivity.
  - vm_compute. reflexivity.
Qed.

(** C2, at the reference configuration: a [bulkGet] of the stored
    dashboard, of an object of the hidden type "secret" and of a dashboard
    that is not stored returns three slots in that order, and the slot of
    the hidden type is put into the result of the call without it; a
    [bulkCreate] of two dashboards that the migrator accepts returns two
    slots, and one with a dashboard that the migrator refuses throws the
    migrator's error without a write. *)
Lemma bulk_results_follow_inputs_witness :
  (exists slots w',
     bulkGet Kibana.deps
       [mkBulkGetObject "dashboard" "d1" None;
        mkBulkGetObject "secret" "s1" None;
        mkBulkGetObject "dashboard" "d2" None]
       (mkBaseOptions None) (Kibana.world Kibana.sales)
     = (Ok slots, w')
     /\ length slots = 3
     /\ Forall2 (get_slot Kibana.deps None)
          [mkBulkGetObject "dashboard" "d1" None;
           mkBulkGetObject "secret" "s1" None;
           mkBulkGetObject "dashboard" "d2" None]
          slots)
  /\ (exists slots w',
        bulkCreate Kibana.deps
          [mkBulkCreateObject "dashboard" (Some "d2")
             (JObj [("title", JStr "Costs")]) None None None None None;
           mkBulkCreateObject "dashboard" None
             (JObj [("title", JStr "Stock")]) None None None None None]
          (mkCreateOptions None None None None None None None None None)
          (Kibana.world Kibana.sales)
        = (Ok slots, w')
        /\ length slots = 2
        /\ Forall2
             (create_slot Kibana.deps None "2021-06-01T00:00:00.000Z")
             [mkBulkCreateObject "dashboard" (Some "d2")
                (JObj [("title", JStr "Costs")]) None None None None None;
              mkBulkCreateObject "dashboard" None
                (JObj [("title", JStr "Stock")]) None None None None None]
             slots)
  /\ (exists w' reads,
        bulkCreate Kibana.deps
          [mkBulkCreateObject "dashboard" (Some "d2")
             (JObj [("title", JStr "Costs")]) None None None None None;
           mkBulkCreateObject "dashboard" (Some "d3")
             (JObj [("title", JStr "Stock")]) None (Some (JStr "7.14.0"))
             None None None]
          (mkCreateOptions None None None None None None None None None)
          (Kibana.world Kibana.sales)
        = (Throw (BadRequestError "Document has an invalid migrationVersion"),
           w')
        /\ w_log w' = (w_log (Kibana.world Kibana.sales) ++ reads)%list
        /\ Forall (fun c => is_write c = false) reads)
  /\ bulkGet Kibana.deps
       [mkBulkGetObject "dashboard" "d1" None;
        mkBulkGetObject "secret" "s1" None;
        mkBulkGetObject "dashboard" "d2" None]
       (mkBaseOptions None) (Kibana.world Kibana.sales)
     = insert_slot 1
         (error_slot (Some "s1") "secret" (UnsupportedTypeError "secret"))
         (bulkGet Kibana.deps
            [mkBulkGetObject "dashboard" "d1" None;
             mkBulkGetObject "dashboard" "d2" None]
            (mkBaseOptions None) (Kibana.world Kibana.sales)).
Proof.
  destruct (bulk_results_follow_inputs Kibana.deps (Kibana.world Kibana.sales))
    as (Hget & Hcreate & _ & Hiso & _).
  split; [|split; [|split]].
  - exact (proj2 (Hget _ (mkBaseOptions None) None eq_refl) memstore_answers).
  - refine (proj1 (proj2
               (Hcreate _
                  (mkCreateOptions None None None None None None None None
                     None)
                  None eq_refl)) memstore_answers _).
    repeat constructor.
  - refine (proj2 (proj2
               (Hcreate _
                  (mkCreateOptions None None None None None None None None
                     None)
                  None eq_refl)) memstore_answers _ _).
    intros answers. reflexivity.
  - apply (Hiso [mkBulkGetObject "dashboard" "d1" None]
             [mkBulkGetObject "dashboard" "d2" None]
             (mkBulkGetObject "secret" "s1" None)).
    intros counter. reflexivity.
Defined.

(** ** Targets of a batch of updates *)

Lemma map_accum_app {A B C} (f : C -> A -> C * B) (c : C) (l1 l2 : list A) :
  map_accum f c (l1 ++ l2)%list
  = (fst (map_accum f (fst (map_accum f c l1)) l2),
     (snd (map_accum f c l1)
      ++ snd (map_accum f (fst (map_accum f c l1)) l2))%list).
Proof.
  revert c. induction l1 as [|a l1 IH]; intros c; simpl.
  - now destruct (map_accum f c l2).
  - destruct (f c a) as [c1 y]. rewrite IH.
    now destruct (map_accum f c1 l1).
Qed.

Lemma map_accum_middle {A B C} (f : C -> A -> C * B) (c : C)
    (l1 l2 : list A) (x : A) :
  map_accum f c (l1 ++ x :: l2)%list
  = (let '(c1, ys1) := map_accum f c l1 in
     let '(c2, y) := f c1 x in
     let '(c3, ys2) := map_accum f c2 l2 in
     (c3, (ys1 ++ y :: ys2)%list)).
Proof.
  rewrite map_accum_app. simpl.
  destruct (map_accum f c l1) as [c1 ys1]. simpl.
  destruct (f c1 x) as [c2 y].
  now destruct (map_accum f c2 l2).
Qed.

Section BulkUpdateTargets.

Context {S : Type}.
Variable D : Deps S.

(** What validation keeps of an object. *)
Let kept (object : BulkUpdateObject) (e : Either BulkUpdateRight) : Prop :=
  match e with
  | Left _ => True
  | Right v =>
      bur_type v = bu_type object /\ bur_id v = bu_id object
      /\ bur_objectNamespace v = bu_namespace object
  end.

Lemma bulkUpdate_validate_kept (time : string) (objects : list BulkUpdateObject)
    (c : nat) :
  Forall2 kept objects (snd (map_accum (bulkUpdate_validate D time) c objects)).
Proof.
  apply map_accum_Forall2 with (R := eq); [|apply Forall2_same].
  intros c' x a ->. unfold bulkUpdate_validate, kept.
  repeat case_inner; simpl; auto.
Qed.

Lemma bulkUpdate_validate_counter (time : string)
    (objects : list BulkUpdateObject) (c : nat) :
  fst (map_accum (bulkUpdate_validate D time) c objects)
  = c + length (bulkUpdate_docs D None
                  (snd (map_accum (bulkUpdate_validate D time) c objects))).
Proof.
  unfold bulkUpdate_docs. rewrite length_map.
  revert c. induction objects as [|o l IH]; intros c; simpl; [lia|].
  destruct (bulkUpdate_validate D time c o) as [c1 e] eqn:E.
  specialize (IH c1).
  destruct (map_accum (bulkUpdate_validate D time) c1 l) as [c2 es].
  simpl in *. rewrite IH. unfold bulkUpdate_validate in E.
  repeat match type of E with
         | context [if ?b then _ else _] => destruct b
         end; inversion E; subst; simpl; try lia;
    rewrite filter_cons;
    match goal with
    | |- context [decide ?P] => destruct (decide P) as [Hd|Hd]; cbv in Hd
    end; simpl; try lia; try contradiction; exfalso; exact (Hd I).
Qed.

Lemma bulkUpdate_validate_valid (time : string) (c : nat)
    (object : BulkUpdateObject) :
  allowed D (bu_type object) = true ->
  bu_namespace object <> Some "*" ->
  bulkUpdate_validate D time c object
  = (if isMultiNamespace (_registry D) (bu_type object)
     then Datatypes.S c else c,
     Right (mkBulkUpdateRight (bu_type object) (bu_id object)
              (bu_version object)
              (mkPartial (bu_type object) (bu_attributes object) time
                 (bu_references object))
              (bu_namespace object)
              (if isMultiNamespace (_registry D) (bu_type object)
               then Some c else None))).
Proof.
  intros Hallowed Hns. unfold bulkUpdate_validate. rewrite Hallowed. simpl.
  destruct (bu_namespace object) as [n|].
  - destruct (String.eqb_spec n ALL_NAMESPACES_STRING) as [->|_];
      [now contradiction Hns|].
    now destruct (isMultiNamespace _ _).
  - now destruct (isMultiNamespace _ _).
Qed.

Lemma bulkUpdate_step_targets (ns : option string)
    (resp : option MgetResponse) (objects : list BulkUpdateObject)
    (es : list (Either BulkUpdateRight)) (acc : nat * list BulkOp) :
  Forall2 kept objects es ->
  exists ext,
    snd (fst (map_accum (bulkUpdate_step D ns resp) acc es))
    = (snd acc ++ ext)%list
    /\ Forall (fun op => exists o, In o objects
                                   /\ op_target op = update_target D ns o)
         ext.
Proof.
  intros H. revert acc.
  induction H as [|o e objects es Hoe H IH]; intros acc; simpl.
  - exists []. rewrite app_nil_r. auto.
  - destruct (bulkUpdate_step D ns resp acc e) as [acc1 y] eqn:E.
    destruct (IH acc1) as (ext & Hext & Hall).
    destruct (map_accum (bulkUpdate_step D ns resp) acc1 es) as [acc2 ys].
    simpl in *.
    assert (Hall' : Forall (fun op => exists o0, In o0 (o :: objects)
                               /\ op_target op = update_target D ns o0) ext).
    { eapply List.Forall_impl; [|exact Hall].
      intros op (o0 & Hin & Ht). exists o0. split; [now right|exact Ht]. }
    destruct e as [err|v]; simpl in E.
    + inversion E; subst. eauto.
    + destruct acc as [k params]. destruct Hoe as (Hty & Hid & Hons).
      repeat match type of E with
             | context [match ?c with _ => _ end] => destruct c
             end; inversion E; subst; simpl in *; eauto;
        (eexists (_ :: ext); rewrite Hext, <- app_assoc;
         split; [reflexivity|]; constructor; [|exact Hall'];
         exists o; split; [now left|];
         unfold op_target, update_target; simpl; congruence).
Qed.

Lemma bulkUpdate_docs_length (ns : option string)
    (es : list (Either BulkUpdateRight)) :
  length (bulkUpdate_docs D ns es) = length (bulkUpdate_docs D None es).
Proof. unfold bulkUpdate_docs. now rewrite !length_map. Qed.

Lemma bulkUpdate_docs_app (ns : option string)
    (es1 es2 : list (Either BulkUpdateRight)) :
  bulkUpdate_docs D ns (es1 ++ es2)%list
  = (bulkUpdate_docs D ns es1 ++ bulkUpdate_docs D ns es2)%list.
Proof.
  unfold bulkUpdate_docs.
  now rewrite rights_app, list.filter_app, map_app.
Qed.

(** The step of an object that passed validation and, for a
    multi-namespace type, the pre-flight check: its operation carries the
    precondition of its version. *)
Lemma bulkUpdate_step_valid (ns : option string) (resp : option MgetResponse)
    (n : nat) (params : list BulkOp) (type id version : string)
    (doc : PartialDoc) (objectNamespace : option string)
    (esRequestIndex : option nat) :
  truthy version = true ->
  (forall c, esRequestIndex = Some c ->
     exists r d,
       resp = Some r /\ mget_statusCode r <> 404%Z
       /\ mget_docs r !! c = Some (mkHit true d)
       /\ rawDocExistsInNamespace D d (getNamespaceId ns objectNamespace)
          = true) ->
  exists namespaces,
    bulkUpdate_step D ns resp (n, params)
      (Right (mkBulkUpdateRight type id (Some version) doc objectNamespace
                esRequestIndex))
    = ((Datatypes.S n,
        (params
         ++ [BulkUpdate
               (mkHeader
                  (generateRawId (_serializer D)
                     (getNamespaceId ns objectNamespace) type id)
                  (getIndexForType D type)
                  (if_match_of (imports D) version))
               doc])%list),
       Right (mkBulkUpdateExpected type id namespaces n doc)).
Proof.
  intros Hv Hresp. unfold bulkUpdate_step. simpl.
  assert (Hif : forall pre,
            getExpectedVersionProperties (imports D) (Some version) pre
            = if_match_of (imports D) version).
  { intros pre. unfold getExpectedVersionProperties, if_match_of. simpl.
    now rewrite Hv. }
  destruct esRequestIndex as [c|].
  - destruct (Hresp c eq_refl) as (r & d & -> & Hstatus & Hhit & Hin).
    apply Z.eqb_neq in Hstatus. rewrite Hstatus. simpl. rewrite Hhit. simpl.
    rewrite Hin. simpl. rewrite Hif. eauto.
  - rewrite Hif. eauto.
Qed.

Lemma bulkUpdate_write_world (refresh : Refresh) (params : list BulkOp)
    (results : list (Either BulkUpdateExpected)) (w : World S) :
  params <> [] ->
  snd (bulkUpdate_write D refresh params results w)
  = after w (snd (es_bulk (client D) (mkBulk refresh true params) (w_store w)))
      [CallBulk (mkBulk refresh true params)].
Proof.
  intros Hne. unfold bulkUpdate_write. unfold_repo.
  destruct params as [|op params]; [contradiction|]. simpl.
  unfold client_bulk, issue.
  destruct (es_bulk _ _ _) as [[r|e] st']; simpl; [|reflexivity].
  now destruct (map_outcome (bulkUpdate_slot D (Some r)) results).
Qed.

End BulkUpdateTargets.

(** ** Versions *)

Section Versions.

Context {S : Type}.
Variable D : Deps S.

Hypothesis Hstore : enforces_if_match (client D).

(** Reads the accepted document off a hypothesis on [create_target]. *)
Ltac exists_target Htarget Esingle :=
  pose proof Htarget as Htarget';
  unfold create_target, migrated_raw, create_document in Htarget;
  rewrite Esingle in Htarget; simpl in Htarget;
  match type of Htarget with
  | context [migrateDocument ?m ?d] =>
      let Emig := fresh "Emig" in
      destruct (migrateDocument m d) as [migrated|em] eqn:Emig;
      [inversion Htarget; subst | discriminate Htarget]
  end.

Lemma create_stale_version (type : string) (attributes : JsValue)
    (options : CreateOptions) (w : World S) (id version : string)
    (namespace : option string) :
  co_id options = Some id -> truthy id = true ->
  co_overwrite options = Some true ->
  co_version options = Some version -> truthy version = true ->
  normalizeNamespace (co_namespace options) = Ok namespace ->
  validateInitialNamespaces D type (co_initialNamespaces options) = Ok tt ->
  allowed D type = true ->
  (isMultiNamespace (_registry D) type = true ->
   forall d,
     current (client D) (w_store w) (getIndexForType D type)
       (generateRawId (_serializer D) None type id) = Some d ->
     rawDocExistsInNamespace D d namespace = true) ->
  (forall namespaces,
     exists raw,
       create_target D type id attributes options namespace (w_time w)
         namespaces = Ok raw
       /\ stale (client D) (w_store w) (getIndexForType D type) (_id raw)
            (if_match_of (imports D) version) = true) ->
  exists e namespaces raw,
    create_target D type id attributes options namespace (w_time w)
      namespaces = Ok raw
    /\ create D type attributes options w
       = (Throw e,
          after w (w_store w)
            (preflight_reads D type id
             ++ [CallIndex
                   (mkIndex (_id raw) (getIndexForType D type)
                      (default DEFAULT_REFRESH_SETTING (co_refresh options))
                      (_source raw) (if_match_of (imports D) version)
                      true)])%list)
    /\ error_kind e = Conflict.
Proof using Hstore.
  intros Hid Htruthy Hover Hversion Hv Hns Hini Hallowed Hvisible Hstale.
  destruct Hstore as (Hget & _ & Hindex & _).
  unfold create, preflight_reads. unfold_repo.
  rewrite Hid, Hover, Hns, Hini, Hallowed, Hversion. simpl.
  rewrite Htruthy, Hv. simpl.
  assert (Hwrite : forall raw w1,
    w_store w1 = w_store w ->
    stale (client D) (w_store w) (getIndexForType D type) (_id raw)
      (if_match_of (imports D) version) = true ->
    exists e,
      client_index D
        (mkIndex (_id raw) (getIndexForType D type)
           (default DEFAULT_REFRESH_SETTING (co_refresh options))
           (_source raw) (if_match_of (imports D) version) true)
        w1
      = (Throw e,
         after w1 (w_store w)
           [CallIndex
              (mkIndex (_id raw) (getIndexForType D type)
                 (default DEFAULT_REFRESH_SETTING (co_refresh options))
                 (_source raw) (if_match_of (imports D) version) true)])
      /\ error_kind e = Conflict).
  { intros raw w1 Hw1 Hst. unfold client_index, issue. rewrite Hw1.
    destruct (Hindex
                (mkIndex (_id raw) (getIndexForType D type)
                   (default DEFAULT_REFRESH_SETTING (co_refresh options))
                   (_source raw) (if_match_of (imports D) version) true)
                (w_store w) Hst) as (e & -> & Hk).
    exists e. split; [reflexivity | exact Hk]. }
  destruct (isSingleNamespace (_registry D) type) eqn:Esingle; simpl.
  - destruct (Hstale None) as (raw & Htarget & Hst).
    exists_target Htarget Esingle.
    destruct (Hwrite _ w eq_refl Hst) as (e & Hrun & Hk).
    unfold if_match_of in Hrun |- *. rewrite Hrun.
    exists e, None, (savedObjectToRaw (_serializer D) migrated).
    split; [exact Htarget'|]. split; [reflexivity|exact Hk].
  - destruct (isMultiNamespace (_registry D) type) eqn:Emulti; simpl.
    + destruct (Hget (exact_get D None type id) (w_store w)) as [r Hr].
      rewrite (preflightGetNamespaces_spec D type id namespace r (w_store w) w
                 Emulti Hr).
      assert (Hin : existing r = true ->
                    rawDocExistsInNamespace D (get_doc r) namespace = true).
      { intros Hex. apply (Hvisible eq_refl). unfold current.
        unfold exact_get in Hr. rewrite Hr. simpl. now rewrite Hex. }
      destruct (existing r) eqn:Eex; [rewrite (Hin eq_refl)|]; simpl;
        match goal with
        | |- context [migrateDocument _ (mkDoc _ _ _ ?nss _ _ _ _ _)] =>
            destruct (Hstale nss) as (raw & Htarget & Hst)
        end;
        exists_target Htarget Esingle;
        (destruct (Hwrite _
                     (after w (w_store w) [CallGet (exact_get D None type id)])
                     eq_refl Hst) as (e & Hrun & Hk));
        unfold if_match_of in Hrun |- *; rewrite Hrun;
        exists e; eexists _, (savedObjectToRaw (_serializer D) migrated);
        (split; [exact Htarget'|]);
        (split; [|exact Hk]); unfold after; simpl;
        now rewrite <- app_assoc.
    + destruct (Hstale None) as (raw & Htarget & Hst).
      exists_target Htarget Esingle.
      destruct (Hwrite _ w eq_refl Hst) as (e & Hrun & Hk).
      unfold if_match_of in Hrun |- *. rewrite Hrun.
      exists e, None, (savedObjectToRaw (_serializer D) migrated).
    split; [exact Htarget'|].
      split; [reflexivity|exact Hk].
Qed.

Lemma current_get (index id : string) (st : S) (d : RawDoc) :
  current (client D) st index id = Some d ->
  exists r,
    es_get (client D) (mkGet id index) st = (Ok r, st)
    /\ existing r = true /\ get_doc r = d.
Proof using Hstore.
  destruct Hstore as (Hget & _). unfold current.
  destruct (Hget (mkGet id index) st) as [r Hr]. rewrite Hr. simpl.
  destruct (existing r) eqn:E; [|discriminate].
  intros H. inversion H. eauto.
Qed.

(** The conditional update is refused: the call throws the store's
    Conflict after the given reads. *)
Ltac conflicting upsert w1 reads :=
  match goal with
  | Hwrite : forall _ w1, w_store w1 = _ -> exists _, _ |- _ =>
      let e := fresh "e" in
      let Hrun := fresh "Hrun" in
      let Hk := fresh "Hk" in
      destruct (Hwrite upsert w1 eq_refl) as (e & Hrun & Hk);
      rewrite Hrun; unfold isNotFoundError; rewrite Hk; simpl;
      exists e, reads, upsert; unfold after; simpl;
      rewrite <- ?app_assoc; simpl;
      split; [reflexivity|]; split; [repeat constructor | exact Hk]
  end.

Lemma update_stale_version (type id : string) (attributes : JsValue)
    (options : UpdateOptions) (w : World S) (version : string)
    (namespace : option string) :
  allowed D type = true ->
  normalizeNamespace (uo_namespace options) = Ok namespace ->
  uo_version options = Some version -> truthy version = true ->
  (isMultiNamespace (_registry D) type = true ->
   exists d,
     current (client D) (w_store w) (getIndexForType D type)
       (generateRawId (_serializer D) None type id) = Some d
     /\ rawDocExistsInNamespace D d namespace = true) ->
  (forall upsert,
     uo_upsert options = Some upsert ->
     forall namespace' namespaces,
       is_ok (migrateDocument (_migrator D)
                (mkDoc id type namespace' namespaces None upsert None
                   (Some (w_time w)) None)) = true) ->
  stale (client D) (w_store w) (getIndexForType D type)
    (generateRawId (_serializer D) namespace type id)
    (if_match_of (imports D) version) = true ->
  exists e reads upsert,
    update D type id attributes options w
    = (Throw e,
       after w (w_store w)
         (reads
          ++ [CallUpdate
                (mkUpdate (generateRawId (_serializer D) namespace type id)
                   (getIndexForType D type)
                   (if_match_of (imports D) version)
                   (default DEFAULT_REFRESH_SETTING (uo_refresh options))
                   (UpdateDoc
                      (mkPartial type attributes (w_time w)
                         (uo_references options))
                      upsert)
                   true false)])%list)
    /\ Forall (fun c => c = CallGet (exact_get D None type id)) reads
    /\ error_kind e = Conflict.
Proof using Hstore.
  intros Hallowed Hns Hversion Hv Hvisible Hups Hstale.
  pose proof Hstore as (_ & _ & _ & Hupdate & _).
  unfold update. unfold_repo. rewrite Hallowed, Hns, Hversion. simpl.
  assert (Hif : forall pre,
            getExpectedVersionProperties (imports D) (Some version) pre
            = if_match_of (imports D) version).
  { intros pre. unfold getExpectedVersionProperties, if_match_of. simpl.
    now rewrite Hv. }
  assert (Hwrite : forall upsert w1,
    w_store w1 = w_store w ->
    exists e,
      client_update D
        (mkUpdate (generateRawId (_serializer D) namespace type id)
           (getIndexForType D type) (if_match_of (imports D) version)
           (default DEFAULT_REFRESH_SETTING (uo_refresh options))
           (UpdateDoc
              (mkPartial type attributes (w_time w) (uo_references options))
              upsert)
           true false)
        w1
      = (Throw e,
         after w1 (w_store w)
           [CallUpdate
              (mkUpdate (generateRawId (_serializer D) namespace type id)
                 (getIndexForType D type) (if_match_of (imports D) version)
                 (default DEFAULT_REFRESH_SETTING (uo_refresh options))
                 (UpdateDoc
                    (mkPartial type attributes (w_time w)
                       (uo_references options))
                    upsert)
                 true false)])
      /\ error_kind e = Conflict).
  { intros upsert w1 Hw1. unfold client_update, issue. rewrite Hw1.
    match goal with |- context [es_update ?c ?p ?st] =>
      destruct (Hupdate p st Hstale) as (e & He & Hk); rewrite He
    end.
    exists e. split; [reflexivity | exact Hk]. }
  assert (Hmig : forall upsert namespace' namespaces,
            uo_upsert options = Some upsert ->
            exists migrated,
              migrateDocument (_migrator D)
                (mkDoc id type namespace' namespaces None upsert None
                   (Some (w_time w)) None) = Ok migrated).
  { intros upsert namespace' namespaces Hu.
    specialize (Hups upsert Hu namespace' namespaces).
    destruct (migrateDocument _ _); [eauto|discriminate]. }
  destruct (isMultiNamespace (_registry D) type) eqn:Emulti.
  - destruct (Hvisible eq_refl) as (d & Hd & Hin).
    destruct (current_get _ _ _ _ Hd) as (r & Hr & Hex & Hdoc). subst d.
    rewrite (preflightCheckIncludesNamespace_spec D type id namespace r
               (w_store w) w Emulti Hr), Hex, Hin. simpl.
    destruct (uo_upsert options) as [upsert|] eqn:Eu.
    + destruct (isSingleNamespace (_registry D) type && truthy_opt namespace).
      * destruct (Hmig upsert (spread_str namespace) None eq_refl)
          as [migrated Hm].
        rewrite Hm. simpl. rewrite Hif.
        conflicting
          (Some (_source (savedObjectToRaw (_serializer D) migrated)))
          (after w (w_store w) [CallGet (exact_get D None type id)])
          [CallGet (exact_get D None type id)].
      * rewrite (preflightGetNamespaces_spec D type id namespace r
                   (w_store w)
                   (after w (w_store w) [CallGet (exact_get D None type id)])
                   Emulti Hr), Hex, Hin. simpl.
        destruct (Hmig upsert (spread_str None)
                    (src_namespaces (_source (get_doc r))) eq_refl)
          as [migrated Hm].
        rewrite Hm. simpl. rewrite Hif.
        conflicting
          (Some (_source (savedObjectToRaw (_serializer D) migrated)))
          (after (after w (w_store w) [CallGet (exact_get D None type id)])
             (w_store w) [CallGet (exact_get D None type id)])
          [CallGet (exact_get D None type id);
           CallGet (exact_get D None type id)].
    + simpl. rewrite Hif.
      conflicting (@None RawSource)
        (after w (w_store w) [CallGet (exact_get D None type id)])
        [CallGet (exact_get D None type id)].
  - simpl.
    destruct (uo_upsert options) as [upsert|] eqn:Eu.
    + destruct (isSingleNamespace (_registry D) type && truthy_opt namespace).
      * destruct (Hmig upsert (spread_str namespace) None eq_refl)
          as [migrated Hm].
        rewrite Hm. simpl. rewrite Hif.
        conflicting
          (Some (_source (savedObjectToRaw (_serializer D) migrated)))
          w (@nil EsCall).
      * destruct (Hmig upsert (spread_str None) None eq_refl)
          as [migrated Hm].
        rewrite Hm. simpl. rewrite Hif.
        conflicting
          (Some (_source (savedObjectToRaw (_serializer D) migrated)))
          w (@nil EsCall).
    + simpl. rewrite Hif.
      conflicting (@None RawSource) w (@nil EsCall).
Qed.

Lemma bulkUpdate_stale_version (l1 l2 : list BulkUpdateObject)
    (object : BulkUpdateObject) (options : BulkUpdateOptions) (w : World S)
    (version : string) (namespace : option string) :
  store_answers (client D) ->
  normalizeNamespace (buo_namespace options) = Ok namespace ->
  allowed D (bu_type object) = true ->
  bu_namespace object <> Some "*" ->
  bu_version object = Some version -> truthy version = true ->
  (isMultiNamespace (_registry D) (bu_type object) = true ->
   exists d,
     current (client D) (w_store w) (fst (update_target D namespace object))
       (snd (update_target D namespace object)) = Some d
     /\ rawDocExistsInNamespace D d
          (getNamespaceId namespace (bu_namespace object)) = true) ->
  stale (client D) (w_store w) (fst (update_target D namespace object))
    (snd (update_target D namespace object))
    (if_match_of (imports D) version) = true ->
  (forall o, In o (l1 ++ l2)%list ->
     update_target D namespace o <> update_target D namespace object) ->
  exists slots w',
    bulkUpdate D (l1 ++ object :: l2)%list options w = (Ok slots, w')
    /\ slots !! length l1
       = Some (error_slot (Some (bu_id object)) (bu_type object)
                 (ConflictError (bu_type object) (bu_id object) None))
    /\ current (client D) (w_store w') (fst (update_target D namespace object))
         (snd (update_target D namespace object))
       = current (client D) (w_store w)
           (fst (update_target D namespace object))
           (snd (update_target D namespace object))
    /\ exists reads p j,
         w_log w' = (w_log w ++ reads ++ [CallBulk p])%list
         /\ Forall (fun c => is_write c = false) reads
         /\ bp_body p !! j
            = Some (BulkUpdate
                      (mkHeader (snd (update_target D namespace object))
                         (fst (update_target D namespace object))
                         (if_match_of (imports D) version))
                      (mkPartial (bu_type object) (bu_attributes object)
                         (w_time w) (bu_references object))).
Proof using Hstore.
  intros Hanswers Hns Hallowed Hobjns Hversion Hv Hvisible Hstale Hunique.
  pose proof Hstore as (Hget & Hmget & _ & _ & Hbulk).
  unfold bulkUpdate. unfold_repo. rewrite Hns. simpl.
  (* validation *)
  unfold bulkUpdate_expected. rewrite map_accum_app. simpl.
  destruct (map_accum (bulkUpdate_validate D (w_time w)) 0 l1)
    as [c1 E1] eqn:EV1.
  simpl. rewrite (bulkUpdate_validate_valid D (w_time w) c1 object Hallowed
                    Hobjns).
  rewrite Hversion.
  set (c1' := if isMultiNamespace (_registry D) (bu_type object)
              then Datatypes.S c1 else c1).
  set (idx := if isMultiNamespace (_registry D) (bu_type object)
              then Some c1 else None).
  set (doc := mkPartial (bu_type object) (bu_attributes object) (w_time w)
                (bu_references object)).
  destruct (map_accum (bulkUpdate_validate D (w_time w)) c1' l2)
    as [c2 E2] eqn:EV2.
  simpl.
  set (v := mkBulkUpdateRight (bu_type object) (bu_id object) (Some version)
              doc (bu_namespace object) idx).
  assert (Hc1 : c1 = length (bulkUpdate_docs D namespace E1)).
  { pose proof (bulkUpdate_validate_counter D (w_time w) l1 0) as H.
    rewrite EV1 in H. simpl in H.
    now rewrite bulkUpdate_docs_length. }
  assert (Hkept1 : Forall2 (fun o e =>
            match e with
            | Left _ => True
            | Right v0 =>
                bur_type v0 = bu_type o /\ bur_id v0 = bu_id o
                /\ bur_objectNamespace v0 = bu_namespace o
            end) l1 E1).
  { pose proof (bulkUpdate_validate_kept D (w_time w) l1 0) as H.
    now rewrite EV1 in H. }
  assert (Hkept2 : Forall2 (fun o e =>
            match e with
            | Left _ => True
            | Right v0 =>
                bur_type v0 = bu_type o /\ bur_id v0 = bu_id o
                /\ bur_objectNamespace v0 = bu_namespace o
            end) l2 E2).
  { pose proof (bulkUpdate_validate_kept D (w_time w) l2 c1') as H.
    now rewrite EV2 in H. }
  set (dv := mkMgetDoc (snd (update_target D namespace object))
               (fst (update_target D namespace object))
               (Some ["type"; "namespaces"])).
  assert (Hdocs : forall c, idx = Some c ->
            bulkUpdate_docs D namespace (E1 ++ Right v :: E2)%list !! c
            = Some dv).
  { intros c Hc. change (Right v :: E2) with ([Right v] ++ E2)%list.
    rewrite !bulkUpdate_docs_app.
    assert (Hone : bulkUpdate_docs D namespace [Right v] = [dv]).
    { unfold bulkUpdate_docs. simpl. rewrite filter_cons.
      destruct (decide _) as [Hd|Hd]; [reflexivity|].
      exfalso. apply Hd. simpl. rewrite Hc. exact I. }
    rewrite Hone. unfold idx in Hc.
    destruct (isMultiNamespace _ _); [|discriminate].
    inversion Hc; subst c. rewrite lookup_app_r by lia.
    rewrite <- Hc1, Nat.sub_diag. reflexivity. }
  match goal with |- context [let (o, w'0) := ?m in _] =>
    assert (Hstage : exists resp calls,
      m = (Ok resp, after w (w_store w) calls)
      /\ Forall (fun c => is_write c = false) calls
      /\ forall c, idx = Some c ->
           exists r d,
             resp = Some r /\ mget_statusCode r <> 404%Z
             /\ mget_docs r !! c = Some (mkHit true d)
             /\ rawDocExistsInNamespace D d
                  (getNamespaceId namespace (bu_namespace object)) = true)
  end.
  { destruct (negb _) eqn:Edocs.
    - unfold client_mget, issue.
      destruct (Hmget (bulkUpdate_docs D namespace (E1 ++ Right v :: E2)%list)
                  (w_store w)) as (r & Hr & Hstatus & Hhits).
      rewrite Hr. exists (Some r). eexists [_]. split; [reflexivity|].
      split; [repeat constructor|].
      intros c Hc.
      assert (Hm : isMultiNamespace (_registry D) (bu_type object) = true).
      { unfold idx in Hc. now destruct (isMultiNamespace _ _). }
      destruct (Hvisible Hm) as (d & Hd & Hin).
      exists r, d. repeat split; auto.
      exact (Hhits c dv d (Hdocs c Hc) Hd).
    - exists None, []. split.
      { unfold after. rewrite app_nil_r. now destruct w. }
      split; [constructor|].
      intros c Hc. apply negb_false_iff, Nat.eqb_eq in Edocs.
      specialize (Hdocs c Hc). apply lookup_lt_Some in Hdocs. lia. }
  destruct Hstage as (resp & calls & -> & Hcalls & Hresp).
  (* the operations of the batch *)
  rewrite map_accum_middle.
  pose proof (bulkUpdate_step_indices D namespace resp
                (E1 ++ Right v :: E2)%list (0, []) eq_refl)
    as (_ & _ & Hidx).
  rewrite map_accum_middle in Hidx.
  pose proof (bulkUpdate_step_indices D namespace resp E1 (0, []) eq_refl)
    as (Hn1 & _ & _).
  pose proof (bulkUpdate_step_targets D namespace resp l1 E1 (0, []) Hkept1)
    as (ext1 & Hext1 & Ht1).
  pose proof (map_accum_length (bulkUpdate_step D namespace resp) (0, []) E1)
    as Hlen1.
  destruct (map_accum (bulkUpdate_step D namespace resp) (0, []) E1)
    as [[n1 P1] R1] eqn:ES1.
  simpl in Hn1, Hext1, Hlen1. subst P1.
  destruct (bulkUpdate_step_valid D namespace resp n1 ext1 (bu_type object)
              (bu_id object) version doc (bu_namespace object) idx Hv Hresp)
    as [nss Hstep].
  fold v in Hstep. rewrite Hstep in Hidx |- *. clear Hstep.
  set (op := BulkUpdate
               (mkHeader
                  (generateRawId (_serializer D)
                     (getNamespaceId namespace (bu_namespace object))
                     (bu_type object) (bu_id object))
                  (getIndexForType D (bu_type object))
                  (if_match_of (imports D) version))
               doc) in *.
  pose proof (bulkUpdate_step_targets D namespace resp l2 E2
                (Datatypes.S n1, (ext1 ++ [op])%list) Hkept2)
    as (ext2 & Hext2 & Ht2).
  destruct (map_accum (bulkUpdate_step D namespace resp)
              (Datatypes.S n1, (ext1 ++ [op])%list) E2)
    as [[n3 P3] R2] eqn:ES2.
  simpl in Hext2. subst P3. cbv beta iota zeta in Hidx |- *.
  simpl in Hidx.
  set (x := mkBulkUpdateExpected (bu_type object) (bu_id object) nss n1 doc)
    in *.
  set (params := ((ext1 ++ [op]) ++ ext2)%list) in *.
  set (refresh := default DEFAULT_REFRESH_SETTING (buo_refresh options)).
  set (w1 := after w (w_store w) calls).
  assert (Hop : params !! n1 = Some op).
  { unfold params. rewrite <- app_assoc, lookup_app_r by lia.
    now rewrite Hn1, Nat.sub_diag. }
  assert (Hne : params <> []).
  { intros E. rewrite E in Hop. discriminate. }
  destruct (bulkUpdate_write_returns D refresh params (R1 ++ Right x :: R2)%list
              w1 Hanswers Hidx) as (slots & w' & Hrun & Hslots).
  pose proof (bulkUpdate_write_world D refresh params
                (R1 ++ Right x :: R2)%list w1 Hne) as Hworld.
  rewrite Hrun in Hworld. simpl in Hworld.
  destruct (proj2 Hanswers (mkBulk refresh true params) (w_store w))
    as (rb & st' & Hrb & _).
  rewrite Hrb in Hworld. simpl in Hworld.
  destruct (Hbulk (mkBulk refresh true params) (w_store w) rb st' n1 op Hrb
              Hop Hstale) as ((item & Hitem & Hstatus & Herr) & Hcur).
  { intros j' op' Hj' Hop'. simpl in Hop'. unfold params in Hop'.
    assert (Hin : In op' ext1 \/ In op' ext2).
    { rewrite <- app_assoc in Hop'.
      destruct (Nat.lt_ge_cases j' (length ext1)) as [Hlt|Hge].
      - rewrite lookup_app_l in Hop' by exact Hlt.
        left. apply list_elem_of_In. eapply list_elem_of_lookup_2. exact Hop'.
      - rewrite lookup_app_r in Hop' by exact Hge.
        destruct (j' - length ext1) as [|k] eqn:Ek; [lia|]. simpl in Hop'.
        right. apply list_elem_of_In. eapply list_elem_of_lookup_2.
        exact Hop'. }
    rewrite List.Forall_forall in Ht1, Ht2.
    destruct Hin as [Hin|Hin];
      [apply Ht1 in Hin | apply Ht2 in Hin];
      destruct Hin as (o & Ho & ->); apply Hunique, in_or_app; auto. }
  exists slots, w'. split; [exact Hrun|].
  assert (Hk : (R1 ++ Right x :: R2)%list !! length l1 = Some (Right x)).
  { assert (Hl : length E1 = length l1).
    { pose proof (map_accum_length (bulkUpdate_validate D (w_time w)) 0 l1)
        as H. now rewrite EV1 in H. }
    rewrite lookup_app_r by lia.
    now rewrite Hlen1, Hl, Nat.sub_diag. }
  destruct (Forall2_lookup_l _ _ _ _ _ Hslots Hk) as (slot & Hslot & Hx).
  split.
  - rewrite Hslot. f_equal.
    destruct params as [|op0 params']; [contradiction|].
    unfold w1 in Hx. simpl in Hx. rewrite Hrb in Hx. simpl in Hx.
    rewrite Hitem in Hx. unfold getBulkOperationError in Hx.
    destruct Herr as [err Herr]. rewrite Herr, Hstatus in Hx. simpl in Hx.
    inversion Hx. reflexivity.
  - rewrite Hworld. simpl. split; [exact Hcur|].
    exists calls, (mkBulk refresh true params), n1.
    split; [now rewrite <- app_assoc|]. split; [exact Hcalls | exact Hop].
Qed.

(** C1.  Modelled from the spec: the store's side of the precondition
    ([enforces_if_match]) and the helper that reads a version
    ([getExpectedVersionProperties]).  When [create] with [overwrite],
    [update] or an object of [bulkUpdate] is given a version, the write
    request is sent and carries the sequence number and primary term the
    version decodes to: after its preflight reads, [create] sends the index
    request of the migrated document, [update] the update request of the
    partial document, [bulkUpdate] a bulk request with the update
    operation of the object, each under that precondition and none
    without it.  When the document that the write targets is stored with
    another version, the operation fails with Conflict ([create] and
    [update] throw, [bulkUpdate] puts the error in the slot of the object)
    and the stored document is as before. *)
Theorem stale_version_is_a_conflict (w : World S) :
  store_answers (client D) ->
  (forall type attributes options id version namespace,
     co_id options = Some id -> truthy id = true ->
     co_overwrite options = Some true ->
     co_version options = Some version -> truthy version = true ->
     normalizeNamespace (co_namespace options) = Ok namespace ->
     validateInitialNamespaces D type (co_initialNamespaces options)
     = Ok tt ->
     allowed D type = true ->
     (isMultiNamespace (_registry D) type = true ->
      forall d,
        current (client D) (w_store w) (getIndexForType D type)
          (generateRawId (_serializer D) None type id) = Some d ->
        rawDocExistsInNamespace D d namespace = true) ->
     (forall namespaces,
        exists raw,
          create_target D type id attributes options namespace (w_time w)
            namespaces = Ok raw
          /\ stale (client D) (w_store w) (getIndexForType D type) (_id raw)
               (if_match_of (imports D) version) = true) ->
     exists e namespaces raw,
       create_target D type id attributes options namespace (w_time w)
         namespaces = Ok raw
       /\ create D type attributes options w
          = (Throw e,
             after w (w_store w)
               (preflight_reads D type id
                ++ [CallIndex
                      (mkIndex (_id raw) (getIndexForType D type)
                         (default DEFAULT_REFRESH_SETTING
                            (co_refresh options))
                         (_source raw) (if_match_of (imports D) version)
                         true)])%list)
       /\ error_kind e = Conflict)
  /\ (forall type id attributes options version namespace,
        allowed D type = true ->
        normalizeNamespace (uo_namespace options) = Ok namespace ->
        uo_version options = Some version -> truthy version = true ->
        (isMultiNamespace (_registry D) type = true ->
         exists d,
           current (client D) (w_store w) (getIndexForType D type)
             (generateRawId (_serializer D) None type id) = Some d
           /\ rawDocExistsInNamespace D d namespace = true) ->
        (forall upsert,
           uo_upsert options = Some upsert ->
           forall namespace' namespaces,
             is_ok (migrateDocument (_migrator D)
                      (mkDoc id type namespace' namespaces None upsert None
                         (Some (w_time w)) None)) = true) ->
        stale (client D) (w_store w) (getIndexForType D type)
          (generateRawId (_serializer D) namespace type id)
          (if_match_of (imports D) version) = true ->
        exists e reads upsert,
          update D type id attributes options w
          = (Throw e,
             after w (w_store w)
               (reads
                ++ [CallUpdate
                      (mkUpdate
                         (generateRawId (_serializer D) namespace type id)
                         (getIndexForType D type)
                         (if_match_of (imports D) version)
                         (default DEFAULT_REFRESH_SETTING
                            (uo_refresh options))
                         (UpdateDoc
                            (mkPartial type attributes (w_time w)
                               (uo_references options))
                            upsert)
                         true false)])%list)
          /\ Forall (fun c => c = CallGet (exact_get D None type id)) reads
          /\ error_kind e = Conflict)
  /\ (forall l1 l2 object options version namespace,
        normalizeNamespace (buo_namespace options) = Ok namespace ->
        allowed D (bu_type object) = true ->
        bu_namespace object <> Some "*" ->
        bu_version object = Some version -> truthy version = true ->
        (isMultiNamespace (_registry D) (bu_type object) = true ->
         exists d,
           current (client D) (w_store w)
             (fst (update_target D namespace object))
             (snd (update_target D namespace object)) = Some d
           /\ rawDocExistsInNamespace D d
                (getNamespaceId namespace (bu_namespace object)) = true) ->
        stale (client D) (w_store w) (fst (update_target D namespace object))
          (snd (update_target D namespace object))
          (if_match_of (imports D) version) = true ->
        (forall o, In o (l1 ++ l2)%list ->
           update_target D namespace o <> update_target D namespace object) ->
        exists slots w',
          bulkUpdate D (l1 ++ object :: l2)%list options w = (Ok slots, w')
          /\ slots !! length l1
             = Some (error_slot (Some (bu_id object)) (bu_type object)
                       (ConflictError (bu_type object) (bu_id object) None))
          /\ current (client D) (w_store w')
               (fst (update_target D namespace object))
               (snd (update_target D namespace object))
             = current (client D) (w_store w)
                 (fst (update_target D namespace object))
                 (snd (update_target D namespace object))
          /\ exists reads p j,
               w_log w' = (w_log w ++ reads ++ [CallBulk p])%list
               /\ Forall (fun c => is_write c = false) reads
               /\ bp_body p !! j
                  = Some (BulkUpdate
                            (mkHeader (snd (update_target D namespace object))
                               (fst (update_target D namespace object))
                               (if_match_of (imports D) version))
                            (mkPartial (bu_type object)
                               (bu_attributes object) (w_time w)
                               (bu_references object)))).
Proof using Hstore.
  intros Hanswers. split; [|split].
  - intros. now apply create_stale_version with (id := id).
  - intros. now apply update_stale_version.
  - intros. now apply bulkUpdate_stale_version.
Qed.

End Versions.

(** The reference store enforces the precondition. *)

Lemma memstore_current (st : MemStore.Store) (index id : string) :
  current MemStore.es st index id = MemStore.stored st index id.
Proof.
  unfold current. simpl. unfold MemStore.get. simpl.
  now destruct (MemStore.stored st index id).
Qed.

Lemma memstore_stale (st : MemStore.Store) (index id : string)
    (cond : IfMatch) :
  stale MemStore.es st index id cond = true ->
  exists d,
    MemStore.stored st index id = Some d
    /\ MemStore.admits cond (Some d) = false.
Proof.
  unfold stale. rewrite memstore_current.
  destruct (MemStore.stored st index id) as [d|]; [|discriminate].
  unfold MemStore.admits.
  destruct (if_seq_no cond) as [s|]; [|discriminate].
  destruct (if_primary_term cond) as [t|]; [|discriminate].
  intros H. exists d. split; [reflexivity|].
  now apply negb_true_iff in H.
Qed.

Lemma memstore_stored_store (st : MemStore.Store) (index id index' id' : string)
    (d : RawDoc) :
  (index', id') <> (index, id) ->
  MemStore.stored (MemStore.store st index' id' d) index id
  = MemStore.stored st index id.
Proof.
  intros Hne.
  assert (Hkey : MemStore.same_key index id (index', id', d) = false).
  { unfold MemStore.same_key. simpl.
    destruct (String.eqb_spec index' index) as [->|]; [|reflexivity].
    destruct (String.eqb_spec id' id) as [->|]; [|reflexivity].
    now contradiction Hne. }
  induction st as [|entry st IH]; simpl.
  - now rewrite Hkey.
  - destruct (MemStore.same_key index' id' entry) eqn:E'; simpl.
    + rewrite Hkey.
      destruct (MemStore.same_key index id entry) eqn:E; [|reflexivity].
      exfalso. apply Hne. unfold MemStore.same_key in E, E'.
      apply andb_true_iff in E, E'. destruct E as [E1 E2], E' as [E1' E2'].
      apply String.eqb_eq in E1, E2, E1', E2'. congruence.
    + now rewrite IH.
Qed.

Lemma memstore_bulk_op_frame (op : BulkOp) (st : MemStore.Store)
    (index id : string) :
  op_target op <> (index, id) ->
  MemStore.stored (snd (MemStore.bulk_op op st)) index id
  = MemStore.stored st index id.
Proof.
  intros Hne. unfold MemStore.bulk_op, MemStore.put.
  assert (Hh : MemStore.header_of op = op_header op) by now destruct op.
  rewrite Hh. unfold op_target in Hne.
  destruct op as [h source|h source|h doc]; simpl in *;
    repeat match goal with
           | |- context [match ?c with _ => _ end] => destruct c; simpl
           end; try reflexivity; now apply memstore_stored_store.
Qed.

Lemma memstore_bulk_ops_frame (ops : list BulkOp) (st : MemStore.Store)
    (index id : string) :
  Forall (fun op => op_target op <> (index, id)) ops ->
  MemStore.stored (snd (MemStore.bulk_ops ops st)) index id
  = MemStore.stored st index id.
Proof.
  intros H. revert st. induction H as [|op ops Hop H IH]; intros st; simpl;
    [reflexivity|].
  pose proof (memstore_bulk_op_frame op st index id Hop) as Hframe.
  destruct (MemStore.bulk_op op st) as [item st1]. specialize (IH st1).
  destruct (MemStore.bulk_ops ops st1) as [items st2]. simpl in *. congruence.
Qed.

Lemma memstore_bulk_op_stale (op : BulkOp) (st : MemStore.Store) :
  stale MemStore.es st (fst (op_target op)) (snd (op_target op))
    (bh_if (op_header op)) = true ->
  exists item,
    MemStore.bulk_op op st = (item, st)
    /\ bi_status item = 409%Z /\ is_Some (bi_error item).
Proof.
  intros H. apply memstore_stale in H. destruct H as (d & Hd & Hadmits).
  unfold MemStore.bulk_op.
  assert (Hh : MemStore.header_of op = op_header op) by now destruct op.
  rewrite Hh. unfold op_target in Hd. simpl in Hd. rewrite Hd.
  destruct op as [h source|h source|h doc]; simpl in *;
    rewrite ?Hadmits; eexists; (split; [reflexivity|]); simpl; eauto.
Qed.

Lemma memstore_bulk_ops_stale (ops : list BulkOp) (st : MemStore.Store)
    (j : nat) (op : BulkOp) :
  ops !! j = Some op ->
  stale MemStore.es st (fst (op_target op)) (snd (op_target op))
    (bh_if (op_header op)) = true ->
  (forall j' op', j' <> j -> ops !! j' = Some op' ->
     op_target op' <> op_target op) ->
  (exists item,
     fst (MemStore.bulk_ops ops st) !! j = Some item
     /\ bi_status item = 409%Z /\ is_Some (bi_error item))
  /\ MemStore.stored (snd (MemStore.bulk_ops ops st)) (fst (op_target op))
       (snd (op_target op))
     = MemStore.stored st (fst (op_target op)) (snd (op_target op)).
Proof.
  revert st j. induction ops as [|op0 ops IH]; intros st j Hj Hstale Hothers;
    [discriminate|].
  destruct j as [|j]; simpl in Hj |- *.
  - inversion Hj; subst op0.
    destruct (memstore_bulk_op_stale op st Hstale)
      as (item & Hitem & Hstatus & Herr).
    rewrite Hitem.
    assert (Hrest : Forall (fun op' => op_target op' <> op_target op) ops).
    { apply List.Forall_forall. intros op' Hin.
      apply list_elem_of_In, list_elem_of_lookup_1 in Hin.
      destruct Hin as [k Hk]. now apply (Hothers (Datatypes.S k)). }
    pose proof (memstore_bulk_ops_frame ops st (fst (op_target op))
                  (snd (op_target op))) as Hframe.
    rewrite <- surjective_pairing in Hframe. specialize (Hframe Hrest).
    destruct (MemStore.bulk_ops ops st) as [items st2]. simpl in *.
    split; [eauto|exact Hframe].
  - assert (H0 : op_target op0 <> op_target op).
    { now apply (Hothers 0). }
    pose proof (memstore_bulk_op_frame op0 st (fst (op_target op))
                  (snd (op_target op))) as Hframe.
    rewrite <- surjective_pairing in Hframe. specialize (Hframe H0).
    destruct (MemStore.bulk_op op0 st) as [item0 st1]. simpl in Hframe.
    destruct (IH st1 j Hj) as ((item & Hitem & Hstatus & Herr) & Hcur).
    { unfold stale in Hstale |- *. rewrite memstore_current in Hstale |- *.
      unfold op_target in *. simpl in *. now rewrite Hframe. }
    { intros j' op' Hj' Hop'. apply (Hothers (Datatypes.S j')); [lia|].
      exact Hop'. }
    destruct (MemStore.bulk_ops ops st1) as [items st2]. simpl in *.
    split; [eauto|congruence].
Qed.

Lemma memstore_enforces : enforces_if_match MemStore.es.
Proof.
  repeat split.
  - intros p st. simpl. unfold MemStore.get.
    destruct (MemStore.stored st (gp_index p) (gp_id p)); eauto.
  - intros docs st. simpl. unfold MemStore.mget. eexists.
    split; [reflexivity|]. split; [discriminate|].
    intros j d doc Hj Hdoc. simpl. rewrite list_lookup_fmap, Hj. simpl.
    rewrite memstore_current in Hdoc. unfold MemStore.hit. now rewrite Hdoc.
  - intros p st H. apply memstore_stale in H. destruct H as (d & Hd & Ha).
    simpl. unfold MemStore.index. rewrite Hd, Ha. eauto.
  - intros p st H. apply memstore_stale in H. destruct H as (d & Hd & Ha).
    simpl. unfold MemStore.update. rewrite Hd, Ha. eauto.
  - simpl in H. unfold MemStore.bulk in H.
    destruct (memstore_bulk_ops_stale (bp_body p) st j op H0 H1 H2)
      as (Hitem & _).
    destruct (MemStore.bulk_ops (bp_body p) st) as [items st2].
    inversion H; subst. exact Hitem.
  - simpl in H. unfold MemStore.bulk in H. rewrite !memstore_current.
    destruct (memstore_bulk_ops_stale (bp_body p) st j op H0 H1 H2)
      as (_ & Hcur).
    destruct (MemStore.bulk_ops (bp_body p) st) as [items st2].
    inversion H; subst. exact Hcur.
Qed.

(** C1, at the reference configuration: the dashboard "d1" is stored with
    sequence number 5; an update that names the version of sequence
    number 3 sends the update request under that sequence number, is
    refused with Conflict, and the store is as before. *)
Lemma stale_version_is_a_conflict_witness :
  exists e reads upsert,
    update Kibana.deps "dashboard" "d1" (JObj [("title", JStr "Costs")])
      (mkUpdateOptions (Some "ssst") None None None None)
      (Kibana.world Kibana.sales)
    = (Throw e,
       after (Kibana.world Kibana.sales) Kibana.sales
         (reads
          ++ [CallUpdate
                (mkUpdate "dashboard:d1" ".kibana"
                   (mkIf (Some 3%Z) (Some 1%Z)) DEFAULT_REFRESH_SETTING
                   (UpdateDoc
                      (mkPartial "dashboard" (JObj [("title", JStr "Costs")])
                         (w_time (Kibana.world Kibana.sales)) None)
                      upsert)
                   true false)])%list)
    /\ Forall
         (fun c => c = CallGet (exact_get Kibana.deps None "dashboard" "d1"))
         reads
    /\ error_kind e = Conflict.
Proof.
  refine (proj1 (proj2
    (stale_version_is_a_conflict Kibana.deps memstore_enforces
       (Kibana.world Kibana.sales) memstore_answers))
    "dashboard" "d1" (JObj [("title", JStr "Costs")])
    (mkUpdateOptions (Some "ssst") None None None None) "ssst" None
    eq_refl eq_refl eq_refl eq_refl _ _ eq_refl).
  - intros H. discriminate H.
  - intros upsert H. discriminate H.
Defined.

(** * Further properties of the repository *)

(** ** Indices *)

Lemma unique_from_spec (seen array : list string) :
  List.NoDup (unique_from seen array)
  /\ forall x, In x (unique_from seen array) <-> In x array /\ ~ In x seen.
Proof.
  revert seen. induction array as [|a array IH]; intros seen; simpl.
  - split; [constructor|]. intros x. tauto.
  - destruct (includes seen a) eqn:E.
    + apply includes_In in E. destruct (IH seen) as [Hnd Hin].
      split; [exact Hnd|]. intros x. rewrite Hin. split.
      * intros [H1 H2]. auto.
      * intros [[->|H1] H2]; [contradiction|auto].
    + assert (Ha : ~ In a seen).
      { intros H. apply includes_In in H. congruence. }
      destruct (IH (a :: seen)) as [Hnd Hin]. split.
      * constructor; [|exact Hnd]. rewrite Hin. simpl. tauto.
      * intros x. simpl. rewrite Hin. simpl. split.
        -- intros [<-|[H1 H2]]; [auto|]. split; [auto|]. tauto.
        -- intros [[<-|H1] H2]; [auto|].
           destruct (string_dec a x) as [->|Hne]; [auto|]. right.
           split; [exact H1|]. intros [H|H]; auto.
Qed.

(** [getIndicesForTypes] lists every index of the given types once: the
    result has no duplicates, and an index is in it exactly when it is the
    index of one of the types. *)
Theorem getIndicesForTypes_spec {S : Type} (D : Deps S)
    (types : list string) :
  List.NoDup (getIndicesForTypes D types)
  /\ forall index,
       In index (getIndicesForTypes D types)
       <-> exists type, In type types /\ getIndexForType D type = index.
Proof.
  unfold getIndicesForTypes, unique.
  destruct (unique_from_spec [] (map (getIndexForType D) types)) as [Hnd Hin].
  split; [exact Hnd|]. intros index. rewrite Hin, in_map_iff. simpl.
  split.
  - intros [(type & Heq & Ht) _]. eauto.
  - intros (type & Ht & Heq). split; [eauto|tauto].
Qed.

(** ** Initial namespaces *)

(** [validateInitialNamespaces] accepts an absent list, and a list that is
    not empty for a type that is not namespace-agnostic, provided the type
    is shareable or the list is a single namespace other than ["*"];
    everything else is refused with BadRequest. *)
Theorem validateInitialNamespaces_spec {S : Type} (D : Deps S)
    (type : string) (initialNamespaces : option (list string)) :
  (validateInitialNamespaces D type initialNamespaces = Ok tt
   <-> match initialNamespaces with
       | None => True
       | Some l =>
           isNamespaceAgnostic (_registry D) type = false
           /\ l <> []
           /\ (isShareable (_registry D) type = true
               \/ (length l = 1 /\ ~ In "*" l))
       end)
  /\ forall e,
       validateInitialNamespaces D type initialNamespaces = Throw e ->
       error_kind e = BadRequest.
Proof.
  unfold validateInitialNamespaces.
  destruct initialNamespaces as [l|]; [|split; [tauto|discriminate]].
  destruct (isNamespaceAgnostic (_registry D) type).
  { split; [|intros e H; now inversion H].
    split; [discriminate|]. intros [H _]. discriminate. }
  destruct (Nat.eqb (length l) 0) eqn:Elen.
  { apply Nat.eqb_eq, length_zero_iff_nil in Elen. subst l.
    split; [|intros e H; now inversion H].
    split; [discriminate|]. intros (_ & H & _). now contradiction H. }
  assert (Hne : l <> []).
  { intros ->. discriminate. }
  destruct (isShareable (_registry D) type); simpl.
  { split; [|discriminate]. split; [|reflexivity]. auto. }
  destruct (Nat.ltb 1 (length l)) eqn:Elt; simpl.
  { split; [|intros e H; now inversion H].
    split; [discriminate|]. apply Nat.ltb_lt in Elt.
    intros (_ & _ & [H|[H _]]); [discriminate|lia]. }
  apply Nat.ltb_ge in Elt. apply Nat.eqb_neq in Elen.
  destruct (includes l ALL_NAMESPACES_STRING) eqn:E.
  - split; [|intros e H; now inversion H].
    split; [discriminate|]. apply includes_In in E.
    intros (_ & _ & [H|[_ H]]); [discriminate|contradiction].
  - split; [|discriminate]. split; [|reflexivity].
    intros _. split; [reflexivity|]. split; [exact Hne|]. right.
    split; [lia|]. intros H. apply includes_In in H.
    unfold ALL_NAMESPACES_STRING in E. congruence.
Qed.

(** ** Single objects *)

Section SingleObject.

Context {S : Type}.
Variable D : Deps S.

(** [get] sends one read for the raw id of the object and nothing else.
    It returns the object built from the answer when the document was
    found, the index exists and the document is in the namespace;
    otherwise it throws NotFound for the type and id. *)
Theorem get_outcome (type id : string) (options : BaseOptions)
    (namespace : option string) (r : GetResponse) (st : S) (w : World S) :
  allowed D type = true ->
  normalizeNamespace (bo_namespace options) = Ok namespace ->
  es_get (client D) (exact_get D namespace type id) (w_store w) = (Ok r, st) ->
  get D type id options w
  = (if existing r && rawDocExistsInNamespace D (get_doc r) namespace
     then Ok (getSavedObjectFromSource (imports D) (_registry D) type id
                (get_doc r))
     else Throw (GenericNotFoundError (Some type) (Some id)),
     after w st [CallGet (exact_get D namespace type id)]).
Proof.
  intros Hallowed Hns Hget. unfold get, client_get. unfold_repo.
  rewrite Hallowed, Hns. simpl. unfold exact_get in Hget. rewrite Hget.
  unfold existing, isFoundGetResponse.
  destruct (get_found r), (Z.eqb (get_statusCode r) 404),
    (rawDocExistsInNamespace D (get_doc r) namespace); reflexivity.
Qed.

(** A multi-namespace object that exists in more than one namespace, or
    in all of them, is not deleted unless [force] is set: [delete] throws
    BadRequest after its read, and sends no delete request. *)
Theorem delete_shared_needs_force (type id : string)
    (options : DeleteOptions) (namespace : option string) (r : GetResponse)
    (st : S) (w : World S) :
  allowed D type = true ->
  isMultiNamespace (_registry D) type = true ->
  normalizeNamespace (do_namespace options) = Ok namespace ->
  es_get (client D) (exact_get D None type id) (w_store w) = (Ok r, st) ->
  existing r = true ->
  rawDocExistsInNamespace D (get_doc r) namespace = true ->
  default false (do_force options) = false ->
  (exists namespaces,
     src_namespaces (_source (get_doc r)) = Some namespaces
     /\ (1 < length namespaces \/ In "*" namespaces)) ->
  exists e,
    delete D type id options w
    = (Throw e, after w st [CallGet (exact_get D None type id)])
    /\ error_kind e = BadRequest.
Proof.
  intros Hallowed Hmulti Hns Hget Hex Hin Hforce (nss & Hnss & Hmany).
  unfold delete. unfold_repo. rewrite Hallowed, Hns. simpl.
  rewrite Hmulti. simpl.
  rewrite (preflightCheckIncludesNamespace_spec D type id namespace r st w
             Hmulti Hget), Hex, Hin. simpl.
  rewrite Hforce, Hnss. simpl.
  assert (Hcond : Nat.ltb 1 (length nss) || includes nss ALL_NAMESPACES_STRING
                  = true).
  { apply orb_true_iff. destruct Hmany as [H|H].
    - left. now apply Nat.ltb_lt.
    - right. now apply includes_In. }
  rewrite Hcond. simpl. eexists. split; reflexivity.
Qed.

(** For a type that is not multi-namespace [delete] sends one delete
    request for the raw id, without a read before it.  The store's answer
    decides: "deleted" returns normally, "not_found" or a missing index
    throw NotFound, and any other answer throws a plain error. *)
Theorem delete_outcome (type id : string) (options : DeleteOptions)
    (namespace : option string) (r : DeleteResponse) (st : S) (w : World S) :
  allowed D type = true ->
  isMultiNamespace (_registry D) type = false ->
  normalizeNamespace (do_namespace options) = Ok namespace ->
  let p :=
    mkDelete (generateRawId (_serializer D) namespace type id)
      (getIndexForType D type)
      (getExpectedVersionProperties (imports D) None None)
      (default DEFAULT_REFRESH_SETTING (do_refresh options)) in
  es_delete (client D) p (w_store w) = (Ok r, st) ->
  exists o,
    delete D type id options w = (o, after w st [CallDelete p])
    /\ (del_result r = Some "deleted" -> o = Ok tt)
    /\ (del_result r = Some "not_found"
        \/ (del_result r <> Some "deleted"
            /\ del_error_type r = Some "index_not_found_exception") ->
        o = Throw (GenericNotFoundError (Some type) (Some id)))
    /\ (del_result r <> Some "deleted" -> del_result r <> Some "not_found" ->
        del_error_type r <> Some "index_not_found_exception" ->
        throws_kind o InternalError).
Proof.
  intros Hallowed Hmulti Hns p Hdel.
  unfold delete, client_delete. unfold_repo. rewrite Hallowed, Hns. simpl.
  rewrite Hmulti. simpl. fold p. rewrite Hdel.
  assert (Heq : forall (o : option string) (s : string),
            match o with Some res => String.eqb res s | None => false end
            = true <-> o = Some s).
  { intros [res|] s; [|split; discriminate].
    rewrite String.eqb_eq. split; congruence. }
  destruct (match del_result r with
            | Some res => String.eqb res "deleted" | None => false end)
    eqn:Edel.
  - apply Heq in Edel. eexists. split; [reflexivity|].
    split; [reflexivity|]. split.
    + intros [H|[H _]]; [rewrite H in Edel; discriminate|contradiction].
    + intros H. contradiction.
  - assert (Hnd : del_result r <> Some "deleted").
    { intros H. apply Heq in H. congruence. }
    destruct (match del_result r with
              | Some res => String.eqb res "not_found" | None => false end)
      eqn:Enf; simpl.
    + eexists. split; [reflexivity|]. split; [contradiction|].
      split; [reflexivity|]. apply Heq in Enf. contradiction.
    + assert (Hnn : del_result r <> Some "not_found").
      { intros H. apply Heq in H. congruence. }
      destruct (match del_error_type r with
                | Some t => String.eqb t "index_not_found_exception"
                | None => false end) eqn:Eidx; simpl.
      * eexists. split; [reflexivity|]. split; [contradiction|].
        split; [reflexivity|]. apply Heq in Eidx. contradiction.
      * assert (Hni : del_error_type r <> Some "index_not_found_exception").
        { intros H. apply Heq in H. congruence. }
        eexists. split; [reflexivity|]. split; [contradiction|]. split.
        -- intros [H|[_ H]]; contradiction.
        -- intros _ _ _. eexists. split; reflexivity.
Qed.

End SingleObject.

(** ** Creating *)

Section Creating.

Context {S : Type}.
Variable D : Deps S.

(** Without [overwrite], [create] sends exactly one request, a create
    that fails if the document exists: there is no read before it and no
    precondition on it, even when a version is given.  The document is
    written under the given id, or a generated one, in the namespace the
    type calls for: for a single-namespace type the first initial
    namespace or else the current one, for a multi-namespace type the
    initial namespaces or else the current one alone.  When the migrator
    refuses the document, [create] throws its error and sends nothing. *)
Theorem create_without_overwrite (type : string) (attributes : JsValue)
    (options : CreateOptions) (namespace : option string) (w : World S) :
  default false (co_overwrite options) = false ->
  normalizeNamespace (co_namespace options) = Ok namespace ->
  validateInitialNamespaces D type (co_initialNamespaces options) = Ok tt ->
  allowed D type = true ->
  let id := default (generateId (imports D) (w_fresh w)) (co_id options) in
  let namespaces :=
    if isSingleNamespace (_registry D) type then None
    else if isMultiNamespace (_registry D) type then
      match co_initialNamespaces options with
      | Some ins => Some ins
      | None => Some [namespaceIdToString namespace]
      end
    else None in
  match create_target D type id attributes options namespace (w_time w)
          namespaces with
  | Ok raw =>
      w_log (snd (create D type attributes options w))
      = (w_log w
         ++ [CallCreate
               (mkIndex (_id raw) (getIndexForType D type)
                  (default DEFAULT_REFRESH_SETTING (co_refresh options))
                  (_source raw) no_if_match true)])%list
  | Throw e =>
      fst (create D type attributes options w) = Throw e
      /\ w_log (snd (create D type attributes options w)) = w_log w
  end.
Proof.
  intros Hover Hns Hini Hallowed id namespaces.
  unfold create, fresh_id. unfold_repo.
  subst namespaces id. unfold create_target, migrated_raw, create_document.
  destruct (co_id options) as [i|]; simpl;
    rewrite Hns; simpl; rewrite Hini, Hallowed; simpl; rewrite Hover;
    rewrite andb_false_r; simpl;
    destruct (isSingleNamespace (_registry D) type); simpl;
    try (destruct (isMultiNamespace (_registry D) type); simpl);
    (destruct (migrateDocument _ _) as [migrated|em]; simpl; [|now split]);
    unfold client_create, issue; simpl;
    match goal with
    | |- context [es_create ?c ?p ?st] =>
        destruct (es_create c p st) as [[body|e] st']
    end; reflexivity.
Qed.

(** With [overwrite] and an id, [create] of a multi-namespace type whose
    document is not stored yet, and without initial namespaces, writes the
    object into the current namespace alone; when the migrator refuses the
    document, the read is the only request. *)
Theorem create_overwrite_of_missing (type id : string) (attributes : JsValue)
    (options : CreateOptions) (namespace : option string) (r : GetResponse)
    (st : S) (w : World S) :
  co_id options = Some id -> truthy id = true ->
  co_overwrite options = Some true ->
  co_initialNamespaces options = None ->
  normalizeNamespace (co_namespace options) = Ok namespace ->
  allowed D type = true ->
  isSingleNamespace (_registry D) type = false ->
  isMultiNamespace (_registry D) type = true ->
  es_get (client D) (exact_get D None type id) (w_store w) = (Ok r, st) ->
  existing r = false ->
  match create_target D type id attributes options namespace (w_time w)
          (Some [namespaceIdToString namespace]) with
  | Ok raw =>
      exists p,
        w_log (snd (create D type attributes options w))
        = (w_log w ++ [CallGet (exact_get D None type id); CallIndex p])%list
        /\ ip_body p = _source raw
  | Throw e =>
      create D type attributes options w
      = (Throw e, after w st [CallGet (exact_get D None type id)])
  end.
Proof.
  intros Hid Htruthy Hover Hini Hns Hallowed Hsingle Hmulti Hget Hex.
  unfold create, create_target, migrated_raw, create_document. unfold_repo.
  rewrite Hid, Hover, Hns, Hini, Hallowed. simpl.
  rewrite Hsingle, Hmulti, Htruthy. simpl.
  rewrite (preflightGetNamespaces_spec D type id namespace r st w Hmulti Hget),
    Hex. simpl.
  destruct (migrateDocument _ _) as [migrated|em]; simpl; [|reflexivity].
  unfold client_index, issue. simpl.
  destruct (es_index _ _ _) as [[body|e] st']; simpl;
    rewrite <- app_assoc; eexists; (split; reflexivity).
Qed.

End Creating.

(** ** Updating *)

Section Updating.

Context {S : Type}.
Variable D : Deps S.

(** For a type that is not multi-namespace [update] sends one update
    request, with the partial document and, when an upsert is given, the
    raw upsert document.  When the store rejects it as not found, [update]
    throws NotFound for the type and id; any other error is passed on as
    it is.  On success the returned object carries the attributes and
    references of the call, the clock reading and the version of the
    answer; a namespace-agnostic type has no namespaces.  When the
    migrator refuses the upsert document, [update] throws its error and
    sends nothing. *)
Theorem update_outcome (type id : string) (attributes : JsValue)
    (options : UpdateOptions) (namespace : option string) (w : World S) :
  allowed D type = true ->
  isMultiNamespace (_registry D) type = false ->
  normalizeNamespace (uo_namespace options) = Ok namespace ->
  match
    match uo_upsert options with
    | Some upsert =>
        match migrated_raw D
                (mkDoc id type
                   (spread_str
                      (if isSingleNamespace (_registry D) type
                          && truthy_opt namespace
                       then namespace else None))
                   None None upsert None (Some (w_time w)) None) with
        | Ok raw => Ok (Some (_source raw))
        | Throw e => Throw e
        end
    | None => Ok None
    end
  with
  | Throw e => update D type id attributes options w = (Throw e, w)
  | Ok upsert =>
      let p :=
        mkUpdate (generateRawId (_serializer D) namespace type id)
          (getIndexForType D type)
          (getExpectedVersionProperties (imports D) (uo_version options)
             None)
          (default DEFAULT_REFRESH_SETTING (uo_refresh options))
          (UpdateDoc
             (mkPartial type attributes (w_time w) (uo_references options))
             upsert)
          true false in
      (forall e st,
         es_update (client D) p (w_store w) = (Throw e, st) ->
         update D type id attributes options w
         = (Throw (if isNotFoundError e
                   then GenericNotFoundError (Some type) (Some id) else e),
            after w st [CallUpdate p]))
      /\ (forall body st,
            es_update (client D) p (w_store w) = (Ok body, st) ->
            exists o,
              update D type id attributes options w
              = (Ok o, after w st [CallUpdate p])
              /\ so_id o = id /\ so_type o = type
              /\ so_attributes o = attributes
              /\ so_references o = uo_references options
              /\ so_updated_at o = Some (w_time w)
              /\ so_version o
                 = Some (encodeHitVersion (imports D) (wr_seq_no body)
                           (wr_primary_term body))
              /\ (isNamespaceAgnostic (_registry D) type = true ->
                  so_namespaces o = Some []))
  end.
Proof.
  intros Hallowed Hmulti Hns.
  unfold update, migrated_raw. unfold_repo. rewrite Hallowed, Hns. simpl.
  rewrite Hmulti. simpl.
  destruct (uo_upsert options) as [u|];
    [destruct (isSingleNamespace (_registry D) type
               && truthy_opt namespace) eqn:E; simpl;
     (destruct (migrateDocument _ _) as [migrated|em]; simpl;
      [|now destruct w])|];
    (split;
     [ intros e st He; unfold client_update, issue; simpl; rewrite He;
       simpl; now destruct (isNotFoundError e)
     | intros body st Hb; unfold client_update, issue; simpl; rewrite Hb;
       simpl; eexists; (split; [reflexivity|]); simpl;
       repeat split; intros ->; reflexivity ]).
Qed.

End Updating.

(** ** Batches of reads *)

Section BulkReads.

Context {S : Type}.
Variable D : Deps S.

(** The document [bulkGet] asks for on behalf of an object. *)
Let doc_for (namespace : option string) (object : BulkGetObject) : MgetDoc :=
  mkMgetDoc
    (generateRawId (_serializer D) namespace (bg_type object) (bg_id object))
    (getIndexForType D (bg_type object))
    (includedFields (imports D) (Some (JStr (bg_type object)))
       (bg_fields object)).

(** The slot of an object, given the answer for its document. *)
Let slot_for (namespace : option string) (object : BulkGetObject)
    (answer : option MgetHit) : BulkSlot :=
  match answer with
  | Some hit =>
      if hit_found hit && rawDocExistsInNamespace D (hit_doc hit) namespace
      then
        SlotObject
          (getSavedObjectFromSource (imports D) (_registry D)
             (bg_type object) (bg_id object) (hit_doc hit))
      else
        error_slot (Some (bg_id object)) (bg_type object)
          (GenericNotFoundError (Some (bg_type object))
             (Some (bg_id object)))
  | None =>
      error_slot (Some (bg_id object)) (bg_type object)
        (GenericNotFoundError (Some (bg_type object)) (Some (bg_id object)))
  end.

Lemma bulkGet_expected_allowed (objects : list BulkGetObject) (c : nat) :
  Forall (fun o => allowed D (bg_type o) = true) objects ->
  snd (map_accum (bulkGet_validate D) c objects)
  = imap (fun i o =>
            Right (mkBulkGetRight (bg_type o) (bg_id o) (bg_fields o) (c + i)))
      objects.
Proof.
  intros H. revert c. induction H as [|o objects Ho H IH]; intros c;
    [reflexivity|].
  simpl. unfold bulkGet_validate at 1. rewrite Ho. simpl.
  specialize (IH (Datatypes.S c)).
  destruct (map_accum (bulkGet_validate D) (Datatypes.S c) objects)
    as [c' es]. simpl in *. rewrite IH, Nat.add_0_r. f_equal.
  apply imap_ext. intros i x _. simpl. do 2 f_equal. lia.
Qed.

Lemma bulkGet_docs_allowed (namespace : option string)
    (objects : list BulkGetObject) (c : nat) :
  bulkGet_docs D namespace
    (imap (fun i o =>
             Right (mkBulkGetRight (bg_type o) (bg_id o) (bg_fields o)
                      (c + i))) objects)
  = map (doc_for namespace) objects.
Proof.
  unfold bulkGet_docs. revert c.
  induction objects as [|o l IH]; intros c; [reflexivity|].
  simpl. f_equal. rewrite <- (IH (Datatypes.S c)). do 2 f_equal.
  apply imap_ext. intros i x _. simpl. do 2 f_equal. lia.
Qed.

Lemma bulkGet_slots_allowed (namespace : option string) (r : MgetResponse)
    (objects : list BulkGetObject) (c : nat) :
  map (bulkGet_slot D namespace (Some r))
    (imap (fun i o =>
             Right (mkBulkGetRight (bg_type o) (bg_id o) (bg_fields o)
                      (c + i))) objects)
  = imap (fun i o => slot_for namespace o (mget_docs r !! (c + i))) objects.
Proof.
  revert c. induction objects as [|o l IH]; intros c; [reflexivity|].
  simpl. f_equal.
  - unfold slot_for, error_slot.
    destruct (mget_docs r !! (c + 0)) as [hit|]; simpl; [|reflexivity].
    now destruct (hit_found hit),
      (rawDocExistsInNamespace D (hit_doc hit) namespace).
  - rewrite (imap_ext _ (fun i o =>
               slot_for namespace o (mget_docs r !! (Datatypes.S c + i))))
      by (intros i x _; simpl; do 2 f_equal; lia).
    rewrite <- IH. f_equal.
    apply imap_ext. intros i x _. simpl. do 2 f_equal. lia.
Qed.

(** [bulkGet] of objects of allowed types sends one batched read that
    asks for the documents of the objects in the order of the input, and
    builds slot [i] from answer [i]: the object when the document was
    found and is in the namespace, and a NotFound record for the type and
    id otherwise. *)
Theorem bulkGet_reads_in_order (objects : list BulkGetObject)
    (options : BaseOptions) (namespace : option string) (r : MgetResponse)
    (st : S) (w : World S) :
  objects <> [] ->
  Forall (fun o => allowed D (bg_type o) = true) objects ->
  normalizeNamespace (bo_namespace options) = Ok namespace ->
  es_mget (client D) (map (doc_for namespace) objects) (w_store w)
  = (Ok r, st) ->
  bulkGet D objects options w
  = (Ok (imap (fun i o => slot_for namespace o (mget_docs r !! i)) objects),
     after w st [CallMget (map (doc_for namespace) objects)]).
Proof.
  intros Hne Hallowed Hns Hmget. unfold bulkGet. unfold_repo.
  rewrite Hns. simpl.
  assert (Hlen : Nat.eqb (length objects) 0 = false).
  { destruct objects; [contradiction|reflexivity]. }
  rewrite Hlen. unfold bulkGet_expected.
  rewrite (bulkGet_expected_allowed objects 0 Hallowed).
  rewrite bulkGet_docs_allowed, length_map, Hlen.
  unfold client_mget, issue. cbv beta iota zeta. unfold negb.
  rewrite Hmget. cbv beta iota zeta.
  now rewrite bulkGet_slots_allowed.
Qed.

(** The document [checkConflicts] asks for on behalf of an object. *)
Let probe_for (namespace : option string) (object : BulkGetObject)
  : MgetDoc :=
  mkMgetDoc
    (generateRawId (_serializer D) namespace (bg_type object) (bg_id object))
    (getIndexForType D (bg_type object))
    (Some ["type"; "namespaces"]).

(** What [checkConflicts] reports for an object, given the answer for its
    document. *)
Let conflict_for (namespace : option string) (object : BulkGetObject)
    (answer : option MgetHit) : list BulkError :=
  match answer with
  | Some hit =>
      if hit_found hit then
        [mkBulkError (Some (bg_id object)) (bg_type object)
           (mkPayload
              (ConflictError (bg_type object) (bg_id object) None)
              (negb (rawDocExistsInNamespace D (hit_doc hit) namespace)))]
      else []
  | None => []
  end.

Lemma checkConflicts_errors_allowed (namespace : option string)
    (r : MgetResponse) (objects : list BulkGetObject) (c : nat) :
  flat_map
    (fun e : Either BulkGetRight =>
       match e with
       | Left err => [err]
       | Right v =>
           match mget_docs r !! bgr_esRequestIndex v with
           | Some hit =>
               if hit_found hit then
                 [mkBulkError (Some (bgr_id v)) (bgr_type v)
                    (mkPayload (ConflictError (bgr_type v) (bgr_id v) None)
                       (negb (rawDocExistsInNamespace D (hit_doc hit)
                                namespace)))]
               else []
           | None => []
           end
       end)
    (imap (fun i o =>
             Right (mkBulkGetRight (bg_type o) (bg_id o) (bg_fields o)
                      (c + i))) objects)
  = concat (imap (fun i o => conflict_for namespace o (mget_docs r !! (c + i)))
              objects).
Proof.
  revert c. induction objects as [|o l IH]; intros c; [reflexivity|].
  simpl. f_equal.
  rewrite (imap_ext _ (fun i o =>
             conflict_for namespace o (mget_docs r !! (Datatypes.S c + i))))
    by (intros i x _; simpl; do 2 f_equal; lia).
  rewrite <- IH. f_equal.
  apply imap_ext. intros i x _. simpl. do 2 f_equal. lia.
Qed.

(** [checkConflicts] of objects of allowed types sends one batched read
    for the documents of the objects, in the order of the input, and
    nothing else.  It reports a Conflict for exactly the objects whose
    document was found, marked as not overwritable when the document is
    not in the namespace; an object whose document is absent is not
    reported. *)
Theorem checkConflicts_reports_stored (objects : list BulkGetObject)
    (options : BaseOptions) (namespace : option string) (r : MgetResponse)
    (st : S) (w : World S) :
  objects <> [] ->
  Forall (fun o => allowed D (bg_type o) = true) objects ->
  normalizeNamespace (bo_namespace options) = Ok namespace ->
  es_mget (client D) (map (probe_for namespace) objects) (w_store w)
  = (Ok r, st) ->
  checkConflicts D objects options w
  = (Ok (concat
           (imap (fun i o => conflict_for namespace o (mget_docs r !! i))
              objects)),
     after w st [CallMget (map (probe_for namespace) objects)]).
Proof.
  intros Hne Hallowed Hns Hmget. unfold checkConflicts. unfold_repo.
  assert (Hlen : Nat.eqb (length objects) 0 = false).
  { destruct objects; [contradiction|reflexivity]. }
  rewrite Hlen, Hns. cbv beta iota zeta. unfold bulkGet_expected.
  rewrite (bulkGet_expected_allowed objects 0 Hallowed).
  assert (Hdocs : forall c,
    map (fun v =>
           mkMgetDoc
             (generateRawId (_serializer D) namespace (bgr_type v) (bgr_id v))
             (getIndexForType D (bgr_type v)) (Some ["type"; "namespaces"]))
      (rights (imap (fun i o =>
                       Right (mkBulkGetRight (bg_type o) (bg_id o)
                                (bg_fields o) (c + i))) objects))
    = map (probe_for namespace) objects).
  { clear. induction objects as [|o l IH]; intros c; [reflexivity|].
    simpl. f_equal. rewrite <- (IH (Datatypes.S c)). do 2 f_equal.
    apply imap_ext. intros i x _. simpl. do 2 f_equal. lia. }
  rewrite Hdocs, length_map, Hlen. change (negb false) with true.
  unfold client_mget, issue. cbv beta iota zeta.
  rewrite Hmget. cbv beta iota zeta.
  now rewrite checkConflicts_errors_allowed.
Qed.

End BulkReads.

(** ** Batches that need no store *)

Section BulkWithoutStore.

Context {S : Type}.
Variable D : Deps S.

Lemma insert_slot_head (slot : BulkSlot) (slots : list BulkSlot)
    (w : World S) :
  insert_slot 0 slot (Ok slots, w) = (Ok (slot :: slots), w).
Proof. reflexivity. Qed.

(** A batch whose objects are all of types outside the allowed set sends
    nothing to the store: [bulkGet] and [bulkCreate] answer one
    UnsupportedType record per object, [bulkUpdate] one NotFound record
    per object, and the world is as before. *)
Theorem bulk_of_disallowed_types (w : World S) (namespace : option string) :
  (forall objects options,
     normalizeNamespace (bo_namespace options) = Ok namespace ->
     Forall (fun o => allowed D (bg_type o) = false) objects ->
     bulkGet D objects options w
     = (Ok (map (fun o =>
                   error_slot (Some (bg_id o)) (bg_type o)
                     (UnsupportedTypeError (bg_type o))) objects), w))
  /\ (forall objects options,
        normalizeNamespace (co_namespace options) = Ok namespace ->
        Forall (fun o => allowed D (bc_type o) = false) objects ->
        bulkCreate D objects options w
        = (Ok (map (fun o =>
                      error_slot (bc_id o) (bc_type o)
                        (UnsupportedTypeError (bc_type o))) objects), w))
  /\ (forall objects options,
        normalizeNamespace (buo_namespace options) = Ok namespace ->
        Forall (fun o => allowed D (bu_type o) = false) objects ->
        bulkUpdate D objects options w
        = (Ok (map (fun o =>
                      error_slot (Some (bu_id o)) (bu_type o)
                        (GenericNotFoundError (Some (bu_type o))
                           (Some (bu_id o)))) objects), w)).
Proof.
  split; [|split]; intros objects options Hns H;
    induction H as [|o objects Ho H IH].
  - unfold bulkGet. unfold_repo. now rewrite Hns.
  - change (o :: objects) with ([] ++ o :: objects)%list.
    rewrite (bulkGet_isolates D [] objects o _ options w
               (fun c => bulkGet_validate_disallowed D c o Ho)).
    simpl app. rewrite IH. apply insert_slot_head.
  - unfold bulkCreate. unfold_repo. rewrite Hns. simpl. now destruct w.
  - change (o :: objects) with ([] ++ o :: objects)%list.
    rewrite (bulkCreate_isolates D [] objects o _ options w
               (fun ov acc => bulkCreate_validate_disallowed D ov acc o Ho)).
    simpl app. rewrite IH. apply insert_slot_head.
  - unfold bulkUpdate. unfold_repo. now rewrite Hns.
  - change (o :: objects) with ([] ++ o :: objects)%list.
    rewrite (bulkUpdate_isolates D [] objects o _ options w
               (fun t c => bulkUpdate_validate_disallowed D t c o Ho)).
    simpl app. rewrite IH. apply insert_slot_head.
Qed.

End BulkWithoutStore.

(** ** The requests of a batch of writes *)

Section BulkRequests.

Context {S : Type}.
Variable D : Deps S.

Lemma bulkCreate_validate_creates (objects : list BulkCreateObject)
    (acc : nat * nat) :
  Forall (fun e : Either BulkCreateRight =>
            match e with
            | Left _ => True
            | Right v => bcr_method v = MethodCreate
            end)
    (snd (map_accum (bulkCreate_validate D false) acc objects)).
Proof.
  revert acc. induction objects as [|o l IH]; intros acc; simpl;
    [constructor|].
  destruct (bulkCreate_validate D false acc o) as [acc1 e] eqn:E.
  specialize (IH acc1).
  destruct (map_accum (bulkCreate_validate D false) acc1 l) as [acc2 es].
  simpl in *. constructor; [|exact IH].
  unfold bulkCreate_validate in E. destruct acc as [counter fresh].
  rewrite andb_false_r in E.
  repeat match type of E with
         | context [match ?c with _ => _ end] => destruct c
         end; inversion E; subst; simpl; auto.
Qed.

Lemma bulkCreate_step_creates (namespace : option string) (time : string)
    (resp : option MgetResponse) (es : list (Either BulkCreateRight))
    (acc : nat * list BulkOp) :
  Forall (fun e : Either BulkCreateRight =>
            match e with
            | Left _ => True
            | Right v => bcr_method v = MethodCreate
            end) es ->
  match map_accum_outcome (bulkCreate_step D false namespace time resp)
          acc es with
  | Ok (acc', _) =>
      exists ext,
        snd acc' = (snd acc ++ ext)%list
        /\ Forall (fun op => exists h source,
                     op = BulkCreate h source /\ bh_if h = no_if_match) ext
  | Throw _ => True
  end.
Proof.
  intros H. revert acc. induction H as [|e es He H IH]; intros acc; simpl.
  - exists []. rewrite app_nil_r. auto.
  - destruct (bulkCreate_step D false namespace time resp acc e)
      as [[acc1 y]|e0] eqn:E; [|exact I].
    specialize (IH acc1).
    destruct (map_accum_outcome
                (bulkCreate_step D false namespace time resp) acc1 es)
      as [[acc2 ys]|e0]; [|exact I].
    destruct IH as (ext & Hext & Hall).
    destruct e as [err|v]; simpl in E.
    + inversion E; subst. eauto.
    + destruct acc as [k params]. rewrite He in E.
      repeat match type of E with
             | context [match ?c with _ => _ end] => destruct c
             end; inversion E; subst; simpl in *; eauto;
        (eexists (_ :: ext); rewrite Hext, <- app_assoc;
         split; [reflexivity|]; constructor; [|exact Hall]; eauto).
Qed.

(** Without [overwrite], every operation that [bulkCreate] puts into its
    batched write is a create, which fails on an existing document, and
    none carries a precondition, whatever versions the objects name. *)
Theorem bulkCreate_without_overwrite (objects : list BulkCreateObject)
    (options : CreateOptions) (w : World S) :
  default false (co_overwrite options) = false ->
  exists calls,
    w_log (snd (bulkCreate D objects options w)) = (w_log w ++ calls)%list
    /\ forall p, In (CallBulk p) calls ->
         Forall (fun op => exists h source,
                   op = BulkCreate h source /\ bh_if h = no_if_match)
           (bp_body p).
Proof.
  intros Hover. unfold bulkCreate. unfold_repo. rewrite Hover.
  destruct (normalizeNamespace (co_namespace options)) as [ns|e]; simpl.
  2: { exists []. rewrite app_nil_r. split; [reflexivity|]. intros p []. }
  unfold bulkCreate_expected.
  pose proof (bulkCreate_validate_creates objects (0, w_fresh w)) as Hcreates.
  destruct (map_accum (bulkCreate_validate D false) (0, w_fresh w) objects)
    as [[c fresh'] expected]. simpl in Hcreates |- *.
  assert (Hwrite : forall params results w1 calls0,
    w_log w1 = (w_log w ++ calls0)%list ->
    (forall p, ~ In (CallBulk p) calls0) ->
    Forall (fun op => exists h source,
              op = BulkCreate h source /\ bh_if h = no_if_match) params ->
    exists calls,
      w_log (snd (bulkCreate_write D
                    (default DEFAULT_REFRESH_SETTING (co_refresh options))
                    params results w1))
      = (w_log w ++ calls)%list
      /\ forall p, In (CallBulk p) calls ->
           Forall (fun op => exists h source,
                     op = BulkCreate h source /\ bh_if h = no_if_match)
             (bp_body p)).
  { intros params results w1 calls0 Hlog Hnone Hall.
    unfold bulkCreate_write. unfold_repo.
    destruct params as [|op params]; simpl.
    - exists calls0.
      destruct (map_outcome (bulkCreate_slot D None) results); simpl;
        (split; [exact Hlog|]); intros p Hp; now apply Hnone in Hp.
    - unfold client_bulk, issue.
      destruct (es_bulk _ _ _) as [[r|e] st']; simpl;
        [destruct (map_outcome (bulkCreate_slot D (Some r)) results); simpl|];
        (eexists (calls0 ++ [_])%list; rewrite Hlog, <- app_assoc;
         split; [reflexivity|]; intros p Hp; apply in_app_or in Hp;
         destruct Hp as [Hp|[Hp|[]]]; [now apply Hnone in Hp|];
         inversion Hp; subst; exact Hall). }
  assert (Hplan : forall resp st log calls0,
    log = (w_log w ++ calls0)%list ->
    (forall p, ~ In (CallBulk p) calls0) ->
    let w1 := mkWorld st log (w_time w) fresh' in
    forall r,
      r = match map_accum_outcome
                  (bulkCreate_step D false ns (w_time w) resp) (0, [])
                  expected with
          | Ok a =>
              (let '(_, bulkCreateParams, expectedBulkResults) := a in
               bulkCreate_write D
                 (default DEFAULT_REFRESH_SETTING (co_refresh options))
                 bulkCreateParams expectedBulkResults) w1
          | Throw e => (Throw e, w1)
          end ->
      exists calls,
        w_log (snd r) = (w_log w ++ calls)%list
        /\ forall p, In (CallBulk p) calls ->
             Forall (fun op => exists h source,
                       op = BulkCreate h source /\ bh_if h = no_if_match)
               (bp_body p)).
  { intros resp st log calls0 Hlog Hnone w1 r ->.
    pose proof (bulkCreate_step_creates ns (w_time w) resp expected (0, [])
                  Hcreates) as Hsteps.
    destruct (map_accum_outcome (bulkCreate_step D false ns (w_time w) resp)
                (0, []) expected) as [[[k params] results]|e0]; simpl.
    - destruct Hsteps as (ext & Hext & Hall). simpl in Hext. subst params.
      now apply (Hwrite ext results w1 calls0).
    - exists calls0. split; [exact Hlog|]. intros p Hp.
      now apply Hnone in Hp. }
  destruct (negb (Nat.eqb (length (bulkCreate_docs D ns expected)) 0)).
  - unfold client_mget, issue.
    destruct (es_mget _ _ _) as [[r|e] st']; simpl.
    + eapply (Hplan (Some r) st' _
                [CallMget (bulkCreate_docs D ns expected)]);
        [reflexivity| |reflexivity]. intros p [Hp|[]]. discriminate.
    + eexists [_]. split; [reflexivity|]. intros p [Hp|[]]. discriminate.
  - eapply (Hplan None (w_store w) (w_log w) []);
      [now rewrite app_nil_r| |reflexivity].
    intros p [].
Qed.

Lemma bulkUpdate_docs_none (namespace : option string) (time : string)
    (objects : list BulkUpdateObject) (c : nat) :
  Forall (fun o => isMultiNamespace (_registry D) (bu_type o) = false)
    objects ->
  bulkUpdate_docs D namespace
    (snd (map_accum (bulkUpdate_validate D time) c objects)) = [].
Proof.
  intros H. unfold bulkUpdate_docs. revert c.
  induction H as [|o l Ho H IH]; intros c; [reflexivity|]. simpl.
  destruct (bulkUpdate_validate D time c o) as [c1 e] eqn:E.
  specialize (IH c1).
  destruct (map_accum (bulkUpdate_validate D time) c1 l) as [c2 es].
  simpl in *. unfold bulkUpdate_validate in E. rewrite Ho in E.
  repeat match type of E with
         | context [if ?b then _ else _] => destruct b
         end; inversion E; subst; simpl; exact IH.
Qed.

(** When none of the objects has a multi-namespace type, [bulkUpdate]
    reads nothing before it writes: it sends at most one request, the
    batched write. *)
Theorem bulkUpdate_without_preflight (objects : list BulkUpdateObject)
    (options : BulkUpdateOptions) (w : World S) :
  Forall (fun o => isMultiNamespace (_registry D) (bu_type o) = false)
    objects ->
  w_log (snd (bulkUpdate D objects options w)) = w_log w
  \/ exists p,
       w_log (snd (bulkUpdate D objects options w))
       = (w_log w ++ [CallBulk p])%list.
Proof.
  intros H. unfold bulkUpdate. unfold_repo.
  destruct (normalizeNamespace (buo_namespace options)) as [ns|e]; simpl;
    [|now left].
  unfold bulkUpdate_expected.
  rewrite (bulkUpdate_docs_none ns (w_time w) objects 0 H). simpl.
  destruct (map_accum (bulkUpdate_step D ns None) (0, [])
              (snd (map_accum (bulkUpdate_validate D (w_time w)) 0 objects)))
    as [[k params] results].
  unfold bulkUpdate_write. unfold_repo.
  destruct params as [|op params]; simpl.
  - left. now destruct (map_outcome (bulkUpdate_slot D None) results).
  - right. unfold client_bulk, issue.
    destruct (es_bulk _ _ _) as [[r|e] st']; simpl;
      [destruct (map_outcome (bulkUpdate_slot D (Some r)) results)|];
      eexists; reflexivity.
Qed.

End BulkRequests.

(** ** Searching *)

Section Searching.

Context {S : Type}.
Variable D : Deps S.

(** The types a [find] call names, and those of them it may see. *)
Let named_types (options : FindOptions) : list string :=
  match fo_type options with
  | Some (TypeArray l) => l
  | Some (TypeString s) =>
      if truthy s then [s]
      else map fst (default [] (fo_typeToNamespacesMap options))
  | None => map fst (default [] (fo_typeToNamespacesMap options))
  end.

Let visible_types (options : FindOptions) : list string :=
  filter (fun t => Is_true (allowed D t)) (named_types options).

(** A [find] that names no allowed type answers the empty response
    without asking the store. *)
Theorem find_without_allowed_types (options : FindOptions) (w : World S) :
  find_preconditions options = Ok tt ->
  visible_types options = [] ->
  find D options w
  = (Ok (createEmptyFindResponse (imports D) (fo_page options)
           (fo_perPage options)), w).
Proof.
  intros Hpre Hnone. unfold find. unfold_repo. rewrite Hpre.
  cbv beta iota zeta. fold (named_types options).
  fold (visible_types options). now rewrite Hnone.
Qed.

(** Once the preconditions hold and an allowed type is named, [find]
    still refuses, with BadRequest and before any store request: search
    fields or fields that are not an array, a filter with a KQL syntax
    error, and aggregations that do not validate. *)
Theorem find_rejects_malformed_arguments (options : FindOptions)
    (w : World S) :
  find_preconditions options = Ok tt ->
  visible_types options <> [] ->
  let not_an_array (v : option JsValue) :=
    js_truthy_opt v && negb (is_array (default JUndefined v)) in
  (not_an_array (fo_searchFields options) = true
   \/ not_an_array (fo_fields options) = true
   \/ (js_truthy_opt (fo_filter options) = true
       /\ exists message,
            validateConvertFilterToKueryNode (imports D)
              (visible_types options)
              (default JUndefined (fo_filter options))
            = FilterKQLSyntaxError message)
   \/ ((js_truthy_opt (fo_filter options) = false
        \/ exists node,
             validateConvertFilterToKueryNode (imports D)
               (visible_types options)
               (default JUndefined (fo_filter options))
             = FilterNode node)
       /\ js_truthy_opt (fo_aggs options) = true
       /\ exists message,
            validateAndConvertAggregations (imports D)
              (visible_types options)
              (default JUndefined (fo_aggs options))
            = inl message)) ->
  exists message,
    find D options w = (Throw (BadRequestError message), w).
Proof.
  intros Hpre Hsome not_an_array Hbad. unfold find. unfold_repo.
  rewrite Hpre. cbv beta iota zeta. fold (named_types options).
  fold (visible_types options).
  assert (Hlen : Nat.eqb (length (visible_types options)) 0 = false).
  { destruct (visible_types options); [contradiction|reflexivity]. }
  rewrite Hlen. fold (not_an_array (fo_searchFields options)).
  fold (not_an_array (fo_fields options)).
  destruct (not_an_array (fo_searchFields options)); [eauto|].
  destruct (not_an_array (fo_fields options)); [eauto|].
  destruct Hbad as [H|[H|[(Hf & m & Hm)|(Hf & Ha & m & Hm)]]];
    try discriminate.
  - rewrite Hf, Hm. eauto.
  - destruct Hf as [Hf|(node & Hnode)].
    + rewrite Hf, Ha, Hm. eauto.
    + destruct (js_truthy_opt (fo_filter options));
        rewrite ?Hnode, Ha, Hm; eauto.
Qed.

(** When the arguments are in order, [find] sends one search, over the
    indices of the allowed types it names, or over no index when a
    point-in-time token is given.  A missing index gives an empty page.
    Otherwise the page holds one object per hit, in the order of the hits,
    with the score and sort values of the hit, the total of the answer and
    the page and page size of the call. *)
Theorem find_outcome (options : FindOptions)
    (kueryNode aggsObject : option JsValue) (r : SearchResponse) (st : S)
    (w : World S) :
  find_preconditions options = Ok tt ->
  visible_types options <> [] ->
  js_truthy_opt (fo_searchFields options)
  && negb (is_array (default JUndefined (fo_searchFields options))) = false ->
  js_truthy_opt (fo_fields options)
  && negb (is_array (default JUndefined (fo_fields options))) = false ->
  (if js_truthy_opt (fo_filter options) then
     exists node,
       validateConvertFilterToKueryNode (imports D) (visible_types options)
         (default JUndefined (fo_filter options)) = FilterNode node
       /\ kueryNode = Some node
   else kueryNode = None) ->
  (if js_truthy_opt (fo_aggs options) then
     exists aggs,
       validateAndConvertAggregations (imports D) (visible_types options)
         (default JUndefined (fo_aggs options)) = inr aggs
       /\ aggsObject = Some aggs
   else aggsObject = None) ->
  let esOptions :=
    find_esOptions D options (visible_types options) kueryNode aggsObject in
  es_search (client D) esOptions (w_store w) = (Ok r, st) ->
  let page := default FIND_DEFAULT_PAGE (fo_page options) in
  let perPage := default FIND_DEFAULT_PER_PAGE (fo_perPage options) in
  find D options w
  = (Ok (if Z.eqb (search_statusCode r) 404
         then mkFindResp None page perPage 0 [] None
         else
           mkFindResp (search_aggregations r) page perPage (search_total r)
             (map (fun hit =>
                     (_rawToSavedObject D (sh_doc hit), sh_score hit,
                      sh_sort hit)) (search_hits r))
             (search_pit_id r)),
     after w st [CallSearch esOptions])
  /\ sp_index esOptions
     = (if is_some (fo_pit options) then None
        else Some (getIndicesForTypes D (visible_types options))).
Proof.
  intros Hpre Hsome Hsf Hf Hfilter Haggs esOptions Hsearch page perPage.
  split; [|reflexivity].
  unfold find. unfold_repo. rewrite Hpre. cbv beta iota zeta.
  fold (named_types options). fold (visible_types options).
  assert (Hlen : Nat.eqb (length (visible_types options)) 0 = false).
  { destruct (visible_types options); [contradiction|reflexivity]. }
  rewrite Hlen, Hsf, Hf. subst esOptions.
  destruct (js_truthy_opt (fo_filter options));
    [destruct Hfilter as (node & -> & ->)|subst kueryNode];
    (destruct (js_truthy_opt (fo_aggs options));
     [destruct Haggs as (aggs & -> & ->)|subst aggsObject]);
    unfold client_search, issue; cbv beta iota zeta; rewrite Hsearch;
    fold page; fold perPage;
    now destruct (Z.eqb (search_statusCode r) 404).
Qed.

End Searching.

(** ** References, counters and namespaces *)

Section ReferencesAndCounters.

Context {S : Type}.
Variable D : Deps S.

(** [removeReferencesTo] sends one update-by-query over the indices of
    all registered types, whether or not the given type is allowed, and
    lets version conflicts proceed.  When the answer lists failures it
    throws Conflict, the store being as the request left it; otherwise it
    returns the number of updated documents. *)
Theorem removeReferencesTo_outcome (type id : string)
    (options : RemoveReferencesToOptions) (body : UpdateByQueryResponse)
    (st : S) (w : World S) :
  let p :=
    mkUBQ (getIndicesForTypes D (getAllTypes (_registry D)))
      (Some (default true (rro_refresh options)))
      (ScriptRemoveReferences type id) "proceed"
      (getSearchDsl (imports D)
         (mkDslArgs None EmptyString None None None
            (getAllTypes (_registry D)) None None None
            (if truthy_opt (rro_namespace options)
             then Some [default EmptyString (rro_namespace options)]
             else None)
            None (Some (JObj [("type", JStr type); ("id", JStr id)]))
            None None)) in
  es_updateByQuery (client D) p (w_store w) = (Ok body, st) ->
  exists o,
    removeReferencesTo D type id options w
    = (o, after w st [CallUpdateByQuery p])
    /\ match ubq_failures body with
       | Some (_ :: _) => throws_kind o Conflict
       | _ => o = Ok (ubq_updated body)
       end.
Proof.
  intros p Hq. unfold removeReferencesTo, client_updateByQuery. unfold_repo.
  fold p. rewrite Hq.
  destruct (ubq_failures body) as [[|f fs]|]; eexists;
    (split; [reflexivity|]); try reflexivity.
  eexists. split; reflexivity.
Qed.

Lemma js_field_app (l1 l2 : list (string * JsValue)) (key : string) :
  js_field (l1 ++ l2)%list key
  = if existsb (fun kv => String.eqb (fst kv) key) l1
    then js_field l1 key else js_field l2 key.
Proof.
  induction l1 as [|[k v] l1 IH]; simpl; [reflexivity|].
  destruct (String.eqb k key); simpl; [reflexivity|exact IH].
Qed.

(** For a type that is not multi-namespace [incrementCounter] sends one
    scripted update and nothing else, without a precondition.  In the
    document it upserts, a counter field has its delta even when the
    upsert attributes have a value under the same name; the other upsert
    attributes are kept.  When the migrator refuses that document, the
    call throws its error and sends nothing. *)
Theorem incrementCounter_upsert_document (type id : string)
    (fields : list CounterField) (options : IncrementCounterOptions)
    (namespace : option string) (w : World S) :
  isMultiNamespace (_registry D) type = false ->
  normalizeNamespace (ico_namespace options) = Ok namespace ->
  let normalized :=
    map (normalizeCounterField (default false (ico_initialize options)))
      fields in
  let attributes :=
    (rev normalized ++ default [] (ico_upsertAttributes options))%list in
  match migrated_raw D
          (mkDoc id type
             (spread_str
                (if isSingleNamespace (_registry D) type
                    && truthy_opt namespace
                 then namespace else None))
             None None (JObj attributes) (ico_migrationVersion options)
             (Some (w_time w)) None) with
  | Ok raw =>
      w_log (snd (incrementCounterInternal D type id fields options w))
      = (w_log w
         ++ [CallUpdate
               (mkUpdate (_id raw) (getIndexForType D type) no_if_match
                  (default DEFAULT_REFRESH_SETTING (ico_refresh options))
                  (UpdateScript
                     (ScriptIncrementCounters (map snd normalized)
                        (map fst normalized) (w_time w) type)
                     (Some (_source raw)))
                  true false)])%list
  | Throw e =>
      incrementCounterInternal D type id fields options w = (Throw e, w)
  end
  /\ (List.NoDup (map fst normalized) ->
      forall name delta,
        In (name, delta) normalized -> js_field attributes name = delta)
  /\ (forall key,
        ~ In key (map fst normalized) ->
        js_field attributes key
        = js_field (default [] (ico_upsertAttributes options)) key).
Proof.
  intros Hmulti Hns normalized attributes.
  split; [|split].
  - unfold incrementCounterInternal, migrated_raw. unfold_repo.
    rewrite Hns. simpl.
    rewrite Hmulti. unfold attributes, normalized.
    destruct (isSingleNamespace (_registry D) type && truthy_opt namespace);
      simpl;
      (destruct (migrateDocument _ _) as [migrated|em]; simpl;
       [|now destruct w]);
      unfold client_update, issue; simpl;
      destruct (es_update _ _ _) as [[body|e] st']; reflexivity.
  - intros Hnd name delta Hin. unfold attributes. rewrite js_field_app.
    assert (Hex : existsb (fun kv => String.eqb (fst kv) name)
                    (rev normalized) = true).
    { apply existsb_exists. exists (name, delta). split.
      - apply in_rev. now rewrite rev_involutive.
      - apply String.eqb_refl. }
    rewrite Hex. clear Hex.
    assert (Hgen : forall l : list (string * JsValue),
              List.NoDup (map fst l) ->
              forall k v, In (k, v) l -> js_field l k = v).
    { clear. induction l as [|[k0 v0] l IH]; intros Hnd k v Hin;
        [destruct Hin|]. simpl in *. inversion Hnd; subst.
      destruct Hin as [Heq|Hin].
      - inversion Heq; subst. now rewrite String.eqb_refl.
      - destruct (String.eqb_spec k0 k) as [->|_].
        + exfalso. apply H1. apply in_map_iff. exists (k, v). auto.
        + now apply IH. }
    apply Hgen.
    + rewrite map_rev. apply NoDup_rev. exact Hnd.
    + apply in_rev. now rewrite rev_involutive.
  - intros key Hkey. unfold attributes. rewrite js_field_app.
    assert (Hex : existsb (fun kv => String.eqb (fst kv) key)
                    (rev normalized) = false).
    { apply not_true_is_false. intros H. apply existsb_exists in H.
      destruct H as ([k v] & Hin & Heq). simpl in Heq.
      apply String.eqb_eq in Heq. subst k. apply Hkey.
      apply in_map_iff. exists (key, v). split; [reflexivity|].
      apply in_rev in Hin. exact Hin. }
    now rewrite Hex.
Qed.

End ReferencesAndCounters.

(** ** Namespaces and points in time *)

Section Maintenance.

Context {S : Type}.
Variable D : Deps S.

(** [deleteByNamespace] refuses an empty namespace and ["*"] with a plain
    error before any store request.  For any other namespace it sends one
    update-by-query that removes the namespace, over the types of the
    mappings that are not namespace-agnostic and their indices, lets
    version conflicts proceed, and hands back what the store answers. *)
Theorem deleteByNamespace_outcome (mappingTypes : list string)
    (namespace : string) (options : DeleteByNamespaceOptions) (w : World S) :
  ((namespace = EmptyString \/ namespace = "*") ->
   exists message,
     deleteByNamespace D mappingTypes namespace options w
     = (Throw (PlainError message), w))
  /\ (namespace <> EmptyString -> namespace <> "*" ->
      let typesToUpdate :=
        List.filter
          (fun type => negb (isNamespaceAgnostic (_registry D) type))
          mappingTypes in
      let p :=
        mkUBQ (getIndicesForTypes D typesToUpdate) (dbn_refresh options)
          (ScriptDeleteByNamespace namespace) "proceed"
          (getSearchDsl (imports D)
             (mkDslArgs None EmptyString None None None typesToUpdate None
                None None (Some [namespace]) None None None None)) in
      deleteByNamespace D mappingTypes namespace options w
      = (fst (es_updateByQuery (client D) p (w_store w)),
         after w (snd (es_updateByQuery (client D) p (w_store w)))
           [CallUpdateByQuery p])
      /\ forall type,
           In type typesToUpdate ->
           isNamespaceAgnostic (_registry D) type = false).
Proof.
  split.
  - intros H. unfold deleteByNamespace. unfold_repo.
    destruct H as [->| ->]; simpl; eauto.
  - intros Hne Hstar typesToUpdate p. split.
    + unfold deleteByNamespace, client_updateByQuery. unfold_repo.
      apply truthy_nonempty in Hne. rewrite Hne.
      apply String.eqb_neq in Hstar. rewrite Hstar. simpl.
      fold typesToUpdate. fold p.
      now destruct (es_updateByQuery (client D) p (w_store w)) as [[b|e] st].
    + intros type Hin. apply filter_In in Hin. destruct Hin as [_ Hin].
      now apply negb_true_iff in Hin.
Qed.

(** [openPointInTimeForType] looks at the allowed types among those it
    is given.  With none it throws NotFound without a request, whatever
    the client would answer.  Otherwise it opens the point in time over
    the indices of the allowed types alone, for five minutes unless told
    otherwise; a missing index is answered NotFound, and any other answer
    gives the id of the point in time. *)
Theorem openPointInTimeForType_outcome (P : PointInTimeClient S)
    (type : TypeArg) (options : OpenPointInTimeOptions) (w : World S) :
  let types :=
    match type with TypeArray l => l | TypeString t => [t] end in
  let allowedTypes := List.filter (allowed D) types in
  (allowedTypes = [] ->
   openPointInTimeForType D P type options w
   = (Throw (GenericNotFoundError None None), w))
  /\ (allowedTypes <> [] ->
      let p :=
        mkOpenPointInTime (getIndicesForTypes D allowedTypes)
          (default "5m" (opo_keepAlive options))
          (spread_str (opo_preference options)) in
      forall r st,
        es_openPointInTime P p (w_store w) = (Ok r, st) ->
        openPointInTimeForType D P type options w
        = (if Z.eqb (opit_statusCode r) 404
           then Throw (GenericNotFoundError None None)
           else Ok (opit_id r),
           mkWorld st (w_log w) (w_time w) (w_fresh w))).
Proof.
  intros types allowedTypes. split.
  - intros Hnone. unfold openPointInTimeForType. unfold_repo.
    fold types. fold allowedTypes. now rewrite Hnone.
  - intros Hne p r st Hopen.
    assert (Hlen : Nat.eqb (length allowedTypes) 0 = false).
    { destruct allowedTypes; [contradiction|reflexivity]. }
    unfold openPointInTimeForType. unfold_repo.
    fold types. fold allowedTypes. rewrite Hlen.
    unfold client_openPointInTime. fold p. rewrite Hopen.
    now destruct (Z.eqb (opit_statusCode r) 404).
Qed.

End Maintenance.

(** ** Reading never writes *)

Section ReadOnly.

Context {S : Type}.
Variable D : Deps S.

Ltac settle_reads :=
  first
    [ exists []; rewrite app_nil_r; split; [reflexivity|];
      split; [constructor | simpl; lia]
    | eexists [_]; split; [reflexivity|];
      split; [repeat constructor | simpl; lia] ].

(** [get], [bulkGet], [checkConflicts] and [find] send at most one
    request to the store, and it is never a write, whatever their
    arguments and whatever the store answers. *)
Theorem reads_never_write (w : World S) :
  let reads_only {A} (r : Outcome A * World S) :=
    exists calls,
      w_log (snd r) = (w_log w ++ calls)%list
      /\ Forall (fun c => is_write c = false) calls
      /\ length calls <= 1 in
  (forall type id options, reads_only (get D type id options w))
  /\ (forall objects options, reads_only (bulkGet D objects options w))
  /\ (forall objects options, reads_only (checkConflicts D objects options w))
  /\ (forall options, reads_only (find D options w)).
Proof.
  intros reads_only. unfold reads_only. repeat split.
  - intros type id options. unfold get. unfold_repo.
    destruct (negb (allowed D type)); [settle_reads|].
    destruct (normalizeNamespace (bo_namespace options)) as [ns|e]; simpl;
      [|settle_reads].
    unfold client_get, issue.
    destruct (es_get _ _ _) as [[r|e] st]; simpl; [|settle_reads].
    destruct (_ || _ || _); settle_reads.
  - intros objects options. unfold bulkGet. unfold_repo.
    destruct (normalizeNamespace (bo_namespace options)) as [ns|e]; simpl;
      [|settle_reads].
    destruct (Nat.eqb (length objects) 0); [settle_reads|].
    destruct (negb _); [|settle_reads].
    unfold client_mget, issue.
    destruct (es_mget _ _ _) as [[r|e] st]; simpl; settle_reads.
  - intros objects options. unfold checkConflicts. unfold_repo.
    destruct (Nat.eqb (length objects) 0); [settle_reads|].
    destruct (normalizeNamespace (bo_namespace options)) as [ns|e]; simpl;
      [|settle_reads].
    destruct (negb _); [|settle_reads].
    unfold client_mget, issue.
    destruct (es_mget _ _ _) as [[r|e] st]; simpl; settle_reads.
  - intros options. unfold find. unfold_repo.
    destruct (find_preconditions options); simpl; [|settle_reads].
    destruct (Nat.eqb _ 0); [settle_reads|].
    destruct (js_truthy_opt (fo_searchFields options) && _); [settle_reads|].
    destruct (js_truthy_opt (fo_fields options) && _); [settle_reads|].
    assert (Hsearch : forall kueryNode aggsObject,
      exists calls,
        w_log (snd
          ((let (o, w') :=
              client_search D
                (find_esOptions D options
                   (filter (fun t => Is_true (allowed D t))
                      match fo_type options with
                      | Some (TypeString s) =>
                          if truthy s then [s]
                          else map fst
                                 (default [] (fo_typeToNamespacesMap options))
                      | Some (TypeArray l) => l
                      | None =>
                          map fst (default [] (fo_typeToNamespacesMap options))
                      end)
                   kueryNode aggsObject) w in
            match o with
            | Ok r =>
                (if Z.eqb (search_statusCode r) 404
                 then
                   fun w0 : World S =>
                     (Ok (mkFindResp None
                            (default FIND_DEFAULT_PAGE (fo_page options))
                            (default FIND_DEFAULT_PER_PAGE (fo_perPage options))
                            0 [] None), w0)
                 else
                   fun w0 : World S =>
                     (Ok (mkFindResp (search_aggregations r)
                            (default FIND_DEFAULT_PAGE (fo_page options))
                            (default FIND_DEFAULT_PER_PAGE (fo_perPage options))
                            (search_total r)
                            (map (fun hit =>
                                    (_rawToSavedObject D (sh_doc hit),
                                     sh_score hit, sh_sort hit))
                               (search_hits r))
                            (search_pit_id r)), w0)) w'
            | Throw e => (Throw e, w')
            end)))
        = (w_log w ++ calls)%list
        /\ Forall (fun c => is_write c = false) calls
        /\ length calls <= 1).
    { intros kueryNode aggsObject. unfold client_search, issue.
      destruct (es_search _ _ _) as [[r|e] st]; simpl; [|settle_reads].
      destruct (Z.eqb (search_statusCode r) 404); settle_reads. }
    destruct (js_truthy_opt (fo_filter options));
      [destruct (validateConvertFilterToKueryNode _ _ _)|];
      try settle_reads;
      (destruct (js_truthy_opt (fo_aggs options));
       [destruct (validateAndConvertAggregations _ _ _)|];
       try settle_reads; apply Hsearch).
Qed.

End ReadOnly.

(** ** The further properties at the reference configuration *)

(** Two initial namespaces for the single-namespace type "dashboard". *)
Lemma validateInitialNamespaces_spec_witness :
  error_kind
    (BadRequestError
       (dq ++ "initialNamespaces" ++ dq
        ++ " can only specify a single space when used with space-isolated types"))
  = BadRequest.
Proof.
  apply (proj2 (validateInitialNamespaces_spec Kibana.deps "dashboard"
                  (Some ["a"; "b"]))).
  reflexivity.
Defined.

(** The tag "t1", shared between "a" and "b", read from "c". *)
Lemma get_outcome_witness :
  get Kibana.deps "tag" "t1" (mkBaseOptions (Some "c"))
    (Kibana.world Kibana.shared)
  = (Throw (GenericNotFoundError (Some "tag") (Some "t1")),
     after (Kibana.world Kibana.shared) Kibana.shared
       [CallGet (exact_get Kibana.deps (Some "c") "tag" "t1")]).
Proof.
  exact (get_outcome Kibana.deps "tag" "t1" (mkBaseOptions (Some "c"))
           (Some "c") (mkGetResp 200 true Kibana.tag_doc) Kibana.shared
           (Kibana.world Kibana.shared) eq_refl eq_refl eq_refl).
Defined.

(** The tag "t1", shared between "a" and "b", deleted from "a". *)
Lemma delete_shared_needs_force_witness :
  exists e,
    delete Kibana.deps "tag" "t1" (mkDeleteOptions None None (Some "a"))
      (Kibana.world Kibana.shared)
    = (Throw e,
       after (Kibana.world Kibana.shared) Kibana.shared
         [CallGet (exact_get Kibana.deps None "tag" "t1")])
    /\ error_kind e = BadRequest.
Proof.
  apply (delete_shared_needs_force Kibana.deps "tag" "t1"
           (mkDeleteOptions None None (Some "a")) (Some "a")
           (mkGetResp 200 true Kibana.tag_doc) Kibana.shared
           (Kibana.world Kibana.shared));
    try reflexivity.
  exists ["a"; "b"]. split; [reflexivity|]. left. simpl. lia.
Defined.

(** The dashboard "d1" deleted from the default namespace. *)
Lemma delete_outcome_witness :
  fst (delete Kibana.deps "dashboard" "d1" (mkDeleteOptions None None None)
         (Kibana.world Kibana.sales))
  = Ok tt.
Proof.
  destruct (delete_outcome Kibana.deps "dashboard" "d1"
              (mkDeleteOptions None None None) None
              (mkDeleteResp 200 (Some "deleted") None) []
              (Kibana.world Kibana.sales) eq_refl eq_refl eq_refl eq_refl)
    as (o & Hrun & Hdeleted & _).
  rewrite Hrun. exact (Hdeleted eq_refl).
Defined.

(** A dashboard created in "y" with the initial namespace "x" and a
    version, without [overwrite]. *)
Lemma create_without_overwrite_witness :
  exists p,
    w_log (snd (create Kibana.deps "dashboard" (JObj [("title", JStr "New")])
                  (mkCreateOptions None None None None None None (Some ["x"])
                     (Some "ssst") (Some "y"))
                  (Kibana.world Kibana.sales)))
    = [CallCreate p]
    /\ ip_id p = "x:dashboard:generated-" /\ ip_if p = no_if_match.
Proof.
  eexists. split; [|split].
  - apply (create_without_overwrite Kibana.deps "dashboard"
             (JObj [("title", JStr "New")])
             (mkCreateOptions None None None None None None (Some ["x"])
                (Some "ssst") (Some "y"))
             (Some "y") (Kibana.world Kibana.sales));
      reflexivity.
  - reflexivity.
  - reflexivity.
Defined.

(** The tag "t2", which is not stored, overwritten from "a". *)
Lemma create_overwrite_of_missing_witness :
  exists p,
    w_log (snd (create Kibana.deps "tag" (JObj [("name", JStr "later")])
                  (mkCreateOptions (Some "t2") None (Some true) None None None
                     None None (Some "a"))
                  (Kibana.world Kibana.shared)))
    = [CallGet (exact_get Kibana.deps None "tag" "t2"); CallIndex p]
    /\ src_namespaces (ip_body p) = Some ["a"].
Proof.
  destruct (create_overwrite_of_missing Kibana.deps "tag" "t2"
              (JObj [("name", JStr "later")])
              (mkCreateOptions (Some "t2") None (Some true) None None None
                 None None (Some "a"))
              (Some "a") (mkGetResp 404 false (MemStore.absent "tag:t2"))
              Kibana.shared (Kibana.world Kibana.shared)
              eq_refl eq_refl eq_refl eq_refl eq_refl eq_refl eq_refl eq_refl
              eq_refl eq_refl)
    as (p & Hlog & Hbody).
  exists p. split; [exact Hlog|]. now rewrite Hbody.
Defined.

(** An update of the dashboard "d9", which is not stored. *)
Lemma update_outcome_witness :
  fst (update Kibana.deps "dashboard" "d9" (JObj [("title", JStr "Costs")])
         (mkUpdateOptions None None None None None)
         (Kibana.world Kibana.sales))
  = Throw (GenericNotFoundError (Some "dashboard") (Some "d9")).
Proof.
  rewrite (proj1 (update_outcome Kibana.deps "dashboard" "d9"
                    (JObj [("title", JStr "Costs")])
                    (mkUpdateOptions None None None None None) None
                    (Kibana.world Kibana.sales) eq_refl eq_refl eq_refl)
             MemStore.missing Kibana.sales eq_refl).
  reflexivity.
Defined.

(** The stored dashboard "d1" and the missing "d2", read together. *)
Lemma bulkGet_reads_in_order_witness :
  fst (bulkGet Kibana.deps
         [mkBulkGetObject "dashboard" "d1" None;
          mkBulkGetObject "dashboard" "d2" None]
         (mkBaseOptions None) (Kibana.world Kibana.sales))
  = Ok [SlotObject
          (getSavedObjectFromSource Kibana.kibana_imports Kibana.registry
             "dashboard" "d1" Kibana.sales_doc);
        error_slot (Some "d2") "dashboard"
          (GenericNotFoundError (Some "dashboard") (Some "d2"))].
Proof.
  rewrite (bulkGet_reads_in_order Kibana.deps
             [mkBulkGetObject "dashboard" "d1" None;
              mkBulkGetObject "dashboard" "d2" None]
             (mkBaseOptions None) None
             (mkMgetResp 200
                [mkHit true Kibana.sales_doc;
                 mkHit false (MemStore.absent "dashboard:d2")])
             Kibana.sales (Kibana.world Kibana.sales)).
  - reflexivity.
  - discriminate.
  - repeat constructor.
  - reflexivity.
  - reflexivity.
Defined.

(** The same two dashboards, checked for conflicts. *)
Lemma checkConflicts_reports_stored_witness :
  fst (checkConflicts Kibana.deps
         [mkBulkGetObject "dashboard" "d1" None;
          mkBulkGetObject "dashboard" "d2" None]
         (mkBaseOptions None) (Kibana.world Kibana.sales))
  = Ok [mkBulkError (Some "d1") "dashboard"
          (mkPayload (ConflictError "dashboard" "d1" None) false)].
Proof.
  rewrite (checkConflicts_reports_stored Kibana.deps
             [mkBulkGetObject "dashboard" "d1" None;
              mkBulkGetObject "dashboard" "d2" None]
             (mkBaseOptions None) None
             (mkMgetResp 200
                [mkHit true Kibana.sales_doc;
                 mkHit false (MemStore.absent "dashboard:d2")])
             Kibana.sales (Kibana.world Kibana.sales)).
  - reflexivity.
  - discriminate.
  - repeat constructor.
  - reflexivity.
  - reflexivity.
Defined.

(** Two objects of the hidden type "secret", updated together. *)
Lemma bulk_of_disallowed_types_witness :
  bulkUpdate Kibana.deps
    [mkBulkUpdateObject "secret" "s1" (JObj []) None None None;
     mkBulkUpdateObject "secret" "s2" (JObj []) None None None]
    (mkBulkUpdateOptions None None) (Kibana.world Kibana.sales)
  = (Ok [error_slot (Some "s1") "secret"
           (GenericNotFoundError (Some "secret") (Some "s1"));
         error_slot (Some "s2") "secret"
           (GenericNotFoundError (Some "secret") (Some "s2"))],
     Kibana.world Kibana.sales).
Proof.
  apply (proj2 (proj2 (bulk_of_disallowed_types Kibana.deps
                         (Kibana.world Kibana.sales) None))
           [mkBulkUpdateObject "secret" "s1" (JObj []) None None None;
            mkBulkUpdateObject "secret" "s2" (JObj []) None None None]
           (mkBulkUpdateOptions None None));
    [reflexivity|repeat constructor].
Defined.

(** A dashboard that names a version, created in a batch without
    [overwrite]. *)
Lemma bulkCreate_without_overwrite_witness :
  exists calls,
    w_log (snd (bulkCreate Kibana.deps
                  [mkBulkCreateObject "dashboard" (Some "d1") (JObj []) None
                     None None None (Some "ssst")]
                  (mkCreateOptions None None None None None None None None
                     None)
                  (Kibana.world Kibana.sales)))
    = (w_log (Kibana.world Kibana.sales) ++ calls)%list
    /\ forall p, In (CallBulk p) calls ->
         Forall (fun op => exists h source,
                   op = BulkCreate h source /\ bh_if h = no_if_match)
           (bp_body p).
Proof.
  apply (bulkCreate_without_overwrite Kibana.deps). reflexivity.
Defined.

(** An update of the dashboard "d1" in a batch. *)
Lemma bulkUpdate_without_preflight_witness :
  w_log (snd (bulkUpdate Kibana.deps
                [mkBulkUpdateObject "dashboard" "d1"
                   (JObj [("title", JStr "Costs")]) None None None]
                (mkBulkUpdateOptions None None) (Kibana.world Kibana.sales)))
  = w_log (Kibana.world Kibana.sales)
  \/ exists p,
       w_log (snd (bulkUpdate Kibana.deps
                     [mkBulkUpdateObject "dashboard" "d1"
                        (JObj [("title", JStr "Costs")]) None None None]
                     (mkBulkUpdateOptions None None)
                     (Kibana.world Kibana.sales)))
       = (w_log (Kibana.world Kibana.sales) ++ [CallBulk p])%list.
Proof.
  apply (bulkUpdate_without_preflight Kibana.deps). repeat constructor.
Defined.

(** A search for the hidden type "secret". *)
Lemma find_without_allowed_types_witness :
  find Kibana.deps
    (mkFindOptions None None None None None None None None None None None
       None None None (Some (TypeString "secret")) None None None None)
    (Kibana.world Kibana.sales)
  = (Ok (mkFindResp None 1 20 0 [] None), Kibana.world Kibana.sales).
Proof.
  apply (find_without_allowed_types Kibana.deps); reflexivity.
Defined.

(** A search for dashboards whose search fields are a string. *)
Lemma find_rejects_malformed_arguments_witness :
  exists message,
    find Kibana.deps
      (mkFindOptions None None (Some (JStr "title")) None None None None None
         None None None None None None (Some (TypeString "dashboard")) None
         None None None)
      (Kibana.world Kibana.sales)
    = (Throw (BadRequestError message), Kibana.world Kibana.sales).
Proof.
  apply (find_rejects_malformed_arguments Kibana.deps);
    [reflexivity | discriminate | left; reflexivity].
Defined.

(** A search for dashboards, third page of ten. *)
Lemma find_outcome_witness :
  fst (find Kibana.deps
         (mkFindOptions None None None None None None (Some 3%Z) (Some 10%Z)
            None None None None None None (Some (TypeString "dashboard"))
            None None None None)
         (Kibana.world Kibana.sales))
  = Ok (mkFindResp None 3 10 0 [] None).
Proof.
  rewrite (proj1 (find_outcome Kibana.deps
             (mkFindOptions None None None None None None (Some 3%Z)
                (Some 10%Z) None None None None None None
                (Some (TypeString "dashboard")) None None None None)
             None None (mkSearchResp 200 0 [] None None) Kibana.sales
             (Kibana.world Kibana.sales) eq_refl
             ltac:(discriminate) eq_refl eq_refl eq_refl eq_refl eq_refl)).
  reflexivity.
Defined.

(** The references to the dashboard "d1", removed from an empty store. *)
Lemma removeReferencesTo_outcome_witness :
  fst (removeReferencesTo Kibana.deps "dashboard" "d1"
         (mkRemoveReferencesToOptions None None) (Kibana.world []))
  = Ok (Some 0%Z).
Proof.
  destruct (removeReferencesTo_outcome Kibana.deps "dashboard" "d1"
              (mkRemoveReferencesToOptions None None)
              (mkUBQResp None (Some 0%Z)) [] (Kibana.world []) eq_refl)
    as (o & Hrun & Ho).
  rewrite Hrun. exact Ho.
Defined.

(** A counter "views" beside upsert attributes that also have "views". *)
Lemma incrementCounter_upsert_document_witness :
  js_field
    (rev (map (normalizeCounterField false) [FieldName "views"])
     ++ [("views", JNum 7); ("title", JStr "Home")])%list "views"
  = JNum 1
  /\ js_field
       (rev (map (normalizeCounterField false) [FieldName "views"])
        ++ [("views", JNum 7); ("title", JStr "Home")])%list "title"
     = JStr "Home".
Proof.
  destruct (incrementCounter_upsert_document Kibana.deps "config" "c1"
              [FieldName "views"]
              (mkIncrementCounterOptions None None None
                 (Some [("views", JNum 7); ("title", JStr "Home")]) None)
              None (Kibana.world []) eq_refl eq_refl)
    as (_ & Hcounter & Hother).
  split.
  - apply Hcounter; [repeat constructor; intros []|now left].
  - apply Hother. intros [H|[]]. discriminate.
Defined.

(** The namespace "*", and the namespace "space1" over the mappings of
    the dashboards and the configuration. *)
Lemma deleteByNamespace_outcome_witness :
  (exists message,
     deleteByNamespace Kibana.deps ["dashboard"; "config"] "*"
       (mkDeleteByNamespaceOptions None) (Kibana.world Kibana.sales)
     = (Throw (PlainError message), Kibana.world Kibana.sales))
  /\ exists p,
       w_log (snd (deleteByNamespace Kibana.deps ["dashboard"; "config"]
                     "space1" (mkDeleteByNamespaceOptions None)
                     (Kibana.world Kibana.sales)))
       = [CallUpdateByQuery p]
       /\ ubq_script p = ScriptDeleteByNamespace "space1"
       /\ ubq_index p = [".kibana"].
Proof.
  split.
  - apply (proj1 (deleteByNamespace_outcome Kibana.deps
                    ["dashboard"; "config"] "*"
                    (mkDeleteByNamespaceOptions None)
                    (Kibana.world Kibana.sales))).
    now right.
  - destruct (proj2 (deleteByNamespace_outcome Kibana.deps
                       ["dashboard"; "config"] "space1"
                       (mkDeleteByNamespaceOptions None)
                       (Kibana.world Kibana.sales))
                ltac:(discriminate) ltac:(discriminate)) as [Hrun _].
    rewrite Hrun. eexists. split; [reflexivity|]. split; reflexivity.
Defined.

(** A point in time for the hidden type "secret". *)
Lemma openPointInTimeForType_outcome_witness :
  openPointInTimeForType Kibana.deps
    (mkPointInTimeClient MemStore.Store
       (fun _ st => (Ok (mkOpenPointInTimeResp 200 "pit-1"), st))
       (fun _ st => (Ok JNull, st)))
    (TypeString "secret") (mkOpenPointInTimeOptions None None)
    (Kibana.world Kibana.sales)
  = (Throw (GenericNotFoundError None None), Kibana.world Kibana.sales).
Proof.
  apply (proj1 (openPointInTimeForType_outcome Kibana.deps
                  (mkPointInTimeClient MemStore.Store
                     (fun _ st => (Ok (mkOpenPointInTimeResp 200 "pit-1"), st))
                     (fun _ st => (Ok JNull, st)))
                  (TypeString "secret") (mkOpenPointInTimeOptions None None)
                  (Kibana.world Kibana.sales))).
  reflexivity.
Defined.
